(** * ralph-rlm: the supervisor plugin, embedded and verified

    A shallow embedding of [.opencode/plugins/ralph-rlm.ts]: the bounded
    configuration resolver, the session registry, the protocol gate, the
    slice reader, the sub-agent fan-out, the question/answer store, the
    reviewer gating and the outer supervisor loop.

    Conventions of the embedding.
    - A JavaScript number that the code only uses as an integer is a [Z];
      a raw configuration number is a [JsNumber] (it may be NaN, infinite
      or fractional).
    - [Map<string, _>] and plain objects used as dictionaries are [gmap]s.
    - The plugin's closure state ([supervisor], [sessionMap]), the files it
      reads and writes, the question store and the calls it makes to the
      session host are the fields of one [World]; every operation is a
      function from [World] to [World], with what the environment answers
      (clock, host-issued ids, the verification process) passed in as [Env].
    - A thrown [Error] is [Err msg]; a returned value is [Ok v].
    - One operation (a hook event or a tool call) runs to its end before the
      next one starts, under one resolved configuration and one reading of
      the clock.  Writes to the work tree and calls to the session host
      succeed; reading a file that is not there fails.
    - A notice to the supervisor and a write of the reviewer state are
      calls among the others ([ENotify], [EPersistReviewerState]); the
      [files] of a [World] do not show what they write to the two logs and
      to [reviewer_state.json].  The delivery of a notice, files included,
      is modelled on its own in section 18.
    - Strings are sequences of bytes; dictionary keys are the keys the
      plugin itself stores. *)

From Stdlib Require Import ZArith QArith Lia Bool Ascii String List.
From stdpp Require Import base option list gmap strings pretty.

Open Scope string_scope.
Open Scope list_scope.
Open Scope Z_scope.

(** ** 1. JavaScript values the code depends on *)

(** A value of JavaScript type [number]. *)
Inductive JsNumber : Type :=
| JsNaN
| JsPosInf
| JsNegInf
| JsFinite (q : Q).

(** [Number.isFinite]. *)
Definition Number_isFinite (v : JsNumber) : bool :=
  match v with
  | JsFinite _ => true
  | _ => false
  end.

(** [Math.trunc] on a finite number: rounding towards zero. *)
Definition Math_trunc (q : Q) : Z := Z.quot (Qnum q) (Z.pos (Qden q)).

(** Truthiness of a string (the empty string is falsy) and of a number
    ([0] is falsy). *)
Definition truthy_str (s : string) : bool :=
  match s with
  | EmptyString => false
  | String _ _ => true
  end.

Definition truthy_Z (z : Z) : bool := negb (z =? 0).

Definition truthy_ostr (o : option string) : bool :=
  match o with
  | Some s => truthy_str s
  | None => false
  end.

Definition truthy_oZ (o : option Z) : bool :=
  match o with
  | Some z => truthy_Z z
  | None => false
  end.

(** [a ?? b]. *)
Definition nullish {A : Type} (a : option A) (b : A) : A :=
  match a with
  | Some x => x
  | None => b
  end.

Definition nullish_opt {A : Type} (a b : option A) : option A :=
  match a with
  | Some x => Some x
  | None => b
  end.

(** White space removed by [String.prototype.trim], on the ASCII range. *)
Definition is_js_space (c : ascii) : bool :=
  let n := nat_of_ascii c in
  ((9 <=? n)%nat && (n <=? 13)%nat) || (n =? 32)%nat.

Fixpoint trim_start (s : string) : string :=
  match s with
  | EmptyString => EmptyString
  | String c rest => if is_js_space c then trim_start rest else s
  end.

Fixpoint string_rev (s : string) : string :=
  match s with
  | EmptyString => EmptyString
  | String c rest => string_rev rest +:+ String c EmptyString
  end.

Definition trim (s : string) : string :=
  string_rev (trim_start (string_rev (trim_start s))).

(** [String(n)] for an integer. *)
Definition string_of_Z (z : Z) : string :=
  pretty z.

(** ** 2. Schemas and configuration (source section 1) *)

Inductive StatusVerbosity : Type := minimal | normal | verbose.

Record VerifyConfig : Type := mkVerifyConfig {
  command : list string;
  cwd : option string;
}.

(** [RalphConfig]: the decoded settings document, every field optional. *)
Record RalphConfig : Type := mkRalphConfig {
  raw_enabled : option bool;
  raw_autoStartOnMainIdle : option bool;
  raw_statusVerbosity : option StatusVerbosity;
  raw_maxAttempts : option JsNumber;
  raw_heartbeatMinutes : option JsNumber;
  raw_verifyTimeoutMinutes : option JsNumber;
  raw_verify : option VerifyConfig;
  raw_gateDestructiveToolsUntilContextLoaded : option bool;
  raw_maxRlmSliceLines : option JsNumber;
  raw_requireGrepBeforeLargeSlice : option bool;
  raw_grepRequiredThresholdLines : option JsNumber;
  raw_subAgentEnabled : option bool;
  raw_maxSubAgents : option JsNumber;
  raw_maxConversationLines : option JsNumber;
  raw_conversationArchiveCount : option JsNumber;
  raw_reviewerEnabled : option bool;
  raw_reviewerRequireExplicitReady : option bool;
  raw_reviewerMaxRunsPerAttempt : option JsNumber;
  raw_reviewerOutputDir : option string;
  raw_reviewerPostToConversation : option bool;
  raw_agentMdPath : option string;
}.

(** The empty document [{}]. *)
Definition empty_RalphConfig : RalphConfig :=
  mkRalphConfig None None None None None None None None None None None
                None None None None None None None None None None.

Record ResolvedConfig : Type := mkResolvedConfig {
  enabled : bool;
  autoStartOnMainIdle : bool;
  statusVerbosity : StatusVerbosity;
  maxAttempts : Z;
  heartbeatMinutes : Z;
  verifyTimeoutMinutes : Z;
  verify : option VerifyConfig;
  gateDestructiveToolsUntilContextLoaded : bool;
  maxRlmSliceLines : Z;
  requireGrepBeforeLargeSlice : bool;
  grepRequiredThresholdLines : Z;
  subAgentEnabled : bool;
  maxSubAgents : Z;
  maxConversationLines : Z;
  conversationArchiveCount : Z;
  reviewerEnabled : bool;
  reviewerRequireExplicitReady : bool;
  reviewerMaxRunsPerAttempt : Z;
  reviewerOutputDir : string;
  reviewerPostToConversation : bool;
  agentMdPath : string;
}.

(** [toBoundedInt(value, fallback, min, max)].  A finite double is taken as
    the rational it denotes; [fallback], [min] and [max] are integer literals
    at every call site. *)
Definition toBoundedInt (value : option JsNumber) (fallback min max : Z) : Z :=
  let candidate : JsNumber :=
    match value with
    | Some v => if Number_isFinite v then v else JsFinite (inject_Z fallback)
    | None => JsFinite (inject_Z fallback)
    end in
  match candidate with
  | JsFinite q =>
      let n := Math_trunc q in
      Z.min max (Z.max min n)
  | _ => fallback
  end.

Definition sanitizeVerify (v : option VerifyConfig) : option VerifyConfig :=
  match v with
  | None => None
  | Some vc =>
      let cmd := filter (fun part => (0 <? String.length part)%nat = true)
                        (map trim (command vc)) in
      match cmd with
      | [] => None
      | _ :: _ =>
          match cwd vc with
          | Some d => if truthy_str (trim d)
                      then Some (mkVerifyConfig cmd (Some (trim d)))
                      else Some (mkVerifyConfig cmd None)
          | None => Some (mkVerifyConfig cmd None)
          end
      end
  end.

Definition CONFIG_DEFAULTS : ResolvedConfig := {|
  enabled := true;
  autoStartOnMainIdle := false;
  statusVerbosity := normal;
  maxAttempts := 20;
  heartbeatMinutes := 15;
  verifyTimeoutMinutes := 0;
  verify := None;
  gateDestructiveToolsUntilContextLoaded := true;
  maxRlmSliceLines := 200;
  requireGrepBeforeLargeSlice := true;
  grepRequiredThresholdLines := 120;
  subAgentEnabled := true;
  maxSubAgents := 5;
  maxConversationLines := 1200;
  conversationArchiveCount := 3;
  reviewerEnabled := false;
  reviewerRequireExplicitReady := true;
  reviewerMaxRunsPerAttempt := 1;
  reviewerOutputDir := ".opencode/reviews";
  reviewerPostToConversation := true;
  agentMdPath := "AGENT.md";
|}.

Definition resolveConfig (raw : RalphConfig) : ResolvedConfig :=
  let verify' := sanitizeVerify (raw_verify raw) in
  let maxRlmSliceLines' :=
    toBoundedInt (raw_maxRlmSliceLines raw) (maxRlmSliceLines CONFIG_DEFAULTS) 10 2000 in
  let grepRequiredThresholdLines' :=
    toBoundedInt (raw_grepRequiredThresholdLines raw)
                 (grepRequiredThresholdLines CONFIG_DEFAULTS) 1 maxRlmSliceLines' in
  {|
    enabled := nullish (raw_enabled raw) (enabled CONFIG_DEFAULTS);
    autoStartOnMainIdle :=
      nullish (raw_autoStartOnMainIdle raw) (autoStartOnMainIdle CONFIG_DEFAULTS);
    statusVerbosity := nullish (raw_statusVerbosity raw) (statusVerbosity CONFIG_DEFAULTS);
    maxAttempts := toBoundedInt (raw_maxAttempts raw) (maxAttempts CONFIG_DEFAULTS) 1 500;
    heartbeatMinutes :=
      toBoundedInt (raw_heartbeatMinutes raw) (heartbeatMinutes CONFIG_DEFAULTS) 1 240;
    verifyTimeoutMinutes :=
      toBoundedInt (raw_verifyTimeoutMinutes raw) (verifyTimeoutMinutes CONFIG_DEFAULTS) 0 240;
    verify := verify';
    gateDestructiveToolsUntilContextLoaded :=
      nullish (raw_gateDestructiveToolsUntilContextLoaded raw)
              (gateDestructiveToolsUntilContextLoaded CONFIG_DEFAULTS);
    maxRlmSliceLines := maxRlmSliceLines';
    requireGrepBeforeLargeSlice :=
      nullish (raw_requireGrepBeforeLargeSlice raw)
              (requireGrepBeforeLargeSlice CONFIG_DEFAULTS);
    grepRequiredThresholdLines := grepRequiredThresholdLines';
    subAgentEnabled := nullish (raw_subAgentEnabled raw) (subAgentEnabled CONFIG_DEFAULTS);
    maxSubAgents := toBoundedInt (raw_maxSubAgents raw) (maxSubAgents CONFIG_DEFAULTS) 1 50;
    maxConversationLines :=
      toBoundedInt (raw_maxConversationLines raw)
                   (maxConversationLines CONFIG_DEFAULTS) 200 20000;
    conversationArchiveCount :=
      toBoundedInt (raw_conversationArchiveCount raw)
                   (conversationArchiveCount CONFIG_DEFAULTS) 1 20;
    reviewerEnabled := nullish (raw_reviewerEnabled raw) (reviewerEnabled CONFIG_DEFAULTS);
    reviewerRequireExplicitReady :=
      nullish (raw_reviewerRequireExplicitReady raw)
              (reviewerRequireExplicitReady CONFIG_DEFAULTS);
    reviewerMaxRunsPerAttempt :=
      toBoundedInt (raw_reviewerMaxRunsPerAttempt raw)
                   (reviewerMaxRunsPerAttempt CONFIG_DEFAULTS) 1 20;
    reviewerOutputDir :=
      match raw_reviewerOutputDir raw with
      | Some d => if truthy_str (trim d) then trim d else reviewerOutputDir CONFIG_DEFAULTS
      | None => reviewerOutputDir CONFIG_DEFAULTS
      end;
    reviewerPostToConversation :=
      nullish (raw_reviewerPostToConversation raw)
              (reviewerPostToConversation CONFIG_DEFAULTS);
    agentMdPath := nullish (raw_agentMdPath raw) (agentMdPath CONFIG_DEFAULTS);
  |}.

(** What [loadConfig] finds at [.opencode/ralph.json]: no file; a file that is
    unreadable, not JSON, or rejected by the schema (a non-numeric value where
    a number is expected, say), which the loader replaces by [{}]; or a
    document the schema accepts. *)
Inductive ConfigSource : Type :=
| NoConfigFile
| Undecodable
| Decoded (raw : RalphConfig).

Definition loadConfig (src : ConfigSource) : ResolvedConfig :=
  match src with
  | NoConfigFile => CONFIG_DEFAULTS
  | Undecodable => resolveConfig empty_RalphConfig
  | Decoded raw => resolveConfig raw
  end.

(** ** 3. Text helpers (source section 6) *)

Definition LF : ascii := "010"%char.
Definition CR : ascii := "013"%char.
Definition nl : string := String LF EmptyString.
Definition dquote : string := String "034"%char EmptyString.

(** [text.split(/\r?\n/)]: a line ends at ["\n"] or at ["\r\n"]; the empty
    text has one (empty) line. *)
Fixpoint split_lines (s : string) : list string :=
  match s with
  | EmptyString => [EmptyString]
  | String c rest =>
      if Ascii.eqb c LF then EmptyString :: split_lines rest
      else
        match rest with
        | String c' rest' =>
            if Ascii.eqb c CR && Ascii.eqb c' LF
            then EmptyString :: split_lines rest'
            else match split_lines rest with
                 | l :: ls => String c l :: ls
                 | [] => [String c EmptyString]
                 end
        | EmptyString => [String c EmptyString]
        end
  end.

(** [lines.join("\n")]. *)
Definition join_lines (ls : list string) : string := String.concat nl ls.

(** [Array.prototype.slice(a, b)], negative indices counting from the end. *)
Definition js_slice {A : Type} (l : list A) (a b : Z) : list A :=
  let len := Z.of_nat (length l) in
  let k := if a <? 0 then Z.max (len + a) 0 else Z.min a len in
  let fin := if b <? 0 then Z.max (len + b) 0 else Z.min b len in
  take (Z.to_nat (fin - k)) (drop (Z.to_nat k) l).

Definition clampLines (text : string) (maxLines : Z) : string :=
  let lines := split_lines text in
  if Z.of_nat (length lines) <=? maxLines then text
  else join_lines (js_slice lines 0 maxLines)
       +:+ nl +:+ nl +:+ "…(truncated to " +:+ string_of_Z maxLines +:+ " lines)…" +:+ nl.

(** [\w] of a JavaScript regular expression. *)
Definition is_word_char (c : ascii) : bool :=
  let n := nat_of_ascii c in
  ((48 <=? n)%nat && (n <=? 57)%nat) || ((65 <=? n)%nat && (n <=? 90)%nat)
  || ((97 <=? n)%nat && (n <=? 122)%nat) || (n =? 95)%nat.

Fixpoint take_word (s : string) : string * string :=
  match s with
  | String c rest =>
      if is_word_char c
      then let '(w, r) := take_word rest in (String c w, r)
      else (EmptyString, s)
  | EmptyString => (EmptyString, EmptyString)
  end.

(** A match of [/\{\{(\w+)\}\}/] at the head of [s]: the key and the length
    of the whole token. *)
Definition match_token (s : string) : option (string * nat) :=
  match s with
  | String "{" (String "{" body) =>
      let '(key, r) := take_word body in
      match key, r with
      | String _ _, String "}" (String "}" _) => Some (key, (String.length key + 4)%nat)
      | _, _ => None
      end
  | _ => None
  end.

Fixpoint lookup_var (vars : list (string * string)) (key : string) : option string :=
  match vars with
  | [] => None
  | (k, v) :: rest => if String.eqb k key then Some v else lookup_var rest key
  end.

(** The property names of [Object.prototype].  [vars] is an object literal
    of the call site, so [vars[key]] finds these members too when [vars] has
    no property of its own under [key]. *)
Definition Object_prototype_names : list string :=
  ["constructor"; "__defineGetter__"; "__defineSetter__"; "hasOwnProperty";
   "__lookupGetter__"; "__lookupSetter__"; "isPrototypeOf"; "propertyIsEnumerable";
   "toString"; "valueOf"; "__proto__"; "toLocaleString"].

(** [String(f)] for the built-in function named [name].  The white space
    between the braces is the host's choice; this is V8's spelling. *)
Definition native_function (name : string) : string :=
  "function " +:+ name +:+ "() { [native code] }".

(** What [String.prototype.replace] makes of an inherited member returned by
    the callback: [__proto__] is the prototype object, [constructor] is the
    function [Object], every other member is the function of its name. *)
Definition inherited_member (key : string) : option string :=
  if String.eqb key "__proto__" then Some "[object Object]"
  else if String.eqb key "constructor" then Some (native_function "Object")
  else if existsb (String.eqb key) Object_prototype_names
       then Some (native_function key)
       else None.

(** [vars[key]]: the property of [vars] itself, or else the inherited
    member. *)
Definition lookup_member (vars : list (string * string)) (key : string) : option string :=
  match lookup_var vars key with
  | Some v => Some v
  | None => inherited_member key
  end.

Fixpoint interpolate_go (vars : list (string * string)) (skip : nat) (s : string) : string :=
  match s with
  | EmptyString => EmptyString
  | String c rest =>
      match skip with
      | S k => interpolate_go vars k rest
      | O =>
          match match_token s with
          | Some (key, len) =>
              nullish (lookup_member vars key) ("{{" +:+ key +:+ "}}")
              +:+ interpolate_go vars (len - 1) rest
          | None => String c (interpolate_go vars O rest)
          end
      end
  end.

(** [interpolate(template, vars)]: every [{{token}}] replaced by
    [vars[key]], tokens for which that is undefined left as they are. *)
Definition interpolate (template : string) (vars : list (string * string)) : string :=
  interpolate_go vars O template.

(** The keys of the tokens of a template, in the order
    [/\{\{(\w+)\}\}/g] finds them. *)
Fixpoint token_keys_go (skip : nat) (s : string) : list string :=
  match s with
  | EmptyString => []
  | String c rest =>
      match skip with
      | S k => token_keys_go k rest
      | O =>
          match match_token s with
          | Some (key, len) => key :: token_keys_go (len - 1) rest
          | None => token_keys_go O rest
          end
      end
  end.

Definition token_keys (template : string) : list string := token_keys_go O template.

(** [NodePath.join(a, b)], without normalisation of [.] and [..]. *)
Definition path_join (a b : string) : string := a +:+ "/" +:+ b.

(** ** 4. Prompt templates and protocol files (source sections 1.5 and 7) *)

Record PromptTemplates : Type := mkPromptTemplates {
  continuePrompt : string;
  doneFileContent : string;
  subagentPrompt : string;
  subagentDoneSentinel : string;
  subagentDoneHeading : string;
  bootstrapCurrentState : string;
  contextGateError : string;
  workerPrompt : string;
  ralphSessionPrompt : string;
}.

Module FILES.
Definition PLAN : string := "PLAN.md".
Definition NEXT_RALPH : string := "AGENT_CONTEXT_FOR_NEXT_RALPH.md".
Definition RLM_CTX : string := "CONTEXT_FOR_RLM.md".
Definition PREV : string := "PREVIOUS_STATE.md".
Definition CURR : string := "CURRENT_STATE.md".
Definition NOTES : string := "NOTES_AND_LEARNINGS.md".
Definition RLM_INSTR : string := "RLM_INSTRUCTIONS.md".
Definition TODOS : string := "TODOS.md".
Definition SUPERVISOR_LOG : string := "SUPERVISOR_LOG.md".
Definition CONVERSATION : string := "CONVERSATION.md".
End FILES.

(** What the plugin closes over: the work tree and the loaded templates. *)
Record Plugin : Type := mkPlugin {
  worktree : string;
  templates : PromptTemplates;
}.

(** ** 5. Session state (source section 2) *)

Inductive SessionRole : Type := main | ralph | worker | subagent.

Inductive SubAgentStatus : Type := sa_running | sa_done | sa_failed.

Inductive ReportedStatus : Type := rs_running | rs_blocked | rs_done | rs_error.

Record SubAgentRecord : Type := mkSubAgentRecord {
  sa_sessionId : string;
  sa_name : string;
  sa_goal : string;
  sa_spawnedAt : Z;
  sa_status : SubAgentStatus;
  sa_result : option string;
}.

Record SessionState : Type := mkSessionState {
  role : SessionRole;
  attempt : Z;
  loadedContext : bool;
  workerSpawned : bool;
  lastGrepAt : option Z;
  lastGrepQuery : option string;
  reportedStatus : option ReportedStatus;
  reportedStatusNote : option string;
  lastProgressAt : option Z;
  subAgents : list SubAgentRecord;
}.

Record SupervisorState : Type := mkSupervisorState {
  sessionId : option string;
  sup_attempt : Z;
  currentRalphSessionId : option string;
  currentWorkerSessionId : option string;
  sup_done : bool;
  paused : bool;
  lastMainIdleAt : option Z;
  reviewRequested : gmap Z string;
  reviewerRuns : gmap Z Z;
  activeReviewerName : option string;
  activeReviewerAttempt : option Z;
  activeReviewerSessionId : option string;
  activeReviewerOutputPath : option string;
}.

Definition freshSession (r : SessionRole) (n : Z) : SessionState := {|
  role := r;
  attempt := n;
  loadedContext := false;
  workerSpawned := false;
  lastGrepAt := None;
  lastGrepQuery := None;
  reportedStatus := None;
  reportedStatusNote := None;
  lastProgressAt := None;
  subAgents := [];
|}.

Definition role_str (r : SessionRole) : string :=
  match r with
  | main => "main"
  | ralph => "ralph"
  | worker => "worker"
  | subagent => "subagent"
  end.

Definition role_eqb (a b : SessionRole) : bool :=
  match a, b with
  | main, main | ralph, ralph | worker, worker | subagent, subagent => true
  | _, _ => false
  end.

Definition status_is_running (s : SubAgentStatus) : bool :=
  match s with
  | sa_running => true
  | _ => false
  end.

(** Field updates of [SessionState]. *)
Definition set_loadedContext (b : bool) (s : SessionState) : SessionState :=
  mkSessionState (role s) (attempt s) b (workerSpawned s) (lastGrepAt s) (lastGrepQuery s)
                 (reportedStatus s) (reportedStatusNote s) (lastProgressAt s) (subAgents s).

Definition set_workerSpawned (b : bool) (s : SessionState) : SessionState :=
  mkSessionState (role s) (attempt s) (loadedContext s) b (lastGrepAt s) (lastGrepQuery s)
                 (reportedStatus s) (reportedStatusNote s) (lastProgressAt s) (subAgents s).

Definition set_lastGrep (t : Z) (q : string) (s : SessionState) : SessionState :=
  mkSessionState (role s) (attempt s) (loadedContext s) (workerSpawned s) (Some t) (Some q)
                 (reportedStatus s) (reportedStatusNote s) (lastProgressAt s) (subAgents s).

Definition set_lastProgressAt (t : Z) (s : SessionState) : SessionState :=
  mkSessionState (role s) (attempt s) (loadedContext s) (workerSpawned s) (lastGrepAt s)
                 (lastGrepQuery s) (reportedStatus s) (reportedStatusNote s) (Some t)
                 (subAgents s).

Definition push_subAgent (r : SubAgentRecord) (s : SessionState) : SessionState :=
  mkSessionState (role s) (attempt s) (loadedContext s) (workerSpawned s) (lastGrepAt s)
                 (lastGrepQuery s) (reportedStatus s) (reportedStatusNote s) (lastProgressAt s)
                 (subAgents s ++ [r]).

(** Field updates of [SupervisorState]. *)
Definition set_sessionId (v : option string) (s : SupervisorState) : SupervisorState :=
  mkSupervisorState v (sup_attempt s) (currentRalphSessionId s) (currentWorkerSessionId s)
    (sup_done s) (paused s) (lastMainIdleAt s) (reviewRequested s) (reviewerRuns s)
    (activeReviewerName s) (activeReviewerAttempt s) (activeReviewerSessionId s)
    (activeReviewerOutputPath s).

Definition set_attempt (v : Z) (s : SupervisorState) : SupervisorState :=
  mkSupervisorState (sessionId s) v (currentRalphSessionId s) (currentWorkerSessionId s)
    (sup_done s) (paused s) (lastMainIdleAt s) (reviewRequested s) (reviewerRuns s)
    (activeReviewerName s) (activeReviewerAttempt s) (activeReviewerSessionId s)
    (activeReviewerOutputPath s).

Definition set_currentRalphSessionId (v : option string) (s : SupervisorState)
  : SupervisorState :=
  mkSupervisorState (sessionId s) (sup_attempt s) v (currentWorkerSessionId s)
    (sup_done s) (paused s) (lastMainIdleAt s) (reviewRequested s) (reviewerRuns s)
    (activeReviewerName s) (activeReviewerAttempt s) (activeReviewerSessionId s)
    (activeReviewerOutputPath s).

Definition set_currentWorkerSessionId (v : option string) (s : SupervisorState)
  : SupervisorState :=
  mkSupervisorState (sessionId s) (sup_attempt s) (currentRalphSessionId s) v
    (sup_done s) (paused s) (lastMainIdleAt s) (reviewRequested s) (reviewerRuns s)
    (activeReviewerName s) (activeReviewerAttempt s) (activeReviewerSessionId s)
    (activeReviewerOutputPath s).

Definition set_done (v : bool) (s : SupervisorState) : SupervisorState :=
  mkSupervisorState (sessionId s) (sup_attempt s) (currentRalphSessionId s)
    (currentWorkerSessionId s) v (paused s) (lastMainIdleAt s) (reviewRequested s)
    (reviewerRuns s) (activeReviewerName s) (activeReviewerAttempt s)
    (activeReviewerSessionId s) (activeReviewerOutputPath s).

Definition set_lastMainIdleAt (v : option Z) (s : SupervisorState) : SupervisorState :=
  mkSupervisorState (sessionId s) (sup_attempt s) (currentRalphSessionId s)
    (currentWorkerSessionId s) (sup_done s) (paused s) v (reviewRequested s)
    (reviewerRuns s) (activeReviewerName s) (activeReviewerAttempt s)
    (activeReviewerSessionId s) (activeReviewerOutputPath s).

Definition set_reviewRequested (v : gmap Z string) (s : SupervisorState) : SupervisorState :=
  mkSupervisorState (sessionId s) (sup_attempt s) (currentRalphSessionId s)
    (currentWorkerSessionId s) (sup_done s) (paused s) (lastMainIdleAt s) v
    (reviewerRuns s) (activeReviewerName s) (activeReviewerAttempt s)
    (activeReviewerSessionId s) (activeReviewerOutputPath s).

Definition set_reviewerRuns (v : gmap Z Z) (s : SupervisorState) : SupervisorState :=
  mkSupervisorState (sessionId s) (sup_attempt s) (currentRalphSessionId s)
    (currentWorkerSessionId s) (sup_done s) (paused s) (lastMainIdleAt s)
    (reviewRequested s) v (activeReviewerName s) (activeReviewerAttempt s)
    (activeReviewerSessionId s) (activeReviewerOutputPath s).

(** The four [activeReviewer*] fields are always written together. *)
Definition set_activeReviewer (name : option string) (n : option Z) (sid path : option string)
    (s : SupervisorState) : SupervisorState :=
  mkSupervisorState (sessionId s) (sup_attempt s) (currentRalphSessionId s)
    (currentWorkerSessionId s) (sup_done s) (paused s) (lastMainIdleAt s)
    (reviewRequested s) (reviewerRuns s) name n sid path.

(** The supervisor at plugin start, before [loadReviewerState]. *)
Definition initial_supervisor : SupervisorState := {|
  sessionId := None;
  sup_attempt := 0;
  currentRalphSessionId := None;
  currentWorkerSessionId := None;
  sup_done := false;
  paused := false;
  lastMainIdleAt := None;
  reviewRequested := ∅;
  reviewerRuns := ∅;
  activeReviewerName := None;
  activeReviewerAttempt := None;
  activeReviewerSessionId := None;
  activeReviewerOutputPath := None;
|}.

(** ** 6. The world the plugin acts on *)

Inductive Result (A : Type) : Type :=
| Ok (a : A)
| Err (msg : string).
Arguments Ok {A} a.
Arguments Err {A} msg.

Definition is_Ok {A : Type} (r : Result A) : bool :=
  match r with
  | Ok _ => true
  | Err _ => false
  end.

(** Calls that leave the process: to the session host, the toast and status
    channel, and the operating system. *)
Inductive Effect : Type :=
| ESessionCreate (title id : string)
| ESessionPrompt (id text : string)
| ESessionPromptAsync (id text : string)
| EToast (title message variant : string)
| ENotify (source message level : string) (postToConversation : bool)
          (origin : option string)
| EConversation (source message : string)
| ERunCommand (cmd : list string) (dir : string) (timeoutMs : option Z)
| EPersistReviewerState.

Definition is_create (e : Effect) : bool :=
  match e with
  | ESessionCreate _ _ => true
  | _ => false
  end.

Definition is_run_command (e : Effect) : bool :=
  match e with
  | ERunCommand _ _ _ => true
  | _ => false
  end.

Record QuestionRecord : Type := mkQuestionRecord {
  q_id : string;
  q_from : SessionRole;
  q_attempt : Z;
  q_question : string;
  q_context : option string;
  q_askedAt : string;
}.

Record ResponseRecord : Type := mkResponseRecord {
  answer : string;
  respondedAt : string;
}.

(** The document [.opencode/pending_input.json]; a missing or unparsable
    file reads as [empty_pending]. *)
Record PendingInputData : Type := mkPendingInputData {
  questions : list QuestionRecord;
  responses : gmap string ResponseRecord;
}.

Definition empty_pending : PendingInputData := mkPendingInputData [] ∅.

Record World : Type := mkWorld {
  supervisor : SupervisorState;
  sessionMap : gmap string SessionState;
  files : gmap string string;
  pending : PendingInputData;
  effects : list Effect;
}.

Definition with_supervisor (f : SupervisorState -> SupervisorState) (w : World) : World :=
  mkWorld (f (supervisor w)) (sessionMap w) (files w) (pending w) (effects w).

Definition with_sessionMap (f : gmap string SessionState -> gmap string SessionState)
    (w : World) : World :=
  mkWorld (supervisor w) (f (sessionMap w)) (files w) (pending w) (effects w).

Definition with_pending (p : PendingInputData) (w : World) : World :=
  mkWorld (supervisor w) (sessionMap w) (files w) p (effects w).

(** [writeFile(p, content)]. *)
Definition writeFile (p content : string) (w : World) : World :=
  mkWorld (supervisor w) (sessionMap w) (<[p := content]> (files w)) (pending w) (effects w).

(** [ensureFile(p, defaultContent)]: written only when absent. *)
Definition ensureFile (p content : string) (w : World) : World :=
  match files w !! p with
  | Some _ => w
  | None => writeFile p content w
  end.

Definition emit (e : Effect) (w : World) : World :=
  mkWorld (supervisor w) (sessionMap w) (files w) (pending w) (effects w ++ [e]).

(** The effects of [w'] that were not yet in [w]. *)
Definition new_effects (w w' : World) : list Effect :=
  drop (length (effects w)) (effects w').

(** The plugin at start: nothing tracked, no session known; [fs] is the
    work tree as the start-up bootstrap leaves it. *)
Definition initial_world (fs : gmap string string) : World :=
  mkWorld initial_supervisor ∅ fs empty_pending [].

(** What the environment answers during one operation. *)
Inductive CommandOutcome : Type :=
| Finished (ok : bool) (stdout stderr : string)
| Threw.

Record Env : Type := mkEnv {
  env_now : Z;
  env_iso : string;
  env_created : option string;
  env_command : CommandOutcome;
}.

(** [getSession(id)]: the record, created as [freshSession()] when missing. *)
Definition getSession (id : string) (w : World) : SessionState * World :=
  match sessionMap w !! id with
  | Some s => (s, w)
  | None => (freshSession main 0, with_sessionMap (insert id (freshSession main 0)) w)
  end.

Definition mutateSession (id : string) (f : SessionState -> SessionState) (w : World)
  : World :=
  let '(s, w1) := getSession id w in
  with_sessionMap (insert id (f s)) w1.

(** [notifySupervisor(source, message, level, postToConversation, origin)],
    at the level of the loop: the call is recorded as [ENotify].  What the
    call then does - the de-duplication window, the verbosity filter, the
    line appended to [SUPERVISOR_LOG.md], the entry appended to
    [CONVERSATION.md] with its rotation, the toast and the [promptAsync] to
    the bound session - is [Delivery.notifySupervisor] of section 18, which
    needs the configuration, the clock and the table of recent notices.
    Hence the [files] of a world of the loop are the work tree apart from
    what the deliveries write: [SUPERVISOR_LOG.md], [CONVERSATION.md] and
    its archives, and [.opencode/reviewer_state.json]; and an [ENotify]
    stands for a possible prompt to the bound session. *)
Definition notifySupervisor (source message level : string) (post : bool)
    (origin : option string) (w : World) : World :=
  emit (ENotify source message level post origin) w.

(** [appendConversationEntry(source, message)], recorded in the same way;
    the write to [CONVERSATION.md] is [Delivery.appendConversationEntry]. *)
Definition appendConversationEntry (source message : string) (w : World) : World :=
  emit (EConversation source message) w.

(** [persistReviewerState()]: the review-gating fields written to
    [.opencode/reviewer_state.json] with a fresh [updatedAt].  The write is
    recorded as [EPersistReviewerState]; the file is not among the [files]
    of a world. *)
Definition persistReviewerState (w : World) : World := emit EPersistReviewerState w.

(** ** 7. Verification (source: [runVerify], [runAndParseVerify]) *)

Inductive Verdict : Type := pass | fail | unknown.

Definition verdict_eqb (a b : Verdict) : bool :=
  match a, b with
  | pass, pass | fail, fail | unknown, unknown => true
  | _, _ => false
  end.

Definition verdict_str (v : Verdict) : string :=
  match v with
  | pass => "pass"
  | fail => "fail"
  | unknown => "unknown"
  end.

(** The JSON object [runVerify] serialises. *)
Record VerifyReport : Type := mkVerifyReport {
  vr_verdict : Verdict;
  vr_output : option string;
  vr_error : option string;
}.

Definition runVerify (cfg : ResolvedConfig) (env : Env) (root : string) (w : World)
  : VerifyReport * World :=
  match verify cfg with
  | None => (mkVerifyReport unknown None None, w)
  | Some v =>
      match command v with
      | [] => (mkVerifyReport unknown None None, w)
      | _ :: _ =>
          let dir := path_join root (nullish (cwd v) ".") in
          let timeoutMs :=
            if 0 <? verifyTimeoutMinutes cfg
            then Some (verifyTimeoutMinutes cfg * 60000) else None in
          let w1 := emit (ERunCommand (command v) dir timeoutMs) w in
          match env_command env with
          | Finished true out _ => (mkVerifyReport pass (Some out) None, w1)
          | Finished false out err => (mkVerifyReport fail (Some out) (Some err), w1)
          | Threw => (mkVerifyReport unknown None None, w1)
          end
      end
  end.

Definition runAndParseVerify (P : Plugin) (cfg : ResolvedConfig) (env : Env) (w : World)
  : (Verdict * string) * World :=
  let '(p, w1) := runVerify cfg env (worktree P) w in
  let details :=
    if truthy_ostr (vr_error p)
    then nullish (vr_error p) EmptyString +:+ nl +:+ nullish (vr_output p) EmptyString
    else nullish (vr_output p) EmptyString in
  ((vr_verdict p, details), w1).

(** [rolloverState(attemptN, verdict, details)]. *)
Definition rolloverState (P : Plugin) (env : Env) (attemptN : Z) (verdict details : string)
    (w : World) : World :=
  let ts := env_iso env in
  let summary :=
    "Attempt " +:+ string_of_Z attemptN +:+ " — verification " +:+ verdict +:+ "."
    +:+ nl +:+ nl +:+ clampLines details 120 in
  let curr := nullish (files w !! path_join (worktree P) FILES.CURR) EmptyString in
  let w1 := writeFile (path_join (worktree P) FILES.PREV)
              ("# Previous State (snapshot)" +:+ nl +:+ nl +:+ "Captured: " +:+ ts
               +:+ nl +:+ nl +:+ curr +:+ nl) w in
  let w2 := writeFile (path_join (worktree P) FILES.CURR)
              (bootstrapCurrentState (templates P)) w1 in
  writeFile (path_join (worktree P) FILES.NEXT_RALPH)
    ("# Next Ralph Context" +:+ nl +:+ nl +:+ "- Timestamp: " +:+ ts +:+ nl
     +:+ "- Verdict: " +:+ verdict +:+ nl +:+ nl +:+ "## Summary" +:+ nl +:+ summary
     +:+ nl +:+ nl +:+ "## Next Step" +:+ nl
     +:+ interpolate (continuePrompt (templates P))
           [("attempt", string_of_Z attemptN); ("verdict", verdict)]
     +:+ nl) w2.

(** ** 8. The outer loop (source section 13) *)

(** [spawnRalphSession(attempt)]. *)
Definition spawnRalphSession (P : Plugin) (env : Env) (n : Z) (w : World) : World :=
  let ralphId := nullish (env_created env) ("ralph-" +:+ string_of_Z (env_now env)) in
  let w1 := emit (ESessionCreate ("ralph-strategist-attempt-" +:+ string_of_Z n) ralphId) w in
  let w2 := with_supervisor (set_currentRalphSessionId (Some ralphId)) w1 in
  let w3 := with_sessionMap (insert ralphId (freshSession ralph n)) w2 in
  let w4 := mutateSession ralphId (set_lastProgressAt (env_now env)) w3 in
  let promptText :=
    interpolate (ralphSessionPrompt (templates P))
      [("attempt", string_of_Z n); ("nextAttempt", string_of_Z (n + 1))] in
  let w5 := emit (ESessionPromptAsync ralphId promptText) w4 in
  notifySupervisor ("supervisor/attempt-" +:+ string_of_Z n)
    ("Spawned Ralph strategist session " +:+ ralphId +:+ ".") "info" true None w5.

(** [spawnRlmWorker(attempt)], with the id of the new worker. *)
Definition spawnRlmWorker (P : Plugin) (env : Env) (n : Z) (w : World) : string * World :=
  let workerId := nullish (env_created env) ("worker-" +:+ string_of_Z (env_now env)) in
  let w1 := emit (ESessionCreate ("rlm-worker-attempt-" +:+ string_of_Z n) workerId) w in
  let w2 := with_supervisor (set_currentWorkerSessionId (Some workerId)) w1 in
  let w3 := with_sessionMap (insert workerId (freshSession worker n)) w2 in
  let w4 := mutateSession workerId (set_lastProgressAt (env_now env)) w3 in
  let promptText :=
    interpolate (workerPrompt (templates P))
      [("attempt", string_of_Z n); ("nextAttempt", string_of_Z (n + 1))] in
  let w5 := emit (ESessionPromptAsync workerId promptText) w4 in
  (workerId,
   notifySupervisor ("supervisor/attempt-" +:+ string_of_Z n)
     ("Spawned worker session " +:+ workerId +:+ ".") "info" true None w5).

(** The [ralph_spawn_worker] tool; [Ok (workerSessionId, attempt)] on success. *)
Definition tool_ralph_spawn_worker_impl (P : Plugin) (env : Env)
    (ctx_sessionID : option string) (w : World) : Result (string * Z) * World :=
  let sessionID := nullish ctx_sessionID EmptyString in
  match sessionMap w !! sessionID with
  | Some st =>
      if negb (role_eqb (role st) ralph)
      then (Err "ralph_spawn_worker() can only be called from a Ralph strategist session.", w)
      else if workerSpawned st
      then (Err "ralph_spawn_worker() has already been called for this attempt.", w)
      else
        let w1 := mutateSession sessionID (set_workerSpawned true) w in
        let '(workerId, w2) := spawnRlmWorker P env (attempt st) w1 in
        let w3 := notifySupervisor ("ralph/attempt-" +:+ string_of_Z (attempt st))
                    ("Delegated coding to worker session " +:+ workerId +:+ ".")
                    "info" true (Some sessionID) w2 in
        (Ok (workerId, attempt st), w3)
  | None =>
      (Err "ralph_spawn_worker() can only be called from a Ralph strategist session.", w)
  end.

(** The rest of [handleWorkerIdle], from the verdict on: done on [pass];
    stop at the attempt bound; otherwise count the attempt, roll the scratch
    documents over and spawn the next strategist. *)
Definition handleWorkerIdle_verdict (P : Plugin) (cfg : ResolvedConfig) (env : Env)
    (workerSessionId : string) (verdict : Verdict) (details : string) (w4 : World)
  : World :=
  let tag := "worker/attempt-" +:+ string_of_Z (sup_attempt (supervisor w4)) in
  if verdict_eqb verdict pass then
    let w5 := with_supervisor (set_done true) w4 in
    let w6 := writeFile (path_join (worktree P) FILES.NEXT_RALPH)
                (interpolate (doneFileContent (templates P)) [("timestamp", env_iso env)])
                w5 in
    let w7 := emit (EToast "Ralph: Done" "Verification passed. Loop complete." "success") w6 in
    notifySupervisor tag "Verification passed. Loop complete." "info" true
      (Some workerSessionId) w7
  else if maxAttempts cfg <=? sup_attempt (supervisor w4) then
    let w5 := emit (EToast "Ralph: stopped"
                      ("Max attempts (" +:+ string_of_Z (maxAttempts cfg)
                       +:+ ") reached. Review AGENT_CONTEXT_FOR_NEXT_RALPH.md.")
                      "warning") w4 in
    notifySupervisor tag
      ("Verification " +:+ verdict_str verdict +:+ ". Max attempts ("
       +:+ string_of_Z (maxAttempts cfg) +:+ ") reached.")
      "warning" true (Some workerSessionId) w5
  else
    let w5 := notifySupervisor tag
                ("Verification " +:+ verdict_str verdict +:+ ". Preparing next attempt.")
                (if verdict_eqb verdict fail then "warning" else "info")
                true (Some workerSessionId) w4 in
    let w6 := with_supervisor (fun s => set_attempt (sup_attempt s + 1) s) w5 in
    let w7 := rolloverState P env (sup_attempt (supervisor w6) - 1)
                (verdict_str verdict) details w6 in
    spawnRalphSession P env (sup_attempt (supervisor w7)) w7.

(** [handleWorkerIdle(workerSessionId)].  [cfg] is what [getConfig()]
    resolves to while the handler runs. *)
Definition handleWorkerIdle (P : Plugin) (cfg : ResolvedConfig) (env : Env)
    (workerSessionId : string) (w : World) : World :=
  if negb (bool_decide (currentWorkerSessionId (supervisor w) = Some workerSessionId)) then w
  else if sup_done (supervisor w) then w
  else if negb (enabled cfg) then w
  else if negb (autoStartOnMainIdle cfg) then w
  else
    let workerState := sessionMap w !! workerSessionId in
    let w1 := with_supervisor (set_currentWorkerSessionId None) w in
    let tag := "worker/attempt-" +:+ string_of_Z (sup_attempt (supervisor w1)) in
    let w2 :=
      match workerState ≫= reportedStatus with
      | Some _ => w1
      | None =>
          notifySupervisor tag
            "No explicit status reported before idle; continuing with implicit verification flow."
            "info" true (Some workerSessionId) w1
      end in
    let w3 := notifySupervisor tag
                ("Worker " +:+ workerSessionId +:+ " is idle; running verification.")
                "info" true (Some workerSessionId) w2 in
    let '((verdict, details), w4) := runAndParseVerify P cfg env w3 in
    handleWorkerIdle_verdict P cfg env workerSessionId verdict details w4.

(** [handleRalphSessionIdle(ralphSessionId)]. *)
Definition handleRalphSessionIdle (ralphSessionId : string) (w : World) : World :=
  if negb (bool_decide (currentRalphSessionId (supervisor w) = Some ralphSessionId)) then w
  else if sup_done (supervisor w) then w
  else
    let w1 := with_supervisor (set_currentRalphSessionId None) w in
    let st := sessionMap w1 !! ralphSessionId in
    let w2 :=
      match st with
      | Some s =>
          match reportedStatus s with
          | Some _ => w1
          | None =>
              notifySupervisor ("ralph/attempt-" +:+ string_of_Z (attempt s))
                "No explicit strategist status reported before idle." "info" true
                (Some ralphSessionId) w1
          end
      | None => w1
      end in
    if nullish (workerSpawned <$> st) false then w2
    else
      let n := nullish (attempt <$> st) (sup_attempt (supervisor w2)) in
      let w3 := emit (EToast "Ralph: no worker spawned"
                        ("Ralph session for attempt " +:+ string_of_Z n
                         +:+ " ended without calling ralph_spawn_worker().")
                        "warning") w2 in
      notifySupervisor ("ralph/attempt-" +:+ string_of_Z n)
        "Strategist went idle without spawning a worker." "warning" true
        (Some ralphSessionId) w3.

(** [checkSetup(root, cfg).ready]: a verify command and a [PLAN.md]. *)
Definition checkSetup_ready (root : string) (cfg : ResolvedConfig) (w : World) : bool :=
  match verify cfg with
  | Some v =>
      match command v with
      | [] => false
      | _ :: _ => bool_decide (is_Some (files w !! path_join root FILES.PLAN))
      end
  | None => false
  end.

(** [handleMainIdle(sessionID)]. *)
Definition handleMainIdle (P : Plugin) (cfg : ResolvedConfig) (env : Env)
    (sessionID : string) (w : World) : World :=
  if sup_done (supervisor w) then w
  else if paused (supervisor w) then w
  else if truthy_ostr (currentRalphSessionId (supervisor w)) then w
  else if truthy_ostr (currentWorkerSessionId (supervisor w)) then w
  else if negb (enabled cfg) then w
  else
    let now := env_now env in
    let bursting :=
      match lastMainIdleAt (supervisor w) with
      | Some t => truthy_Z t && (now - t <? 800)
      | None => false
      end in
    if bursting then w
    else
      let w1 := with_supervisor (set_lastMainIdleAt (Some now)) w in
      let bound :=
        if truthy_ostr (sessionId (supervisor w1))
        then (if bool_decide (sessionId (supervisor w1) = Some sessionID)
              then Some w1 else None)
        else Some (notifySupervisor "supervisor" "Bound supervisor to main session."
                     "info" false (Some sessionID)
                     (with_supervisor (set_sessionId (Some sessionID)) w1)) in
      match bound with
      | None => w1
      | Some w2 =>
          if negb (checkSetup_ready (worktree P) cfg w2)
          then notifySupervisor "supervisor"
                 "Auto-start skipped: setup incomplete. Run ralph_doctor(autofix=true) and ralph_bootstrap_plan()."
                 "warning" true (Some sessionID) w2
          else
            let w3 := with_supervisor (set_attempt 1) w2 in
            let w4 := notifySupervisor "supervisor" "Starting Ralph loop at attempt 1."
                        "info" true (Some sessionID) w3 in
            spawnRalphSession P env 1 w4
      end.

(** [emitHeartbeatWarnings()]. *)
Definition maybeWarn (cfg : ResolvedConfig) (env : Env) (sid : option string)
    (label : string) (w : World) : World :=
  match sid with
  | Some id =>
      if negb (truthy_str id) then w
      else
        match sessionMap w !! id with
        | Some st =>
            match lastProgressAt st with
            | Some last =>
                if negb (truthy_Z last) then w
                else if env_now env - last <? heartbeatMinutes cfg * 60000 then w
                else
                  let w1 := notifySupervisor
                              (role_str (role st) +:+ "/attempt-"
                               +:+ string_of_Z (attempt st))
                              (label +:+ " has no progress update for "
                               +:+ string_of_Z (heartbeatMinutes cfg) +:+ "+ minutes.")
                              "warning" true (Some id) w in
                  mutateSession id (set_lastProgressAt (env_now env)) w1
            | None => w
            end
        | None => w
        end
  | None => w
  end.

Definition emitHeartbeatWarnings (cfg : ResolvedConfig) (env : Env) (w : World) : World :=
  if sup_done (supervisor w) || paused (supervisor w) then w
  else
    let w1 := maybeWarn cfg env (currentRalphSessionId (supervisor w)) "Strategist" w in
    maybeWarn cfg env (currentWorkerSessionId (supervisor w1)) "Worker" w1.

(** The [session.idle] branch of the [event] hook, for an event that names
    session [sessionID]. *)
Definition on_session_idle (P : Plugin) (cfg : ResolvedConfig) (env : Env)
    (sessionID : string) (w : World) : World :=
  if negb (truthy_str sessionID) then w
  else if sup_done (supervisor w) || paused (supervisor w) then w
  else
    let w1 := emitHeartbeatWarnings cfg env w in
    if bool_decide (currentWorkerSessionId (supervisor w1) = Some sessionID)
    then handleWorkerIdle P cfg env sessionID w1
    else if bool_decide (currentRalphSessionId (supervisor w1) = Some sessionID)
    then handleRalphSessionIdle sessionID w1
    else handleMainIdle P cfg env sessionID w1.

(** [clearSessionTracking(sessionId, reason)], run when a session is closed,
    ended or deleted. *)
Definition clearSessionTracking (sid reason : string) (w : World) : World :=
  let st := sessionMap w !! sid in
  let w1 := with_sessionMap (delete sid) w in
  let hitR := bool_decide (currentRalphSessionId (supervisor w1) = Some sid) in
  let w2 := if hitR then with_supervisor (set_currentRalphSessionId None) w1 else w1 in
  let hitW := bool_decide (currentWorkerSessionId (supervisor w2) = Some sid) in
  let w3 := if hitW then with_supervisor (set_currentWorkerSessionId None) w2 else w2 in
  let hitV := bool_decide (activeReviewerSessionId (supervisor w3) = Some sid) in
  let w4 := if hitV
            then persistReviewerState
                   (with_supervisor (set_activeReviewer None None None None) w3)
            else w3 in
  match st with
  | Some s =>
      if hitR || hitW || hitV
      then notifySupervisor (role_str (role s) +:+ "/attempt-" +:+ string_of_Z (attempt s))
             (role_str (role s) +:+ " session ended (" +:+ reason +:+ ").") "info" true
             (Some sid) w4
      else w4
  | None => w4
  end.

(** ** 9. Protocol gate (source: [DESTRUCTIVE_TOOLS], [tool.execute.before]) *)

Definition DESTRUCTIVE_TOOLS : list string :=
  ["write"; "edit"; "bash"; "delete"; "move"; "rename"].

Definition SAFE_TOOLS : list string :=
  ["ralph_load_context"; "rlm_grep"; "rlm_slice"; "subagent_peek"; "ralph_verify";
   "ralph_report"; "ralph_ask"; "ralph_respond"].

(** The fields of the hook's [input] that the gate reads. *)
Record HookInput : Type := mkHookInput {
  in_sessionID : option string;
  in_session_id : option string;
  in_session_dot_id : option string;
  in_tool : option string;
  in_call_name : option string;
}.

(** [input.sessionID ?? input.session_id ?? input.session?.id]. *)
Definition hook_session (input : HookInput) : option string :=
  nullish_opt (in_sessionID input) (nullish_opt (in_session_id input) (in_session_dot_id input)).

(** [input.tool ?? input.call?.name ?? EmptyString]. *)
Definition hook_tool (input : HookInput) : string :=
  nullish (nullish_opt (in_tool input) (in_call_name input)) EmptyString.

Definition gated_role (r : SessionRole) : bool :=
  match r with
  | worker | subagent => true
  | main | ralph => false
  end.

(** The [tool.execute.before] hook: [Err] when it throws, [Ok tt] when the
    invocation goes through.  It reads the registry and changes nothing. *)
Definition tool_execute_before (P : Plugin) (cfg : ResolvedConfig) (input : HookInput)
    (w : World) : Result unit :=
  if negb (gateDestructiveToolsUntilContextLoaded cfg) then Ok tt
  else
    match hook_session input with
    | None => Ok tt
    | Some sessionID =>
        if negb (truthy_str sessionID) then Ok tt
        else
          match sessionMap w !! sessionID with
          | None => Ok tt
          | Some state =>
              if negb (gated_role (role state)) then Ok tt
              else
                let toolName := hook_tool input in
                if negb (truthy_str toolName) then Ok tt
                else if bool_decide (toolName ∈ SAFE_TOOLS) then Ok tt
                else if negb (bool_decide (toolName ∈ DESTRUCTIVE_TOOLS)) then Ok tt
                else if negb (loadedContext state) then Err (contextGateError (templates P))
                else Ok tt
          end
    end.

(** What [ralph_load_context] does to the registry before it assembles its
    payload: the caller's [loadedContext] becomes true. *)
Definition ralph_load_context_mark (ctx_sessionID : option string) (w : World) : World :=
  mutateSession (nullish ctx_sessionID "default") (set_loadedContext true) w.

(** ** 10. Reading slices (source: [rlm_grep], [rlm_slice]) *)

(** [readFile(p)]: a missing file is a [FileError]. *)
Definition readFile (p : string) (w : World) : Result string :=
  match files w !! p with
  | Some raw => Ok raw
  | None => Err ("FileError: " +:+ p)
  end.

(** [rlm_grep], with the regular-expression search over the lines left to
    [search]; what matters to the slice reader is the time stamp it leaves. *)
Definition tool_rlm_grep {A : Type} (P : Plugin) (env : Env)
    (search : string -> list string -> A)
    (ctx_sessionID file : option string) (query : string) (w : World)
  : Result A * World :=
  let sessionID := nullish ctx_sessionID "default" in
  let fileRel := nullish file FILES.RLM_CTX in
  match readFile (path_join (worktree P) fileRel) w with
  | Err e => (Err e, w)
  | Ok raw =>
      let results := search query (split_lines raw) in
      (Ok results, mutateSession sessionID (set_lastGrep (env_now env) query) w)
  end.

Record SliceReport : Type := mkSliceReport {
  sr_file : string;
  sr_startLine : Z;
  sr_endLine : Z;
  sr_totalFileLines : Z;
  sr_text : string;
}.

(** [st.lastGrepAt && Date.now() - st.lastGrepAt < 5 * 60 * 1000]. *)
Definition recentGrep (st : SessionState) (now : Z) : bool :=
  match lastGrepAt st with
  | Some t => truthy_Z t && (now - t <? 5 * 60 * 1000)
  | None => false
  end.

(** [rlm_slice(file?, startLine, endLine)]; the schema has already checked
    that both line numbers are integers from 1 upwards. *)
Definition tool_rlm_slice (P : Plugin) (cfg : ResolvedConfig) (env : Env)
    (ctx_sessionID file : option string) (startLine endLine : Z) (w : World)
  : Result SliceReport * World :=
  let sessionID := nullish ctx_sessionID "default" in
  let '(st, w1) := getSession sessionID w in
  let fileRel := nullish file FILES.RLM_CTX in
  let fileAbs := path_join (worktree P) fileRel in
  if endLine <? startLine then (Err "endLine must be >= startLine.", w1)
  else
    let span := endLine - startLine + 1 in
    if maxRlmSliceLines cfg <? span
    then (Err ("Slice too large: " +:+ string_of_Z span +:+ " lines. Max allowed: "
               +:+ string_of_Z (maxRlmSliceLines cfg) +:+ ". Use multiple smaller slices."),
          w1)
    else if requireGrepBeforeLargeSlice cfg && (grepRequiredThresholdLines cfg <=? span)
            && negb (recentGrep st (env_now env))
    then (Err ("Slices >= " +:+ string_of_Z (grepRequiredThresholdLines cfg)
               +:+ " lines require a recent rlm_grep call first (within 5 min)."),
          w1)
    else
      match readFile fileAbs w1 with
      | Err e => (Err e, w1)
      | Ok raw =>
          let lines := split_lines raw in
          let slice := join_lines (js_slice lines (startLine - 1) endLine) in
          (Ok (mkSliceReport fileRel startLine endLine (Z.of_nat (length lines)) slice), w1)
      end.

(** ** 11. Sub-agent fan-out (source sections 10 and [subagent_spawn]) *)

Definition subAgentDir (root name : string) : string :=
  path_join (path_join (path_join root ".opencode") "agents") name.

(** [bootstrapSubAgent(worktree, name, goal, templates)]. *)
Definition bootstrapSubAgent (root name goal : string) (tpl : PromptTemplates) (ts : string)
    (w : World) : World :=
  let base := subAgentDir root name in
  let w1 := writeFile (path_join base FILES.PLAN)
              ("# Sub-Agent Plan: " +:+ name +:+ nl +:+ nl +:+ "## Goal" +:+ nl +:+ goal
               +:+ nl +:+ nl +:+ "## Milestones" +:+ nl +:+ "- [ ] (fill in)" +:+ nl +:+ nl
               +:+ "## Changelog" +:+ nl +:+ "- " +:+ ts +:+ " created" +:+ nl) w in
  let w2 := ensureFile (path_join base FILES.CURR) (bootstrapCurrentState tpl) w1 in
  let w3 := ensureFile (path_join base FILES.NOTES)
              ("# Sub-Agent Notes and Learnings" +:+ nl +:+ nl +:+ "- " +:+ ts
               +:+ " created" +:+ nl) w2 in
  ensureFile (path_join base FILES.PREV)
    ("# Previous State" +:+ nl +:+ nl +:+ "(none yet)" +:+ nl) w3.

(** The character class [[a-zA-Z0-9_-]]. *)
Definition is_slug_char (c : ascii) : bool :=
  is_word_char c || Ascii.eqb c "-"%char.

Fixpoint string_forallb (p : ascii -> bool) (s : string) : bool :=
  match s with
  | EmptyString => true
  | String c rest => p c && string_forallb p rest
  end.

(** [/^[a-zA-Z0-9_-]+$/.test(name)]. *)
Definition valid_subagent_name (name : string) : bool :=
  truthy_str name && string_forallb is_slug_char name.

Definition running_named (name : string) (a : SubAgentRecord) : bool :=
  String.eqb (sa_name a) name && status_is_running (sa_status a).

Definition running_count (l : list SubAgentRecord) : Z :=
  Z.of_nat (length (List.filter (fun a => status_is_running (sa_status a)) l)).

Record SpawnReport : Type := mkSpawnReport {
  sp_name : string;
  sp_sessionId : string;
  sp_stateDir : string;
}.

(** [subagent_spawn(name, goal, context?)]. *)
Definition tool_subagent_spawn (P : Plugin) (cfg : ResolvedConfig) (env : Env)
    (ctx_sessionID : option string) (name goal : string) (context : option string)
    (w : World) : Result SpawnReport * World :=
  let root := worktree P in
  let sessionID := nullish ctx_sessionID "default" in
  let '(st, w1) := getSession sessionID w in
  if negb (subAgentEnabled cfg)
  then (Err "Sub-agents are disabled. Set subAgentEnabled: true in .opencode/ralph.json.", w1)
  else if negb (valid_subagent_name name)
  then (Err ("Sub-agent name " +:+ dquote +:+ name
             +:+ dquote +:+ " is invalid. Use only letters, digits, hyphens, and underscores."), w1)
  else if existsb (running_named name) (subAgents st)
  then (Err ("Sub-agent " +:+ dquote +:+ name
             +:+ dquote +:+ " is already running. Await it first or choose a different name."), w1)
  else if maxSubAgents cfg <=? running_count (subAgents st)
  then (Err ("Max concurrent sub-agents (" +:+ string_of_Z (maxSubAgents cfg)
             +:+ ") reached."), w1)
  else
    let w2 := bootstrapSubAgent root name goal (templates P) (env_iso env) w1 in
    let stateDir := path_join (path_join ".opencode" "agents") name in
    let promptText :=
      interpolate (subagentPrompt (templates P))
        [("name", name); ("goal", goal);
         ("context",
          match context with
          | Some c => if truthy_str c
                      then nl +:+ "Additional context:" +:+ nl +:+ c else EmptyString
          | None => EmptyString
          end);
         ("stateDir", stateDir);
         ("doneSentinel", subagentDoneSentinel (templates P));
         ("doneHeading", subagentDoneHeading (templates P))] in
    let childSessionId :=
      nullish (env_created env) ("unknown-" +:+ string_of_Z (env_now env)) in
    let w3 := emit (ESessionCreate ("sub-agent: " +:+ name) childSessionId) w2 in
    let w4 := with_sessionMap (insert childSessionId (freshSession subagent (attempt st))) w3 in
    let w5 := mutateSession childSessionId (set_lastProgressAt (env_now env)) w4 in
    let w6 := emit (ESessionPrompt childSessionId promptText) w5 in
    let w7 := mutateSession sessionID
                (push_subAgent (mkSubAgentRecord childSessionId name goal (env_now env)
                                  sa_running None)) w6 in
    (Ok (mkSpawnReport name childSessionId stateDir), w7).

(** ** 12. Question and answer store (source: [ralph_respond]) *)

Definition answered (data : PendingInputData) (id : string) : bool :=
  bool_decide (is_Some (responses data !! id)).

Definition unanswered_questions (data : PendingInputData) : list QuestionRecord :=
  List.filter (fun q => negb (answered data (q_id q))) (questions data).

(** One line of the diagnostic: the id and the first 60 characters of the
    question. *)
Definition pending_line (q : QuestionRecord) : string :=
  "  " +:+ q_id q +:+ ": " +:+ dquote +:+ String.substring 0 60 (q_question q) +:+ dquote.

Definition respond_unknown_message (data : PendingInputData) (id : string) : string :=
  let pendingTxt := String.concat nl (map pending_line (unanswered_questions data)) in
  "Question ID " +:+ dquote +:+ id +:+ dquote +:+ " not found in pending_input.json."
  +:+ (if truthy_str pendingTxt
       then nl +:+ nl +:+ "Pending unanswered questions:" +:+ nl +:+ pendingTxt
       else nl +:+ nl +:+ "No pending questions found.").

(** [ralph_respond(id, answer)]. *)
Definition tool_ralph_respond (env : Env) (id ans : string) (w : World)
  : Result string * World :=
  let data := pending w in
  match List.find (fun q => String.eqb (q_id q) id) (questions data) with
  | None => (Err (respond_unknown_message data id), w)
  | Some _ =>
      let data' :=
        mkPendingInputData (questions data)
          (<[id := mkResponseRecord ans (env_iso env)]> (responses data)) in
      if answered data id then
        let w1 := with_pending data' w in
        let w2 := appendConversationEntry "supervisor"
                    ("Updated response (" +:+ id +:+ "): " +:+ ans) w1 in
        (Ok ("Response updated for question " +:+ id
             +:+ " (was already answered; new answer overwrites old)."), w2)
      else
        let w1 := with_pending data' w in
        let w2 := appendConversationEntry "supervisor"
                    ("Response (" +:+ id +:+ "): " +:+ ans) w1 in
        (Ok ("Response recorded for question " +:+ id +:+ "."), w2)
  end.

(** ** 13. Reviewer gating (source: [ralph_request_review], [ralph_run_reviewer]) *)

Definition markReviewRequested (n : Z) (note : string) (w : World) : World :=
  persistReviewerState
    (with_supervisor (fun s => set_reviewRequested (<[n := note]> (reviewRequested s)) s) w).

Definition clearReviewRequested (n : Z) (w : World) : World :=
  persistReviewerState
    (with_supervisor (fun s => set_reviewRequested (delete n (reviewRequested s)) s) w).

Definition getReviewerRuns (n : Z) (w : World) : Z :=
  nullish (reviewerRuns (supervisor w) !! n) 0.

Definition incReviewerRuns (n : Z) (w : World) : World :=
  persistReviewerState
    (with_supervisor
       (fun s => set_reviewerRuns (<[n := getReviewerRuns n w + 1]> (reviewerRuns s)) s) w).

(** The attempt a review call is about:
    [st.attempt > 0 ? st.attempt : Math.max(1, supervisor.attempt)]. *)
Definition review_attempt (st : SessionState) (w : World) : Z :=
  if 0 <? attempt st then attempt st else Z.max 1 (sup_attempt (supervisor w)).

(** [ralph_request_review(note?)]; [Ok (attempt, note)]. *)
Definition tool_ralph_request_review (ctx_sessionID note : option string) (w : World)
  : (Z * string) * World :=
  let sessionID := nullish ctx_sessionID "default" in
  let '(st, w1) := getSession sessionID w in
  let n := review_attempt st w1 in
  let note' :=
    match note with
    | Some t => if truthy_str (trim t) then trim t else "ready"
    | None => "ready"
    end in
  let w2 := markReviewRequested n note' w1 in
  let w3 := notifySupervisor (role_str (role st) +:+ "/attempt-" +:+ string_of_Z n)
              ("Marked attempt " +:+ string_of_Z n +:+ " ready for review: " +:+ note')
              "info" true (Some sessionID) w2 in
  ((n, note'), w3).

(** [raw.includes(needle)]. *)
Definition includes (raw needle : string) : bool :=
  bool_decide (is_Some (String.index 0 needle raw)).

Inductive WaitResult : Type :=
| WaitDone (outputPath reviewerName : string)
| WaitStillRunning (reviewerName outputPath : string).

(** How a [ralph_run_reviewer] call ends.  [RvWaited] and [RvStartedWaited]
    serialise alike; they are kept apart to tell a wait on the reviewer that
    was already active from a wait on one the call has just started. *)
Inductive ReviewerResult : Type :=
| RvRejected (reason : string)
| RvAlreadyRunning (name : string) (n : option Z)
| RvWaited (r : WaitResult)
| RvStarted (reviewerName reviewerSessionId outputPath : string)
| RvStartedWaited (r : WaitResult).

(** The polling loop of [waitForReviewerCompletion]: [poll i] is what the
    [i]-th read of the reviewer's [CURRENT_STATE.md] returns (the empty
    string when the read fails); [remaining] polls are left. *)
Fixpoint waitForReviewerCompletion_loop (P : Plugin) (cfg : ResolvedConfig) (env : Env)
    (sessionID reviewerName : string) (attemptN : Z) (outputPath : string)
    (requestedNote : option string) (poll : nat -> string) (i remaining : nat)
    (w : World) : WaitResult * World :=
  match remaining with
  | O => (WaitStillRunning reviewerName outputPath, w)
  | S k =>
      let raw := poll i in
      let finished :=
        includes raw (subagentDoneHeading (templates P))
        || includes raw (subagentDoneSentinel (templates P)) in
      if negb finished
      then waitForReviewerCompletion_loop P cfg env sessionID reviewerName attemptN
             outputPath requestedNote poll (S i) k w
      else
        let reportBody := clampLines raw 800 in
        let w1 := writeFile (path_join (worktree P) outputPath)
                    (join_lines
                       ["# Reviewer Report — Attempt " +:+ string_of_Z attemptN;
                        EmptyString;
                        "- reviewer: " +:+ reviewerName;
                        "- generated: " +:+ env_iso env;
                        "- requested: " +:+ nullish requestedNote "(force/manual)";
                        EmptyString;
                        "## Report";
                        reportBody;
                        EmptyString]) w in
        let w2 := with_supervisor (set_activeReviewer None None None None) w1 in
        let w3 := clearReviewRequested attemptN w2 in
        let w4 := persistReviewerState w3 in
        let w5 := notifySupervisor ("reviewer/attempt-" +:+ string_of_Z attemptN)
                    ("Reviewer completed. Report written to " +:+ outputPath +:+ ".")
                    "info" (reviewerPostToConversation cfg) (Some sessionID) w4 in
        (WaitDone outputPath reviewerName, w5)
  end.

Definition waitForReviewerCompletion (P : Plugin) (cfg : ResolvedConfig) (env : Env)
    (sessionID : string) (timeout_minutes : option Z) (poll : nat -> string)
    (reviewerName : string) (attemptN : Z) (outputPath : string)
    (requestedNote : option string) (w : World) : WaitResult * World :=
  let maxIterations := nullish timeout_minutes 20 * 12 in
  waitForReviewerCompletion_loop P cfg env sessionID reviewerName attemptN outputPath
    requestedNote poll O (Z.to_nat maxIterations) w.

Definition reviewerPrompt (P : Plugin) (reviewerName stateDir : string) (n : Z) : string :=
  join_lines
    ["You are reviewer sub-agent " +:+ dquote +:+ reviewerName +:+ dquote
     +:+ " for attempt " +:+ string_of_Z n +:+ ".";
     EmptyString;
     "Goal:";
     "- Review the repository changes with focus on correctness, edge cases, regressions, and maintainability.";
     "- Produce concise findings with severity (high/medium/low) and concrete fixes.";
     EmptyString;
     "Protocol:";
     "- State directory: " +:+ stateDir;
     "- Keep CURRENT_STATE.md updated while reviewing.";
     "- Write final report under heading '" +:+ subagentDoneHeading (templates P)
     +:+ "' in CURRENT_STATE.md.";
     "- Output '" +:+ subagentDoneSentinel (templates P) +:+ "' when finished.";
     EmptyString;
     "Expected report sections:";
     "1) Verdict";
     "2) Findings";
     "3) Risk assessment";
     "4) Recommended next actions";
     EmptyString].

(** The tail of [ralph_run_reviewer], reached when no reviewer is active:
    a new reviewer [reviewer_<attempt>_<now>] is bootstrapped, created,
    registered, prompted and recorded as the active one. *)
Definition start_reviewer (P : Plugin) (cfg : ResolvedConfig) (env : Env)
    (sessionID : string) (waitForDone : bool) (timeout_minutes : option Z)
    (output_path : option string) (poll : nat -> string) (n : Z)
    (requested : option string) (w : World) : ReviewerResult * World :=
  let reviewerName :=
    "reviewer_" +:+ string_of_Z n +:+ "_" +:+ string_of_Z (env_now env) in
  let defaultPath :=
    path_join (reviewerOutputDir cfg) ("review-attempt-" +:+ string_of_Z n +:+ ".md") in
  let outputPath :=
    match output_path with
    | Some o => if truthy_str (trim o) then trim o else defaultPath
    | None => defaultPath
    end in
  let stateDir := path_join (path_join ".opencode" "agents") reviewerName in
  let w1 := bootstrapSubAgent (worktree P) reviewerName
              ("Review attempt " +:+ string_of_Z n) (templates P) (env_iso env) w in
  let reviewerSessionId :=
    nullish (env_created env) ("reviewer-" +:+ string_of_Z (env_now env)) in
  let w2 := emit (ESessionCreate ("reviewer: " +:+ reviewerName) reviewerSessionId) w1 in
  let w3 := with_sessionMap (insert reviewerSessionId (freshSession subagent n)) w2 in
  let w4 := mutateSession reviewerSessionId (set_lastProgressAt (env_now env)) w3 in
  let w5 := emit (ESessionPrompt reviewerSessionId (reviewerPrompt P reviewerName stateDir n))
              w4 in
  let w6 := with_supervisor
              (set_activeReviewer (Some reviewerName) (Some n) (Some reviewerSessionId)
                 (Some outputPath)) w5 in
  let w7 := incReviewerRuns n w6 in
  let w8 := persistReviewerState w7 in
  let w9 := notifySupervisor ("reviewer/attempt-" +:+ string_of_Z n)
              ("Started reviewer " +:+ reviewerName +:+ ".") "info"
              (reviewerPostToConversation cfg) (Some sessionID) w8 in
  if negb waitForDone then (RvStarted reviewerName reviewerSessionId outputPath, w9)
  else
    let '(r, w10) :=
      waitForReviewerCompletion P cfg env sessionID timeout_minutes poll reviewerName n
        outputPath requested w9 in
    (RvStartedWaited r, w10).

(** [ralph_run_reviewer(force?, wait?, timeout_minutes?, output_path?)]. *)
Definition tool_ralph_run_reviewer (P : Plugin) (cfg : ResolvedConfig) (env : Env)
    (ctx_sessionID : option string) (force wait : option bool)
    (timeout_minutes : option Z) (output_path : option string) (poll : nat -> string)
    (w : World) : ReviewerResult * World :=
  let sessionID := nullish ctx_sessionID "default" in
  let waitForDone := nullish wait true in
  let forced := nullish force false in
  if negb (reviewerEnabled cfg) && negb forced then (RvRejected "reviewer disabled", w)
  else
    let '(st, w1) := getSession sessionID w in
    let n := review_attempt st w1 in
    let requested := reviewRequested (supervisor w1) !! n in
    let runs := getReviewerRuns n w1 in
    if negb forced && reviewerRequireExplicitReady cfg && negb (truthy_ostr requested)
    then (RvRejected "review not requested", w1)
    else if negb forced && (reviewerMaxRunsPerAttempt cfg <=? runs)
    then (RvRejected "review run limit reached", w1)
    else
      match activeReviewerName (supervisor w1) with
      | Some active =>
          if truthy_str active then
            if waitForDone
               && truthy_ostr (activeReviewerOutputPath (supervisor w1))
               && truthy_oZ (activeReviewerAttempt (supervisor w1))
            then
              let '(r, w2) :=
                waitForReviewerCompletion P cfg env sessionID timeout_minutes poll active
                  (nullish (activeReviewerAttempt (supervisor w1)) 0)
                  (nullish (activeReviewerOutputPath (supervisor w1)) EmptyString)
                  (reviewRequested (supervisor w1)
                     !! nullish (activeReviewerAttempt (supervisor w1)) 0) w1 in
              (RvWaited r, w2)
            else (RvAlreadyRunning active (activeReviewerAttempt (supervisor w1)), w1)
          else start_reviewer P cfg env sessionID waitForDone timeout_minutes output_path
                 poll n requested w1
      | None =>
          start_reviewer P cfg env sessionID waitForDone timeout_minutes output_path
            poll n requested w1
      end.

(** ** 14. Runs of the plugin *)

(** The hook events and tool calls the properties below are about, each
    with the session it comes from. *)
Inductive Op : Type :=
| OpSessionIdle (sessionID : string)
| OpSessionClosed (sessionID reason : string)
| OpSpawnWorker (ctx_sessionID : option string)
| OpLoadContext (ctx_sessionID : option string)
| OpSubagentSpawn (ctx_sessionID : option string) (name goal : string)
| OpRespond (id ans : string)
| OpRequestReview (ctx_sessionID note : option string)
| OpRunReviewer (ctx_sessionID : option string) (force wait : option bool)
                (timeout_minutes : option Z) (output_path : option string)
                (poll : nat -> string).

Definition step (P : Plugin) (cfg : ResolvedConfig) (env : Env) (op : Op) (w : World)
  : World :=
  match op with
  | OpSessionIdle sid => on_session_idle P cfg env sid w
  | OpSessionClosed sid reason => clearSessionTracking sid reason w
  | OpSpawnWorker ctx => snd (tool_ralph_spawn_worker_impl P env ctx w)
  | OpLoadContext ctx => ralph_load_context_mark ctx w
  | OpSubagentSpawn ctx name goal => snd (tool_subagent_spawn P cfg env ctx name goal None w)
  | OpRespond id ans => snd (tool_ralph_respond env id ans w)
  | OpRequestReview ctx note => snd (tool_ralph_request_review ctx note w)
  | OpRunReviewer ctx force wait tm out poll =>
      snd (tool_ralph_run_reviewer P cfg env ctx force wait tm out poll w)
  end.

(** A run: operations handled one after the other, each under the
    configuration and the environment of its moment. *)
Fixpoint run (P : Plugin) (ops : list (ResolvedConfig * Env * Op)) (w : World) : World :=
  match ops with
  | [] => w
  | (cfg, env, op) :: rest => run P rest (step P cfg env op w)
  end.

(** States the plugin can be in: what a run from the start leaves. *)
Definition reachable (P : Plugin) (w : World) : Prop :=
  exists fs ops, w = run P ops (initial_world fs).

(** [needle] occurs in [text]. *)
Definition occurs_in (needle text : string) : Prop :=
  exists pre post, text = pre +:+ needle +:+ post.

(** ** 15. A small installation, for examples *)

Definition sample_templates : PromptTemplates := {|
  continuePrompt := "Attempt {{attempt}} ended with {{verdict}}.";
  doneFileContent := "- {{timestamp}} DONE";
  subagentPrompt := "Sub-agent {{name}}: {{goal}}{{context}}";
  subagentDoneSentinel := "SUB_AGENT_DONE";
  subagentDoneHeading := "## Final Result";
  bootstrapCurrentState := "# Current State";
  contextGateError :=
    "File-first rule violated: call ralph_load_context() before using write / edit / bash.";
  workerPrompt := "Worker for attempt {{attempt}}.";
  ralphSessionPrompt := "Strategist for attempt {{attempt}}.";
|}.

Definition sample_plugin : Plugin := mkPlugin "/repo" sample_templates.

(** [.opencode/ralph.json] with a verify command, auto-start on and three
    attempts. *)
Definition sample_raw : RalphConfig :=
  mkRalphConfig None (Some true) None (Some (JsFinite (3 # 1))) None None
    (Some (mkVerifyConfig ["make"; "test"] None)) None None None None
    None None None None None None None None None None.

Definition sample_cfg : ResolvedConfig := resolveConfig sample_raw.

(** The same installation with the outer loop switched off. *)
Definition sample_cfg_disabled : ResolvedConfig :=
  resolveConfig
    (mkRalphConfig (Some false) (Some true) None (Some (JsFinite (3 # 1))) None None
       (Some (mkVerifyConfig ["make"; "test"] None)) None None None None
       None None None None None None None None None None).

Definition sample_files : gmap string string := {[ "/repo/PLAN.md" := "# Plan" ]}.

(** An environment in which the host issues [id] and the verify command
    fails. *)
Definition sample_env (id : string) (now : Z) : Env :=
  mkEnv now "2026-01-01T00:00:00.000Z" (Some id) (Finished false "out" "err").

(** The main session goes idle and the first strategist [r1] is spawned. *)
Definition sample_started : World :=
  run sample_plugin [(sample_cfg, sample_env "r1" 1000, OpSessionIdle "main")]
    (initial_world sample_files).

(** [r1] delegates to the worker [w1]. *)
Definition sample_delegated : World :=
  run sample_plugin
    [(sample_cfg, sample_env "r1" 1000, OpSessionIdle "main");
     (sample_cfg, sample_env "w1" 2000, OpSpawnWorker (Some "r1"))]
    (initial_world sample_files).

(** [r1] goes idle without having delegated. *)
Definition sample_stalled : World :=
  run sample_plugin
    [(sample_cfg, sample_env "r1" 1000, OpSessionIdle "main");
     (sample_cfg, sample_env "x" 2000, OpSessionIdle "r1")]
    (initial_world sample_files).

(** The large context file of the installation, four lines long. *)
Definition sample_context_files : gmap string string :=
  {[ "/repo/CONTEXT_FOR_RLM.md" := "one" +:+ nl +:+ "two" +:+ nl +:+ "three" +:+ nl +:+ "four" ]}.

(** A question store with one answered and one open question. *)
Definition sample_pending : PendingInputData := {|
  questions :=
    [mkQuestionRecord "ask-1" worker 1 "Which database?" None "2026-01-01T00:00:00.000Z";
     mkQuestionRecord "ask-2" worker 1 "Which port?" None "2026-01-01T00:01:00.000Z"];
  responses := {[ "ask-1" := mkResponseRecord "postgres" "2026-01-01T00:02:00.000Z" ]};
|}.

Definition sample_asked : World := with_pending sample_pending sample_delegated.

(** The installation with the reviewer switched on. *)
Definition sample_cfg_review : ResolvedConfig :=
  resolveConfig
    (mkRalphConfig None (Some true) None (Some (JsFinite (3 # 1))) None None
       (Some (mkVerifyConfig ["make"; "test"] None)) None None None None
       None None None None (Some true) None None None None None).

(** The installation with the reviewer on and two runs allowed per attempt. *)
Definition sample_cfg_review2 : ResolvedConfig :=
  resolveConfig
    (mkRalphConfig None (Some true) None (Some (JsFinite (3 # 1))) None None
       (Some (mkVerifyConfig ["make"; "test"] None)) None None None None
       None None None None (Some true) None (Some (JsFinite (2 # 1))) None None None).

(** [w1] asks for a review and a reviewer is started for attempt 1 without
    waiting for it: the reviewer is active and has not reported yet. *)
Definition sample_reviewing : World :=
  run sample_plugin
    [(sample_cfg_review, sample_env "r1" 1000, OpSessionIdle "main");
     (sample_cfg_review, sample_env "w1" 2000, OpSpawnWorker (Some "r1"));
     (sample_cfg_review, sample_env "x" 3000, OpRequestReview (Some "w1") None);
     (sample_cfg_review, sample_env "v1" 4000,
      OpRunReviewer (Some "w1") None (Some false) None None (fun _ => EmptyString))]
    (initial_world sample_files).

(** Two strategists for attempt 1: [r1] went idle without delegating and
    is no longer tracked, the main session went idle again and [r2] was
    spawned; then [r1] delegated after all, to [w1]. *)
Definition sample_two_strategists : World :=
  run sample_plugin
    [(sample_cfg, sample_env "r1" 1000, OpSessionIdle "main");
     (sample_cfg, sample_env "x" 2000, OpSessionIdle "r1");
     (sample_cfg, sample_env "r2" 5000, OpSessionIdle "main");
     (sample_cfg, sample_env "w1" 6000, OpSpawnWorker (Some "r1"))]
    (initial_world sample_files).

(** The shipped defaults plus a verify command: [enabled] is [true] and
    [autoStartOnMainIdle] is [false]. *)
Definition sample_cfg_default : ResolvedConfig :=
  resolveConfig
    (mkRalphConfig None None None None None None
       (Some (mkVerifyConfig ["make"; "test"] None)) None None None None
       None None None None None None None None None None).

(** Under the shipped defaults: the main session goes idle and [r1] is
    spawned, [r1] delegates to the worker [w1] and goes idle. *)
Definition sample_default_delegated : World :=
  run sample_plugin
    [(sample_cfg_default, sample_env "r1" 1000, OpSessionIdle "main");
     (sample_cfg_default, sample_env "w1" 2000, OpSpawnWorker (Some "r1"));
     (sample_cfg_default, sample_env "x" 2500, OpSessionIdle "r1")]
    (initial_world sample_files).

(** Three attempts of three, each failing its verification: every
    strategist delegates and goes idle, every worker goes idle after it. *)
Definition sample_exhausted : World :=
  run sample_plugin
    [(sample_cfg, sample_env "r1" 1000, OpSessionIdle "main");
     (sample_cfg, sample_env "w1" 2000, OpSpawnWorker (Some "r1"));
     (sample_cfg, sample_env "x" 3000, OpSessionIdle "r1");
     (sample_cfg, sample_env "r2" 4000, OpSessionIdle "w1");
     (sample_cfg, sample_env "w2" 5000, OpSpawnWorker (Some "r2"));
     (sample_cfg, sample_env "x" 6000, OpSessionIdle "r2");
     (sample_cfg, sample_env "r3" 7000, OpSessionIdle "w2");
     (sample_cfg, sample_env "w3" 8000, OpSpawnWorker (Some "r3"));
     (sample_cfg, sample_env "x" 9000, OpSessionIdle "r3");
     (sample_cfg, sample_env "x" 10000, OpSessionIdle "w3")]
    (initial_world sample_files).

(** [r1] went idle without delegating and the main session went idle
    again: [r2] is the tracked strategist of attempt 1, [r1] is still
    registered. *)
Definition sample_restarted : World :=
  run sample_plugin
    [(sample_cfg, sample_env "r1" 1000, OpSessionIdle "main");
     (sample_cfg, sample_env "x" 2000, OpSessionIdle "r1");
     (sample_cfg, sample_env "r2" 5000, OpSessionIdle "main")]
    (initial_world sample_files).

(** The reviewer is on, with the default limit of one run per attempt, and
    [w1] has asked for a review of attempt 1. *)
Definition sample_review_requested : World :=
  run sample_plugin
    [(sample_cfg_review, sample_env "r1" 1000, OpSessionIdle "main");
     (sample_cfg_review, sample_env "w1" 2000, OpSpawnWorker (Some "r1"));
     (sample_cfg_review, sample_env "x" 3000, OpRequestReview (Some "w1") None)]
    (initial_world sample_files).

(** [w1] then runs the reviewer and waits one minute for it; the reviewer
    does not finish in that time. *)
Definition sample_review_waiting : World :=
  run sample_plugin
    [(sample_cfg_review, sample_env "r1" 1000, OpSessionIdle "main");
     (sample_cfg_review, sample_env "w1" 2000, OpSpawnWorker (Some "r1"));
     (sample_cfg_review, sample_env "x" 3000, OpRequestReview (Some "w1") None);
     (sample_cfg_review, sample_env "v1" 4000,
      OpRunReviewer (Some "w1") None None (Some 1) None (fun _ => "# Current State"))]
    (initial_world sample_files).

(** ** 16. Vocabulary of the statements *)

(** The completion of a reviewer run for attempt [n], as the plugin
    announces it. *)
Definition is_completion (n : Z) (e : Effect) : bool :=
  match e with
  | ENotify source message _ _ _ =>
      String.eqb source ("reviewer/attempt-" +:+ string_of_Z n)
      && String.prefix "Reviewer completed." message
  | _ => false
  end.

(** The number of reviewer runs of attempt [n] that have completed. *)
Definition completed_runs (n : Z) (w : World) : Z :=
  Z.of_nat (length (List.filter (is_completion n) (effects w))).


(** What a successful [ralph_respond] leaves in the store. *)
Definition response_recorded (env : Env) (id ans : string) (w w' : World) : Prop :=
  responses (pending w') !! id = Some (mkResponseRecord ans (env_iso env))
  /\ questions (pending w') = questions (pending w)
  /\ forall other, other <> id ->
       responses (pending w') !! other = responses (pending w) !! other.

(** The call has started a reviewer of its own. *)
Definition is_started (r : ReviewerResult) : bool :=
  match r with
  | RvStarted _ _ _ | RvStartedWaited _ => true
  | _ => false
  end.

(** The call has waited for the reviewer that was already active. *)
Definition is_waited (r : ReviewerResult) : bool :=
  match r with
  | RvWaited _ => true
  | _ => false
  end.

(** Effects that neither create a session nor run a command. *)
Definition quiet (l : list Effect) : Prop :=
  Forall (fun e => is_create e = false /\ is_run_command e = false) l.

(** The verdict [runVerify] reports, which depends on the configuration and
    on how the command ends, not on the world. *)
Definition verify_verdict (cfg : ResolvedConfig) (env : Env) : Verdict :=
  match verify cfg with
  | None => unknown
  | Some v =>
      match command v with
      | [] => unknown
      | _ :: _ =>
          match env_command env with
          | Finished true _ _ => pass
          | Finished false _ _ => fail
          | Threw => unknown
          end
      end
  end.

(** The one command [runVerify] runs, when one is configured. *)
Definition verify_command_effect (P : Plugin) (cfg : ResolvedConfig) : list Effect :=
  match verify cfg with
  | None => []
  | Some v =>
      match command v with
      | [] => []
      | _ :: _ =>
          [ERunCommand (command v) (path_join (worktree P) (nullish (cwd v) "."))
             (if 0 <? verifyTimeoutMinutes cfg
              then Some (verifyTimeoutMinutes cfg * 60000) else None)]
      end
  end.

(** ** 17. Headings of a document (source: [extractHeadings]) *)

(** The leading run of [#] of a line, and what follows it. *)
Fixpoint count_hashes (s : string) : nat * string :=
  match s with
  | String c rest =>
      if Ascii.eqb c "#"%char
      then let '(n, r) := count_hashes rest in (S n, r)
      else (O, s)
  | EmptyString => (O, EmptyString)
  end.

(** [/^#{1,6}\s+/.test(line)]: one to six [#], then white space. *)
Definition is_heading (line : string) : bool :=
  let '(n, r) := count_hashes line in
  (1 <=? n)%nat && (n <=? 6)%nat
  && match r with
     | String c _ => is_js_space c
     | EmptyString => false
     end.

(** The loop of [extractHeadings]: [out] is what has been collected. *)
Fixpoint extractHeadings_loop (max : Z) (lines out : list string) : list string :=
  match lines with
  | [] => out
  | line :: rest =>
      let out' := if is_heading line then out ++ [trim line] else out in
      if max <=? Z.of_nat (length out') then out'
      else extractHeadings_loop max rest out'
  end.

Definition extractHeadings (md : string) (max : Z) : string :=
  join_lines (extractHeadings_loop max (split_lines md) []).

(** ** 18. Delivery of notices (source: [messagePassesVerbosity],
    [rotateConversationLogIfNeeded], [shouldDedupe], [appendConversationEntry],
    [notifySupervisor])

    What a recorded [ENotify] or [EConversation] call does when it is
    delivered: the two logs in the work tree, the toast and the prompt to
    the bound session.  [recentNotices] is the plugin's table of the
    notices it has let through. *)

Inductive NoticeLevel : Type := lvl_info | lvl_warning | lvl_error.

Definition level_str (l : NoticeLevel) : string :=
  match l with
  | lvl_info => "info"
  | lvl_warning => "warning"
  | lvl_error => "error"
  end.

(** [level.toUpperCase()]. *)
Definition level_upper (l : NoticeLevel) : string :=
  match l with
  | lvl_info => "INFO"
  | lvl_warning => "WARNING"
  | lvl_error => "ERROR"
  end.

(** [appendFile(p, content)]: the file is created when it is missing. *)
Definition appendFile (p content : string) (w : World) : World :=
  writeFile p (nullish (files w !! p) EmptyString +:+ content) w.

(** [NodeFs.rm(p, { force: true })]. *)
Definition fs_rm (p : string) (w : World) : World :=
  mkWorld (supervisor w) (sessionMap w) (delete p (files w)) (pending w) (effects w).

(** [NodeFs.rename(src, dst)] with its failure swallowed: nothing happens
    when [src] is missing. *)
Definition fs_rename (src dst : string) (w : World) : World :=
  match files w !! src with
  | Some c => writeFile dst c (fs_rm src w)
  | None => w
  end.

(** The path of [CONVERSATION.<i>.md]. *)
Definition conversation_archive (root : string) (i : Z) : string :=
  path_join root ("CONVERSATION." +:+ string_of_Z i +:+ ".md").

Module Delivery.

Definition messagePassesVerbosity (verbosity : StatusVerbosity) (level : NoticeLevel)
  : bool :=
  match verbosity with
  | verbose => true
  | minimal =>
      match level with
      | lvl_info => false
      | _ => true
      end
  | normal => true
  end.

Definition DEDUPE_WINDOW_MS : Z := 5000.

(** [shouldDedupe(key)] at time [now]: the answer and the table it leaves. *)
Definition shouldDedupe (key : string) (now : Z) (recentNotices : gmap string Z)
  : bool * gmap string Z :=
  let last := recentNotices !! key in
  if truthy_oZ last && (now - nullish last 0 <? DEDUPE_WINDOW_MS)
  then (true, recentNotices)
  else
    let kept := if 200 <? Z.of_nat (size recentNotices) then ∅ else recentNotices in
    (false, <[key := now]> kept).

(** The loop [for (let i = cfg.conversationArchiveCount; i >= 1; i--)] of
    [rotateConversationLogIfNeeded], entered at [i]. *)
Fixpoint rotate_archives (root : string) (count : Z) (i : nat) (w : World) : World :=
  match i with
  | O => w
  | S k =>
      let iz := Z.of_nat (S k) in
      let curr := conversation_archive root iz in
      let w' :=
        if iz =? count then fs_rm curr w
        else
          let next := conversation_archive root (iz + 1) in
          if bool_decide (is_Some (files w !! curr))
          then fs_rename curr next (fs_rm next w)
          else w in
      rotate_archives root count k w'
  end.

Definition rotateConversationLogIfNeeded (P : Plugin) (cfg : ResolvedConfig) (env : Env)
    (w : World) : World :=
  let convPath := path_join (worktree P) FILES.CONVERSATION in
  match files w !! convPath with
  | None => w
  | Some raw =>
      if Z.of_nat (length (split_lines raw)) <=? maxConversationLines cfg then w
      else
        let w1 := rotate_archives (worktree P) (conversationArchiveCount cfg)
                    (Z.to_nat (conversationArchiveCount cfg)) w in
        let w2 := fs_rename convPath (path_join (worktree P) "CONVERSATION.1.md") w1 in
        writeFile convPath
          ("# Conversation Log (append-only)" +:+ nl +:+ nl +:+ "- " +:+ env_iso env
           +:+ " rotated" +:+ nl) w2
  end.

Definition appendConversationEntry (P : Plugin) (cfg : ResolvedConfig) (env : Env)
    (source message : string) (recentNotices : gmap string Z) (w : World)
  : gmap string Z * World :=
  let '(dup, recent1) :=
    shouldDedupe ("conv|" +:+ source +:+ "|" +:+ message) (env_now env) recentNotices in
  if dup then (recent1, w)
  else
    let w1 := rotateConversationLogIfNeeded P cfg env w in
    (recent1,
     appendFile (path_join (worktree P) FILES.CONVERSATION)
       ("- [" +:+ env_iso env +:+ "] [" +:+ source +:+ "] " +:+ message +:+ nl) w1).

Definition notifySupervisor (P : Plugin) (cfg : ResolvedConfig) (env : Env)
    (source message : string) (level : NoticeLevel) (postToConversation : bool)
    (originSessionId : option string) (recentNotices : gmap string Z) (w : World)
  : gmap string Z * World :=
  let '(dup, recent1) :=
    shouldDedupe ("sup|" +:+ source +:+ "|" +:+ level_str level +:+ "|" +:+ message)
      (env_now env) recentNotices in
  if dup then (recent1, w)
  else if negb (messagePassesVerbosity (statusVerbosity cfg) level) then (recent1, w)
  else
    let w1 := appendFile (path_join (worktree P) FILES.SUPERVISOR_LOG)
                ("- [" +:+ env_iso env +:+ "][" +:+ level_upper level +:+ "][" +:+ source
                 +:+ "] " +:+ message +:+ nl) w in
    let '(recent2, w2) := appendConversationEntry P cfg env source message recent1 w1 in
    let w3 := emit (EToast ("Ralph [" +:+ source +:+ "]") (String.substring 0 120 message)
                      (level_str level)) w2 in
    let w4 :=
      if postToConversation
         && truthy_ostr (sessionId (supervisor w3))
         && negb (bool_decide (sessionId (supervisor w3) = originSessionId))
      then emit (ESessionPromptAsync (nullish (sessionId (supervisor w3)) EmptyString)
                   ("[" +:+ source +:+ "] " +:+ message)) w3
      else w3 in
    (recent2, w4).

End Delivery.

(** ** 19. Supervision control (source: [ralph_create_supervisor_session],
    [ralph_end_supervision], [ralph_pause_supervision],
    [ralph_resume_supervision], [ralph_reset_state]) *)

Definition set_paused (v : bool) (s : SupervisorState) : SupervisorState :=
  mkSupervisorState (sessionId s) (sup_attempt s) (currentRalphSessionId s)
    (currentWorkerSessionId s) (sup_done s) v (lastMainIdleAt s) (reviewRequested s)
    (reviewerRuns s) (activeReviewerName s) (activeReviewerAttempt s)
    (activeReviewerSessionId s) (activeReviewerOutputPath s).

(** The six assignments that forget the tracked sessions and the active
    reviewer. *)
Definition clear_tracked (s : SupervisorState) : SupervisorState :=
  set_activeReviewer None None None None
    (set_currentWorkerSessionId None (set_currentRalphSessionId None s)).

(** How a [ralph_create_supervisor_session] call ends. *)
Inductive CreateReport : Type :=
| CrBoundElsewhere (boundTo : string)
| CrNotReady
| CrNotStarted
| CrAlreadyRunning (ralphId workerId : option string) (finished : bool)
| CrStarted (n : Z).

(** [ralph_create_supervisor_session(start_loop?, force_rebind?,
    restart_if_done?)]. *)
Definition tool_ralph_create_supervisor_session (P : Plugin) (cfg : ResolvedConfig)
    (env : Env) (ctx_sessionID : option string)
    (start_loop force_rebind restart_if_done : option bool) (w : World)
  : CreateReport * World :=
  let sessionID := nullish ctx_sessionID "default" in
  if truthy_ostr (sessionId (supervisor w))
     && negb (bool_decide (sessionId (supervisor w) = Some sessionID))
     && negb (bool_decide (force_rebind = Some true))
  then (CrBoundElsewhere (nullish (sessionId (supervisor w)) EmptyString), w)
  else
    let w1 := with_supervisor (fun s => set_paused false (set_sessionId (Some sessionID) s))
                w in
    let w2 := notifySupervisor "supervisor" "Supervisor bound via tool call." "info" false
                (Some sessionID) w1 in
    if negb (checkSetup_ready (worktree P) cfg w2)
    then (CrNotReady,
          notifySupervisor "supervisor"
            "Setup is not ready. Run ralph_doctor(autofix=true) and ralph_bootstrap_plan()."
            "warning" true (Some sessionID) w2)
    else if negb (nullish start_loop true) then (CrNotStarted, w2)
    else
      let w3 :=
        if sup_done (supervisor w2) && bool_decide (restart_if_done = Some true)
        then
          let w2a := with_supervisor
                       (fun s => clear_tracked (set_paused false (set_done false s))) w2 in
          notifySupervisor "supervisor" "Supervisor done-state reset for a new run." "info"
            true (Some sessionID) (persistReviewerState w2a)
        else w2 in
      if truthy_ostr (currentRalphSessionId (supervisor w3))
         || truthy_ostr (currentWorkerSessionId (supervisor w3))
         || sup_done (supervisor w3)
      then (CrAlreadyRunning (currentRalphSessionId (supervisor w3))
              (currentWorkerSessionId (supervisor w3)) (sup_done (supervisor w3)), w3)
      else
        let w4 := with_supervisor (set_attempt 1) w3 in
        let w5 := notifySupervisor "supervisor"
                    "Starting Ralph loop at attempt 1 (manual start)." "info" true
                    (Some sessionID) w4 in
        (CrStarted 1, spawnRalphSession P env 1 w5).

(** Calls to the session host that stop a session. *)
Inductive HostCall : Type :=
| HAbort (id : string)
| HDelete (id : string).

(** [ralph_end_supervision(reason?, delete_sessions?, clear_binding?)], with
    the stop calls it makes to the session host, one group per registered
    session (the registry's iteration order is not modelled).  No command is
    in flight between two operations, so [stopAllCommands] has nothing to
    stop. *)
Definition tool_ralph_end_supervision (ctx_sessionID reason : option string)
    (delete_sessions clear_binding : option bool) (w : World) : list HostCall * World :=
  let sessionID := nullish ctx_sessionID "default" in
  let reason' := trim <$> reason in
  let w1 := with_supervisor (fun s => set_paused true (set_done true s)) w in
  let sessionsToAbort := (map_to_list (sessionMap w1)).*1 in
  let calls :=
    flat_map (fun id => if bool_decide (delete_sessions = Some true)
                        then [HAbort id; HDelete id] else [HAbort id])
             sessionsToAbort in
  let w2 := with_sessionMap (fun _ => ∅) w1 in
  let w3 := persistReviewerState (with_supervisor clear_tracked w2) in
  let w4 := if bool_decide (clear_binding = Some true)
            then with_supervisor (set_sessionId None) w3 else w3 in
  (calls,
   notifySupervisor "supervisor"
     (if truthy_ostr reason'
      then "Supervision ended. Reason: " +:+ nullish reason' EmptyString
      else "Supervision ended by user request.")
     "warning" true (Some sessionID) w4).

(** [ralph_pause_supervision(reason?)]. *)
Definition tool_ralph_pause_supervision (ctx_sessionID reason : option string) (w : World)
  : World :=
  let sessionID := nullish ctx_sessionID "default" in
  let w1 := with_supervisor (set_paused true) w in
  notifySupervisor "supervisor"
    (if truthy_ostr reason
     then "Supervision paused: " +:+ nullish reason EmptyString
     else "Supervision paused.")
    "warning" true (Some sessionID) w1.

(** How a [ralph_resume_supervision] call ends. *)
Inductive ResumeReport : Type :=
| RsResumed
| RsMarkedDone
| RsRunning
| RsStarted (n : Z).

(** [ralph_resume_supervision(start_loop?)]. *)
Definition tool_ralph_resume_supervision (P : Plugin) (env : Env)
    (ctx_sessionID : option string) (start_loop : option bool) (w : World)
  : ResumeReport * World :=
  let sessionID := nullish ctx_sessionID "default" in
  let w1 := if truthy_ostr (sessionId (supervisor w)) then w
            else with_supervisor (set_sessionId (Some sessionID)) w in
  let w2 := with_supervisor (set_paused false) w1 in
  let w3 := notifySupervisor "supervisor" "Supervision resumed." "info" true
              (Some sessionID) w2 in
  if negb (nullish start_loop false) then (RsResumed, w3)
  else if sup_done (supervisor w3) then (RsMarkedDone, w3)
  else if truthy_ostr (currentRalphSessionId (supervisor w3))
          || truthy_ostr (currentWorkerSessionId (supervisor w3))
  then (RsRunning, w3)
  else
    let n := Z.max 1 (if truthy_Z (sup_attempt (supervisor w3))
                      then sup_attempt (supervisor w3) else 1) in
    let w4 := with_supervisor (set_attempt n) w3 in
    (RsStarted n, spawnRalphSession P env n w4).

Inductive ResetScope : Type := scope_attempt | scope_full.

Definition scope_str (s : ResetScope) : string :=
  match s with
  | scope_attempt => "attempt"
  | scope_full => "full"
  end.

(** [ralph_reset_state(scope, confirm, preserve_logs?)].
    [bootstrapRlmInstructions] is the template of that name. *)
Definition tool_ralph_reset_state (P : Plugin) (bootstrapRlmInstructions : string)
    (env : Env) (ctx_sessionID : option string) (scope : ResetScope) (confirm : string)
    (preserve_logs : option bool) (w : World) : Result (ResetScope * bool) * World :=
  if negb (String.eqb confirm "RESET_RALPH_STATE")
  then (Err "Confirmation token mismatch. Set confirm to RESET_RALPH_STATE.", w)
  else
    let root := worktree P in
    let preserveLogs := bool_decide (preserve_logs = Some true) in
    let ts := env_iso env in
    let w1 := writeFile (path_join root FILES.CURR) (bootstrapCurrentState (templates P)) w in
    let w2 := writeFile (path_join root FILES.PREV)
                ("# Previous State (snapshot)" +:+ nl +:+ nl +:+ "Captured: " +:+ ts
                 +:+ nl +:+ nl +:+ "(reset)" +:+ nl) w1 in
    let w3 := writeFile (path_join root FILES.NEXT_RALPH)
                ("# Next Ralph Context" +:+ nl +:+ nl +:+ "- Timestamp: " +:+ ts +:+ nl
                 +:+ "- Verdict: reset" +:+ nl +:+ nl +:+ "## Summary" +:+ nl
                 +:+ "Manual reset" +:+ nl +:+ nl +:+ "## Next Step" +:+ nl
                 +:+ "Set a new goal and run again." +:+ nl) w2 in
    let w4 :=
      match scope with
      | scope_full =>
          let wa := writeFile (path_join root FILES.PLAN)
                      ("# Plan" +:+ nl +:+ nl +:+ "## Goal" +:+ nl +:+ "(fill in)" +:+ nl
                       +:+ nl +:+ "## Requirements" +:+ nl +:+ "- (fill in)" +:+ nl +:+ nl
                       +:+ "## Definition of Done" +:+ nl +:+ "- (fill in)" +:+ nl) w3 in
          let wb := writeFile (path_join root FILES.RLM_INSTR)
                      (interpolate bootstrapRlmInstructions [("timestamp", ts)]) wa in
          writeFile (path_join root FILES.TODOS)
            ("# Todos" +:+ nl +:+ nl +:+ "- [ ] (optional)" +:+ nl) wb
      | scope_attempt => w3
      end in
    let w5 :=
      if preserveLogs then w4
      else
        let wa := writeFile (path_join root FILES.SUPERVISOR_LOG)
                    ("# Supervisor Log (append-only)" +:+ nl +:+ nl +:+ "- " +:+ ts
                     +:+ " reset" +:+ nl) w4 in
        writeFile (path_join root FILES.CONVERSATION)
          ("# Conversation Log (append-only)" +:+ nl +:+ nl +:+ "- " +:+ ts
           +:+ " reset" +:+ nl) wa in
    let w6 := with_supervisor
                (fun s => clear_tracked (set_attempt 0 (set_paused false (set_done false s))))
                w5 in
    let w7 := persistReviewerState w6 in
    let w8 := with_supervisor (fun s => set_reviewerRuns ∅ (set_reviewRequested ∅ s)) w7 in
    (Ok (scope, preserveLogs),
     notifySupervisor "supervisor" ("State reset (" +:+ scope_str scope +:+ ").") "warning"
       true (Some (nullish ctx_sessionID "default")) w8).

(** ** 20. Progress reports and status events (source: [ralph_report],
    [ralph_set_status], the [session.status] branch of [event]) *)

Definition reported_str (r : ReportedStatus) : string :=
  match r with
  | rs_running => "running"
  | rs_blocked => "blocked"
  | rs_done => "done"
  | rs_error => "error"
  end.

Definition set_reportedStatus (r : ReportedStatus) (note : option string) (t : Z)
    (s : SessionState) : SessionState :=
  mkSessionState (role s) (attempt s) (loadedContext s) (workerSpawned s) (lastGrepAt s)
                 (lastGrepQuery s) (Some r) note (Some t) (subAgents s).

(** [ralph_report(message, level?, post_to_conversation?)]; [level] is
    already one of [info], [warning], [error]. *)
Definition tool_ralph_report (env : Env) (ctx_sessionID : option string)
    (message : string) (level : option NoticeLevel) (post_to_conversation : option bool)
    (w : World) : string * World :=
  let sessionID := nullish ctx_sessionID "default" in
  let '(st, w1) := getSession sessionID w in
  let w2 := mutateSession sessionID (set_lastProgressAt (env_now env)) w1 in
  let roleTag := role_str (role st) +:+ "/attempt-" +:+ string_of_Z (attempt st) in
  let postToConv := negb (bool_decide (post_to_conversation = Some false)) in
  ("Reported: " +:+ message,
   notifySupervisor roleTag message (level_str (nullish level lvl_info)) postToConv
     (Some sessionID) w2).

(** [ralph_set_status(status, note?, post_to_conversation?)]. *)
Definition tool_ralph_set_status (env : Env) (ctx_sessionID : option string)
    (status : ReportedStatus) (note : option string) (post_to_conversation : option bool)
    (w : World) : World :=
  let sessionID := nullish ctx_sessionID "default" in
  let '(st, w1) := getSession sessionID w in
  let roleTag := role_str (role st) +:+ "/attempt-" +:+ string_of_Z (attempt st) in
  let w2 := mutateSession sessionID (set_reportedStatus status note (env_now env)) w1 in
  let level :=
    match status with
    | rs_error => "error"
    | rs_blocked => "warning"
    | _ => "info"
    end in
  let msg :=
    if truthy_ostr note
    then "Status set to " +:+ reported_str status +:+ ": " +:+ nullish note EmptyString
    else "Status set to " +:+ reported_str status +:+ "." in
  notifySupervisor roleTag msg level (negb (bool_decide (post_to_conversation = Some false)))
    (Some sessionID) w2.

(** [String.prototype.toLowerCase], on the ASCII range. *)
Definition ascii_lower (c : ascii) : ascii :=
  let n := nat_of_ascii c in
  if (65 <=? n)%nat && (n <=? 90)%nat then ascii_of_nat (n + 32) else c.

Fixpoint string_lower (s : string) : string :=
  match s with
  | EmptyString => EmptyString
  | String c rest => String (ascii_lower c) (string_lower rest)
  end.

(** The [session.status] branch of the [event] hook; [status] is
    [String(event?.status ?? event?.data?.status ?? EmptyString)]. *)
Definition on_session_status (env : Env) (sessionID status : string) (w : World) : World :=
  if negb (truthy_str sessionID) then w
  else if sup_done (supervisor w) || paused (supervisor w) then w
  else
    match sessionMap w !! sessionID with
    | None => w
    | Some state =>
        if role_eqb (role state) worker
           && negb (bool_decide (currentWorkerSessionId (supervisor w) = Some sessionID))
        then w
        else if role_eqb (role state) ralph
                && negb (bool_decide (currentRalphSessionId (supervisor w) = Some sessionID))
        then w
        else
          let w1 := mutateSession sessionID (set_lastProgressAt (env_now env)) w in
          if String.eqb (string_lower status) "error"
          then notifySupervisor
                 (role_str (role state) +:+ "/attempt-" +:+ string_of_Z (attempt state))
                 "Session reported error status." "error" true (Some sessionID) w1
          else w1
    end.

(** ** 21. Polling sub-agents (source: [subagent_await], [subagent_list]) *)

Definition set_subAgents (l : list SubAgentRecord) (s : SessionState) : SessionState :=
  mkSessionState (role s) (attempt s) (loadedContext s) (workerSpawned s) (lastGrepAt s)
                 (lastGrepQuery s) (reportedStatus s) (reportedStatusNote s)
                 (lastProgressAt s) l.

(** [const rec = s.subAgents.find(a => a.name === name);
     if (rec) { rec.status = "done"; rec.result = raw; }]: the first record
    of that name is the one updated. *)
Fixpoint mark_done (name raw : string) (l : list SubAgentRecord) : list SubAgentRecord :=
  match l with
  | [] => []
  | a :: rest =>
      if String.eqb (sa_name a) name
      then mkSubAgentRecord (sa_sessionId a) (sa_name a) (sa_goal a) (sa_spawnedAt a)
             sa_done (Some raw) :: rest
      else a :: mark_done name raw rest
  end.

Inductive AwaitReport : Type :=
| AwNotFound (name : string)
| AwStatus (finished : bool) (name current_state : string).

(** [subagent_await(name, maxLines?)]. *)
Definition tool_subagent_await (P : Plugin) (ctx_sessionID : option string)
    (name : string) (maxLines : option Z) (w : World) : AwaitReport * World :=
  let root := worktree P in
  let sessionID := nullish ctx_sessionID "default" in
  let currPath :=
    path_join (path_join (path_join (path_join root ".opencode") "agents") name)
              "CURRENT_STATE.md" in
  match files w !! currPath with
  | None => (AwNotFound name, w)
  | Some raw =>
      let finished :=
        includes raw (subagentDoneHeading (templates P))
        || includes raw (subagentDoneSentinel (templates P)) in
      let w1 :=
        if finished
        then mutateSession sessionID
               (fun s => set_subAgents (mark_done name raw (subAgents s)) s) w
        else w in
      (AwStatus finished name (clampLines raw (nullish maxLines 200)), w1)
  end.

(** [subagent_list()]. *)
Definition tool_subagent_list (ctx_sessionID : option string) (w : World)
  : list SubAgentRecord * World :=
  let '(st, w1) := getSession (nullish ctx_sessionID "default") w in
  (subAgents st, w1).

(** ** 22. Asking the supervisor (source: [ralph_ask]) *)

(** The polling loop of [ralph_ask]: [poll i] is what the [i]-th read of
    the question store returns while the call waits. *)
Fixpoint ask_wait (id : string) (poll : nat -> PendingInputData) (i remaining : nat)
  : option string :=
  match remaining with
  | O => None
  | S k =>
      match responses (poll i) !! id with
      | Some r => Some (answer r)
      | None => ask_wait id poll (S i) k
      end
  end.

(** [ralph_ask(question, context?, timeout_minutes?)]; [Ok (id, answer)]
    when an answer arrives.  The world returned carries the store as this
    call wrote it. *)
Definition tool_ralph_ask (env : Env) (ctx_sessionID : option string) (question : string)
    (context : option string) (timeout_minutes : option Z)
    (poll : nat -> PendingInputData) (w : World) : Result (string * string) * World :=
  let sessionID := nullish ctx_sessionID "default" in
  let '(st, w1) := getSession sessionID w in
  let id := "ask-" +:+ string_of_Z (env_now env) in
  let roleTag := role_str (role st) +:+ "/attempt-" +:+ string_of_Z (attempt st) in
  let timeoutMinutes := nullish timeout_minutes 15 in
  let data := pending w1 in
  let record := mkQuestionRecord id (role st) (attempt st) question context (env_iso env) in
  let w2 := with_pending (mkPendingInputData (questions data ++ [record]) (responses data))
              w1 in
  let w3 := appendConversationEntry roleTag ("Question (" +:+ id +:+ "): " +:+ question)
              w2 in
  let w4 := emit (EToast "Waiting for supervisor input" (String.substring 0 120 question)
                    "warning") w3 in
  let w5 :=
    if truthy_ostr (sessionId (supervisor w4))
       && negb (bool_decide (sessionId (supervisor w4) = Some sessionID))
    then emit (ESessionPromptAsync (nullish (sessionId (supervisor w4)) EmptyString)
                 ("[" +:+ roleTag +:+ " asks — ID: " +:+ id +:+ "]: " +:+ question +:+ nl
                  +:+ nl +:+ "Call ralph_respond('" +:+ id
                  +:+ "', 'your answer') to unblock.")) w4
    else w4 in
  match ask_wait id poll O (Z.to_nat (timeoutMinutes * 12)) with
  | Some a => (Ok (id, a), w5)
  | None =>
      (Err ("ralph_ask timeout: no response after " +:+ string_of_Z timeoutMinutes
            +:+ " minutes (ID: " +:+ id +:+ ")"), w5)
  end.

(** ** 23. More vocabulary *)

(** No carriage return in the text. *)
Definition cr_free (s : string) : bool :=
  string_forallb (fun c => negb (Ascii.eqb c CR)) s.

(** No opening brace in the text. *)
Definition brace_free (s : string) : bool :=
  string_forallb (fun c => negb (Ascii.eqb c "{"%char)) s.

(** A non-empty run of word characters: what a token may hold. *)
Definition is_word (s : string) : bool :=
  truthy_str s && string_forallb is_word_char s.

(** The heartbeat has nothing to say about session [sid]: there is no such
    id, it is not registered, has no progress stamp, or its last progress
    is less than [heartbeatMinutes] old. *)
Definition heartbeat_calm (cfg : ResolvedConfig) (env : Env) (sid : option string)
    (w : World) : bool :=
  match sid with
  | Some id =>
      negb (truthy_str id)
      || match sessionMap w !! id with
         | Some st =>
             match lastProgressAt st with
             | Some last =>
                 negb (truthy_Z last)
                 || (env_now env - last <? heartbeatMinutes cfg * 60000)
             | None => true
             end
         | None => true
         end
  | None => true
  end.

(** No registered session has more than [M] running sub-agents. *)
Definition within_cap (M : Z) (w : World) : Prop :=
  forall sid st, sessionMap w !! sid = Some st -> running_count (subAgents st) <= M.

(** ** 24. Further sample data *)

(** The installation with the conversation log bounded at 200 lines. *)
Definition sample_cfg_short_log : ResolvedConfig :=
  resolveConfig
    (mkRalphConfig None (Some true) None (Some (JsFinite (3 # 1))) None None
       (Some (mkVerifyConfig ["make"; "test"] None)) None None None None
       None None (Some (JsFinite (200 # 1))) None None None None None None None).

(** A conversation log of 201 entries, one more than that bound lets
    stand. *)
Definition sample_long_log : string := String.concat nl (repeat "- e" 201).

Definition sample_log_files : gmap string string :=
  {[ "/repo/CONVERSATION.md" := sample_long_log ]}.

(** The sample installation paused by hand before anything ran. *)
Definition sample_paused : World :=
  tool_ralph_pause_supervision (Some "main") None (initial_world sample_files).

(** Under the shipped defaults, the manual start: the main session calls
    [ralph_create_supervisor_session] and [r1] is spawned, [r1] delegates
    to the worker [w1] and goes idle. *)
Definition sample_manual_delegated : World :=
  on_session_idle sample_plugin sample_cfg_default (sample_env "x" 2500) "r1"
    (snd (tool_ralph_spawn_worker_impl sample_plugin (sample_env "w1" 2000) (Some "r1")
            (snd (tool_ralph_create_supervisor_session sample_plugin sample_cfg_default
                    (sample_env "r1" 1000) (Some "main") None None None
                    (initial_world sample_files))))).

(** * Properties *)

(** ** Bounded configuration *)

Lemma toBoundedInt_range (v : option JsNumber) (fb lo hi : Z) :
  lo <= hi -> lo <= toBoundedInt v fb lo hi <= hi.
Proof.
  unfold toBoundedInt. intros Hle.
  destruct v as [[| | | q] |]; cbn [Number_isFinite]; lia.
Qed.

Lemma resolveConfig_bounds (raw : RalphConfig) :
  let c := resolveConfig raw in
  1 <= grepRequiredThresholdLines c <= maxRlmSliceLines c
  /\ 10 <= maxRlmSliceLines c <= 2000
  /\ 1 <= maxAttempts c <= 500.
Proof.
  cbn [resolveConfig grepRequiredThresholdLines maxRlmSliceLines maxAttempts].
  pose proof (toBoundedInt_range (raw_maxRlmSliceLines raw)
                (maxRlmSliceLines CONFIG_DEFAULTS) 10 2000 ltac:(lia)) as Hs.
  pose proof (toBoundedInt_range (raw_maxAttempts raw)
                (maxAttempts CONFIG_DEFAULTS) 1 500 ltac:(lia)) as Ha.
  split; [apply toBoundedInt_range; lia | split; assumption].
Qed.

(** A number that is written as an integer inside the bounds is kept. *)
Lemma toBoundedInt_in_range (z fb lo hi : Z) :
  lo <= z <= hi -> toBoundedInt (Some (JsFinite (inject_Z z))) fb lo hi = z.
Proof.
  intros Hz. unfold toBoundedInt, Math_trunc. cbn [Number_isFinite inject_Z Qnum Qden].
  rewrite Z.quot_1_r. lia.
Qed.

(** Fractions are cut towards zero before the clamp; what is not a finite
    number falls back to the default. *)
Example toBoundedInt_samples :
  toBoundedInt (Some (JsFinite (199 # 2))) 200 10 2000 = 99
  /\ toBoundedInt (Some (JsFinite (-7 # 2))) 200 10 2000 = 10
  /\ toBoundedInt (Some JsNaN) 200 10 2000 = 200
  /\ toBoundedInt (Some JsPosInf) 200 10 2000 = 200
  /\ toBoundedInt None 200 10 2000 = 200.
Proof. repeat split; reflexivity. Qed.

(** C7.  Whatever [loadConfig] finds (no file, a document it cannot decode,
    or a decoded document with missing, non-finite, fractional or
    out-of-range numbers, the threshold above the slice limit included), the
    resolved configuration has
    [grepRequiredThresholdLines <= maxRlmSliceLines], with
    [maxRlmSliceLines] in [10, 2000] and [maxAttempts] in [1, 500]. *)
Theorem loadConfig_clamps (src : ConfigSource) :
  grepRequiredThresholdLines (loadConfig src) <= maxRlmSliceLines (loadConfig src)
  /\ 10 <= maxRlmSliceLines (loadConfig src) <= 2000
  /\ 1 <= maxAttempts (loadConfig src) <= 500.
Proof.
  destruct src as [| | raw]; cbn [loadConfig].
  - cbn. lia.
  - pose proof (resolveConfig_bounds empty_RalphConfig) as H. cbn zeta in H. lia.
  - pose proof (resolveConfig_bounds raw) as H. cbn zeta in H. lia.
Qed.

(** The threshold is clamped against the limit as resolved, not as written:
    a raw threshold of 5000 with a raw limit of 50 resolves to 50 and 50. *)
Example resolveConfig_threshold_above_limit :
  let raw := mkRalphConfig None None None None None None None None
               (Some (JsFinite (50 # 1))) None (Some (JsFinite (5000 # 1)))
               None None None None None None None None None None in
  maxRlmSliceLines (resolveConfig raw) = 50
  /\ grepRequiredThresholdLines (resolveConfig raw) = 50.
Proof. split; reflexivity. Qed.

(** ** Protocol gate *)


Lemma truthy_str_false (s : string) : truthy_str s = false <-> s = EmptyString.
Proof. destruct s; cbn; split; congruence. Qed.



(** The sequence the gate is for: once [ralph_load_context] has run in a
    session, no invocation from that session is rejected. *)
Lemma gate_open_after_load_context (P : Plugin) (cfg : ResolvedConfig) (input : HookInput)
    (w : World) (sid : string) :
  hook_session input = Some sid ->
  tool_execute_before P cfg input (ralph_load_context_mark (Some sid) w) = Ok tt.
Proof.
  intros Hs. unfold tool_execute_before, ralph_load_context_mark, mutateSession, getSession.
  rewrite Hs. cbn [nullish].
  destruct (gateDestructiveToolsUntilContextLoaded cfg); cbn [negb]; [| reflexivity].
  destruct (truthy_str sid); cbn [negb]; [| reflexivity].
  destruct (sessionMap w !! sid) as [s |]; cbn [with_sessionMap sessionMap];
    rewrite lookup_insert_eq; cbn [set_loadedContext role loadedContext negb];
    repeat (match goal with |- context [if ?b then _ else _] => destruct b end);
    reflexivity.
Qed.

(** ** Registry lookups leave everything else alone *)

Lemma getSession_files (id : string) (w : World) : files (snd (getSession id w)) = files w.
Proof. unfold getSession. destruct (sessionMap w !! id); reflexivity. Qed.

Lemma getSession_effects (id : string) (w : World) :
  effects (snd (getSession id w)) = effects w.
Proof. unfold getSession. destruct (sessionMap w !! id); reflexivity. Qed.

Lemma getSession_supervisor (id : string) (w : World) :
  supervisor (snd (getSession id w)) = supervisor w.
Proof. unfold getSession. destruct (sessionMap w !! id); reflexivity. Qed.

Lemma getSession_pending (id : string) (w : World) :
  pending (snd (getSession id w)) = pending w.
Proof. unfold getSession. destruct (sessionMap w !! id); reflexivity. Qed.

Lemma getSession_other (id other : string) (w : World) :
  other <> id -> sessionMap (snd (getSession id w)) !! other = sessionMap w !! other.
Proof.
  intros Hne. unfold getSession. destruct (sessionMap w !! id); [reflexivity |].
  cbn [snd with_sessionMap sessionMap]. by rewrite lookup_insert_ne.
Qed.

Lemma getSession_known (id : string) (w : World) (s : SessionState) :
  sessionMap w !! id = Some s -> getSession id w = (s, w).
Proof. intros H. unfold getSession. by rewrite H. Qed.

(** ** How the basic operations act on the fields of the world *)

Lemma effects_emit (e : Effect) (w : World) : effects (emit e w) = effects w ++ [e].
Proof. reflexivity. Qed.

Lemma effects_with_supervisor (f : SupervisorState -> SupervisorState) (w : World) :
  effects (with_supervisor f w) = effects w.
Proof. reflexivity. Qed.

Lemma effects_with_sessionMap (f : gmap string SessionState -> gmap string SessionState)
    (w : World) : effects (with_sessionMap f w) = effects w.
Proof. reflexivity. Qed.

Lemma effects_writeFile (p c : string) (w : World) : effects (writeFile p c w) = effects w.
Proof. reflexivity. Qed.

Lemma effects_ensureFile (p c : string) (w : World) : effects (ensureFile p c w) = effects w.
Proof. unfold ensureFile. destruct (files w !! p); reflexivity. Qed.

Lemma effects_mutateSession (id : string) (f : SessionState -> SessionState) (w : World) :
  effects (mutateSession id f w) = effects w.
Proof.
  unfold mutateSession. pose proof (getSession_effects id w) as H.
  destruct (getSession id w) as [s w1]. exact H.
Qed.

Lemma supervisor_emit (e : Effect) (w : World) : supervisor (emit e w) = supervisor w.
Proof. reflexivity. Qed.

Lemma supervisor_with_supervisor (f : SupervisorState -> SupervisorState) (w : World) :
  supervisor (with_supervisor f w) = f (supervisor w).
Proof. reflexivity. Qed.

Lemma supervisor_with_sessionMap (f : gmap string SessionState -> gmap string SessionState)
    (w : World) : supervisor (with_sessionMap f w) = supervisor w.
Proof. reflexivity. Qed.

Lemma supervisor_writeFile (p c : string) (w : World) :
  supervisor (writeFile p c w) = supervisor w.
Proof. reflexivity. Qed.

Lemma supervisor_ensureFile (p c : string) (w : World) :
  supervisor (ensureFile p c w) = supervisor w.
Proof. unfold ensureFile. destruct (files w !! p); reflexivity. Qed.

Lemma supervisor_mutateSession (id : string) (f : SessionState -> SessionState)
    (w : World) : supervisor (mutateSession id f w) = supervisor w.
Proof.
  unfold mutateSession. pose proof (getSession_supervisor id w) as H.
  destruct (getSession id w) as [s w1]. exact H.
Qed.

Lemma files_emit (e : Effect) (w : World) : files (emit e w) = files w.
Proof. reflexivity. Qed.

Lemma files_with_supervisor (f : SupervisorState -> SupervisorState) (w : World) :
  files (with_supervisor f w) = files w.
Proof. reflexivity. Qed.

Lemma files_with_sessionMap (f : gmap string SessionState -> gmap string SessionState)
    (w : World) : files (with_sessionMap f w) = files w.
Proof. reflexivity. Qed.

Lemma files_writeFile (p c : string) (w : World) :
  files (writeFile p c w) = <[p := c]> (files w).
Proof. reflexivity. Qed.

Lemma files_mutateSession (id : string) (f : SessionState -> SessionState) (w : World) :
  files (mutateSession id f w) = files w.
Proof.
  unfold mutateSession. pose proof (getSession_files id w) as H.
  destruct (getSession id w) as [s w1]. exact H.
Qed.

Lemma sessionMap_emit (e : Effect) (w : World) : sessionMap (emit e w) = sessionMap w.
Proof. reflexivity. Qed.

Lemma sessionMap_with_supervisor (f : SupervisorState -> SupervisorState) (w : World) :
  sessionMap (with_supervisor f w) = sessionMap w.
Proof. reflexivity. Qed.

Lemma sessionMap_with_sessionMap (f : gmap string SessionState -> gmap string SessionState)
    (w : World) : sessionMap (with_sessionMap f w) = f (sessionMap w).
Proof. reflexivity. Qed.

Lemma sessionMap_writeFile (p c : string) (w : World) :
  sessionMap (writeFile p c w) = sessionMap w.
Proof. reflexivity. Qed.

Lemma sessionMap_mutateSession (id : string) (f : SessionState -> SessionState)
    (w : World) :
  sessionMap (mutateSession id f w)
  = <[id := f (nullish (sessionMap w !! id) (freshSession main 0))]> (sessionMap w).
Proof.
  unfold mutateSession, getSession. destruct (sessionMap w !! id) as [s |]; cbn.
  - reflexivity.
  - by rewrite insert_insert_eq.
Qed.

Lemma supervisor_bootstrapSubAgent (root name goal : string) (tpl : PromptTemplates)
    (ts : string) (w : World) :
  supervisor (bootstrapSubAgent root name goal tpl ts w) = supervisor w.
Proof. unfold bootstrapSubAgent. by rewrite !supervisor_ensureFile. Qed.

Lemma effects_bootstrapSubAgent (root name goal : string) (tpl : PromptTemplates)
    (ts : string) (w : World) :
  effects (bootstrapSubAgent root name goal tpl ts w) = effects w.
Proof. unfold bootstrapSubAgent. by rewrite !effects_ensureFile. Qed.

Create Rewrite HintDb world.

#[local] Hint Rewrite effects_emit effects_with_supervisor effects_with_sessionMap
  effects_writeFile effects_ensureFile effects_mutateSession effects_bootstrapSubAgent
  supervisor_emit supervisor_with_supervisor supervisor_with_sessionMap
  supervisor_writeFile supervisor_ensureFile supervisor_mutateSession
  supervisor_bootstrapSubAgent
  files_emit files_with_supervisor files_with_sessionMap files_writeFile
  files_mutateSession
  sessionMap_emit sessionMap_with_supervisor sessionMap_with_sessionMap
  sessionMap_writeFile sessionMap_mutateSession : world.

(** Unfolds the recording operations and pushes the field projections
    through the basic ones. *)
Ltac world_simpl :=
  repeat (first
    [ progress (unfold notifySupervisor, persistReviewerState, appendConversationEntry,
                incReviewerRuns, markReviewRequested, clearReviewRequested)
    | progress (autorewrite with world) ]).

(** ** Slices *)

Lemma js_slice_lookup {A : Type} (l : list A) (a b : Z) (k : nat) :
  0 <= a -> 0 <= b ->
  js_slice l a b !! k =
    if decide (Z.of_nat k < b - a) then l !! (Z.to_nat a + k)%nat else None.
Proof.
  intros Ha Hb. unfold js_slice.
  destruct (a <? 0) eqn:Ea; [lia |]. destruct (b <? 0) eqn:Eb; [lia |].
  set (len := Z.of_nat (length l)).
  destruct (decide (Z.of_nat k < Z.min b len - Z.min a len)) as [Hin | Hout].
  - rewrite lookup_take_lt by lia. rewrite lookup_drop.
    destruct (decide (Z.of_nat k < b - a)) as [_ | Hn]; [| lia].
    f_equal. lia.
  - rewrite lookup_take_ge by lia.
    destruct (decide (Z.of_nat k < b - a)) as [Hlt | _]; [| reflexivity].
    symmetry. apply lookup_ge_None. lia.
Qed.

Lemma recentGrep_after_grep {A : Type} (P : Plugin) (env : Env)
    (search : string -> list string -> A) (ctx file : option string) (query : string)
    (w : World) (r : A) (st : SessionState) (now : Z) :
  fst (tool_rlm_grep P env search ctx file query w) = Ok r ->
  sessionMap (snd (tool_rlm_grep P env search ctx file query w)) !! nullish ctx "default"
    = Some st ->
  recentGrep st now = truthy_Z (env_now env) && (now - env_now env <? 5 * 60 * 1000).
Proof.
  unfold tool_rlm_grep.
  destruct (readFile _ w) as [raw | e]; cbn [fst snd]; [| discriminate].
  intros _. unfold mutateSession.
  destruct (getSession (nullish ctx "default") w) as [s w1].
  cbn [with_sessionMap sessionMap]. rewrite lookup_insert_eq. intros [= <-].
  reflexivity.
Qed.

(** C10.  [rlm_slice] fails when [endLine < startLine]; when the span
    [endLine - startLine + 1] exceeds the resolved [maxRlmSliceLines]; and,
    with [requireGrepBeforeLargeSlice] on, when the span is at least
    [grepRequiredThresholdLines] and the calling session has no [rlm_grep]
    within the last five minutes.  Otherwise, on the text of the file, it
    returns the lines numbered [startLine] to [endLine] (1-indexed,
    inclusive), joined by line feeds: the [k]-th returned line is line
    [startLine + k] of the file. *)
Theorem rlm_slice_spec (P : Plugin) (cfg : ResolvedConfig) (env : Env)
    (ctx file : option string) (startLine endLine : Z) (w : World) :
  let st := fst (getSession (nullish ctx "default") w) in
  let span := endLine - startLine + 1 in
  let res := fst (tool_rlm_slice P cfg env ctx file startLine endLine w) in
  (endLine < startLine -> is_Ok res = false)
  /\ (maxRlmSliceLines cfg < span -> is_Ok res = false)
  /\ (requireGrepBeforeLargeSlice cfg = true ->
      grepRequiredThresholdLines cfg <= span ->
      recentGrep st (env_now env) = false -> is_Ok res = false)
  /\ (1 <= startLine <= endLine ->
      span <= maxRlmSliceLines cfg ->
      requireGrepBeforeLargeSlice cfg = false
      \/ span < grepRequiredThresholdLines cfg
      \/ recentGrep st (env_now env) = true ->
      forall raw : string,
        files w !! path_join (worktree P) (nullish file FILES.RLM_CTX) = Some raw ->
        exists rl : list string,
          res = Ok (mkSliceReport (nullish file FILES.RLM_CTX) startLine endLine
                      (Z.of_nat (length (split_lines raw))) (join_lines rl))
          /\ forall k : nat,
               rl !! k = if decide (Z.of_nat k < span)
                         then split_lines raw !! (Z.to_nat (startLine - 1) + k)%nat
                         else None).
Proof.
  cbn zeta. unfold tool_rlm_slice.
  pose proof (getSession_files (nullish ctx "default") w) as Hf.
  destruct (getSession (nullish ctx "default") w) as [st w1]. cbn [fst snd] in *.
  repeat split.
  - intros Hlt. apply Z.ltb_lt in Hlt. rewrite Hlt. reflexivity.
  - intros Hbig. destruct (endLine <? startLine); [reflexivity |].
    apply Z.ltb_lt in Hbig. rewrite Hbig. reflexivity.
  - intros Hreq Hthr Hrec. destruct (endLine <? startLine); [reflexivity |].
    destruct (maxRlmSliceLines cfg <? endLine - startLine + 1); [reflexivity |].
    apply Z.leb_le in Hthr. rewrite Hreq, Hthr, Hrec. reflexivity.
  - intros [Hs Hse] Hmax Hgate raw Hraw.
    destruct (endLine <? startLine) eqn:E1; [apply Z.ltb_lt in E1; lia |].
    destruct (maxRlmSliceLines cfg <? endLine - startLine + 1) eqn:E2;
      [apply Z.ltb_lt in E2; lia |].
    assert (requireGrepBeforeLargeSlice cfg
            && (grepRequiredThresholdLines cfg <=? endLine - startLine + 1)
            && negb (recentGrep st (env_now env)) = false) as ->.
    { destruct Hgate as [-> | [Hlt | ->]]; [reflexivity | |].
      - apply Z.leb_gt in Hlt. rewrite Hlt. by rewrite andb_false_r.
      - by rewrite andb_false_r. }
    unfold readFile. rewrite Hf, Hraw. cbn [fst].
    exists (js_slice (split_lines raw) (startLine - 1) endLine). split; [reflexivity |].
    intros k. rewrite js_slice_lookup by lia.
    destruct (decide (Z.of_nat k < endLine - (startLine - 1))),
             (decide (Z.of_nat k < endLine - startLine + 1)); try lia; reflexivity.
Qed.

(** A file that cannot be read surfaces as the read error. *)
Lemma rlm_slice_unreadable (P : Plugin) (cfg : ResolvedConfig) (env : Env)
    (ctx file : option string) (startLine endLine : Z) (w : World) :
  files w !! path_join (worktree P) (nullish file FILES.RLM_CTX) = None ->
  is_Ok (fst (tool_rlm_slice P cfg env ctx file startLine endLine w)) = false.
Proof.
  intros Hnone. unfold tool_rlm_slice.
  pose proof (getSession_files (nullish ctx "default") w) as Hf.
  destruct (getSession (nullish ctx "default") w) as [st w1]. cbn [snd] in Hf.
  unfold readFile. rewrite Hf, Hnone.
  repeat (match goal with |- context [if ?b then _ else _] => destruct b end);
    reflexivity.
Qed.

(** ** Sub-agent fan-out *)




(** A call that is not rejected does create the child session and its
    documents, and records the sub-agent with the caller. *)
Example subagent_spawn_accepts :
  let r := tool_subagent_spawn sample_plugin sample_cfg (sample_env "c1" 5000) (Some "w1")
             "auth-tests" "goal" None sample_delegated in
  fst r = Ok (mkSpawnReport "auth-tests" "c1" ".opencode/agents/auth-tests")
  /\ new_effects sample_delegated (snd r)
     = [ESessionCreate "sub-agent: auth-tests" "c1";
        ESessionPrompt "c1" "Sub-agent auth-tests: goal"]
  /\ is_Some (files (snd r) !! "/repo/.opencode/agents/auth-tests/PLAN.md")
  /\ role <$> sessionMap (snd r) !! "c1" = Some subagent
  /\ (map sa_name <$> (subAgents <$> sessionMap (snd r) !! "w1")) = Some ["auth-tests"].
Proof. cbn zeta. repeat split; vm_compute; eauto. Qed.

(** ** Question and answer store *)

Lemma append_cons (c : ascii) (a b : string) : String c a +:+ b = String c (a +:+ b).
Proof. reflexivity. Qed.

Lemma append_assoc (a b c : string) : (a +:+ b) +:+ c = a +:+ (b +:+ c).
Proof.
  induction a as [| x a IH]; [reflexivity |].
  rewrite !append_cons. by rewrite IH.
Qed.

Lemma append_empty_r (a : string) : a +:+ EmptyString = a.
Proof. induction a as [| x a IH]; [reflexivity |]. rewrite append_cons. by rewrite IH. Qed.

Lemma occurs_in_here (x post : string) : occurs_in x (x +:+ post).
Proof. exists EmptyString, post. reflexivity. Qed.

Lemma occurs_in_append_l (x a b : string) : occurs_in x b -> occurs_in x (a +:+ b).
Proof.
  intros (pre & post & ->). exists (a +:+ pre), post. by rewrite append_assoc.
Qed.

Lemma occurs_in_append_r (x a b : string) : occurs_in x a -> occurs_in x (a +:+ b).
Proof.
  intros (pre & post & ->). exists pre, (post +:+ b). by rewrite !append_assoc.
Qed.

Lemma occurs_in_trans (x y z : string) : occurs_in x y -> occurs_in y z -> occurs_in x z.
Proof.
  intros (p1 & q1 & ->) (p2 & q2 & ->).
  exists (p2 +:+ p1), (q1 +:+ q2). by rewrite !append_assoc.
Qed.

Lemma occurs_in_concat (sep x : string) (l : list string) :
  In x l -> occurs_in x (String.concat sep l).
Proof.
  induction l as [| y l IH]; [intros [] |].
  intros [-> | Hin].
  - destruct l as [| z l]; cbn [String.concat].
    + exists EmptyString, EmptyString. by rewrite append_empty_r.
    + apply occurs_in_here.
  - destruct l as [| z l]; [destruct Hin |].
    cbn [String.concat]. do 2 apply occurs_in_append_l. apply IH, Hin.
Qed.

Lemma occurs_in_empty (x : string) : occurs_in x EmptyString -> x = EmptyString.
Proof.
  intros (pre & post & H). destruct pre; [| discriminate H].
  destruct x; [reflexivity | discriminate H].
Qed.

Lemma id_in_pending_line (q : QuestionRecord) : occurs_in (q_id q) (pending_line q).
Proof. unfold pending_line. apply occurs_in_append_l, occurs_in_here. Qed.

Lemma respond_unknown_message_lists (data : PendingInputData) (id : string)
    (q : QuestionRecord) :
  In q (questions data) -> responses data !! q_id q = None ->
  occurs_in (q_id q) (respond_unknown_message data id).
Proof.
  intros Hin Hnone. unfold respond_unknown_message.
  assert (In (pending_line q) (map pending_line (unanswered_questions data))) as Hline.
  { apply in_map. unfold unanswered_questions. apply filter_In. split; [exact Hin |].
    unfold answered. rewrite Hnone. reflexivity. }
  pose proof (occurs_in_concat nl _ _ Hline) as Hocc.
  destruct (truthy_str _) eqn:Ht.
  - do 5 apply occurs_in_append_l. do 4 apply occurs_in_append_l.
    eapply occurs_in_trans; [apply id_in_pending_line | exact Hocc].
  - apply truthy_str_false in Ht. rewrite Ht in Hocc.
    apply occurs_in_empty in Hocc. discriminate Hocc.
Qed.

(** C8.  [ralph_respond(id, answer)]: when [id] is not the id of a stored
    question the call fails, the store is left as it was, and the error
    names every question that has no response yet; when [id] is known and
    already has a response, the call succeeds, the new answer replaces the
    old one and the result says the earlier answer was overwritten; when
    [id] is known and has no response, the answer is recorded as the first
    one. *)
Theorem ralph_respond_spec (env : Env) (id ans : string) (w : World) :
  let data := pending w in
  let res := fst (tool_ralph_respond env id ans w) in
  let w' := snd (tool_ralph_respond env id ans w) in
  ((forall q, In q (questions data) -> q_id q <> id) ->
   w' = w
   /\ exists msg, res = Err msg
        /\ forall q, In q (questions data) -> responses data !! q_id q = None ->
             occurs_in (q_id q) msg)
  /\ ((exists q, In q (questions data) /\ q_id q = id) ->
      forall old, responses data !! id = Some old ->
        res = Ok ("Response updated for question " +:+ id
                  +:+ " (was already answered; new answer overwrites old).")
        /\ response_recorded env id ans w w')
  /\ ((exists q, In q (questions data) /\ q_id q = id) ->
      responses data !! id = None ->
      res = Ok ("Response recorded for question " +:+ id +:+ ".")
      /\ response_recorded env id ans w w').
Proof.
  cbn zeta. unfold tool_ralph_respond.
  destruct (List.find (fun q => String.eqb (q_id q) id) (questions (pending w)))
    as [known |] eqn:Hfind.
  - assert (forall P : Prop, (forall q, In q (questions (pending w)) -> q_id q <> id) -> P)
      as Habs.
    { intros P0 Hno. apply find_some in Hfind as [Hin Heq].
      apply String.eqb_eq in Heq. destruct (Hno _ Hin Heq). }
    assert (response_recorded env id ans w
              (with_pending
                 (mkPendingInputData (questions (pending w))
                    (<[id := mkResponseRecord ans (env_iso env)]> (responses (pending w))))
                 w)) as Hrec.
    { unfold response_recorded. cbn [with_pending pending responses questions].
      split; [apply lookup_insert_eq |]. split; [reflexivity |].
      intros other Hne. by rewrite lookup_insert_ne. }
    split; [intros Hno; exact (Habs _ Hno) |]. split.
    + intros _ old Hold. unfold answered. rewrite Hold.
      rewrite bool_decide_eq_true_2 by eauto. cbn [fst snd]. split; [reflexivity |].
      exact Hrec.
    + intros _ Hnone. unfold answered. rewrite Hnone.
      rewrite bool_decide_eq_false_2 by (intros [? ?]; discriminate). cbn [fst snd].
      split; [reflexivity |]. exact Hrec.
  - assert (forall P : Prop, (exists q, In q (questions (pending w)) /\ q_id q = id) -> P)
      as Habs.
    { intros P0 (q & Hin & Heq). pose proof (find_none _ _ Hfind q Hin) as Hq.
      cbn beta in Hq. rewrite Heq, String.eqb_refl in Hq. discriminate Hq. }
    cbn [fst snd]. split; [| split; intros Hex; exact (Habs _ Hex)].
    intros _. split; [reflexivity |]. eexists. split; [reflexivity |].
    intros q Hin Hnone. by apply respond_unknown_message_lists.
Qed.

(** ** Reviewer gating *)

Lemma new_effects_app (w w' : World) (more : list Effect) :
  effects w' = effects w ++ more -> new_effects w w' = more.
Proof. intros H. unfold new_effects. rewrite H. apply drop_app_length. Qed.

Lemma wait_loop_effects (P : Plugin) (cfg : ResolvedConfig) (env : Env)
    (sid name : string) (n : Z) (path : string) (note : option string)
    (poll : nat -> string) (remaining i : nat) (w : World) :
  exists more,
    effects (snd (waitForReviewerCompletion_loop P cfg env sid name n path note
                    poll i remaining w)) = effects w ++ more.
Proof.
  revert i. induction remaining as [| k IH]; intros i; cbn [waitForReviewerCompletion_loop].
  - exists []. by rewrite app_nil_r.
  - destruct (negb _); [apply IH |].
    cbn [snd]. world_simpl. rewrite <- !app_assoc. eauto.
Qed.

Lemma wait_loop_runs (P : Plugin) (cfg : ResolvedConfig) (env : Env)
    (sid name : string) (n : Z) (path : string) (note : option string)
    (poll : nat -> string) (remaining i : nat) (w : World) :
  reviewerRuns (supervisor (snd (waitForReviewerCompletion_loop P cfg env sid name n path
                                   note poll i remaining w)))
  = reviewerRuns (supervisor w).
Proof.
  revert i. induction remaining as [| k IH]; intros i; cbn [waitForReviewerCompletion_loop].
  - reflexivity.
  - destruct (negb _); [apply IH | reflexivity].
Qed.

(** [start_reviewer] creates one session for the reviewer and counts the run. *)
Lemma start_reviewer_starts (P : Plugin) (cfg : ResolvedConfig) (env : Env)
    (sid : string) (waitForDone : bool) (tm : option Z) (out : option string)
    (poll : nat -> string) (n : Z) (requested : option string) (w : World) :
  let r := start_reviewer P cfg env sid waitForDone tm out poll n requested w in
  is_started (fst r) = true
  /\ In (ESessionCreate
           ("reviewer: " +:+ "reviewer_" +:+ string_of_Z n +:+ "_"
            +:+ string_of_Z (env_now env))
           (nullish (env_created env) ("reviewer-" +:+ string_of_Z (env_now env))))
        (new_effects w (snd r))
  /\ getReviewerRuns n (snd r) = getReviewerRuns n w + 1.
Proof.
  cbn zeta. unfold start_reviewer.
  set (name := "reviewer_" +:+ string_of_Z n +:+ "_" +:+ string_of_Z (env_now env)).
  set (rid := nullish (env_created env) ("reviewer-" +:+ string_of_Z (env_now env))).
  set (path := match out with Some _ => _ | None => _ end).
  set (w9 := notifySupervisor _ _ _ _ _ _).
  assert (exists more, effects w9 = effects w ++ more
                       /\ In (ESessionCreate ("reviewer: " +:+ name) rid) more)
    as (more & Hmore & Hin).
  { subst w9. world_simpl. rewrite <- !app_assoc. eexists. split; [reflexivity |].
    cbn [app In]. tauto. }
  assert (getReviewerRuns n w9 = getReviewerRuns n w + 1) as Hruns.
  { subst w9. unfold getReviewerRuns. world_simpl.
    cbn [set_reviewerRuns reviewerRuns set_activeReviewer].
    rewrite lookup_insert_eq. cbn [nullish]. unfold getReviewerRuns. world_simpl.
    reflexivity. }
  destruct waitForDone; cbn [negb].
  - unfold waitForReviewerCompletion.
    pose proof (wait_loop_effects P cfg env sid name n path requested poll
                  (Z.to_nat (nullish tm 20 * 12)) O w9) as (more2 & He).
    pose proof (wait_loop_runs P cfg env sid name n path requested poll
                  (Z.to_nat (nullish tm 20 * 12)) O w9) as Hr.
    destruct (waitForReviewerCompletion_loop _ _ _ _ _ _ _ _ _ _ _ w9) as [r w10].
    cbn [fst snd is_started] in *. split; [reflexivity |]. split.
    + rewrite (new_effects_app w w10 (more ++ more2))
        by (rewrite He, Hmore; by rewrite app_assoc).
      apply in_or_app. by left.
    + unfold getReviewerRuns in *. rewrite Hr. exact Hruns.
  - cbn [fst snd is_started]. split; [reflexivity |]. split; [| exact Hruns].
    by rewrite (new_effects_app w w9 more).
Qed.

Lemma getSession_lookup (id : string) (w : World) :
  sessionMap (snd (getSession id w)) !! id = Some (fst (getSession id w)).
Proof.
  unfold getSession. destruct (sessionMap w !! id) as [s |] eqn:H; cbn [fst snd].
  - exact H.
  - cbn [with_sessionMap sessionMap]. apply lookup_insert_eq.
Qed.

Lemma review_attempt_supervisor (st : SessionState) (w w' : World) :
  sup_attempt (supervisor w') = sup_attempt (supervisor w) ->
  review_attempt st w' = review_attempt st w.
Proof. intros H. unfold review_attempt. by rewrite H. Qed.

Lemma trim_or_ready_truthy (note : option string) :
  truthy_str match note with
             | Some t => if truthy_str (trim t) then trim t else "ready"
             | None => "ready"
             end = true.
Proof.
  destruct note as [t |]; [| reflexivity].
  destruct (truthy_str (trim t)) eqn:H; [exact H | reflexivity].
Qed.

(** What [ralph_request_review] leaves: the caller registered as it was
    found, the attempt marked as requested with a non-empty note, and every
    other gating field untouched. *)
Lemma request_review_world (ctx note : option string) (w : World) :
  let caller := nullish ctx "default" in
  let st := fst (getSession caller w) in
  let w1 := snd (tool_ralph_request_review ctx note w) in
  sessionMap w1 !! caller = Some st
  /\ truthy_ostr (reviewRequested (supervisor w1) !! review_attempt st w) = true
  /\ sup_attempt (supervisor w1) = sup_attempt (supervisor w)
  /\ reviewerRuns (supervisor w1) = reviewerRuns (supervisor w)
  /\ activeReviewerName (supervisor w1) = activeReviewerName (supervisor w).
Proof.
  cbn zeta. unfold tool_ralph_request_review.
  pose proof (getSession_lookup (nullish ctx "default") w) as Hl.
  pose proof (getSession_supervisor (nullish ctx "default") w) as Hs.
  destruct (getSession (nullish ctx "default") w) as [st w0]. cbn [fst snd] in *.
  assert (review_attempt st w0 = review_attempt st w) as Hn
    by (apply review_attempt_supervisor; by rewrite Hs).
  world_simpl. rewrite Hs, Hn. cbn [set_reviewRequested reviewRequested sup_attempt
    reviewerRuns activeReviewerName].
  rewrite lookup_insert_eq. cbn [truthy_ostr].
  repeat split; [exact Hl | apply trim_or_ready_truthy].
Qed.

(** A call without [force], with the reviewer enabled, from a caller found
    as [st]: the three remaining gates in the order of the source. *)
Lemma run_reviewer_enabled (P : Plugin) (cfg : ResolvedConfig) (env : Env)
    (ctx : option string) (force wait : option bool) (tm : option Z)
    (out : option string) (poll : nat -> string) (w : World) :
  force <> Some true ->
  reviewerEnabled cfg = true ->
  let caller := nullish ctx "default" in
  let st := fst (getSession caller w) in
  let w1 := snd (getSession caller w) in
  let n := review_attempt st w in
  tool_ralph_run_reviewer P cfg env ctx force wait tm out poll w =
    if reviewerRequireExplicitReady cfg
       && negb (truthy_ostr (reviewRequested (supervisor w) !! n))
    then (RvRejected "review not requested", w1)
    else if reviewerMaxRunsPerAttempt cfg <=? getReviewerRuns n w
    then (RvRejected "review run limit reached", w1)
    else if truthy_ostr (activeReviewerName (supervisor w))
    then
      if nullish wait true
         && truthy_ostr (activeReviewerOutputPath (supervisor w))
         && truthy_oZ (activeReviewerAttempt (supervisor w))
      then
        let r :=
          waitForReviewerCompletion P cfg env caller tm poll
            (nullish (activeReviewerName (supervisor w)) EmptyString)
            (nullish (activeReviewerAttempt (supervisor w)) 0)
            (nullish (activeReviewerOutputPath (supervisor w)) EmptyString)
            (reviewRequested (supervisor w)
               !! nullish (activeReviewerAttempt (supervisor w)) 0) w1 in
        (RvWaited (fst r), snd r)
      else (RvAlreadyRunning (nullish (activeReviewerName (supervisor w)) EmptyString)
              (activeReviewerAttempt (supervisor w)), w1)
    else start_reviewer P cfg env caller (nullish wait true) tm out poll n
           (reviewRequested (supervisor w) !! n) w1.
Proof.
  intros Hforce Hen. cbn zeta.
  assert (nullish force false = false) as Hnf.
  { destruct force as [[|] |]; [congruence | reflexivity | reflexivity]. }
  unfold tool_ralph_run_reviewer. rewrite Hnf, Hen. cbn [negb andb].
  pose proof (getSession_supervisor (nullish ctx "default") w) as Hs.
  destruct (getSession (nullish ctx "default") w) as [st w0]. cbn [fst snd] in *.
  rewrite (review_attempt_supervisor st w w0) by (by rewrite Hs).
  unfold getReviewerRuns. rewrite Hs.
  destruct (reviewerRequireExplicitReady cfg && _); [reflexivity |].
  destruct (reviewerMaxRunsPerAttempt cfg <=? _); [reflexivity |].
  destruct (activeReviewerName (supervisor w)) as [a |]; cbn [truthy_ostr nullish];
    [| reflexivity].
  destruct (truthy_str a); [| reflexivity].
  destruct (nullish wait true && _ && _); [| reflexivity].
  destruct (waitForReviewerCompletion _ _ _ _ _ _ _ _ _ _ _) as [r w2]. reflexivity.
Qed.

(** The gates of [ralph_run_reviewer], in the order the code tests them.
    A call without [force]:
    - is rejected as [reviewer disabled] when the reviewer is disabled;
    - otherwise, with [reviewerRequireExplicitReady] and no review requested
      for the call's attempt, is rejected as [review not requested];
    - otherwise, when the attempt's run counter [reviewerRuns] - raised
      when a reviewer is started, see [start_reviewer_starts], and left alone
      when it completes, see [wait_loop_runs] - has reached
      [reviewerMaxRunsPerAttempt], is rejected as [review run limit reached];
    - otherwise, when a reviewer is active, waits for it unless [wait] is
      false, in which case it reports the reviewer as already running;
    - and once [ralph_request_review] has run for the attempt, is no longer
      rejected as not requested: with the counter below the limit and no
      reviewer active it starts one (a session is created for it and the
      run is counted). *)
Theorem run_reviewer_gating (P : Plugin) (cfg : ResolvedConfig) (env : Env)
    (ctx : option string) (force wait : option bool) (tm : option Z)
    (out : option string) (poll : nat -> string) (w : World) :
  force <> Some true ->
  let caller := nullish ctx "default" in
  let st := fst (getSession caller w) in
  let n := review_attempt st w in
  let call := tool_ralph_run_reviewer P cfg env ctx force wait tm out poll in
  let ready :=
    reviewerRequireExplicitReady cfg = false
    \/ truthy_ostr (reviewRequested (supervisor w) !! n) = true in
  (reviewerEnabled cfg = false -> call w = (RvRejected "reviewer disabled", w))
  /\ (reviewerEnabled cfg = true ->
      reviewerRequireExplicitReady cfg = true ->
      reviewRequested (supervisor w) !! n = None ->
      fst (call w) = RvRejected "review not requested")
  /\ (reviewerEnabled cfg = true -> ready ->
      reviewerMaxRunsPerAttempt cfg <= getReviewerRuns n w ->
      fst (call w) = RvRejected "review run limit reached")
  /\ (reviewerEnabled cfg = true -> ready ->
      getReviewerRuns n w < reviewerMaxRunsPerAttempt cfg ->
      forall active, activeReviewerName (supervisor w) = Some active ->
        active <> EmptyString ->
        (wait = Some false ->
         fst (call w) = RvAlreadyRunning active (activeReviewerAttempt (supervisor w)))
        /\ (wait <> Some false ->
            truthy_ostr (activeReviewerOutputPath (supervisor w)) = true ->
            truthy_oZ (activeReviewerAttempt (supervisor w)) = true ->
            is_waited (fst (call w)) = true))
  /\ (reviewerEnabled cfg = true ->
      forall note,
        let w1 := snd (tool_ralph_request_review ctx note w) in
        fst (call w1) <> RvRejected "review not requested"
        /\ (getReviewerRuns n w < reviewerMaxRunsPerAttempt cfg ->
            activeReviewerName (supervisor w) = None ->
            is_started (fst (call w1)) = true
            /\ (exists title id, In (ESessionCreate title id) (new_effects w1 (snd (call w1))))
            /\ getReviewerRuns n (snd (call w1)) = getReviewerRuns n w + 1)).
Proof.
  intros Hforce. cbn zeta.
  assert (forall st0 n0, reviewerRequireExplicitReady cfg = false
            \/ truthy_ostr (reviewRequested (supervisor st0) !! n0) = true ->
          reviewerRequireExplicitReady cfg
          && negb (truthy_ostr (reviewRequested (supervisor st0) !! n0)) = false) as Hrdy.
  { intros st0 n0 [-> | ->]; [reflexivity | apply andb_false_r]. }
  split; [| split; [| split; [| split]]].
  - intros Hdis. unfold tool_ralph_run_reviewer.
    destruct force as [[|] |]; [congruence | |]; cbn [nullish]; by rewrite Hdis.
  - intros Hen Hreq Hnone. rewrite (run_reviewer_enabled _ _ _ _ _ _ _ _ _ _ Hforce Hen).
    cbn zeta. rewrite Hreq, Hnone. reflexivity.
  - intros Hen Hready Hmax. rewrite (run_reviewer_enabled _ _ _ _ _ _ _ _ _ _ Hforce Hen).
    cbn zeta. rewrite (Hrdy _ _ Hready). apply Z.leb_le in Hmax. rewrite Hmax. reflexivity.
  - intros Hen Hready Hruns active Hact Hne.
    rewrite (run_reviewer_enabled _ _ _ _ _ _ _ _ _ _ Hforce Hen).
    cbn zeta. rewrite (Hrdy _ _ Hready). apply Z.leb_gt in Hruns. rewrite Hruns, Hact.
    cbn [truthy_ostr nullish].
    destruct (truthy_str active) eqn:Ht; [| apply truthy_str_false in Ht; contradiction].
    split.
    + intros ->. reflexivity.
    + intros Hwait Hpath Hatt.
      assert (nullish wait true = true) as ->
        by (destruct wait as [[|] |]; [reflexivity | congruence | reflexivity]).
      rewrite Hpath, Hatt. reflexivity.
  - intros Hen note. cbn zeta.
    pose proof (request_review_world ctx note w) as (Hl & Hreq & Hsa & Hrr & Han).
    cbn zeta in *.
    set (w1 := snd (tool_ralph_request_review ctx note w)) in *.
    pose proof (run_reviewer_enabled P cfg env ctx force wait tm out poll w1 Hforce Hen)
      as Hcall.
    cbn zeta in Hcall. rewrite (getSession_known _ _ _ Hl) in Hcall. cbn [fst snd] in Hcall.
    rewrite (review_attempt_supervisor _ w w1 Hsa) in Hcall.
    rewrite Hreq in Hcall. cbn [negb] in Hcall. rewrite andb_false_r in Hcall.
    unfold getReviewerRuns in *. rewrite Hrr, Han in Hcall.
    split.
    + rewrite Hcall.
      destruct (reviewerMaxRunsPerAttempt cfg <=? _); [discriminate |].
      destruct (truthy_ostr (activeReviewerName (supervisor w))).
      * destruct (nullish wait true && _ && _); cbn [fst]; discriminate.
      * pose proof (start_reviewer_starts P cfg env (nullish ctx "default")
                      (nullish wait true) tm out poll
                      (review_attempt (fst (getSession (nullish ctx "default") w)) w)
                      (reviewRequested (supervisor w1)
                         !! review_attempt (fst (getSession (nullish ctx "default") w)) w)
                      w1) as (Hst & _).
        cbn zeta in Hst. intros Heq. rewrite Heq in Hst. discriminate Hst.
    + intros Hruns Hact. rewrite Hcall.
      apply Z.leb_gt in Hruns. rewrite Hruns, Hact. cbn [truthy_ostr].
      pose proof (start_reviewer_starts P cfg env (nullish ctx "default")
                    (nullish wait true) tm out poll
                    (review_attempt (fst (getSession (nullish ctx "default") w)) w)
                    (reviewRequested (supervisor w1)
                       !! review_attempt (fst (getSession (nullish ctx "default") w)) w)
                    w1) as (Hst & Hin & Hcount).
      cbn zeta in *. split; [exact Hst |]. split; [eauto |].
      unfold getReviewerRuns in *. rewrite Hcount, Hrr. reflexivity.
Qed.

(** A quota on completed runs, short of which a call made while a reviewer
    is active waits for it or reports it, is not what the gates implement:
    under the default limit of one run, with the first reviewer of attempt 1
    started and not yet finished (no run has completed), the next call,
    [wait = true], is rejected as over quota. *)
Lemma run_reviewer_active_counterexample :
  ~ (forall (P : Plugin) (cfg : ResolvedConfig) (env : Env) (ctx : option string)
            (wait : option bool) (tm : option Z) (out : option string)
            (poll : nat -> string) (w : World),
       reachable P w ->
       reviewerEnabled cfg = true ->
       let n := review_attempt (fst (getSession (nullish ctx "default") w)) w in
       truthy_ostr (reviewRequested (supervisor w) !! n) = true ->
       completed_runs n w < reviewerMaxRunsPerAttempt cfg ->
       forall active, activeReviewerName (supervisor w) = Some active ->
         let r := fst (tool_ralph_run_reviewer P cfg env ctx None wait tm out poll w) in
         is_waited r = true \/ exists a, r = RvAlreadyRunning active a).
Proof.
  intros H.
  destruct (H sample_plugin sample_cfg_review (sample_env "v2" 9000) (Some "w1")
              (Some true) None None (fun _ => EmptyString) sample_reviewing)
    with (active := "reviewer_1_4000") as [Hw | (a & Ha)].
  - eexists _, _. reflexivity.
  - vm_compute. reflexivity.
  - vm_compute. reflexivity.
  - vm_compute. reflexivity.
  - vm_compute. reflexivity.
  - vm_compute in Hw. discriminate Hw.
  - vm_compute in Ha. discriminate Ha.
Qed.

(** With two runs allowed, the same state is short of the quota: the call
    waits for the active reviewer, which reports at the second poll, or, with
    [wait = false], reports it as already running. *)
Example run_reviewer_active_within_quota :
  fst (tool_ralph_run_reviewer sample_plugin sample_cfg_review2 (sample_env "v2" 9000)
         (Some "w1") None (Some false) None None (fun _ => EmptyString) sample_reviewing)
  = RvAlreadyRunning "reviewer_1_4000" (Some 1)
  /\ fst (tool_ralph_run_reviewer sample_plugin sample_cfg_review2 (sample_env "v2" 9000)
            (Some "w1") None None None None
            (fun i => match i with
                      | O => "# Current State"
                      | _ => "## Final Result" +:+ nl +:+ "looks good"
                      end)
            sample_reviewing)
     = RvWaited (WaitDone ".opencode/reviews/review-attempt-1.md" "reviewer_1_4000").
Proof. split; vm_compute; reflexivity. Qed.

(** C9, evaluated where the code breaks it.  The reviewer is on with the
    default limit of one run per attempt, and [w1] has asked for a review
    of attempt 1.  [w1] calls [ralph_run_reviewer] and waits; the reviewer
    is started and does not finish within the timeout, so the call answers
    that it is still running - the reply whose message tells the caller to
    call [ralph_run_reviewer(wait=true)] again.  The reviewer is active and
    no run of the attempt has completed.  [w1] makes that call: it is
    neither made to wait for the active reviewer nor told that it is
    running, but rejected as [review run limit reached], and nothing
    changes.  The run counter was raised when the reviewer was started, and
    the quota gate stands before the branch for an active reviewer. *)
Theorem waiting_again_hits_run_limit :
  let never := fun _ : nat => "# Current State" in
  let first := tool_ralph_run_reviewer sample_plugin sample_cfg_review (sample_env "v1" 4000)
                 (Some "w1") None None (Some 1) None never sample_review_requested in
  let w := sample_review_waiting in
  let again := tool_ralph_run_reviewer sample_plugin sample_cfg_review (sample_env "v2" 70000)
                 (Some "w1") None (Some true) (Some 1) None never w in
  reviewerEnabled sample_cfg_review = true
  /\ reviewerMaxRunsPerAttempt sample_cfg_review = 1
  /\ fst first
     = RvStartedWaited
         (WaitStillRunning "reviewer_1_4000" ".opencode/reviews/review-attempt-1.md")
  /\ snd first = w
  /\ reachable sample_plugin w
  /\ activeReviewerName (supervisor w) = Some "reviewer_1_4000"
  /\ activeReviewerAttempt (supervisor w) = Some 1
  /\ truthy_ostr (reviewRequested (supervisor w) !! 1) = true
  /\ completed_runs 1 w = 0
  /\ getReviewerRuns 1 w = 1
  /\ again = (RvRejected "review run limit reached", w).
Proof.
  cbn zeta.
  repeat match goal with |- _ /\ _ => split end;
    try (eexists _, _; reflexivity); vm_compute; reflexivity.
Qed.

(** ** The outer loop *)

Lemma quiet_nil : quiet [].
Proof. constructor. Qed.

Lemma quiet_app (a b : list Effect) : quiet a -> quiet b -> quiet (a ++ b).
Proof. unfold quiet. intros Ha Hb. apply Forall_app. by split. Qed.

Lemma quiet_notify (source message level : string) (post : bool) (origin : option string) :
  quiet [ENotify source message level post origin].
Proof. repeat constructor. Qed.

Lemma quiet_toast (title message variant : string) : quiet [EToast title message variant].
Proof. repeat constructor. Qed.

Lemma quiet_no_create (l : list Effect) (title id : string) :
  quiet l -> ~ In (ESessionCreate title id) l.
Proof.
  unfold quiet. intros Hq Hin. rewrite Forall_forall in Hq.
  apply list_elem_of_In in Hin. destruct (Hq _ Hin) as [Hc _]. discriminate Hc.
Qed.

Lemma maybeWarn_quiet (cfg : ResolvedConfig) (env : Env) (sid : option string)
    (label : string) (w : World) :
  supervisor (maybeWarn cfg env sid label w) = supervisor w
  /\ files (maybeWarn cfg env sid label w) = files w
  /\ exists more, effects (maybeWarn cfg env sid label w) = effects w ++ more /\ quiet more.
Proof.
  unfold maybeWarn.
  assert (supervisor w = supervisor w /\ files w = files w
          /\ exists more, effects w = effects w ++ more /\ quiet more) as Hsame.
  { repeat split. exists []. split; [by rewrite app_nil_r | apply quiet_nil]. }
  destruct sid as [id |]; [| exact Hsame].
  destruct (truthy_str id); cbn [negb]; [| exact Hsame].
  destruct (sessionMap w !! id) as [st |]; [| exact Hsame].
  destruct (lastProgressAt st) as [last |]; [| exact Hsame].
  destruct (truthy_Z last); cbn [negb]; [| exact Hsame].
  destruct (env_now env - last <? heartbeatMinutes cfg * 60000); [exact Hsame |].
  world_simpl. repeat split. eexists. split; [reflexivity | apply quiet_notify].
Qed.

Lemma emitHeartbeatWarnings_quiet (cfg : ResolvedConfig) (env : Env) (w : World) :
  supervisor (emitHeartbeatWarnings cfg env w) = supervisor w
  /\ files (emitHeartbeatWarnings cfg env w) = files w
  /\ exists more,
       effects (emitHeartbeatWarnings cfg env w) = effects w ++ more /\ quiet more.
Proof.
  unfold emitHeartbeatWarnings.
  destruct (sup_done (supervisor w) || paused (supervisor w)).
  - repeat split. exists []. split; [by rewrite app_nil_r | apply quiet_nil].
  - set (w1 := maybeWarn cfg env (currentRalphSessionId (supervisor w)) "Strategist" w).
    destruct (maybeWarn_quiet cfg env (currentRalphSessionId (supervisor w)) "Strategist" w)
      as (Hs1 & Hf1 & m1 & He1 & Hq1).
    destruct (maybeWarn_quiet cfg env (currentWorkerSessionId (supervisor w1)) "Worker" w1)
      as (Hs2 & Hf2 & m2 & He2 & Hq2).
    fold w1 in Hs1, Hf1, He1.
    split; [by rewrite Hs2 |]. split; [by rewrite Hf2 |].
    exists (m1 ++ m2). split; [| by apply quiet_app].
    rewrite He2, He1. by rewrite app_assoc.
Qed.

Lemma runAndParseVerify_world (P : Plugin) (cfg : ResolvedConfig) (env : Env) (w : World) :
  fst (fst (runAndParseVerify P cfg env w)) = verify_verdict cfg env
  /\ supervisor (snd (runAndParseVerify P cfg env w)) = supervisor w
  /\ sessionMap (snd (runAndParseVerify P cfg env w)) = sessionMap w
  /\ files (snd (runAndParseVerify P cfg env w)) = files w
  /\ effects (snd (runAndParseVerify P cfg env w))
     = effects w ++ verify_command_effect P cfg.
Proof.
  unfold runAndParseVerify, runVerify, verify_verdict, verify_command_effect.
  destruct (verify cfg) as [v |]; [| cbn; by rewrite app_nil_r].
  destruct (command v) as [| c cs]; [cbn; by rewrite app_nil_r |].
  destruct (env_command env) as [[|] out err |]; cbn; auto.
Qed.

Lemma spawnRalphSession_world (P : Plugin) (env : Env) (n : Z) (w : World) :
  let id := nullish (env_created env) ("ralph-" +:+ string_of_Z (env_now env)) in
  let w' := spawnRalphSession P env n w in
  supervisor w' = set_currentRalphSessionId (Some id) (supervisor w)
  /\ files w' = files w
  /\ sessionMap w' = <[id := set_lastProgressAt (env_now env) (freshSession ralph n)]>
                       (sessionMap w)
  /\ effects w'
     = effects w
       ++ [ESessionCreate ("ralph-strategist-attempt-" +:+ string_of_Z n) id;
           ESessionPromptAsync id
             (interpolate (ralphSessionPrompt (templates P))
                [("attempt", string_of_Z n); ("nextAttempt", string_of_Z (n + 1))]);
           ENotify ("supervisor/attempt-" +:+ string_of_Z n)
             ("Spawned Ralph strategist session " +:+ id +:+ ".") "info" true None].
Proof.
  cbn zeta. unfold spawnRalphSession. world_simpl.
  rewrite lookup_insert_eq. cbn [nullish]. rewrite insert_insert_eq.
  rewrite <- !app_assoc. auto.
Qed.

Lemma rolloverState_world (P : Plugin) (env : Env) (n : Z) (v d : string) (w : World) :
  supervisor (rolloverState P env n v d w) = supervisor w
  /\ sessionMap (rolloverState P env n v d w) = sessionMap w
  /\ effects (rolloverState P env n v d w) = effects w.
Proof. unfold rolloverState. auto. Qed.

Lemma rolloverState_files_eq (P : Plugin) (env : Env) (n : Z) (v d : string)
    (w1 w2 : World) :
  files w1 = files w2 ->
  files (rolloverState P env n v d w1) = files (rolloverState P env n v d w2).
Proof. intros H. unfold rolloverState. world_simpl. by rewrite H. Qed.

Lemma path_join_inj (root a b : string) : path_join root a = path_join root b -> a = b.
Proof.
  unfold path_join. intros H.
  apply (inj (String.app root)) in H. by apply (inj (String.app "/")) in H.
Qed.

(** The rollover: the scratch document archived as the previous state, the
    scratch reset to the bootstrap template, and a summary with the verdict
    written for the next strategist. *)
Lemma rolloverState_documents (P : Plugin) (env : Env) (n : Z) (v d : string) (w : World) :
  let fs := files (rolloverState P env n v d w) in
  let at_root := path_join (worktree P) in
  fs !! at_root FILES.PREV
    = Some ("# Previous State (snapshot)" +:+ nl +:+ nl +:+ "Captured: " +:+ env_iso env
            +:+ nl +:+ nl +:+ nullish (files w !! at_root FILES.CURR) EmptyString +:+ nl)
  /\ fs !! at_root FILES.CURR = Some (bootstrapCurrentState (templates P))
  /\ (exists summary, fs !! at_root FILES.NEXT_RALPH = Some summary
                      /\ occurs_in ("- Verdict: " +:+ v) summary)
  /\ forall p, p <> at_root FILES.PREV -> p <> at_root FILES.CURR ->
               p <> at_root FILES.NEXT_RALPH -> fs !! p = files w !! p.
Proof.
  cbn zeta. unfold rolloverState. world_simpl.
  assert (forall a b, a <> b -> path_join (worktree P) a <> path_join (worktree P) b) as Hne.
  { intros a b Hab Heq. apply Hab. by apply path_join_inj in Heq. }
  split; [| split; [| split]].
  - rewrite lookup_insert_ne by (apply Hne; discriminate).
    rewrite lookup_insert_ne by (apply Hne; discriminate).
    by rewrite lookup_insert_eq.
  - rewrite lookup_insert_ne by (apply Hne; discriminate).
    by rewrite lookup_insert_eq.
  - rewrite lookup_insert_eq. eexists. split; [reflexivity |].
    do 6 apply occurs_in_append_l. rewrite <- append_assoc. apply occurs_in_here.
  - intros p H1 H2 H3. by rewrite !lookup_insert_ne.
Qed.

(** The three documents of the rollover, word for word. *)
Lemma rolloverState_scratch (P : Plugin) (env : Env) (n : Z) (v d : string) (w : World) :
  let fs := files (rolloverState P env n v d w) in
  let at_root := path_join (worktree P) in
  fs !! at_root FILES.PREV
    = Some ("# Previous State (snapshot)" +:+ nl +:+ nl +:+ "Captured: " +:+ env_iso env
            +:+ nl +:+ nl +:+ nullish (files w !! at_root FILES.CURR) EmptyString +:+ nl)
  /\ fs !! at_root FILES.CURR = Some (bootstrapCurrentState (templates P))
  /\ fs !! at_root FILES.NEXT_RALPH
     = Some ("# Next Ralph Context" +:+ nl +:+ nl +:+ "- Timestamp: " +:+ env_iso env
             +:+ nl +:+ "- Verdict: " +:+ v +:+ nl +:+ nl +:+ "## Summary" +:+ nl
             +:+ ("Attempt " +:+ string_of_Z n +:+ " — verification " +:+ v +:+ "."
                  +:+ nl +:+ nl +:+ clampLines d 120)
             +:+ nl +:+ nl +:+ "## Next Step" +:+ nl
             +:+ interpolate (continuePrompt (templates P))
                   [("attempt", string_of_Z n); ("verdict", v)]
             +:+ nl).
Proof.
  cbn zeta. unfold rolloverState. world_simpl.
  assert (forall a b, a <> b -> path_join (worktree P) a <> path_join (worktree P) b) as Hne.
  { intros a b Hab Heq. apply Hab. by apply path_join_inj in Heq. }
  split; [| split].
  - rewrite lookup_insert_ne by (apply Hne; discriminate).
    rewrite lookup_insert_ne by (apply Hne; discriminate).
    by rewrite lookup_insert_eq.
  - rewrite lookup_insert_ne by (apply Hne; discriminate).
    by rewrite lookup_insert_eq.
  - by rewrite lookup_insert_eq.
Qed.

Lemma verdict_eqb_pass (v : Verdict) : verdict_eqb v pass = true <-> v = pass.
Proof. destruct v; cbn; split; congruence. Qed.

(** The three ways [handleWorkerIdle] ends once the verdict is in. *)
Lemma handleWorkerIdle_verdict_pass (P : Plugin) (cfg : ResolvedConfig) (env : Env)
    (sid : string) (d : string) (w : World) :
  let w' := handleWorkerIdle_verdict P cfg env sid pass d w in
  supervisor w' = set_done true (supervisor w)
  /\ files w' = <[path_join (worktree P) FILES.NEXT_RALPH :=
                    interpolate (doneFileContent (templates P))
                      [("timestamp", env_iso env)]]> (files w)
  /\ sessionMap w' = sessionMap w
  /\ exists more, effects w' = effects w ++ more /\ quiet more.
Proof.
  cbn zeta. unfold handleWorkerIdle_verdict. cbn [verdict_eqb]. world_simpl.
  repeat split. rewrite <- !app_assoc. eexists. split; [reflexivity |].
  apply (quiet_app [_] [_]); [apply quiet_toast | apply quiet_notify].
Qed.

Lemma handleWorkerIdle_verdict_stop (P : Plugin) (cfg : ResolvedConfig) (env : Env)
    (sid : string) (v : Verdict) (d : string) (w : World) :
  v <> pass -> maxAttempts cfg <= sup_attempt (supervisor w) ->
  let w' := handleWorkerIdle_verdict P cfg env sid v d w in
  supervisor w' = supervisor w
  /\ files w' = files w
  /\ sessionMap w' = sessionMap w
  /\ exists more, effects w' = effects w ++ more /\ quiet more.
Proof.
  intros Hv Hmax. cbn zeta. unfold handleWorkerIdle_verdict.
  destruct (verdict_eqb v pass) eqn:E; [apply verdict_eqb_pass in E; contradiction |].
  apply Z.leb_le in Hmax. rewrite Hmax. world_simpl.
  repeat split. rewrite <- !app_assoc. eexists. split; [reflexivity |].
  apply (quiet_app [_] [_]); [apply quiet_toast | apply quiet_notify].
Qed.

Lemma handleWorkerIdle_verdict_next (P : Plugin) (cfg : ResolvedConfig) (env : Env)
    (sid : string) (v : Verdict) (d : string) (w : World) :
  v <> pass -> sup_attempt (supervisor w) < maxAttempts cfg ->
  let n := sup_attempt (supervisor w) in
  let id := nullish (env_created env) ("ralph-" +:+ string_of_Z (env_now env)) in
  let w' := handleWorkerIdle_verdict P cfg env sid v d w in
  supervisor w' = set_currentRalphSessionId (Some id) (set_attempt (n + 1) (supervisor w))
  /\ files w' = files (rolloverState P env n (verdict_str v) d w)
  /\ sessionMap w' = <[id := set_lastProgressAt (env_now env) (freshSession ralph (n + 1))]>
                       (sessionMap w)
  /\ exists before after,
       effects w' = effects w ++ before
                    ++ [ESessionCreate ("ralph-strategist-attempt-" +:+ string_of_Z (n + 1)) id]
                    ++ after
       /\ quiet before /\ quiet after.
Proof.
  intros Hv Hlt. cbn zeta. unfold handleWorkerIdle_verdict.
  destruct (verdict_eqb v pass) eqn:E; [apply verdict_eqb_pass in E; contradiction |].
  apply Z.leb_gt in Hlt. rewrite Hlt.
  set (w5 := notifySupervisor _ _ _ _ _ w).
  set (w6 := with_supervisor _ w5).
  assert (sup_attempt (supervisor w6) = sup_attempt (supervisor w) + 1) as Hn by reflexivity.
  set (w7 := rolloverState P env _ _ _ w6).
  destruct (rolloverState_world P env (sup_attempt (supervisor w6) - 1) (verdict_str v) d w6)
    as (Hs7 & Hm7 & He7).
  fold w7 in Hs7, Hm7, He7.
  destruct (spawnRalphSession_world P env (sup_attempt (supervisor w7)) w7)
    as (Hs & Hf & Hm & He).
  cbn zeta in *. rewrite Hs, Hf, Hm, He, Hs7, Hm7, He7, Hn.
  split; [reflexivity |]. split.
  - subst w7. rewrite Hn. replace (sup_attempt (supervisor w) + 1 - 1)
      with (sup_attempt (supervisor w)) by lia.
    by apply rolloverState_files_eq.
  - split; [reflexivity |].
    subst w6 w5. world_simpl. rewrite <- !app_assoc.
    eexists [_], [_; _]. split; [reflexivity |]. split; [apply quiet_notify |].
    repeat constructor.
Qed.

Lemma runAndParseVerify_fst (P : Plugin) (cfg : ResolvedConfig) (env : Env) (w1 w2 : World) :
  fst (runAndParseVerify P cfg env w1) = fst (runAndParseVerify P cfg env w2).
Proof.
  unfold runAndParseVerify, runVerify.
  destruct (verify cfg) as [v |]; [| reflexivity].
  destruct (command v); [reflexivity |].
  destruct (env_command env) as [[|] ? ? |]; reflexivity.
Qed.

(** Up to the verdict: with the guards passed, [handleWorkerIdle] clears the
    active worker, notifies, runs the verification and hands over to
    [handleWorkerIdle_verdict]. *)
Lemma handleWorkerIdle_reaches_verdict (P : Plugin) (cfg : ResolvedConfig) (env : Env)
    (sid : string) (w : World) :
  currentWorkerSessionId (supervisor w) = Some sid ->
  sup_done (supervisor w) = false ->
  enabled cfg = true ->
  autoStartOnMainIdle cfg = true ->
  exists w4 pre,
    handleWorkerIdle P cfg env sid w
    = handleWorkerIdle_verdict P cfg env sid (verify_verdict cfg env)
        (snd (fst (runAndParseVerify P cfg env w))) w4
    /\ supervisor w4 = set_currentWorkerSessionId None (supervisor w)
    /\ files w4 = files w
    /\ sessionMap w4 = sessionMap w
    /\ effects w4 = effects w ++ pre ++ verify_command_effect P cfg
    /\ quiet pre.
Proof.
  intros Hcur Hdone Hen Hauto. unfold handleWorkerIdle.
  rewrite Hcur, Hdone, Hen, Hauto. rewrite bool_decide_eq_true_2 by reflexivity.
  cbn [negb].
  set (w1 := with_supervisor (set_currentWorkerSessionId None) w).
  set (w2 := match _ ≫= reportedStatus with Some _ => w1 | None => _ end).
  set (w3 := notifySupervisor _ _ _ _ _ w2).
  assert (supervisor w2 = supervisor w1 /\ files w2 = files w /\ sessionMap w2 = sessionMap w
          /\ exists m, effects w2 = effects w ++ m /\ quiet m) as (Hs2 & Hf2 & Hm2 & m & He2 & Hq2).
  { subst w2. destruct (_ ≫= reportedStatus).
    - repeat split. exists []. split; [by rewrite app_nil_r | apply quiet_nil].
    - repeat split. eexists. split; [reflexivity | apply quiet_notify]. }
  destruct (runAndParseVerify_world P cfg env w3) as (Hv & Hs & Hm & Hf & He).
  pose proof (runAndParseVerify_fst P cfg env w3 w) as Hfst.
  destruct (runAndParseVerify P cfg env w3) as [[verdict details] w4].
  cbn [fst snd] in *. exists w4. eexists (m ++ [_]).
  split; [rewrite <- Hfst; cbn [snd]; by rewrite Hv |].
  split; [by rewrite Hs |]. split; [by rewrite Hf |]. split; [by rewrite Hm |].
  split.
  - rewrite He. subst w3. world_simpl. rewrite He2. by rewrite <- !app_assoc.
  - apply quiet_app; [exact Hq2 | apply quiet_notify].
Qed.

Lemma quiet_creates (l : list Effect) : quiet l -> Forall (fun e => is_create e = false) l.
Proof.
  unfold quiet. intros H. eapply Forall_impl; [exact H |]. by intros e [He _].
Qed.

Lemma verify_command_no_create (P : Plugin) (cfg : ResolvedConfig) :
  Forall (fun e => is_create e = false) (verify_command_effect P cfg).
Proof.
  unfold verify_command_effect. destruct (verify cfg) as [v |]; [| constructor].
  destruct (command v); repeat constructor.
Qed.

(** What one call of [handleWorkerIdle] does once the verification has run:
    - on [pass], [done] becomes true, the completion marker is written to
      [AGENT_CONTEXT_FOR_NEXT_RALPH.md], the attempt counter is unchanged and
      no session is created;
    - on [fail] or [unknown] with the attempt counter at or above
      [maxAttempts], the counter is unchanged, [done] stays false, no session
      is created and none of the three scratch documents is written;
    - on [fail] or [unknown] below the bound, the counter grows by exactly
      one, [done] stays false, the scratch documents are rolled over - the
      old [CURRENT_STATE.md] becomes the snapshot in [PREVIOUS_STATE.md],
      [CURRENT_STATE.md] is the bootstrap template again and
      [AGENT_CONTEXT_FOR_NEXT_RALPH.md] holds the verdict, the clamped
      details and the continue prompt - and a strategist session for the
      new attempt number is created, registered and tracked as the active
      strategist. *)
Theorem worker_idle_after_verify (P : Plugin) (cfg : ResolvedConfig) (env : Env)
    (sid : string) (w : World) :
  currentWorkerSessionId (supervisor w) = Some sid ->
  sup_done (supervisor w) = false ->
  enabled cfg = true ->
  autoStartOnMainIdle cfg = true ->
  let w' := handleWorkerIdle P cfg env sid w in
  let n := sup_attempt (supervisor w) in
  let v := fst (fst (runAndParseVerify P cfg env w)) in
  let details := snd (fst (runAndParseVerify P cfg env w)) in
  (v = pass ->
   sup_done (supervisor w') = true
   /\ files w' !! path_join (worktree P) FILES.NEXT_RALPH
      = Some (interpolate (doneFileContent (templates P)) [("timestamp", env_iso env)])
   /\ sup_attempt (supervisor w') = n
   /\ Forall (fun e => is_create e = false) (new_effects w w'))
  /\ (v <> pass -> maxAttempts cfg <= n ->
      sup_attempt (supervisor w') = n
      /\ sup_done (supervisor w') = false
      /\ (forall name, In name [FILES.PREV; FILES.CURR; FILES.NEXT_RALPH] ->
            files w' !! path_join (worktree P) name
            = files w !! path_join (worktree P) name)
      /\ Forall (fun e => is_create e = false) (new_effects w w'))
  /\ (v <> pass -> n < maxAttempts cfg ->
      sup_attempt (supervisor w') = n + 1
      /\ sup_done (supervisor w') = false
      /\ files w' !! path_join (worktree P) FILES.PREV
         = Some ("# Previous State (snapshot)" +:+ nl +:+ nl +:+ "Captured: "
                 +:+ env_iso env +:+ nl +:+ nl
                 +:+ nullish (files w !! path_join (worktree P) FILES.CURR) EmptyString
                 +:+ nl)
      /\ files w' !! path_join (worktree P) FILES.CURR
         = Some (bootstrapCurrentState (templates P))
      /\ files w' !! path_join (worktree P) FILES.NEXT_RALPH
         = Some ("# Next Ralph Context" +:+ nl +:+ nl +:+ "- Timestamp: " +:+ env_iso env
                 +:+ nl +:+ "- Verdict: " +:+ verdict_str v +:+ nl +:+ nl +:+ "## Summary"
                 +:+ nl
                 +:+ ("Attempt " +:+ string_of_Z n +:+ " — verification " +:+ verdict_str v
                      +:+ "." +:+ nl +:+ nl +:+ clampLines details 120)
                 +:+ nl +:+ nl +:+ "## Next Step" +:+ nl
                 +:+ interpolate (continuePrompt (templates P))
                       [("attempt", string_of_Z n); ("verdict", verdict_str v)]
                 +:+ nl)
      /\ exists id,
           currentRalphSessionId (supervisor w') = Some id
           /\ sessionMap w' !! id
              = Some (set_lastProgressAt (env_now env) (freshSession ralph (n + 1)))
           /\ In (ESessionCreate ("ralph-strategist-attempt-" +:+ string_of_Z (n + 1)) id)
                (new_effects w w')).
Proof.
  intros Hcur Hdone Hen Hauto. cbn zeta.
  destruct (runAndParseVerify_world P cfg env w) as (-> & _).
  destruct (handleWorkerIdle_reaches_verdict P cfg env sid w Hcur Hdone Hen Hauto)
    as (w4 & pre & -> & Hs4 & Hf4 & Hm4 & He4 & Hpre).
  assert (sup_attempt (supervisor w4) = sup_attempt (supervisor w)) as Hn
    by (by rewrite Hs4).
  assert (sup_done (supervisor w4) = false) as Hd by (by rewrite Hs4).
  split; [| split].
  - intros ->.
    destruct (handleWorkerIdle_verdict_pass P cfg env sid
                (snd (fst (runAndParseVerify P cfg env w))) w4)
      as (Hs & Hf & _ & more & He & Hq).
    cbn zeta in *. rewrite Hs, Hf. split; [reflexivity |].
    split; [apply lookup_insert_eq |]. split; [exact Hn |].
    rewrite (new_effects_app w _ (pre ++ verify_command_effect P cfg ++ more))
      by (rewrite He, He4; by rewrite <- !app_assoc).
    repeat apply Forall_app_2;
      auto using quiet_creates, verify_command_no_create.
  - intros Hv Hmax.
    destruct (handleWorkerIdle_verdict_stop P cfg env sid (verify_verdict cfg env)
                (snd (fst (runAndParseVerify P cfg env w))) w4 Hv ltac:(lia))
      as (Hs & Hf & _ & more & He & Hq).
    cbn zeta in *. rewrite Hs, Hf. split; [exact Hn |]. split; [exact Hd |].
    split; [intros name _; by rewrite Hf4 |].
    rewrite (new_effects_app w _ (pre ++ verify_command_effect P cfg ++ more))
      by (rewrite He, He4; by rewrite <- !app_assoc).
    repeat apply Forall_app_2;
      auto using quiet_creates, verify_command_no_create.
  - intros Hv Hlt.
    destruct (handleWorkerIdle_verdict_next P cfg env sid (verify_verdict cfg env)
                (snd (fst (runAndParseVerify P cfg env w))) w4 Hv ltac:(lia))
      as (Hs & Hf & Hm & before & after & He & _ & _).
    cbn zeta in *. rewrite Hs, Hf, Hm, Hn.
    split; [reflexivity |]. split; [exact Hd |].
    rewrite (rolloverState_files_eq P env _ _ _ w4 w Hf4).
    destruct (rolloverState_scratch P env (sup_attempt (supervisor w))
                (verdict_str (verify_verdict cfg env))
                (snd (fst (runAndParseVerify P cfg env w))) w) as (Hprev & Hcurr & Hnext).
    cbn zeta in *. do 3 (split; [assumption |]).
    eexists. split; [reflexivity |]. split; [apply lookup_insert_eq |].
    rewrite (new_effects_app w _
               (pre ++ verify_command_effect P cfg ++ before
                ++ [ESessionCreate
                      ("ralph-strategist-attempt-"
                       +:+ string_of_Z (sup_attempt (supervisor w) + 1))
                      (nullish (env_created env)
                         ("ralph-" +:+ string_of_Z (env_now env)))] ++ after))
      by (rewrite He, He4, Hn; by rewrite <- !app_assoc).
    rewrite !in_app_iff. cbn [In]. tauto.
Qed.

(** C2, evaluated where the code breaks it.  With [maxAttempts = 3] and a
    verify command that always fails, the loop runs its three attempts:
    three strategists and three workers are created, and the third failed
    verification stops at the bound - no session is created, the counter
    stays at 3 and [done] stays false.  Nothing in that state tells the
    exhausted loop from one that has not started: no session is tracked and
    [done] is false.  So the next idle event of the main session - which
    the notice of the stop, prompted to it, brings about - starts the loop
    again: [handleMainIdle] creates a fourth strategist and sets the
    counter back to 1. *)
Theorem exhausted_loop_restarts :
  let w := sample_exhausted in
  let w' := step sample_plugin sample_cfg (sample_env "r4" 11000) (OpSessionIdle "main") w in
  maxAttempts sample_cfg = 3
  /\ reachable sample_plugin w
  /\ List.filter is_create (effects w)
     = [ESessionCreate "ralph-strategist-attempt-1" "r1";
        ESessionCreate "rlm-worker-attempt-1" "w1";
        ESessionCreate "ralph-strategist-attempt-2" "r2";
        ESessionCreate "rlm-worker-attempt-2" "w2";
        ESessionCreate "ralph-strategist-attempt-3" "r3";
        ESessionCreate "rlm-worker-attempt-3" "w3"]
  /\ In (ENotify "worker/attempt-3" "Verification fail. Max attempts (3) reached." "warning"
           true (Some "w3")) (effects w)
  /\ sup_attempt (supervisor w) = 3
  /\ sup_done (supervisor w) = false
  /\ paused (supervisor w) = false
  /\ currentRalphSessionId (supervisor w) = None
  /\ currentWorkerSessionId (supervisor w) = None
  /\ sessionId (supervisor w) = Some "main"
  /\ List.filter is_create (new_effects w w')
     = [ESessionCreate "ralph-strategist-attempt-1" "r4"]
  /\ sup_attempt (supervisor w') = 1
  /\ currentRalphSessionId (supervisor w') = Some "r4".
Proof.
  cbn zeta. split; [vm_compute; reflexivity |].
  split; [eexists _, _; reflexivity |].
  split; [vm_compute; reflexivity |].
  split; [vm_compute; tauto |].
  repeat match goal with |- _ /\ _ => split end; vm_compute; reflexivity.
Qed.

Lemma handleWorkerIdle_verdict_keeps (P : Plugin) (cfg : ResolvedConfig) (env : Env)
    (sid : string) (v : Verdict) (d : string) (w : World) :
  let w' := handleWorkerIdle_verdict P cfg env sid v d w in
  currentWorkerSessionId (supervisor w') = currentWorkerSessionId (supervisor w)
  /\ exists more, effects w' = effects w ++ more.
Proof.
  cbn zeta.
  assert (v = pass \/ v <> pass) as [-> | Hv]
    by (destruct v; [by left | by right | by right]).
  - destruct (handleWorkerIdle_verdict_pass P cfg env sid d w) as (Hs & _ & _ & m & He & _).
    cbn zeta in *. rewrite Hs. eauto.
  - destruct (Z_le_gt_dec (maxAttempts cfg) (sup_attempt (supervisor w))) as [Hmax | Hlt].
    + destruct (handleWorkerIdle_verdict_stop P cfg env sid v d w Hv Hmax)
        as (Hs & _ & _ & m & He & _).
      cbn zeta in *. rewrite Hs. eauto.
    + destruct (handleWorkerIdle_verdict_next P cfg env sid v d w Hv ltac:(lia))
        as (Hs & _ & _ & b & a & He & _).
      cbn zeta in *. rewrite Hs. eauto.
Qed.

(** The guards of [handleWorkerIdle].  On a [session.idle] event for the
    session tracked as the active worker, with supervision neither done nor
    paused: when the configuration has [enabled = false] - the switch that
    turns the outer loop off - the supervisor record is left as it is, the
    worker stays tracked and no command is run; when it has [enabled = true]
    and [autoStartOnMainIdle = true], the active-worker field is cleared and
    the configured verification command is run. *)
Theorem worker_idle_verifies_when_enabled (P : Plugin) (cfg : ResolvedConfig) (env : Env)
    (sid : string) (w : World) :
  sid <> EmptyString ->
  currentWorkerSessionId (supervisor w) = Some sid ->
  sup_done (supervisor w) = false ->
  paused (supervisor w) = false ->
  let w' := on_session_idle P cfg env sid w in
  (enabled cfg = false ->
   supervisor w' = supervisor w /\ quiet (new_effects w w'))
  /\ (enabled cfg = true -> autoStartOnMainIdle cfg = true ->
      currentWorkerSessionId (supervisor w') = None
      /\ forall v c cs, verify cfg = Some v -> command v = c :: cs ->
           In (ERunCommand (c :: cs) (path_join (worktree P) (nullish (cwd v) "."))
                 (if 0 <? verifyTimeoutMinutes cfg
                  then Some (verifyTimeoutMinutes cfg * 60000) else None))
              (new_effects w w')).
Proof.
  intros Hsid Hcur Hdone Hpaused. cbn zeta. unfold on_session_idle.
  destruct (truthy_str sid) eqn:Ht; [| apply truthy_str_false in Ht; contradiction].
  rewrite Hdone, Hpaused. cbn [negb orb].
  destruct (emitHeartbeatWarnings_quiet cfg env w) as (Hs1 & Hf1 & m1 & He1 & Hq1).
  set (w1 := emitHeartbeatWarnings cfg env w) in *.
  rewrite Hs1, Hcur. rewrite bool_decide_eq_true_2 by reflexivity.
  split.
  - intros Hen. unfold handleWorkerIdle. rewrite Hs1, Hcur, Hdone, Hen.
    rewrite bool_decide_eq_true_2 by reflexivity. cbn [negb].
    split; [exact Hs1 |]. by rewrite (new_effects_app w w1 m1).
  - intros Hen Hauto.
    destruct (handleWorkerIdle_reaches_verdict P cfg env sid w1
                ltac:(by rewrite Hs1) ltac:(by rewrite Hs1) Hen Hauto)
      as (w4 & pre & -> & Hs4 & _ & _ & He4 & _).
    destruct (handleWorkerIdle_verdict_keeps P cfg env sid (verify_verdict cfg env)
                (snd (fst (runAndParseVerify P cfg env w1))) w4) as (Hk & more & He).
    cbn zeta in *. rewrite Hk, Hs4. split; [reflexivity |].
    intros v c cs Hv Hc.
    rewrite (new_effects_app w _ (m1 ++ pre ++ verify_command_effect P cfg ++ more))
      by (rewrite He, He4, He1; by rewrite <- !app_assoc).
    unfold verify_command_effect. rewrite Hv, Hc.
    rewrite !in_app_iff. cbn [In]. tauto.
Qed.

(** On an installation whose configuration has [enabled = false], worker
    idle, not done and not paused do not make the handler clear the active
    worker: [w1] stays tracked and nothing is run. *)
Lemma worker_idle_disabled_counterexample :
  ~ (forall (P : Plugin) (cfg : ResolvedConfig) (env : Env) (sid : string) (w : World),
       sid <> EmptyString ->
       currentWorkerSessionId (supervisor w) = Some sid ->
       sup_done (supervisor w) = false ->
       paused (supervisor w) = false ->
       currentWorkerSessionId (supervisor (on_session_idle P cfg env sid w)) = None).
Proof.
  intros H.
  specialize (H sample_plugin sample_cfg_disabled (sample_env "r2" 3000) "w1"
                sample_delegated ltac:(discriminate) eq_refl eq_refl eq_refl).
  vm_compute in H. discriminate H.
Qed.

(** The same event under the shipped defaults plus a verify command: with
    [autoStartOnMainIdle] left at its default [false], the worker's idle
    event changes nothing either. *)
Example worker_idle_under_defaults :
  let cfg := resolveConfig
               (mkRalphConfig None None None None None None
                  (Some (mkVerifyConfig ["make"; "test"] None)) None None None None
                  None None None None None None None None None None) in
  on_session_idle sample_plugin cfg (sample_env "r2" 3000) "w1" sample_delegated
  = sample_delegated.
Proof. vm_compute. reflexivity. Qed.

(** C1, evaluated where the code breaks it.  The installation has the
    shipped defaults, [enabled = true] and [autoStartOnMainIdle = false],
    and a verify command.  The loop is started - by the idle event of the
    main session, since [handleMainIdle] does not test
    [autoStartOnMainIdle], or by [ralph_create_supervisor_session], the
    manual start the option is documented for - and [r1] delegates to the
    worker [w1].  [w1] is the tracked worker and supervision is neither done
    nor paused.  When [w1] goes idle, [handleWorkerIdle] returns at its test
    of [autoStartOnMainIdle]: the active-worker field still holds [w1], no
    command is run, nothing is notified and nothing changes.  With the
    worker tracked for good, a further idle event of the main session and a
    further manual start do not create a session either. *)
Theorem worker_idle_stalls_under_defaults :
  let cfg := sample_cfg_default in
  let idle := fun w => step sample_plugin cfg (sample_env "x" 3000) (OpSessionIdle "w1") w in
  let stalls := fun w =>
    currentWorkerSessionId (supervisor w) = Some "w1"
    /\ sup_done (supervisor w) = false
    /\ paused (supervisor w) = false
    /\ currentWorkerSessionId (supervisor (idle w)) = Some "w1"
    /\ new_effects w (idle w) = []
    /\ idle w = w
    /\ step sample_plugin cfg (sample_env "r9" 9000) (OpSessionIdle "main") w = w
    /\ fst (tool_ralph_create_supervisor_session sample_plugin cfg (sample_env "r9" 9000)
              (Some "main") None None None w)
       = CrAlreadyRunning None (Some "w1") false in
  enabled cfg = true
  /\ autoStartOnMainIdle cfg = false
  /\ verify cfg = Some (mkVerifyConfig ["make"; "test"] None)
  /\ reachable sample_plugin sample_default_delegated
  /\ stalls sample_default_delegated
  /\ stalls sample_manual_delegated.
Proof.
  cbn zeta. do 3 (split; [vm_compute; reflexivity |]).
  split; [eexists _, _; reflexivity |].
  repeat match goal with |- _ /\ _ => split end; vm_compute; reflexivity.
Qed.

(** ** Delegation *)

Lemma spawnRlmWorker_caller (P : Plugin) (env : Env) (n : Z) (w : World) (sid : string)
    (st : SessionState) :
  sessionMap w !! sid = Some st ->
  exists st', sessionMap (snd (spawnRlmWorker P env n w)) !! sid = Some st'
              /\ (st' = st \/ role st' = worker).
Proof.
  intros Hst. unfold spawnRlmWorker. cbn [snd]. world_simpl.
  rewrite lookup_insert_eq. cbn [nullish]. rewrite insert_insert_eq.
  set (wid := nullish (env_created env) _).
  destruct (decide (wid = sid)) as [-> | Hne].
  - rewrite lookup_insert_eq. eexists. split; [reflexivity |]. by right.
  - rewrite lookup_insert_ne by exact Hne. eauto.
Qed.

(** The tests of [ralph_spawn_worker].  The call succeeds only when the
    calling session is registered with the strategist role and has not
    delegated yet (whether or not it is the session tracked as the active
    strategist); a strategist session that has already delegated is rejected
    and nothing changes; and after a successful call every further call from
    the same session is rejected: a strategist session delegates at most
    once. *)
Theorem spawn_worker_once_per_strategist (P : Plugin) (env : Env) (ctx : option string)
    (w : World) :
  let sid := nullish ctx EmptyString in
  let res := fst (tool_ralph_spawn_worker_impl P env ctx w) in
  let w' := snd (tool_ralph_spawn_worker_impl P env ctx w) in
  (is_Ok res = true ->
   exists st, sessionMap w !! sid = Some st /\ role st = ralph /\ workerSpawned st = false)
  /\ (forall st, sessionMap w !! sid = Some st -> role st = ralph ->
        workerSpawned st = true ->
        res = Err "ralph_spawn_worker() has already been called for this attempt."
        /\ w' = w)
  /\ (is_Ok res = true ->
      forall env2, is_Ok (fst (tool_ralph_spawn_worker_impl P env2 ctx w')) = false).
Proof.
  cbn zeta.
  destruct (tool_ralph_spawn_worker_impl P env ctx w) as [res w'] eqn:Hcall.
  cbn [fst snd]. unfold tool_ralph_spawn_worker_impl in Hcall.
  destruct (sessionMap w !! nullish ctx EmptyString) as [st |] eqn:Hst.
  2: { injection Hcall as <- <-. split; [discriminate |].
       split; [intros ? [=] | discriminate]. }
  destruct (role_eqb (role st) ralph) eqn:Hrole; cbn [negb] in Hcall.
  2: { injection Hcall as <- <-. split; [discriminate |]. split; [| discriminate].
       intros st0 [= <-] Hr. rewrite Hr in Hrole. discriminate Hrole. }
  destruct (workerSpawned st) eqn:Hsp.
  { injection Hcall as <- <-. split; [discriminate |]. split; [| discriminate].
    intros st0 [= <-] _ _. auto. }
  assert (sessionMap (mutateSession (nullish ctx EmptyString) (set_workerSpawned true) w)
            !! nullish ctx EmptyString = Some (set_workerSpawned true st)) as Hm.
  { rewrite sessionMap_mutateSession, lookup_insert_eq, Hst. reflexivity. }
  destruct (spawnRlmWorker_caller P env (attempt st) _ _ _ Hm) as (st' & Hst' & Hcase).
  destruct (spawnRlmWorker P env (attempt st) _) as [wid w2]. cbn [fst snd] in *.
  injection Hcall as <- <-.
  split; [| split].
  - intros _. exists st. repeat split; [| exact Hsp]. by destruct (role st).
  - intros st0 [= <-] _ Hs. congruence.
  - intros _ env2. unfold tool_ralph_spawn_worker_impl. world_simpl. rewrite Hst'.
    destruct Hcase as [-> | Hw].
    + cbn [set_workerSpawned role workerSpawned]. rewrite Hrole. reflexivity.
    + rewrite Hw. reflexivity.
Qed.

(** A successful call need not come from the session tracked as the active
    strategist: [r1] went idle without delegating, so no strategist is
    tracked, and its later call still succeeds. *)
Lemma spawn_worker_inactive_counterexample :
  ~ (forall (P : Plugin) (env : Env) (ctx : option string) (w : World),
       reachable P w ->
       is_Ok (fst (tool_ralph_spawn_worker_impl P env ctx w)) = true ->
       exists sid, ctx = Some sid /\ currentRalphSessionId (supervisor w) = Some sid).
Proof.
  intros H.
  destruct (H sample_plugin (sample_env "w9" 3000) (Some "r1") sample_stalled)
    as (sid & _ & Hsid).
  - exists sample_files,
      [(sample_cfg, sample_env "r1" 1000, OpSessionIdle "main");
       (sample_cfg, sample_env "x" 2000, OpSessionIdle "r1")].
    reflexivity.
  - vm_compute. reflexivity.
  - vm_compute in Hsid. discriminate Hsid.
Qed.

(** C5, evaluated where the code breaks it.  [r1], the strategist of
    attempt 1, went idle without delegating; the main session went idle
    again and [r2] was spawned, so [r2] is the active strategist and the
    attempt is still 1.  [ralph_spawn_worker] from [r1], which is not the
    active strategist, succeeds and creates the worker [w1] of attempt 1;
    [ralph_spawn_worker] from [r2] then succeeds as well and creates a second
    worker of attempt 1, [w2].  The tool looks at the role and the
    [workerSpawned] flag of the caller's own record only, so the attempt
    sees two delegations, although its error message speaks of a call made
    already [for this attempt]. *)
Theorem two_delegations_in_one_attempt :
  let u := sample_restarted in
  let c1 := tool_ralph_spawn_worker_impl sample_plugin (sample_env "w1" 6000) (Some "r1") u in
  let c2 := tool_ralph_spawn_worker_impl sample_plugin (sample_env "w2" 7000) (Some "r2")
              (snd c1) in
  reachable sample_plugin u
  /\ sup_attempt (supervisor u) = 1
  /\ currentRalphSessionId (supervisor u) = Some "r2"
  /\ (attempt <$> sessionMap u !! "r1") = Some 1
  /\ (attempt <$> sessionMap u !! "r2") = Some 1
  /\ is_Ok (fst c1) = true
  /\ new_effects u (snd c1) !! 0%nat = Some (ESessionCreate "rlm-worker-attempt-1" "w1")
  /\ sup_attempt (supervisor (snd c1)) = 1
  /\ is_Ok (fst c2) = true
  /\ new_effects (snd c1) (snd c2) !! 0%nat
     = Some (ESessionCreate "rlm-worker-attempt-1" "w2")
  /\ sup_attempt (supervisor (snd c2)) = 1
  /\ tool_ralph_spawn_worker_impl sample_plugin (sample_env "w3" 8000) (Some "r2") (snd c2)
     = (Err "ralph_spawn_worker() has already been called for this attempt.", snd c2).
Proof.
  cbn zeta. split; [eexists _, _; reflexivity |].
  repeat match goal with |- _ /\ _ => split end; vm_compute; reflexivity.
Qed.

(** ** One active session of each kind *)

(** C3, evaluated where the code breaks it.
    Strategists: [r1] is the tracked strategist and has delegated to [w1];
    [w1] goes idle before [r1] does and the verification fails.
    [handleWorkerIdle] then spawns the strategist of attempt 2 while [r1] is
    still in the active-strategist field, and overwrites the field: [r1] is
    no longer tracked although it never went idle and is still registered.
    Workers: with two strategists registered for attempt 1 and [w1] tracked
    as the active worker, [ralph_spawn_worker] from the second strategist
    spawns [w2] and overwrites the active-worker field. *)
Theorem active_session_spawned_while_tracked :
  let w := sample_delegated in
  let w' := step sample_plugin sample_cfg (sample_env "r2" 3000) (OpSessionIdle "w1") w in
  let u := sample_two_strategists in
  let u' := step sample_plugin sample_cfg (sample_env "w2" 7000) (OpSpawnWorker (Some "r2")) u in
  (reachable sample_plugin w
   /\ currentRalphSessionId (supervisor w) = Some "r1"
   /\ In (ESessionCreate "ralph-strategist-attempt-2" "r2") (new_effects w w')
   /\ currentRalphSessionId (supervisor w') = Some "r2"
   /\ role <$> sessionMap w' !! "r1" = Some ralph)
  /\ (reachable sample_plugin u
      /\ currentWorkerSessionId (supervisor u) = Some "w1"
      /\ In (ESessionCreate "rlm-worker-attempt-1" "w2") (new_effects u u')
      /\ currentWorkerSessionId (supervisor u') = Some "w2"
      /\ role <$> sessionMap u' !! "w1" = Some worker).
Proof.
  cbn zeta. split; split.
  - eexists _, _. reflexivity.
  - vm_compute. repeat split. tauto.
  - eexists _, _. reflexivity.
  - vm_compute. repeat split. tauto.
Qed.

(** ** The statements at work on the sample installation *)


(** Lines 2 to 3 of the four-line context file; and a reversed range. *)
Lemma rlm_slice_spec_witness :
  (1 <= 2 <= 3
   /\ exists rl,
        fst (tool_rlm_slice sample_plugin sample_cfg (sample_env "x" 5000) (Some "w1") None
               2 3 (initial_world sample_context_files))
        = Ok (mkSliceReport "CONTEXT_FOR_RLM.md" 2 3 4 (join_lines rl))
        /\ rl !! 0%nat = Some "two" /\ rl !! 1%nat = Some "three" /\ rl !! 2%nat = None)
  /\ (2 < 3
      /\ is_Ok (fst (tool_rlm_slice sample_plugin sample_cfg (sample_env "x" 5000)
                       (Some "w1") None 3 2 (initial_world sample_context_files)))
         = false).
Proof.
  split.
  - split; [lia |].
    destruct (rlm_slice_spec sample_plugin sample_cfg (sample_env "x" 5000) (Some "w1") None
                2 3 (initial_world sample_context_files)) as (_ & _ & _ & Hok).
    destruct (Hok ltac:(lia) ltac:(vm_compute; discriminate)
                ltac:(right; left; vm_compute; reflexivity)
                ("one" +:+ nl +:+ "two" +:+ nl +:+ "three" +:+ nl +:+ "four")
                ltac:(vm_compute; reflexivity)) as (rl & Hres & Hrl).
    exists rl. split; [exact Hres |].
    split; [exact (Hrl 0%nat) |]. split; [exact (Hrl 1%nat) | exact (Hrl 2%nat)].
  - split; [lia |].
    destruct (rlm_slice_spec sample_plugin sample_cfg (sample_env "x" 5000) (Some "w1") None
                3 2 (initial_world sample_context_files)) as (Hrev & _).
    apply Hrev. lia.
Defined.


(** [ask-1] is answered already: the new answer replaces the old one. *)
Lemma ralph_respond_spec_witness :
  (exists q, In q (questions (pending sample_asked)) /\ q_id q = "ask-1")
  /\ responses (pending sample_asked) !! "ask-1"
     = Some (mkResponseRecord "postgres" "2026-01-01T00:02:00.000Z")
  /\ responses (pending (snd (tool_ralph_respond (sample_env "x" 1) "ask-1" "mysql"
                                sample_asked))) !! "ask-1"
     = Some (mkResponseRecord "mysql" "2026-01-01T00:00:00.000Z").
Proof.
  assert (exists q, In q (questions (pending sample_asked)) /\ q_id q = "ask-1") as Hq.
  { eexists. split; [left; reflexivity | reflexivity]. }
  assert (responses (pending sample_asked) !! "ask-1"
          = Some (mkResponseRecord "postgres" "2026-01-01T00:02:00.000Z")) as Hold
    by (vm_compute; reflexivity).
  split; [exact Hq |]. split; [exact Hold |].
  destruct (ralph_respond_spec (sample_env "x" 1) "ask-1" "mysql" sample_asked)
    as (_ & Hupd & _).
  destruct (Hupd Hq _ Hold) as (_ & Hrec & _). exact Hrec.
Defined.

(** With the reviewer on and nothing requested, [w1]'s call is refused. *)
Lemma run_reviewer_gating_witness :
  (None : option bool) <> Some true
  /\ fst (tool_ralph_run_reviewer sample_plugin sample_cfg_review (sample_env "v1" 7000)
            (Some "w1") None (Some false) None None (fun _ => EmptyString) sample_delegated)
     = RvRejected "review not requested".
Proof.
  split; [discriminate |].
  destruct (run_reviewer_gating sample_plugin sample_cfg_review (sample_env "v1" 7000)
              (Some "w1") None (Some false) None None (fun _ => EmptyString)
              sample_delegated ltac:(discriminate)) as (_ & Hnot & _).
  apply Hnot; vm_compute; reflexivity.
Defined.

(** [w1] goes idle on the sample installation: it is no longer tracked. *)
Lemma worker_idle_verifies_when_enabled_witness :
  "w1" <> EmptyString
  /\ currentWorkerSessionId (supervisor sample_delegated) = Some "w1"
  /\ sup_done (supervisor sample_delegated) = false
  /\ paused (supervisor sample_delegated) = false
  /\ currentWorkerSessionId
       (supervisor (on_session_idle sample_plugin sample_cfg (sample_env "r2" 3000) "w1"
                      sample_delegated)) = None.
Proof.
  assert (currentWorkerSessionId (supervisor sample_delegated) = Some "w1") as Hc
    by (vm_compute; reflexivity).
  assert (sup_done (supervisor sample_delegated) = false) as Hd by (vm_compute; reflexivity).
  assert (paused (supervisor sample_delegated) = false) as Hp by (vm_compute; reflexivity).
  split; [discriminate |]. split; [exact Hc |]. split; [exact Hd |]. split; [exact Hp |].
  destruct (worker_idle_verifies_when_enabled sample_plugin sample_cfg
              (sample_env "r2" 3000) "w1" sample_delegated ltac:(discriminate) Hc Hd Hp)
    as (_ & Hon).
  destruct (Hon ltac:(vm_compute; reflexivity) ltac:(vm_compute; reflexivity)) as (Hclr & _).
  exact Hclr.
Defined.

(** The verification fails at attempt 1 of 3: the counter moves to 2. *)
Lemma worker_idle_after_verify_witness :
  currentWorkerSessionId (supervisor sample_delegated) = Some "w1"
  /\ sup_done (supervisor sample_delegated) = false
  /\ enabled sample_cfg = true
  /\ autoStartOnMainIdle sample_cfg = true
  /\ sup_attempt (supervisor (handleWorkerIdle sample_plugin sample_cfg
                                (sample_env "r2" 3000) "w1" sample_delegated))
     = sup_attempt (supervisor sample_delegated) + 1.
Proof.
  assert (currentWorkerSessionId (supervisor sample_delegated) = Some "w1") as Hc
    by (vm_compute; reflexivity).
  assert (sup_done (supervisor sample_delegated) = false) as Hd by (vm_compute; reflexivity).
  assert (enabled sample_cfg = true) as He by (vm_compute; reflexivity).
  assert (autoStartOnMainIdle sample_cfg = true) as Ha by (vm_compute; reflexivity).
  split; [exact Hc |]. split; [exact Hd |]. split; [exact He |]. split; [exact Ha |].
  destruct (worker_idle_after_verify sample_plugin sample_cfg (sample_env "r2" 3000) "w1"
              sample_delegated Hc Hd He Ha) as (_ & _ & Hnext).
  destruct Hnext as (Hn & _); [vm_compute; discriminate | vm_compute; reflexivity |].
  exact Hn.
Defined.

(** [r1] delegates once; its second call is refused. *)
Lemma spawn_worker_once_per_strategist_witness :
  is_Ok (fst (tool_ralph_spawn_worker_impl sample_plugin (sample_env "w1" 2000) (Some "r1")
                sample_started)) = true
  /\ is_Ok (fst (tool_ralph_spawn_worker_impl sample_plugin (sample_env "w2" 2500)
                   (Some "r1")
                   (snd (tool_ralph_spawn_worker_impl sample_plugin (sample_env "w1" 2000)
                           (Some "r1") sample_started)))) = false.
Proof.
  assert (is_Ok (fst (tool_ralph_spawn_worker_impl sample_plugin (sample_env "w1" 2000)
                        (Some "r1") sample_started)) = true) as Hok
    by (vm_compute; reflexivity).
  split; [exact Hok |].
  destruct (spawn_worker_once_per_strategist sample_plugin (sample_env "w1" 2000)
              (Some "r1") sample_started) as (_ & _ & Hagain).
  exact (Hagain Hok (sample_env "w2" 2500)).
Defined.

(** * Further properties *)

(** ** Lines and tokens *)

Lemma split_lines_nonempty (s : string) : split_lines s <> [].
Proof.
  induction s as [| c rest IH]; cbn [split_lines]; [discriminate |].
  destruct (Ascii.eqb c LF); [discriminate |].
  destruct rest as [| c' rest']; [discriminate |].
  destruct (Ascii.eqb c CR && Ascii.eqb c' LF); [discriminate |].
  destruct (split_lines (String c' rest')); discriminate.
Qed.

Lemma join_lines_cons_char (c : ascii) (l : string) (ls : list string) :
  join_lines (String c l :: ls) = String c (join_lines (l :: ls)).
Proof. unfold join_lines. destruct ls; reflexivity. Qed.

Lemma join_lines_cons_empty (l : string) (ls : list string) :
  join_lines (EmptyString :: l :: ls) = String LF (join_lines (l :: ls)).
Proof. reflexivity. Qed.

Lemma js_slice_all {A : Type} (l : list A) : js_slice l 0 (Z.of_nat (length l)) = l.
Proof.
  unfold js_slice. cbn [Z.ltb Z.compare].
  destruct (Z.of_nat (length l) <? 0) eqn:E; [apply Z.ltb_lt in E; lia |].
  rewrite Z.min_id. replace (Z.min 0 (Z.of_nat (length l))) with 0 by lia.
  rewrite Z.sub_0_r, Nat2Z.id. cbn [Z.to_nat drop]. apply firstn_all.
Qed.

Lemma split_join_lines (s : string) : cr_free s = true -> join_lines (split_lines s) = s.
Proof.
  induction s as [| c rest IH]; [reflexivity |].
  unfold cr_free; cbn [string_forallb]; intros [Hc Hrest]%andb_true_iff.
  fold (cr_free rest) in Hrest; specialize (IH Hrest).
  cbn [split_lines].
  destruct (Ascii.eqb c LF) eqn:Elf.
  - apply Ascii.eqb_eq in Elf; subst c.
    pose proof (split_lines_nonempty rest) as Hne.
    destruct (split_lines rest) as [| l ls]; [contradiction |].
    rewrite join_lines_cons_empty, IH; reflexivity.
  - destruct rest as [| c' rest']; [reflexivity |].
    apply negb_true_iff in Hc; rewrite Hc; cbn [andb].
    pose proof (split_lines_nonempty (String c' rest')) as Hne.
    destruct (split_lines (String c' rest')) as [| l ls]; [contradiction |].
    rewrite join_lines_cons_char, IH; reflexivity.
Qed.

(** X1.  Reading a whole file back: for a file without carriage returns,
    [rlm_slice] from line 1 to the last line returns the text of the file
    itself (when the span is within the slice limit and below the grep
    threshold, or the grep requirement is off). *)
Theorem rlm_slice_whole_file (P : Plugin) (cfg : ResolvedConfig) (env : Env)
    (ctx file : option string) (w : World) (raw : string) :
  let n := Z.of_nat (length (split_lines raw)) in
  files w !! path_join (worktree P) (nullish file FILES.RLM_CTX) = Some raw ->
  cr_free raw = true ->
  n <= maxRlmSliceLines cfg ->
  requireGrepBeforeLargeSlice cfg = false \/ n < grepRequiredThresholdLines cfg ->
  fst (tool_rlm_slice P cfg env ctx file 1 n w)
  = Ok (mkSliceReport (nullish file FILES.RLM_CTX) 1 n n raw).
Proof.
  cbn zeta. intros Hraw Hcr Hmax Hgate. unfold tool_rlm_slice.
  pose proof (getSession_files (nullish ctx "default") w) as Hf.
  destruct (getSession (nullish ctx "default") w) as [st w1]. cbn [snd] in Hf.
  pose proof (split_lines_nonempty raw) as Hne.
  set (n := Z.of_nat (length (split_lines raw))) in *.
  assert (1 <= n) as Hn.
  { subst n. destruct (split_lines raw); [contradiction | cbn [length]; lia]. }
  destruct (n <? 1) eqn:E1; [apply Z.ltb_lt in E1; lia |].
  replace (n - 1 + 1) with n by lia.
  destruct (maxRlmSliceLines cfg <? n) eqn:E2; [apply Z.ltb_lt in E2; lia |].
  assert (requireGrepBeforeLargeSlice cfg && (grepRequiredThresholdLines cfg <=? n)
          && negb (recentGrep st (env_now env)) = false) as ->.
  { destruct Hgate as [-> | Hlt]; [reflexivity |].
    apply Z.leb_gt in Hlt. rewrite Hlt. by rewrite andb_false_r. }
  unfold readFile. rewrite Hf, Hraw. cbn [fst]. replace (1 - 1) with 0 by lia.
  subst n. rewrite js_slice_all, split_join_lines by exact Hcr. reflexivity.
Qed.

(** ** Tokens of a template *)

Lemma length_append (a b : string) :
  String.length (a +:+ b) = (String.length a + String.length b)%nat.
Proof. induction a as [| c a IH]; [reflexivity |]. rewrite append_cons. cbn. by rewrite IH. Qed.

Lemma take_word_app (s w r : string) : take_word s = (w, r) -> s = w +:+ r.
Proof.
  revert w r. induction s as [| c s IH]; cbn [take_word]; intros w r.
  - intros [= <- <-]. reflexivity.
  - destruct (is_word_char c).
    + destruct (take_word s) as [w' r'] eqn:E. intros [= <- <-].
      rewrite append_cons. f_equal. by apply IH.
    + intros [= <- <-]. reflexivity.
Qed.

(** A match at the head of [s] is the token [{{key}}], and [len] is its
    length. *)
Lemma match_token_shape (s key : string) (len : nat) :
  match_token s = Some (key, len) ->
  exists post, s = "{{" +:+ key +:+ "}}" +:+ post /\ len = (String.length key + 4)%nat.
Proof.
  unfold match_token.
  destruct s as [| c1 s]; [discriminate |].
  destruct (Ascii.eqb c1 "{"%char) eqn:E1;
    [apply Ascii.eqb_eq in E1; subst c1 | ].
  2: { destruct c1 as [[] [] [] [] [] [] [] []]; discriminate. }
  destruct s as [| c2 s]; [discriminate |].
  destruct (Ascii.eqb c2 "{"%char) eqn:E2;
    [apply Ascii.eqb_eq in E2; subst c2 | ].
  2: { destruct c2 as [[] [] [] [] [] [] [] []]; discriminate. }
  destruct (take_word s) as [k r] eqn:Et. apply take_word_app in Et. subst s.
  destruct k as [| kc k]; [discriminate |].
  destruct r as [| r1 r]; [discriminate |].
  destruct (Ascii.eqb r1 "}"%char) eqn:E3;
    [apply Ascii.eqb_eq in E3; subst r1 | ].
  2: { destruct r1 as [[] [] [] [] [] [] [] []]; discriminate. }
  destruct r as [| r2 r]; [discriminate |].
  destruct (Ascii.eqb r2 "}"%char) eqn:E4;
    [apply Ascii.eqb_eq in E4; subst r2 | ].
  2: { destruct r2 as [[] [] [] [] [] [] [] []]; discriminate. }
  intros [= <- <-]. exists r. split; [| reflexivity].
  rewrite !append_cons. cbn [append]. reflexivity.
Qed.

Lemma interpolate_go_skip (vars : list (string * string)) (pre s : string) :
  interpolate_go vars (String.length pre) (pre +:+ s) = interpolate_go vars O s.
Proof.
  induction pre as [| c pre IH]; [reflexivity |].
  rewrite append_cons. cbn [String.length interpolate_go]. exact IH.
Qed.

Lemma interpolate_go_token (vars : list (string * string)) (key post : string) :
  interpolate_go vars (String.length key + 4 - 1) (String "{" (key +:+ "}}" +:+ post))
  = interpolate_go vars O post.
Proof.
  pose proof (interpolate_go_skip vars ("{" +:+ key +:+ "}}") post) as H.
  rewrite !length_append in H. cbn [String.length] in H.
  rewrite !append_assoc in H.
  replace (String.length key + 4 - 1)%nat with (1 + (String.length key + 2))%nat by lia.
  exact H.
Qed.

Lemma token_keys_go_skip (pre s : string) :
  token_keys_go (String.length pre) (pre +:+ s) = token_keys_go O s.
Proof.
  induction pre as [| c pre IH]; [reflexivity |].
  rewrite append_cons. cbn [String.length token_keys_go]. exact IH.
Qed.

Lemma token_keys_go_token (key post : string) :
  token_keys_go (String.length key + 4 - 1) (String "{" (key +:+ "}}" +:+ post))
  = token_keys_go O post.
Proof.
  pose proof (token_keys_go_skip ("{" +:+ key +:+ "}}") post) as H.
  rewrite !length_append in H. cbn [String.length] in H.
  rewrite !append_assoc in H.
  replace (String.length key + 4 - 1)%nat with (1 + (String.length key + 2))%nat by lia.
  exact H.
Qed.

Lemma interpolate_go_unknown (vars : list (string * string)) (n : nat) (s : string) :
  (String.length s <= n)%nat ->
  Forall (fun key => lookup_member vars key = None) (token_keys_go O s) ->
  interpolate_go vars O s = s.
Proof.
  revert s. induction n as [| n IH]; intros s Hlen Hnone.
  - destruct s; [reflexivity | cbn in Hlen; lia].
  - destruct s as [| c rest]; [reflexivity |].
    cbn [interpolate_go token_keys_go] in *.
    destruct (match_token (String c rest)) as [[key len] |] eqn:Em.
    + apply match_token_shape in Em as (post & Hs & ->).
      change ("{{" +:+ key +:+ "}}" +:+ post)
        with (String "{" (String "{" (key +:+ "}}" +:+ post))) in Hs.
      injection Hs as -> ->.
      rewrite token_keys_go_token in Hnone.
      apply Forall_cons in Hnone as [Hkey Hrest]. rewrite Hkey. cbn [nullish].
      rewrite interpolate_go_token, IH.
      * rewrite !append_assoc. reflexivity.
      * cbn [String.length] in Hlen. rewrite !length_append in Hlen. lia.
      * exact Hrest.
    + f_equal. apply IH; [cbn [String.length] in Hlen; lia | exact Hnone].
Qed.

Lemma take_word_word (key post : string) :
  string_forallb is_word_char key = true ->
  take_word (key +:+ "}}" +:+ post) = (key, "}}" +:+ post).
Proof.
  induction key as [| c key IH]; cbn [string_forallb]; intros Hw.
  - reflexivity.
  - apply andb_true_iff in Hw as [Hc Hk]. rewrite append_cons. cbn [take_word].
    rewrite Hc, (IH Hk). reflexivity.
Qed.

Lemma match_token_word (key post : string) :
  is_word key = true ->
  match_token ("{{" +:+ key +:+ "}}" +:+ post) = Some (key, (String.length key + 4)%nat).
Proof.
  unfold is_word. intros [Ht Hw]%andb_true_iff.
  change ("{{" +:+ key +:+ "}}" +:+ post)
    with (String "{" (String "{" (key +:+ "}}" +:+ post))).
  cbn [match_token]. rewrite (take_word_word key post Hw).
  destruct key; [discriminate | reflexivity].
Qed.

Lemma match_token_not_brace (c : ascii) (s : string) :
  Ascii.eqb c "{"%char = false -> match_token (String c s) = None.
Proof.
  intros Hc. unfold match_token.
  destruct c as [[] [] [] [] [] [] [] []]; try reflexivity. discriminate.
Qed.

Lemma interpolate_go_brace_free (vars : list (string * string)) (pre s : string) :
  brace_free pre = true ->
  interpolate_go vars O (pre +:+ s) = pre +:+ interpolate_go vars O s.
Proof.
  induction pre as [| c pre IH]; [reflexivity |].
  unfold brace_free. cbn [string_forallb]. intros [Hc Hp]%andb_true_iff.
  apply negb_true_iff in Hc. rewrite !append_cons.
  change (interpolate_go vars 0 (String c (pre +:+ s)))
    with (match match_token (String c (pre +:+ s)) with
          | Some (key, len) =>
              nullish (lookup_member vars key) ("{{" +:+ key +:+ "}}")
              +:+ interpolate_go vars (len - 1) (pre +:+ s)
          | None => String c (interpolate_go vars O (pre +:+ s))
          end).
  rewrite (match_token_not_brace c _ Hc). f_equal. by apply IH.
Qed.

Lemma interpolate_token_alone (vars : list (string * string)) (key : string) :
  is_word key = true ->
  interpolate ("{{" +:+ key +:+ "}}") vars
  = nullish (lookup_member vars key) ("{{" +:+ key +:+ "}}").
Proof.
  intros Hkey. unfold interpolate.
  pose proof (match_token_word key EmptyString Hkey) as Hm.
  rewrite append_empty_r in Hm.
  remember ("{{" +:+ key +:+ "}}") as s eqn:Hs.
  destruct s as [| c rest].
  { rewrite !append_cons in Hs. discriminate Hs. }
  cbn [interpolate_go]. rewrite Hm.
  change ("{{" +:+ key +:+ "}}") with (String "{" (String "{" (key +:+ "}}"))) in Hs.
  injection Hs as -> ->.
  pose proof (interpolate_go_token vars key EmptyString) as Ht.
  rewrite append_empty_r in Ht. rewrite Ht. apply append_empty_r.
Qed.

(** X2.  Exactly the tokens that name nothing are left as they stand.
    When no token of the template names a property of [vars] or a member
    that [vars] inherits from [Object.prototype], [interpolate] returns the
    template unchanged.  A token that names an inherited member, such as
    [{{constructor}}] or [{{toString}}], is replaced even when [vars] has no
    property of that name: the lookup [vars[key]] finds the member on every
    object. *)
Theorem interpolate_unknown_tokens (template : string) (vars : list (string * string)) :
  (Forall (fun key => lookup_member vars key = None) (token_keys template) ->
   interpolate template vars = template)
  /\ (forall key, In key Object_prototype_names -> lookup_var vars key = None ->
        interpolate ("{{" +:+ key +:+ "}}") vars <> "{{" +:+ key +:+ "}}").
Proof.
  split.
  - unfold interpolate, token_keys.
    by apply (interpolate_go_unknown vars (String.length template)).
  - intros key Hin Hown. cbn [In Object_prototype_names] in Hin.
    repeat (destruct Hin as [<- | Hin];
            [rewrite interpolate_token_alone by reflexivity;
             unfold lookup_member; rewrite Hown; vm_compute; discriminate |]).
    destruct Hin.
Qed.

(** X3.  A known token is replaced by its value: in a template that
    reaches the token [{{key}}] without an opening brace before it, the
    token gives way to the value recorded for [key], the text before it is
    kept, and the rest of the template is interpolated in turn. *)
Theorem interpolate_known_token (vars : list (string * string))
    (pre key post v : string) :
  brace_free pre = true ->
  is_word key = true ->
  lookup_var vars key = Some v ->
  interpolate (pre +:+ "{{" +:+ key +:+ "}}" +:+ post) vars
  = pre +:+ v +:+ interpolate post vars.
Proof.
  intros Hpre Hkey Hv. unfold interpolate.
  rewrite (interpolate_go_brace_free vars pre _ Hpre). f_equal.
  pose proof (match_token_word key post Hkey) as Hm.
  remember ("{{" +:+ key +:+ "}}" +:+ post) as s eqn:Hs.
  destruct s as [| c rest].
  { rewrite !append_cons in Hs. discriminate Hs. }
  cbn [interpolate_go]. rewrite Hm. unfold lookup_member. rewrite Hv. cbn [nullish].
  f_equal.
  change ("{{" +:+ key +:+ "}}" +:+ post)
    with (String "{" (String "{" (key +:+ "}}" +:+ post))) in Hs.
  injection Hs as -> ->. apply interpolate_go_token.
Qed.

(** ** Headings *)

Lemma extractHeadings_loop_bound (max : Z) (lines out : list string) :
  Z.of_nat (length out) < Z.max 1 max ->
  Z.of_nat (length (extractHeadings_loop max lines out)) <= Z.max 1 max.
Proof.
  revert out. induction lines as [| line rest IH]; intros out Hout; cbn [extractHeadings_loop].
  - lia.
  - set (out' := if is_heading line then out ++ [trim line] else out).
    assert (Z.of_nat (length out') <= Z.max 1 max) as Hle.
    { subst out'. destruct (is_heading line); [rewrite length_app; cbn [length] |]; lia. }
    destruct (max <=? Z.of_nat (length out')) eqn:E; [exact Hle |].
    apply IH. apply Z.leb_gt in E. lia.
Qed.

Lemma extractHeadings_loop_from (max : Z) (all lines out : list string) :
  (forall l, l ∈ lines -> l ∈ all) ->
  Forall (fun h => exists line, line ∈ all /\ is_heading line = true /\ h = trim line) out ->
  Forall (fun h => exists line, line ∈ all /\ is_heading line = true /\ h = trim line)
         (extractHeadings_loop max lines out).
Proof.
  revert out. induction lines as [| line rest IH]; intros out Hsub Hout;
    cbn [extractHeadings_loop]; [exact Hout |].
  set (out' := if is_heading line then out ++ [trim line] else out).
  assert (Forall (fun h => exists line, line ∈ all /\ is_heading line = true /\ h = trim line)
                 out') as Hout'.
  { subst out'. destruct (is_heading line) eqn:Eh; [| exact Hout].
    apply Forall_app. split; [exact Hout |]. apply Forall_singleton.
    exists line. split; [apply Hsub; left | by split]. }
  destruct (max <=? Z.of_nat (length out')); [exact Hout' |].
  apply IH; [| exact Hout']. intros l Hl. apply Hsub. by right.
Qed.

(** X4.  [extractHeadings(md, max)] is the join of at most [max] lines
    (of one line when [max] is below one), each of them a line of [md] that
    starts with one to six [#] and white space, trimmed. *)
Theorem extractHeadings_bounded (md : string) (max : Z) :
  exists hs : list string,
    extractHeadings md max = join_lines hs
    /\ Z.of_nat (length hs) <= Z.max 1 max
    /\ Forall (fun h => exists line,
                 line ∈ split_lines md /\ is_heading line = true /\ h = trim line) hs.
Proof.
  exists (extractHeadings_loop max (split_lines md) []). split; [reflexivity |]. split.
  - apply extractHeadings_loop_bound. cbn [length]. lia.
  - apply extractHeadings_loop_from; [auto | constructor].
Qed.

(** ** Every bounded setting *)

(** X5.  Whatever [loadConfig] finds, the remaining numeric settings lie in
    their ranges: [heartbeatMinutes] in [1, 240], [verifyTimeoutMinutes] in
    [0, 240], [maxSubAgents] in [1, 50], [maxConversationLines] in
    [200, 20000], [conversationArchiveCount] and
    [reviewerMaxRunsPerAttempt] in [1, 20]; and the reviewer's output
    directory is never the empty path. *)
Theorem loadConfig_ranges (src : ConfigSource) :
  let c := loadConfig src in
  1 <= heartbeatMinutes c <= 240
  /\ 0 <= verifyTimeoutMinutes c <= 240
  /\ 1 <= maxSubAgents c <= 50
  /\ 200 <= maxConversationLines c <= 20000
  /\ 1 <= conversationArchiveCount c <= 20
  /\ 1 <= reviewerMaxRunsPerAttempt c <= 20
  /\ reviewerOutputDir c <> EmptyString.
Proof.
  assert (forall raw, let c := resolveConfig raw in
            1 <= heartbeatMinutes c <= 240
            /\ 0 <= verifyTimeoutMinutes c <= 240
            /\ 1 <= maxSubAgents c <= 50
            /\ 200 <= maxConversationLines c <= 20000
            /\ 1 <= conversationArchiveCount c <= 20
            /\ 1 <= reviewerMaxRunsPerAttempt c <= 20
            /\ reviewerOutputDir c <> EmptyString) as Hres.
  { intros raw. cbn zeta.
    cbn [resolveConfig heartbeatMinutes verifyTimeoutMinutes maxSubAgents
         maxConversationLines conversationArchiveCount reviewerMaxRunsPerAttempt
         reviewerOutputDir].
    repeat (split; [apply toBoundedInt_range; lia |]).
    destruct (raw_reviewerOutputDir raw) as [d |]; [| discriminate].
    destruct (truthy_str (trim d)) eqn:Et; [| discriminate].
    intros Heq. rewrite Heq in Et. discriminate. }
  destruct src as [| | raw]; cbn [loadConfig].
  - cbn. repeat split; try lia. discriminate.
  - apply Hres.
  - apply Hres.
Qed.

Lemma filter_nonempty_parts (l : list string) :
  Forall (fun part => part <> EmptyString)
         (filter (fun part => (0 <? String.length part)%nat = true) l).
Proof.
  apply Forall_forall. intros part Hin. apply list_elem_of_filter in Hin as [Hpos _].
  intros ->. cbn in Hpos. discriminate.
Qed.

(** X6.  A verify command that survives [resolveConfig] is usable: it has
    at least one part, no part is empty, every part is a part of the
    configured command with the surrounding white space removed, and a
    working directory, when one is kept, is not empty. *)
Theorem resolveConfig_verify_clean (raw : RalphConfig) (vc : VerifyConfig) :
  verify (resolveConfig raw) = Some vc ->
  command vc <> []
  /\ Forall (fun part => part <> EmptyString) (command vc)
  /\ (forall part, part ∈ command vc ->
        exists v p, raw_verify raw = Some v /\ p ∈ command v /\ part = trim p)
  /\ (forall d, cwd vc = Some d -> d <> EmptyString).
Proof.
  cbn [resolveConfig verify]. unfold sanitizeVerify.
  destruct (raw_verify raw) as [v |]; [| discriminate].
  pose proof (filter_nonempty_parts (map trim (command v))) as Hparts.
  assert (forall part,
            part ∈ filter (fun part => (0 <? String.length part)%nat = true)
                          (map trim (command v)) ->
            exists v0 p, Some v = Some v0 /\ p ∈ command v0 /\ part = trim p) as Hfrom.
  { intros part Hin. apply list_elem_of_filter in Hin as [_ Hin].
    apply list_elem_of_fmap in Hin as (p & -> & Hp). by exists v, p. }
  destruct (filter _ (map trim (command v))) as [| c0 cs] eqn:Ef; [discriminate |].
  destruct (cwd v) as [d |].
  - destruct (truthy_str (trim d)) eqn:Et; intros [= <-]; cbn [command cwd].
    + repeat split; [discriminate | exact Hparts | exact Hfrom |].
      intros d' [= <-] Hd. rewrite Hd in Et. discriminate.
    + repeat split; [discriminate | exact Hparts | exact Hfrom | discriminate].
  - intros [= <-]; cbn [command cwd].
    repeat split; [discriminate | exact Hparts | exact Hfrom | discriminate].
Qed.

(** ** Sessions that end, strategists that stall *)

Lemma new_effects_same (w : World) : new_effects w w = [].
Proof. unfold new_effects. apply drop_all. Qed.

Lemma new_effects_none (w w' : World) : effects w' = effects w -> new_effects w w' = [].
Proof. intros H. unfold new_effects. rewrite H. apply drop_all. Qed.

(** Computes [new_effects w w'] when [w'] is built from [w] by the basic
    operations. *)
Ltac new_effects_simpl :=
  unfold new_effects; world_simpl; rewrite <- ?app_assoc;
  rewrite ?drop_app_length, ?drop_all.

Lemma quiet_persist : quiet [EPersistReviewerState].
Proof. repeat constructor. Qed.

Lemma clearSessionTracking_supervisor (sid reason : string) (w : World) :
  supervisor (clearSessionTracking sid reason w)
  = let s1 := if bool_decide (currentRalphSessionId (supervisor w) = Some sid)
              then set_currentRalphSessionId None (supervisor w) else supervisor w in
    let s2 := if bool_decide (currentWorkerSessionId s1 = Some sid)
              then set_currentWorkerSessionId None s1 else s1 in
    if bool_decide (activeReviewerSessionId s2 = Some sid)
    then set_activeReviewer None None None None s2 else s2.
Proof.
  cbn zeta. unfold clearSessionTracking. world_simpl.
  destruct (bool_decide (currentRalphSessionId (supervisor w) = Some sid)); world_simpl.
  all: match goal with
       | |- context [bool_decide (currentWorkerSessionId ?s = Some ?i)] =>
           destruct (bool_decide (currentWorkerSessionId s = Some i))
       end; world_simpl.
  all: match goal with
       | |- context [bool_decide (activeReviewerSessionId ?s = Some ?i)] =>
           destruct (bool_decide (activeReviewerSessionId s = Some i))
       end; world_simpl.
  all: destruct (sessionMap w !! sid); cbn [orb]; world_simpl; reflexivity.
Qed.

Lemma clearSessionTracking_rest (sid reason : string) (w : World) :
  sessionMap (clearSessionTracking sid reason w) = delete sid (sessionMap w)
  /\ files (clearSessionTracking sid reason w) = files w
  /\ exists more, effects (clearSessionTracking sid reason w) = effects w ++ more
                  /\ quiet more.
Proof.
  unfold clearSessionTracking. world_simpl.
  destruct (bool_decide (currentRalphSessionId (supervisor w) = Some sid)); world_simpl.
  all: match goal with
       | |- context [bool_decide (currentWorkerSessionId ?s = Some ?i)] =>
           destruct (bool_decide (currentWorkerSessionId s = Some i))
       end; world_simpl.
  all: match goal with
       | |- context [bool_decide (activeReviewerSessionId ?s = Some ?i)] =>
           destruct (bool_decide (activeReviewerSessionId s = Some i))
       end; world_simpl.
  all: destruct (sessionMap w !! sid); cbn [orb]; world_simpl.
  all: split; [reflexivity |]; split; [reflexivity |].
  all: rewrite <- ?app_assoc; eexists; split;
         [first [reflexivity | symmetry; apply app_nil_r] |].
  all: repeat constructor.
Qed.

Lemma clearSessionTracking_effects (sid reason : string) (w : World) :
  new_effects w (clearSessionTracking sid reason w)
  = (if bool_decide (activeReviewerSessionId (supervisor w) = Some sid)
     then [EPersistReviewerState] else [])
    ++ match sessionMap w !! sid with
       | Some s =>
           if bool_decide (currentRalphSessionId (supervisor w) = Some sid)
              || bool_decide (currentWorkerSessionId (supervisor w) = Some sid)
              || bool_decide (activeReviewerSessionId (supervisor w) = Some sid)
           then [ENotify (role_str (role s) +:+ "/attempt-" +:+ string_of_Z (attempt s))
                   (role_str (role s) +:+ " session ended (" +:+ reason +:+ ").") "info"
                   true (Some sid)]
           else []
       | None => []
       end.
Proof.
  unfold clearSessionTracking. world_simpl.
  destruct (bool_decide (currentRalphSessionId (supervisor w) = Some sid)); world_simpl;
    cbn [currentWorkerSessionId set_currentRalphSessionId];
    destruct (bool_decide (currentWorkerSessionId (supervisor w) = Some sid)); world_simpl;
    cbn [activeReviewerSessionId set_currentRalphSessionId set_currentWorkerSessionId];
    destruct (bool_decide (activeReviewerSessionId (supervisor w) = Some sid)); world_simpl;
    destruct (sessionMap w !! sid); cbn [orb]; new_effects_simpl; reflexivity.
Qed.

Lemma clearSessionTracking_fields (sid reason : string) (w : World) :
  let w' := clearSessionTracking sid reason w in
  sessionMap w' = delete sid (sessionMap w)
  /\ currentRalphSessionId (supervisor w') <> Some sid
  /\ currentWorkerSessionId (supervisor w') <> Some sid
  /\ activeReviewerSessionId (supervisor w') <> Some sid
  /\ (currentRalphSessionId (supervisor w) <> Some sid ->
      currentRalphSessionId (supervisor w') = currentRalphSessionId (supervisor w))
  /\ (currentWorkerSessionId (supervisor w) <> Some sid ->
      currentWorkerSessionId (supervisor w') = currentWorkerSessionId (supervisor w))
  /\ (activeReviewerSessionId (supervisor w) <> Some sid ->
      activeReviewerSessionId (supervisor w') = activeReviewerSessionId (supervisor w)
      /\ activeReviewerName (supervisor w') = activeReviewerName (supervisor w))
  /\ sup_attempt (supervisor w') = sup_attempt (supervisor w)
  /\ sup_done (supervisor w') = sup_done (supervisor w)
  /\ paused (supervisor w') = paused (supervisor w)
  /\ sessionId (supervisor w') = sessionId (supervisor w).
Proof.
  cbn zeta. rewrite clearSessionTracking_supervisor.
  destruct (clearSessionTracking_rest sid reason w) as (Hsm & _ & _).
  split; [exact Hsm |]. clear Hsm.
  destruct (supervisor w) as [bound n r wk dn ps li rq rr an aa asid ap]. cbn.
  repeat (match goal with
          | |- context [bool_decide ?Q] => destruct (bool_decide_reflect Q)
          end; cbn in *).
  all: repeat split; first [assumption | congruence].
Qed.

(** X7.  When a session is closed, ended or deleted, [clearSessionTracking]
    forgets exactly that session: its record leaves the registry, no
    tracked id (strategist, worker, reviewer) names it any more, tracked ids
    of other sessions stay, and the attempt counter, the flags and the
    binding are as before.  What goes out is this and no more: the reviewer
    state is written when the session was the active reviewer, and one
    notice of the end is sent to the supervisor when the session was
    registered and tracked as strategist, worker or reviewer.  No session is
    created and no command is run. *)
Theorem clearSessionTracking_forgets (sid reason : string) (w : World) :
  let w' := clearSessionTracking sid reason w in
  sessionMap w' = delete sid (sessionMap w)
  /\ currentRalphSessionId (supervisor w') <> Some sid
  /\ currentWorkerSessionId (supervisor w') <> Some sid
  /\ activeReviewerSessionId (supervisor w') <> Some sid
  /\ (currentRalphSessionId (supervisor w) <> Some sid ->
      currentRalphSessionId (supervisor w') = currentRalphSessionId (supervisor w))
  /\ (currentWorkerSessionId (supervisor w) <> Some sid ->
      currentWorkerSessionId (supervisor w') = currentWorkerSessionId (supervisor w))
  /\ (activeReviewerSessionId (supervisor w) <> Some sid ->
      activeReviewerSessionId (supervisor w') = activeReviewerSessionId (supervisor w)
      /\ activeReviewerName (supervisor w') = activeReviewerName (supervisor w))
  /\ sup_attempt (supervisor w') = sup_attempt (supervisor w)
  /\ sup_done (supervisor w') = sup_done (supervisor w)
  /\ paused (supervisor w') = paused (supervisor w)
  /\ sessionId (supervisor w') = sessionId (supervisor w)
  /\ new_effects w w'
     = (if bool_decide (activeReviewerSessionId (supervisor w) = Some sid)
        then [EPersistReviewerState] else [])
       ++ match sessionMap w !! sid with
          | Some s =>
              if bool_decide (currentRalphSessionId (supervisor w) = Some sid)
                 || bool_decide (currentWorkerSessionId (supervisor w) = Some sid)
                 || bool_decide (activeReviewerSessionId (supervisor w) = Some sid)
              then [ENotify (role_str (role s) +:+ "/attempt-" +:+ string_of_Z (attempt s))
                      (role_str (role s) +:+ " session ended (" +:+ reason +:+ ").") "info"
                      true (Some sid)]
              else []
          | None => []
          end
  /\ quiet (new_effects w w').
Proof.
  cbn zeta.
  destruct (clearSessionTracking_fields sid reason w)
    as (H1 & H2 & H3 & H4 & H5 & H6 & H7 & H8 & H9 & H10 & H11).
  cbn zeta in *.
  do 11 (split; [assumption |]).
  split; [apply clearSessionTracking_effects |].
  destruct (clearSessionTracking_rest sid reason w) as (_ & _ & more & He & Hq).
  by rewrite (new_effects_app _ _ more He).
Qed.

(** X8.  When the tracked strategist goes idle (and the loop is not done),
    [handleRalphSessionIdle] stops tracking it and does nothing else to the
    supervisor record and the registry: the attempt counter, the worker and
    the registered sessions are as before, no session is created and no
    command is run.  It warns the supervisor that the strategist went idle
    without spawning a worker exactly when the strategist's record does not
    say it has delegated. *)
Theorem strategist_idle_untracks (rid : string) (w : World) :
  currentRalphSessionId (supervisor w) = Some rid ->
  sup_done (supervisor w) = false ->
  let w' := handleRalphSessionIdle rid w in
  supervisor w' = set_currentRalphSessionId None (supervisor w)
  /\ sessionMap w' = sessionMap w
  /\ quiet (new_effects w w')
  /\ ((exists source,
         In (ENotify source "Strategist went idle without spawning a worker." "warning"
               true (Some rid)) (new_effects w w'))
      <-> workerSpawned <$> sessionMap w !! rid <> Some true).
Proof.
  intros Hr Hd. cbn zeta. unfold handleRalphSessionIdle.
  rewrite Hr, Hd, bool_decide_eq_true_2 by reflexivity. cbn [negb].
  world_simpl.
  destruct (sessionMap w !! rid) as [s |] eqn:Es; cbn [fmap option_fmap option_map nullish].
  - destruct (workerSpawned s) eqn:Ews; destruct (reportedStatus s) eqn:Ers; world_simpl.
    all: repeat (split; [reflexivity |]).
    all: new_effects_simpl.
    + split; [apply quiet_nil |].
      split; [intros (src & []) | intros Hn; by destruct Hn].
    + split; [apply quiet_notify |].
      split; [intros (src & [Hin | []]); discriminate Hin | intros Hn; by destruct Hn].
    + split; [apply (quiet_app [_] [_]); [apply quiet_toast | apply quiet_notify] |].
      split; [discriminate |]. intros _. eexists. right. left. reflexivity.
    + split; [apply (quiet_app [_] [_; _]); [apply quiet_notify |];
              apply (quiet_app [_] [_]); [apply quiet_toast | apply quiet_notify] |].
      split; [discriminate |]. intros _. eexists. right. right. left. reflexivity.
  - repeat (split; [reflexivity |]). new_effects_simpl.
    split; [apply (quiet_app [_] [_]); [apply quiet_toast | apply quiet_notify] |].
    split; [discriminate |]. intros _. eexists. right. left. reflexivity.
Qed.

Lemma spawnRalphSession_new (P : Plugin) (env : Env) (n : Z) (w0 w : World)
    (pre : list Effect) :
  effects w0 = effects w ++ pre ->
  new_effects w (spawnRalphSession P env n w0)
  = pre ++ [ESessionCreate ("ralph-strategist-attempt-" +:+ string_of_Z n)
              (nullish (env_created env) ("ralph-" +:+ string_of_Z (env_now env)));
            ESessionPromptAsync
              (nullish (env_created env) ("ralph-" +:+ string_of_Z (env_now env)))
              (interpolate (ralphSessionPrompt (templates P))
                 [("attempt", string_of_Z n); ("nextAttempt", string_of_Z (n + 1))]);
            ENotify ("supervisor/attempt-" +:+ string_of_Z n)
              ("Spawned Ralph strategist session "
               +:+ nullish (env_created env) ("ralph-" +:+ string_of_Z (env_now env))
               +:+ ".") "info" true None].
Proof.
  intros Hpre. destruct (spawnRalphSession_world P env n w0) as (_ & _ & _ & He).
  rewrite Hpre, <- app_assoc in He. exact (new_effects_app _ _ _ He).
Qed.

Lemma spawnRalphSession_supervisor (P : Plugin) (env : Env) (n : Z) (w0 : World) :
  supervisor (spawnRalphSession P env n w0)
  = set_currentRalphSessionId
      (Some (nullish (env_created env) ("ralph-" +:+ string_of_Z (env_now env))))
      (supervisor w0).
Proof. by destruct (spawnRalphSession_world P env n w0) as (Hs & _). Qed.

Lemma checkSetup_ready_files (root : string) (cfg : ResolvedConfig) (w0 w : World) :
  files w0 = files w -> checkSetup_ready root cfg w0 = checkSetup_ready root cfg w.
Proof. intros Hf. unfold checkSetup_ready. by rewrite Hf. Qed.

(** X9.  [handleMainIdle] creates a session only from an idle, running
    loop: the loop is neither done nor paused, no strategist and no worker
    is tracked, the plugin is enabled, the setup is ready (a verify command
    and a plan), and the idle session is the bound supervisor or becomes it.
    The session it creates is the strategist of attempt 1, which it tracks. *)
Theorem main_idle_starts_only_when_idle (P : Plugin) (cfg : ResolvedConfig) (env : Env)
    (sid : string) (w : World) (title id : string) :
  In (ESessionCreate title id) (new_effects w (handleMainIdle P cfg env sid w)) ->
  sup_done (supervisor w) = false
  /\ paused (supervisor w) = false
  /\ truthy_ostr (currentRalphSessionId (supervisor w)) = false
  /\ truthy_ostr (currentWorkerSessionId (supervisor w)) = false
  /\ enabled cfg = true
  /\ checkSetup_ready (worktree P) cfg w = true
  /\ (sessionId (supervisor w) = Some sid \/ truthy_ostr (sessionId (supervisor w)) = false)
  /\ title = "ralph-strategist-attempt-1"
  /\ sup_attempt (supervisor (handleMainIdle P cfg env sid w)) = 1
  /\ currentRalphSessionId (supervisor (handleMainIdle P cfg env sid w)) = Some id
  /\ sessionId (supervisor (handleMainIdle P cfg env sid w)) = Some sid.
Proof.
  unfold handleMainIdle.
  destruct (sup_done (supervisor w)); [rewrite new_effects_same; intros [] |].
  destruct (paused (supervisor w)); [rewrite new_effects_same; intros [] |].
  destruct (truthy_ostr (currentRalphSessionId (supervisor w)));
    [rewrite new_effects_same; intros [] |].
  destruct (truthy_ostr (currentWorkerSessionId (supervisor w)));
    [rewrite new_effects_same; intros [] |].
  destruct (enabled cfg); cbn [negb]; [| rewrite new_effects_same; intros []].
  match goal with
  | |- context [if ?b then w else _] => destruct b; [rewrite new_effects_same; intros [] |]
  end.
  cbn [with_supervisor supervisor set_lastMainIdleAt sessionId].
  destruct (truthy_ostr (sessionId (supervisor w))) eqn:Eb.
  - destruct (bool_decide (sessionId (supervisor w) = Some sid)) eqn:Es.
    + apply bool_decide_eq_true in Es.
      rewrite (checkSetup_ready_files _ _ _ w) by reflexivity.
      destruct (checkSetup_ready (worktree P) cfg w); cbn [negb].
      * erewrite spawnRalphSession_new
          by (world_simpl; rewrite <- ?app_assoc; reflexivity).
        rewrite spawnRalphSession_supervisor. world_simpl.
        cbn [app set_currentRalphSessionId set_attempt set_lastMainIdleAt sup_attempt
             currentRalphSessionId sessionId].
        intros [Hin | [Hin | [Hin | [Hin | []]]]]; try discriminate Hin.
        injection Hin as <- <-. repeat split; auto.
      * new_effects_simpl. intros [Hin | []]. discriminate Hin.
    + new_effects_simpl. intros [].
  - rewrite (checkSetup_ready_files _ _ _ w) by reflexivity.
    destruct (checkSetup_ready (worktree P) cfg w); cbn [negb].
    + erewrite spawnRalphSession_new
        by (world_simpl; rewrite <- ?app_assoc; reflexivity).
      rewrite spawnRalphSession_supervisor. world_simpl.
      cbn [app set_currentRalphSessionId set_attempt set_lastMainIdleAt set_sessionId
           sup_attempt currentRalphSessionId sessionId].
      intros [Hin | [Hin | [Hin | [Hin | [Hin | []]]]]]; try discriminate Hin.
      injection Hin as <- <-. repeat split; auto.
    + new_effects_simpl. intros [Hin | [Hin | []]]; discriminate Hin.
Qed.

(** ** The attempt counter *)

Lemma handleWorkerIdle_verdict_attempt (P : Plugin) (cfg : ResolvedConfig) (env : Env)
    (sid : string) (v : Verdict) (d : string) (w : World) :
  let a := sup_attempt (supervisor w) in
  let a' := sup_attempt (supervisor (handleWorkerIdle_verdict P cfg env sid v d w)) in
  a' = a \/ (a' = a + 1 /\ a < maxAttempts cfg).
Proof.
  cbn zeta.
  assert (v = pass \/ v <> pass) as [-> | Hv]
    by (destruct v; [by left | by right | by right]).
  - destruct (handleWorkerIdle_verdict_pass P cfg env sid d w) as (Hs & _).
    cbn zeta in Hs. rewrite Hs. by left.
  - destruct (Z_le_gt_dec (maxAttempts cfg) (sup_attempt (supervisor w))) as [Hmax | Hlt].
    + destruct (handleWorkerIdle_verdict_stop P cfg env sid v d w Hv Hmax) as (Hs & _).
      cbn zeta in Hs. rewrite Hs. by left.
    + destruct (handleWorkerIdle_verdict_next P cfg env sid v d w Hv ltac:(lia)) as (Hs & _).
      cbn zeta in Hs. rewrite Hs. right. split; [reflexivity | lia].
Qed.

Lemma handleWorkerIdle_attempt (P : Plugin) (cfg : ResolvedConfig) (env : Env)
    (sid : string) (w : World) :
  let a := sup_attempt (supervisor w) in
  let a' := sup_attempt (supervisor (handleWorkerIdle P cfg env sid w)) in
  a' = a \/ (a' = a + 1 /\ a < maxAttempts cfg).
Proof.
  cbn zeta.
  destruct (decide (currentWorkerSessionId (supervisor w) = Some sid)) as [Hcur | Hcur];
    [| unfold handleWorkerIdle; rewrite (bool_decide_eq_false_2 _ Hcur); by left].
  destruct (sup_done (supervisor w)) eqn:Hd;
    [unfold handleWorkerIdle; rewrite Hd; destruct (negb _); by left |].
  destruct (enabled cfg) eqn:Hen;
    [| unfold handleWorkerIdle; rewrite Hd, Hen; destruct (negb _); by left].
  destruct (autoStartOnMainIdle cfg) eqn:Hau;
    [| unfold handleWorkerIdle; rewrite Hd, Hen, Hau; destruct (negb _); by left].
  destruct (handleWorkerIdle_reaches_verdict P cfg env sid w Hcur Hd Hen Hau)
    as (w4 & pre & -> & Hs4 & _).
  pose proof (handleWorkerIdle_verdict_attempt P cfg env sid (verify_verdict cfg env)
                (snd (fst (runAndParseVerify P cfg env w))) w4) as H.
  cbn zeta in H. rewrite Hs4 in H. exact H.
Qed.

Lemma handleRalphSessionIdle_attempt (rid : string) (w : World) :
  sup_attempt (supervisor (handleRalphSessionIdle rid w)) = sup_attempt (supervisor w).
Proof.
  unfold handleRalphSessionIdle.
  destruct (negb _); [reflexivity |]. destruct (sup_done _); [reflexivity |].
  world_simpl.
  destruct (sessionMap w !! rid) as [s |]; cbn [fmap option_fmap option_map nullish].
  - destruct (workerSpawned s), (reportedStatus s); world_simpl; reflexivity.
  - world_simpl. reflexivity.
Qed.

Lemma handleMainIdle_attempt (P : Plugin) (cfg : ResolvedConfig) (env : Env)
    (sid : string) (w : World) :
  let a' := sup_attempt (supervisor (handleMainIdle P cfg env sid w)) in
  a' = sup_attempt (supervisor w) \/ a' = 1.
Proof.
  cbn zeta. unfold handleMainIdle.
  destruct (sup_done _); [by left |]. destruct (paused _); [by left |].
  destruct (truthy_ostr (currentRalphSessionId _)); [by left |].
  destruct (truthy_ostr (currentWorkerSessionId _)); [by left |].
  destruct (negb (enabled cfg)); [by left |].
  match goal with
  | |- context [if ?b then w else _] => destruct b; [by left |]
  end.
  cbn [with_supervisor supervisor set_lastMainIdleAt sessionId].
  destruct (truthy_ostr (sessionId (supervisor w))).
  - destruct (bool_decide _); [| by left].
    destruct (negb _); [by left |].
    rewrite spawnRalphSession_supervisor. by right.
  - destruct (negb _); [by left |].
    rewrite spawnRalphSession_supervisor. by right.
Qed.

Lemma on_session_idle_attempt (P : Plugin) (cfg : ResolvedConfig) (env : Env)
    (sid : string) (w : World) :
  let a := sup_attempt (supervisor w) in
  let a' := sup_attempt (supervisor (on_session_idle P cfg env sid w)) in
  a' = a \/ (a' = a + 1 /\ a < maxAttempts cfg) \/ a' = 1.
Proof.
  cbn zeta. unfold on_session_idle.
  destruct (negb (truthy_str sid)); [by left |].
  destruct (sup_done (supervisor w) || paused (supervisor w)); [by left |].
  destruct (emitHeartbeatWarnings_quiet cfg env w) as (Hs & _).
  set (w1 := emitHeartbeatWarnings cfg env w) in *. rewrite <- Hs.
  destruct (bool_decide (currentWorkerSessionId (supervisor w1) = Some sid)).
  - destruct (handleWorkerIdle_attempt P cfg env sid w1) as [H | H]; [by left |].
    right. by left.
  - destruct (bool_decide (currentRalphSessionId (supervisor w1) = Some sid)).
    + left. apply handleRalphSessionIdle_attempt.
    + destruct (handleMainIdle_attempt P cfg env sid w1) as [H | H]; [by left |].
      right. by right.
Qed.

Lemma wait_loop_attempt (P : Plugin) (cfg : ResolvedConfig) (env : Env)
    (sid name : string) (n : Z) (path : string) (note : option string)
    (poll : nat -> string) (remaining i : nat) (w : World) :
  sup_attempt (supervisor (snd (waitForReviewerCompletion_loop P cfg env sid name n path
                                  note poll i remaining w)))
  = sup_attempt (supervisor w).
Proof.
  revert i. induction remaining as [| k IH]; intros i; cbn [waitForReviewerCompletion_loop].
  - reflexivity.
  - destruct (negb _); [apply IH | reflexivity].
Qed.

Lemma start_reviewer_attempt (P : Plugin) (cfg : ResolvedConfig) (env : Env)
    (sid : string) (waitForDone : bool) (tm : option Z) (out : option string)
    (poll : nat -> string) (n : Z) (requested : option string) (w : World) :
  sup_attempt (supervisor (snd (start_reviewer P cfg env sid waitForDone tm out poll n
                                  requested w)))
  = sup_attempt (supervisor w).
Proof.
  unfold start_reviewer. destruct waitForDone; cbn [negb].
  - unfold waitForReviewerCompletion.
    match goal with
    | |- context [waitForReviewerCompletion_loop P cfg env sid ?nm n ?pth requested poll
                    O ?k ?w9] =>
        pose proof (wait_loop_attempt P cfg env sid nm n pth requested poll k O w9) as H;
        destruct (waitForReviewerCompletion_loop P cfg env sid nm n pth requested poll
                    O k w9) as [r w10]
    end.
    cbn [snd] in *. rewrite H. world_simpl. reflexivity.
  - cbn [snd]. world_simpl. reflexivity.
Qed.

Lemma run_reviewer_attempt (P : Plugin) (cfg : ResolvedConfig) (env : Env)
    (ctx : option string) (force wait : option bool) (tm : option Z) (out : option string)
    (poll : nat -> string) (w : World) :
  sup_attempt (supervisor (snd (tool_ralph_run_reviewer P cfg env ctx force wait tm out
                                  poll w)))
  = sup_attempt (supervisor w).
Proof.
  unfold tool_ralph_run_reviewer.
  destruct (negb (reviewerEnabled cfg) && negb (nullish force false)); [reflexivity |].
  pose proof (getSession_supervisor (nullish ctx "default") w) as Hs.
  destruct (getSession (nullish ctx "default") w) as [st w1]. cbn [snd] in Hs.
  rewrite <- Hs.
  destruct (negb (nullish force false) && reviewerRequireExplicitReady cfg && _);
    [reflexivity |].
  destruct (negb (nullish force false) && _); [reflexivity |].
  destruct (activeReviewerName (supervisor w1)) as [active |];
    [| apply start_reviewer_attempt].
  destruct (truthy_str active); [| apply start_reviewer_attempt].
  destruct (nullish wait true && _ && _); [| reflexivity].
  unfold waitForReviewerCompletion.
  match goal with
  | |- context [waitForReviewerCompletion_loop P cfg env ?sid ?nm ?n ?pth ?rq poll
                  O ?k w1] =>
      pose proof (wait_loop_attempt P cfg env sid nm n pth rq poll k O w1) as H;
      destruct (waitForReviewerCompletion_loop P cfg env sid nm n pth rq poll O k w1)
        as [r w2]
  end.
  exact H.
Qed.

Lemma step_attempt (P : Plugin) (cfg : ResolvedConfig) (env : Env) (op : Op) (w : World) :
  let a := sup_attempt (supervisor w) in
  let a' := sup_attempt (supervisor (step P cfg env op w)) in
  a' = a \/ (a' = a + 1 /\ a < maxAttempts cfg) \/ a' = 1.
Proof.
  cbn zeta. destruct op as [sid | sid reason | ctx | ctx | ctx name goal | id ans
                            | ctx note | ctx force wait tm out poll]; cbn [step].
  - apply on_session_idle_attempt.
  - left. rewrite clearSessionTracking_supervisor. cbn zeta.
    repeat (match goal with |- context [if ?b then _ else _] => destruct b end);
      reflexivity.
  - left. unfold tool_ralph_spawn_worker_impl.
    destruct (sessionMap w !! nullish ctx EmptyString) as [st |]; [| reflexivity].
    destruct (negb _); [reflexivity |]. destruct (workerSpawned st); [reflexivity |].
    unfold spawnRlmWorker. cbn [snd]. world_simpl. reflexivity.
  - left. unfold ralph_load_context_mark. world_simpl. reflexivity.
  - left. unfold tool_subagent_spawn.
    pose proof (getSession_supervisor (nullish ctx "default") w) as Hs.
    destruct (getSession (nullish ctx "default") w) as [st w1]. cbn [snd] in Hs.
    rewrite <- Hs.
    repeat (match goal with |- context [if ?b then _ else _] => destruct b end);
      cbn [snd]; world_simpl; reflexivity.
  - left. unfold tool_ralph_respond.
    destruct (find _ _); [| reflexivity]. destruct (answered _ _); reflexivity.
  - left. by destruct (request_review_world ctx note w) as (_ & _ & Ha & _).
  - left. apply run_reviewer_attempt.
Qed.

(** X10.  The attempt counter stays within the configured bound: in any
    run whose operations all see [maxAttempts = M] (with [1 <= M], as every
    resolved configuration has it), a counter between 0 and [M] is still
    between 0 and [M] at the end.  From the start of the plugin, where the
    counter is 0, it never passes [maxAttempts]. *)
Theorem attempt_within_maxAttempts (P : Plugin) (M : Z)
    (ops : list (ResolvedConfig * Env * Op)) (w : World) :
  1 <= M ->
  Forall (fun o => maxAttempts (fst (fst o)) = M) ops ->
  0 <= sup_attempt (supervisor w) <= M ->
  0 <= sup_attempt (supervisor (run P ops w)) <= M.
Proof.
  intros HM Hops. revert w. induction Hops as [| [[cfg env] op] rest Hcfg _ IH];
    intros w Ha; cbn [run]; [exact Ha |].
  apply IH. cbn [fst] in Hcfg.
  pose proof (step_attempt P cfg env op w) as H. cbn zeta in H. lia.
Qed.

(** ** The heartbeat *)

Lemma maybeWarn_calm (cfg : ResolvedConfig) (env : Env) (sid : option string)
    (label : string) (w : World) :
  heartbeat_calm cfg env sid w = true -> maybeWarn cfg env sid label w = w.
Proof.
  unfold heartbeat_calm, maybeWarn. destruct sid as [id |]; [| reflexivity].
  destruct (negb (truthy_str id)); [reflexivity |]. cbn [orb].
  destruct (sessionMap w !! id) as [st |]; [| reflexivity].
  destruct (lastProgressAt st) as [last |]; [| reflexivity].
  destruct (negb (truthy_Z last)); [reflexivity |]. cbn [orb]. by intros ->.
Qed.

Lemma maybeWarn_settles (cfg : ResolvedConfig) (env : Env) (sid : option string)
    (label : string) (w : World) :
  0 < heartbeatMinutes cfg ->
  heartbeat_calm cfg env sid (maybeWarn cfg env sid label w) = true.
Proof.
  intros Hhb.
  destruct (heartbeat_calm cfg env sid w) eqn:Ec; [by rewrite maybeWarn_calm |].
  unfold heartbeat_calm in *. unfold maybeWarn. destruct sid as [id |]; [| discriminate].
  destruct (negb (truthy_str id)); [discriminate |]. cbn [orb] in *.
  destruct (sessionMap w !! id) as [st |] eqn:Es; [| discriminate].
  destruct (lastProgressAt st) as [last |] eqn:El; [| discriminate].
  destruct (negb (truthy_Z last)); [discriminate |]. cbn [orb] in Ec. rewrite Ec.
  world_simpl. rewrite lookup_insert_eq. cbn [set_lastProgressAt lastProgressAt].
  apply orb_true_iff. right. apply Z.ltb_lt. lia.
Qed.

Lemma maybeWarn_keeps_calm (cfg : ResolvedConfig) (env : Env) (sid sid' : option string)
    (label : string) (w : World) :
  0 < heartbeatMinutes cfg ->
  heartbeat_calm cfg env sid w = true ->
  heartbeat_calm cfg env sid (maybeWarn cfg env sid' label w) = true.
Proof.
  intros Hhb Hc. destruct (decide (sid' = sid)) as [-> | Hne];
    [by apply maybeWarn_settles |].
  destruct sid as [id |]; [| reflexivity].
  unfold heartbeat_calm in *. unfold maybeWarn.
  destruct sid' as [id' |]; [| exact Hc].
  destruct (negb (truthy_str id')); [exact Hc |].
  destruct (sessionMap w !! id') as [st' |]; [| exact Hc].
  destruct (lastProgressAt st') as [last' |]; [| exact Hc].
  destruct (negb (truthy_Z last')); [exact Hc |].
  destruct (env_now env - last' <? heartbeatMinutes cfg * 60000); [exact Hc |].
  world_simpl. rewrite lookup_insert_ne by congruence. exact Hc.
Qed.

Lemma maybeWarn_supervisor (cfg : ResolvedConfig) (env : Env) (sid : option string)
    (label : string) (w : World) :
  supervisor (maybeWarn cfg env sid label w) = supervisor w.
Proof. by destruct (maybeWarn_quiet cfg env sid label w) as (Hs & _). Qed.

(** X11.  The heartbeat warns once and restarts the timer.  With a
    positive [heartbeatMinutes] (every resolved configuration has one):
    when neither tracked session is overdue the check changes nothing; and
    whatever the check found, a second check at the same moment changes
    nothing more. *)
Theorem heartbeat_warns_once (cfg : ResolvedConfig) (env : Env) (w : World) :
  0 < heartbeatMinutes cfg ->
  (heartbeat_calm cfg env (currentRalphSessionId (supervisor w)) w = true ->
   heartbeat_calm cfg env (currentWorkerSessionId (supervisor w)) w = true ->
   emitHeartbeatWarnings cfg env w = w)
  /\ emitHeartbeatWarnings cfg env (emitHeartbeatWarnings cfg env w)
     = emitHeartbeatWarnings cfg env w.
Proof.
  intros Hhb. split.
  - intros Hr Hw. unfold emitHeartbeatWarnings.
    destruct (sup_done (supervisor w) || paused (supervisor w)); [reflexivity |].
    rewrite (maybeWarn_calm cfg env _ "Strategist" w Hr).
    by apply maybeWarn_calm.
  - destruct (emitHeartbeatWarnings_quiet cfg env w) as (Hs & _).
    unfold emitHeartbeatWarnings at 1. rewrite Hs.
    destruct (sup_done (supervisor w) || paused (supervisor w)) eqn:Hg; [reflexivity |].
    assert (heartbeat_calm cfg env (currentRalphSessionId (supervisor w))
              (emitHeartbeatWarnings cfg env w) = true) as Hr.
    { unfold emitHeartbeatWarnings. rewrite Hg.
      apply maybeWarn_keeps_calm; [exact Hhb |]. by apply maybeWarn_settles. }
    assert (heartbeat_calm cfg env (currentWorkerSessionId (supervisor w))
              (emitHeartbeatWarnings cfg env w) = true) as Hw.
    { unfold emitHeartbeatWarnings. rewrite Hg. rewrite maybeWarn_supervisor.
      by apply maybeWarn_settles. }
    rewrite (maybeWarn_calm cfg env _ "Strategist" _ Hr). rewrite Hs.
    by apply maybeWarn_calm.
Qed.

(** ** Delivery of notices *)

Lemma shouldDedupe_through (key : string) (now : Z) (recent : gmap string Z) :
  fst (Delivery.shouldDedupe key now recent) = false ->
  snd (Delivery.shouldDedupe key now recent)
  = <[key := now]> (if 200 <? Z.of_nat (size recent) then ∅ else recent).
Proof.
  unfold Delivery.shouldDedupe. destruct (truthy_oZ _ && _); [discriminate | reflexivity].
Qed.

Lemma shouldDedupe_hit (key : string) (now last : Z) (recent : gmap string Z) :
  recent !! key = Some last -> last <> 0 -> now - last < 5000 ->
  Delivery.shouldDedupe key now recent = (true, recent).
Proof.
  intros Hk Hl Hw. unfold Delivery.shouldDedupe, Delivery.DEDUPE_WINDOW_MS. rewrite Hk.
  cbn [truthy_oZ nullish]. unfold truthy_Z.
  destruct (last =? 0) eqn:E; [apply Z.eqb_eq in E; contradiction |].
  apply Z.ltb_lt in Hw. rewrite Hw. reflexivity.
Qed.

Lemma shouldDedupe_keeps (key other : string) (now last : Z) (recent : gmap string Z) :
  (size recent <= 200)%nat ->
  recent !! other = Some last ->
  snd (Delivery.shouldDedupe key now recent) !! other
  = if decide (key = other)
    then (if fst (Delivery.shouldDedupe key now recent) then Some last else Some now)
    else Some last.
Proof.
  intros Hsz Ho. unfold Delivery.shouldDedupe.
  destruct (truthy_oZ _ && _); cbn [fst snd].
  - by destruct (decide (key = other)).
  - destruct (200 <? Z.of_nat (size recent)) eqn:E; [apply Z.ltb_lt in E; lia |].
    destruct (decide (key = other)) as [-> | Hne];
      [by rewrite lookup_insert_eq | by rewrite lookup_insert_ne].
Qed.

(** X12.  A repeated notice is dropped.  When a notice has been let
    through at a moment other than 0 (with fewer than 200 entries in the
    table of recent notices), the same notice (same source, level and
    message), sent again less than five seconds later, leaves everything as
    the first one left it: no log line, no toast, no prompt, whatever the
    configuration is by then. *)
Theorem repeated_notice_is_dropped (P : Plugin) (cfg cfg2 : ResolvedConfig) (env env2 : Env)
    (source message : string) (level : NoticeLevel) (post post2 : bool)
    (origin origin2 : option string) (recent : gmap string Z) (w : World) :
  let key := "sup|" +:+ source +:+ "|" +:+ level_str level +:+ "|" +:+ message in
  let first := Delivery.notifySupervisor P cfg env source message level post origin
                 recent w in
  fst (Delivery.shouldDedupe key (env_now env) recent) = false ->
  env_now env <> 0 ->
  env_now env2 - env_now env < 5000 ->
  (size recent < 200)%nat ->
  Delivery.notifySupervisor P cfg2 env2 source message level post2 origin2
    (fst first) (snd first) = first.
Proof.
  cbn zeta. intros Hthrough Hnow Hwin Hsz.
  assert (fst (Delivery.notifySupervisor P cfg env source message level post origin
                 recent w)
          !! ("sup|" +:+ source +:+ "|" +:+ level_str level +:+ "|" +:+ message)
          = Some (env_now env)) as Hkey.
  { unfold Delivery.notifySupervisor.
    pose proof (shouldDedupe_through _ _ _ Hthrough) as Hsnd.
    destruct (Delivery.shouldDedupe _ (env_now env) recent) as [dup recent1].
    cbn [fst snd] in *. subst dup recent1.
    destruct (200 <? Z.of_nat (size recent)) eqn:E; [apply Z.ltb_lt in E; lia |].
    destruct (negb _); cbn [fst]; [apply lookup_insert_eq |].
    unfold Delivery.appendConversationEntry.
    match goal with
    | |- context [Delivery.shouldDedupe ?k ?t ?m] =>
        pose proof (shouldDedupe_keeps k
                      ("sup|" +:+ source +:+ "|" +:+ level_str level +:+ "|" +:+ message)
                      t (env_now env) m) as Hk;
        destruct (Delivery.shouldDedupe k t m) as [dup2 recent2]
    end.
    cbn [fst snd] in Hk.
    rewrite decide_False in Hk by discriminate.
    destruct dup2; cbn [fst]; apply Hk; try apply lookup_insert_eq.
    all: rewrite map_size_insert; destruct (recent !! _); cbn [id]; lia. }
  set (first := Delivery.notifySupervisor P cfg env source message level post origin
                  recent w) in *.
  unfold Delivery.notifySupervisor at 1.
  rewrite (shouldDedupe_hit _ _ _ _ Hkey Hnow Hwin). by destruct first.
Qed.

Lemma append_inj_r (a b c : string) : a +:+ c = b +:+ c -> a = b.
Proof.
  intros H. assert (String.length a = String.length b) as Hlen.
  { apply (f_equal String.length) in H. rewrite !length_append in H. lia. }
  revert b H Hlen. induction a as [| x a IH]; intros [| y b] H Hlen;
    try reflexivity; try discriminate Hlen.
  rewrite !append_cons in H. injection H as -> H. f_equal. apply IH; [exact H |].
  cbn [String.length] in Hlen. lia.
Qed.

Lemma conversation_archive_inj (root : string) (i j : Z) :
  conversation_archive root i = conversation_archive root j -> i = j.
Proof.
  unfold conversation_archive. intros H. apply path_join_inj in H.
  apply (inj (String.app "CONVERSATION.")) in H. apply append_inj_r in H.
  by apply (inj pretty) in H.
Qed.

Lemma conversation_not_archive (root : string) (i : Z) :
  path_join root FILES.CONVERSATION <> conversation_archive root i.
Proof.
  unfold conversation_archive. intros H. apply path_join_inj in H.
  apply (inj (String.app "CONVERSATION.")) in H.
  apply (f_equal String.length) in H. rewrite length_append in H. cbn in H. lia.
Qed.

Lemma supervisor_log_not_archive (root : string) (i : Z) :
  path_join root FILES.SUPERVISOR_LOG <> conversation_archive root i.
Proof.
  unfold conversation_archive. intros H. apply path_join_inj in H. discriminate H.
Qed.

Lemma supervisor_log_not_conversation (root : string) :
  path_join root FILES.SUPERVISOR_LOG <> path_join root FILES.CONVERSATION.
Proof. intros H. apply path_join_inj in H. discriminate H. Qed.

Lemma conversation_archive_1 (root : string) :
  path_join root "CONVERSATION.1.md" = conversation_archive root 1.
Proof. reflexivity. Qed.

Lemma files_fs_rm (p : string) (w : World) : files (fs_rm p w) = delete p (files w).
Proof. reflexivity. Qed.

Lemma files_fs_rename (src dst : string) (w : World) :
  files (fs_rename src dst w)
  = match files w !! src with
    | Some c => <[dst := c]> (delete src (files w))
    | None => files w
    end.
Proof. unfold fs_rename. destruct (files w !! src); reflexivity. Qed.

Lemma files_appendFile (p c : string) (w : World) :
  files (appendFile p c w) = <[p := nullish (files w !! p) EmptyString +:+ c]> (files w).
Proof. reflexivity. Qed.

(** The rotation loop touches nothing but archives. *)
Lemma rotate_archives_other (root : string) (count : Z) (n : nat) (w : World) (p : string) :
  (forall j, p <> conversation_archive root j) ->
  files (Delivery.rotate_archives root count n w) !! p = files w !! p.
Proof.
  intros Hp. revert w. induction n as [| k IH]; intros w; [reflexivity |].
  cbn [Delivery.rotate_archives]. rewrite IH.
  destruct (Z.of_nat (S k) =? count).
  - rewrite files_fs_rm. by rewrite lookup_delete_ne.
  - destruct (bool_decide _); [| reflexivity].
    rewrite files_fs_rename, files_fs_rm.
    destruct (delete _ (files w) !! _) as [c |].
    + rewrite lookup_insert_ne by auto. by rewrite !lookup_delete_ne.
    + by rewrite lookup_delete_ne.
Qed.

Lemma rotate_archives_world (root : string) (count : Z) (n : nat) (w : World) :
  supervisor (Delivery.rotate_archives root count n w) = supervisor w
  /\ sessionMap (Delivery.rotate_archives root count n w) = sessionMap w
  /\ effects (Delivery.rotate_archives root count n w) = effects w.
Proof.
  revert w. induction n as [| k IH]; intros w; [auto |].
  cbn [Delivery.rotate_archives].
  match goal with
  | |- context [Delivery.rotate_archives root count k ?w0] =>
      destruct (IH w0) as (-> & -> & ->)
  end.
  destruct (Z.of_nat (S k) =? count); [auto |].
  destruct (bool_decide _); [| auto].
  unfold fs_rename. destruct (files _ !! _); auto.
Qed.

(** Entered at [n] with the slot above [n] free, the loop moves every
    archive up to [n] one slot up and leaves the first slot free. *)
Lemma rotate_archives_shift (root : string) (count : Z) (n : nat) (w : World) :
  Z.of_nat n <= count ->
  (Z.of_nat n < count -> files w !! conversation_archive root (Z.of_nat n + 1) = None) ->
  let w' := Delivery.rotate_archives root count n w in
  (forall j, 1 <= j <= Z.of_nat n -> j < count ->
             files w' !! conversation_archive root (j + 1)
             = files w !! conversation_archive root j)
  /\ (1 <= Z.of_nat n -> files w' !! conversation_archive root 1 = None)
  /\ (forall p, (forall j, 1 <= j <= Z.min (Z.of_nat n + 1) count ->
                           p <> conversation_archive root j) ->
                files w' !! p = files w !! p).
Proof.
  revert w. induction n as [| k IH]; intros w Hle Hfree; cbn zeta.
  { cbn [Delivery.rotate_archives]. split; [intros j Hj; lia |].
    split; [lia | reflexivity]. }
  cbn [Delivery.rotate_archives].
  set (iz := Z.of_nat (S k)) in *.
  set (curr := conversation_archive root iz).
  set (next := conversation_archive root (iz + 1)).
  set (w1 := if iz =? count then fs_rm curr w
             else if bool_decide (is_Some (files w !! curr))
                  then fs_rename curr next (fs_rm next w) else w).
  assert (forall a b, a <> b -> conversation_archive root a <> conversation_archive root b)
    as Hne.
  { intros a b Hab Heq. apply Hab. by apply conversation_archive_inj in Heq. }
  assert (files w1 !! curr = None) as Hcurr.
  { subst w1. destruct (iz =? count).
    - rewrite files_fs_rm. apply lookup_delete_eq.
    - destruct (bool_decide (is_Some (files w !! curr))) eqn:Eb.
      + rewrite files_fs_rename, files_fs_rm.
        destruct (delete next (files w) !! curr) eqn:Ed; [| exact Ed].
        rewrite lookup_insert_ne by (apply Hne; lia). apply lookup_delete_eq.
      + apply bool_decide_eq_false in Eb. by apply eq_None_not_Some. }
  assert (iz < count -> files w1 !! next = files w !! curr) as Hnext.
  { intros Hlt. subst w1. destruct (iz =? count) eqn:E; [apply Z.eqb_eq in E; lia |].
    destruct (bool_decide (is_Some (files w !! curr))) eqn:Eb.
    - apply bool_decide_eq_true in Eb as [c Hc].
      rewrite files_fs_rename, files_fs_rm.
      rewrite lookup_delete_ne by (apply Hne; lia). rewrite Hc.
      by rewrite lookup_insert_eq.
    - apply bool_decide_eq_false in Eb. apply eq_None_not_Some in Eb.
      rewrite Eb. apply Hfree. lia. }
  assert (forall p, p <> curr -> (iz < count -> p <> next) ->
                    files w1 !! p = files w !! p) as Hother.
  { intros p Hc Hn. subst w1. destruct (iz =? count) eqn:E.
    - rewrite files_fs_rm. by rewrite lookup_delete_ne.
    - apply Z.eqb_neq in E. specialize (Hn ltac:(lia)).
      destruct (bool_decide _); [| reflexivity].
      rewrite files_fs_rename, files_fs_rm.
      destruct (delete next (files w) !! curr).
      + rewrite lookup_insert_ne by auto. by rewrite !lookup_delete_ne.
      + by rewrite lookup_delete_ne. }
  assert (Z.of_nat k + 1 = iz) as Hk by (subst iz; lia).
  destruct (IH w1) as (Hshift & Hfirst & Hrest).
  { lia. }
  { intros _. rewrite Hk. exact Hcurr. }
  cbn zeta in *. split; [| split].
  - intros j Hj Hjc. destruct (decide (j = iz)) as [-> | Hji].
    + rewrite Hrest; [by apply Hnext |].
      intros j' Hj'. apply Hne. lia.
    + rewrite Hshift by lia. apply Hother; [apply Hne; lia |]. intros _. apply Hne. lia.
  - intros _. destruct k as [| k'].
    + cbn [Delivery.rotate_archives]. exact Hcurr.
    + apply Hfirst. lia.
  - intros p Hp. rewrite Hrest by (intros j Hj; apply Hp; lia).
    apply Hother; [apply Hp; lia |]. intros Hlt. apply Hp. lia.
Qed.

(** X13.  Rotation keeps the most recent logs.  When [CONVERSATION.md] has
    more lines than [maxConversationLines] (and [conversationArchiveCount]
    is at least 1, as every resolved configuration has it), the rotation
    moves it to [CONVERSATION.1.md], moves every archive [j] below the count
    to [j + 1] (an archive that was missing leaves its target missing),
    drops what was in the last slot, starts a fresh [CONVERSATION.md], and
    touches no other file. *)
Theorem conversation_rotation_shifts (P : Plugin) (cfg : ResolvedConfig) (env : Env)
    (w : World) (raw : string) :
  let root := worktree P in
  let count := conversationArchiveCount cfg in
  let w' := Delivery.rotateConversationLogIfNeeded P cfg env w in
  files w !! path_join root FILES.CONVERSATION = Some raw ->
  maxConversationLines cfg < Z.of_nat (length (split_lines raw)) ->
  1 <= count ->
  files w' !! conversation_archive root 1 = Some raw
  /\ (forall j, 1 <= j < count ->
                files w' !! conversation_archive root (j + 1)
                = files w !! conversation_archive root j)
  /\ files w' !! path_join root FILES.CONVERSATION
     = Some ("# Conversation Log (append-only)" +:+ nl +:+ nl +:+ "- " +:+ env_iso env
             +:+ " rotated" +:+ nl)
  /\ (forall p, p <> path_join root FILES.CONVERSATION ->
                (forall j, 1 <= j <= count -> p <> conversation_archive root j) ->
                files w' !! p = files w !! p).
Proof.
  cbn zeta. intros Hraw Hlines Hcount. unfold Delivery.rotateConversationLogIfNeeded.
  rewrite Hraw. apply Z.leb_gt in Hlines. rewrite Hlines.
  set (count := conversationArchiveCount cfg) in *.
  set (root := worktree P).
  destruct (rotate_archives_shift root count (Z.to_nat count) w) as (Hshift & Hfirst & Hrest).
  { lia. }
  { intros Hlt. lia. }
  cbn zeta in *. set (w1 := Delivery.rotate_archives root count (Z.to_nat count) w) in *.
  assert (forall a b, a <> b -> conversation_archive root a <> conversation_archive root b)
    as Hne.
  { intros a b Hab Heq. apply Hab. by apply conversation_archive_inj in Heq. }
  assert (files w1 !! path_join root FILES.CONVERSATION = Some raw) as Hconv.
  { subst w1. rewrite rotate_archives_other; [exact Hraw |].
    intros j. apply conversation_not_archive. }
  rewrite files_writeFile, files_fs_rename, Hconv, conversation_archive_1.
  split; [| split; [| split]].
  - rewrite lookup_insert_ne by apply conversation_not_archive.
    apply lookup_insert_eq.
  - intros j Hj.
    rewrite lookup_insert_ne by apply conversation_not_archive.
    rewrite lookup_insert_ne by (apply Hne; lia).
    rewrite lookup_delete_ne by apply conversation_not_archive.
    apply Hshift; lia.
  - apply lookup_insert_eq.
  - intros p Hp Harch.
    rewrite lookup_insert_ne by auto.
    rewrite lookup_insert_ne by (intros <-; apply (Harch 1); [lia | reflexivity]).
    rewrite lookup_delete_ne by auto.
    apply Hrest. intros j Hj. apply Harch. lia.
Qed.

Lemma rotateConversationLogIfNeeded_other (P : Plugin) (cfg : ResolvedConfig) (env : Env)
    (w : World) (p : string) :
  p <> path_join (worktree P) FILES.CONVERSATION ->
  (forall j, p <> conversation_archive (worktree P) j) ->
  files (Delivery.rotateConversationLogIfNeeded P cfg env w) !! p = files w !! p.
Proof.
  intros Hc Ha. unfold Delivery.rotateConversationLogIfNeeded.
  destruct (files w !! path_join (worktree P) FILES.CONVERSATION) as [raw |] eqn:Hraw;
    [| reflexivity].
  destruct (_ <=? _); [reflexivity |].
  rewrite files_writeFile, files_fs_rename, conversation_archive_1.
  rewrite lookup_insert_ne by auto.
  rewrite (rotate_archives_other _ _ _ _ (path_join (worktree P) FILES.CONVERSATION))
    by (intros j; apply conversation_not_archive).
  rewrite Hraw. rewrite lookup_insert_ne by auto. rewrite lookup_delete_ne by auto.
  by apply rotate_archives_other.
Qed.

Lemma rotateConversationLogIfNeeded_world (P : Plugin) (cfg : ResolvedConfig) (env : Env)
    (w : World) :
  supervisor (Delivery.rotateConversationLogIfNeeded P cfg env w) = supervisor w
  /\ sessionMap (Delivery.rotateConversationLogIfNeeded P cfg env w) = sessionMap w
  /\ effects (Delivery.rotateConversationLogIfNeeded P cfg env w) = effects w.
Proof.
  unfold Delivery.rotateConversationLogIfNeeded.
  destruct (files w !! _); [| auto]. destruct (_ <=? _); [auto |].
  destruct (rotate_archives_world (worktree P) (conversationArchiveCount cfg)
              (Z.to_nat (conversationArchiveCount cfg)) w) as (Hs & Hm & He).
  unfold fs_rename. destruct (files _ !! _); cbn; auto.
Qed.

Lemma appendConversationEntry_other (P : Plugin) (cfg : ResolvedConfig) (env : Env)
    (source message : string) (recent : gmap string Z) (w : World) (p : string) :
  p <> path_join (worktree P) FILES.CONVERSATION ->
  (forall j, p <> conversation_archive (worktree P) j) ->
  files (snd (Delivery.appendConversationEntry P cfg env source message recent w)) !! p
  = files w !! p.
Proof.
  intros Hc Ha. unfold Delivery.appendConversationEntry.
  destruct (Delivery.shouldDedupe _ _ _) as [[|] recent1]; cbn [snd]; [reflexivity |].
  rewrite files_appendFile, lookup_insert_ne by auto.
  by apply rotateConversationLogIfNeeded_other.
Qed.

(** X14.  The supervisor log only grows.  A notice that is a duplicate, or
    that the verbosity filters out ([info] under [minimal]), changes
    nothing at all; any other notice appends exactly one line to
    [SUPERVISOR_LOG.md], after what the log held before. *)
Theorem supervisor_log_append_only (P : Plugin) (cfg : ResolvedConfig) (env : Env)
    (source message : string) (level : NoticeLevel) (post : bool)
    (origin : option string) (recent : gmap string Z) (w : World) :
  let logPath := path_join (worktree P) FILES.SUPERVISOR_LOG in
  let key := "sup|" +:+ source +:+ "|" +:+ level_str level +:+ "|" +:+ message in
  let delivered :=
    negb (fst (Delivery.shouldDedupe key (env_now env) recent))
    && match statusVerbosity cfg, level with
       | minimal, lvl_info => false
       | _, _ => true
       end in
  let w' := snd (Delivery.notifySupervisor P cfg env source message level post origin
                   recent w) in
  (delivered = false -> w' = w)
  /\ (delivered = true ->
      files w' !! logPath
      = Some (nullish (files w !! logPath) EmptyString
              +:+ "- [" +:+ env_iso env +:+ "][" +:+ level_upper level +:+ "][" +:+ source
              +:+ "] " +:+ message +:+ nl))
  /\ exists suffix,
       nullish (files w' !! logPath) EmptyString
       = nullish (files w !! logPath) EmptyString +:+ suffix.
Proof.
  cbn zeta. unfold Delivery.notifySupervisor.
  destruct (Delivery.shouldDedupe _ (env_now env) recent) as [dup recent1]. cbn [fst].
  destruct dup; cbn [negb andb snd].
  { split; [reflexivity |]. split; [discriminate |].
    exists EmptyString. by rewrite append_empty_r. }
  assert (Delivery.messagePassesVerbosity (statusVerbosity cfg) level
          = match statusVerbosity cfg, level with
            | minimal, lvl_info => false
            | _, _ => true
            end) as ->.
  { by destruct (statusVerbosity cfg), level. }
  destruct (match statusVerbosity cfg, level with
            | minimal, lvl_info => false
            | _, _ => true
            end); cbn [negb snd].
  2: { split; [reflexivity |]. split; [discriminate |].
       exists EmptyString. by rewrite append_empty_r. }
  match goal with
  | |- context [Delivery.appendConversationEntry P cfg env source message recent1 ?w0] =>
      pose proof (appendConversationEntry_other P cfg env source message recent1 w0
                    (path_join (worktree P) FILES.SUPERVISOR_LOG)
                    (supervisor_log_not_conversation _)
                    (supervisor_log_not_archive _)) as Hlog;
      destruct (Delivery.appendConversationEntry P cfg env source message recent1 w0)
        as [recent2 w2]
  end.
  cbn [snd] in *. rewrite files_appendFile, lookup_insert_eq in Hlog.
  assert (forall w3, files w3 = files w2 ->
            files w3 !! path_join (worktree P) FILES.SUPERVISOR_LOG
            = Some (nullish (files w !! path_join (worktree P) FILES.SUPERVISOR_LOG)
                      EmptyString
                    +:+ "- [" +:+ env_iso env +:+ "][" +:+ level_upper level +:+ "]["
                    +:+ source +:+ "] " +:+ message +:+ nl)) as Hfin.
  { intros w3 ->. exact Hlog. }
  split; [discriminate |].
  destruct (post && _ && _).
  - rewrite Hfin by reflexivity. split; [reflexivity |]. cbn [nullish]. eauto.
  - rewrite Hfin by reflexivity. split; [reflexivity |]. cbn [nullish]. eauto.
Qed.

(** X15.  No line of the conversation log is lost by adding one.  After
    [appendConversationEntry], what [CONVERSATION.md] held before is still
    there: either the log starts with it, or it is the whole of
    [CONVERSATION.1.md]. *)
Theorem conversation_entry_keeps_history (P : Plugin) (cfg : ResolvedConfig) (env : Env)
    (source message : string) (recent : gmap string Z) (w : World) (raw : string) :
  let root := worktree P in
  let w' := snd (Delivery.appendConversationEntry P cfg env source message recent w) in
  files w !! path_join root FILES.CONVERSATION = Some raw ->
  (exists suffix, files w' !! path_join root FILES.CONVERSATION = Some (raw +:+ suffix))
  \/ files w' !! conversation_archive root 1 = Some raw.
Proof.
  cbn zeta. intros Hraw. unfold Delivery.appendConversationEntry.
  destruct (Delivery.shouldDedupe _ _ _) as [[|] recent1]; cbn [snd].
  { left. exists EmptyString. by rewrite append_empty_r. }
  unfold Delivery.rotateConversationLogIfNeeded. rewrite Hraw.
  destruct (_ <=? _).
  - left. rewrite files_appendFile, lookup_insert_eq, Hraw. cbn [nullish]. eauto.
  - right. rewrite files_appendFile.
    rewrite lookup_insert_ne by apply conversation_not_archive.
    rewrite files_writeFile, files_fs_rename, conversation_archive_1.
    rewrite rotate_archives_other by (intros j; apply conversation_not_archive).
    rewrite Hraw. rewrite lookup_insert_ne by apply conversation_not_archive.
    apply lookup_insert_eq.
Qed.

(** ** Sub-agents: registration, polling, the cap *)

Lemma sessionMap_ensureFile (p c : string) (w : World) :
  sessionMap (ensureFile p c w) = sessionMap w.
Proof. unfold ensureFile. destruct (files w !! p); reflexivity. Qed.

Lemma sessionMap_bootstrapSubAgent (root name goal : string) (tpl : PromptTemplates)
    (ts : string) (w : World) :
  sessionMap (bootstrapSubAgent root name goal tpl ts w) = sessionMap w.
Proof. unfold bootstrapSubAgent. by rewrite !sessionMap_ensureFile. Qed.

Lemma files_ensureFile_lookup (p q c : string) (w : World) :
  files (ensureFile q c w) !! p
  = if decide (p = q) then Some (nullish (files w !! q) c) else files w !! p.
Proof.
  unfold ensureFile. destruct (decide (p = q)) as [-> | Hne].
  - destruct (files w !! q) eqn:E; [by rewrite E |].
    rewrite files_writeFile. by rewrite lookup_insert_eq.
  - destruct (files w !! q); [reflexivity |].
    rewrite files_writeFile. by rewrite lookup_insert_ne.
Qed.

(** X16.  Spawning under a name keeps that name's scratch state.
    [bootstrapSubAgent] always writes a new [PLAN.md] with the goal, but a
    [CURRENT_STATE.md], [NOTES_AND_LEARNINGS.md] or [PREVIOUS_STATE.md]
    that is already in the sub-agent's directory is left as it is (only a
    missing one is created), and no file outside these four is touched. *)
Theorem bootstrapSubAgent_keeps_state (root name goal : string) (tpl : PromptTemplates)
    (ts : string) (w : World) :
  let base := subAgentDir root name in
  let w' := bootstrapSubAgent root name goal tpl ts w in
  (exists plan, files w' !! path_join base FILES.PLAN = Some plan /\ occurs_in goal plan)
  /\ files w' !! path_join base FILES.CURR
     = Some (nullish (files w !! path_join base FILES.CURR) (bootstrapCurrentState tpl))
  /\ (forall c, files w !! path_join base FILES.NOTES = Some c ->
                files w' !! path_join base FILES.NOTES = Some c)
  /\ (forall c, files w !! path_join base FILES.PREV = Some c ->
                files w' !! path_join base FILES.PREV = Some c)
  /\ (forall p, p <> path_join base FILES.PLAN -> p <> path_join base FILES.CURR ->
                p <> path_join base FILES.NOTES -> p <> path_join base FILES.PREV ->
                files w' !! p = files w !! p).
Proof.
  cbn zeta. unfold bootstrapSubAgent. set (base := subAgentDir root name).
  assert (forall a b, a <> b -> path_join base a <> path_join base b) as Hne.
  { intros a b Hab Heq. apply Hab. by apply path_join_inj in Heq. }
  rewrite !files_ensureFile_lookup.
  split; [| split; [| split; [| split]]].
  - rewrite !decide_False by (apply Hne; discriminate).
    rewrite files_writeFile, lookup_insert_eq. eexists. split; [reflexivity |].
    do 6 apply occurs_in_append_l. apply occurs_in_here.
  - rewrite (decide_False (P := path_join base FILES.CURR = path_join base FILES.PREV))
      by (apply Hne; discriminate).
    rewrite (decide_False (P := path_join base FILES.CURR = path_join base FILES.NOTES))
      by (apply Hne; discriminate).
    rewrite decide_True by reflexivity.
    rewrite files_writeFile, lookup_insert_ne by (apply Hne; discriminate). reflexivity.
  - intros c Hc.
    rewrite (decide_False (P := path_join base FILES.NOTES = path_join base FILES.PREV))
      by (apply Hne; discriminate).
    rewrite decide_True by reflexivity.
    rewrite (decide_False (P := path_join base FILES.NOTES = path_join base FILES.CURR))
      by (apply Hne; discriminate).
    rewrite files_writeFile, lookup_insert_ne by (apply Hne; discriminate).
    rewrite Hc. reflexivity.
  - intros c Hc. rewrite decide_True by reflexivity.
    rewrite (decide_False (P := path_join base FILES.PREV = path_join base FILES.NOTES))
      by (apply Hne; discriminate).
    rewrite (decide_False (P := path_join base FILES.PREV = path_join base FILES.CURR))
      by (apply Hne; discriminate).
    rewrite files_writeFile, lookup_insert_ne by (apply Hne; discriminate).
    rewrite Hc. reflexivity.
  - intros p H1 H2 H3 H4. rewrite !files_ensureFile_lookup.
    rewrite !decide_False by assumption.
    rewrite files_writeFile. by rewrite lookup_insert_ne.
Qed.
Lemma files_bootstrapSubAgent_plan (root name goal : string) (tpl : PromptTemplates)
    (ts : string) (w : World) :
  exists plan,
    files (bootstrapSubAgent root name goal tpl ts w)
      !! path_join (subAgentDir root name) FILES.PLAN = Some plan
    /\ occurs_in goal plan.
Proof.
  unfold bootstrapSubAgent. set (base := subAgentDir root name).
  assert (forall a b, a <> b -> path_join base a <> path_join base b) as Hne.
  { intros a b Hab Heq. apply Hab. by apply path_join_inj in Heq. }
  rewrite !files_ensureFile_lookup.
  rewrite !decide_False by (apply Hne; discriminate).
  rewrite files_writeFile, lookup_insert_eq. eexists. split; [reflexivity |].
  do 6 apply occurs_in_append_l. apply occurs_in_here.
Qed.

Lemma running_count_app (l : list SubAgentRecord) (a : SubAgentRecord) :
  running_count (l ++ [a])
  = running_count l + (if status_is_running (sa_status a) then 1 else 0).
Proof.
  unfold running_count. rewrite List.filter_app, length_app. cbn [List.filter].
  destruct (status_is_running (sa_status a)); cbn [length]; lia.
Qed.

Lemma running_count_nonneg (l : list SubAgentRecord) : 0 <= running_count l.
Proof. unfold running_count. lia. Qed.

Lemma subagent_spawn_accepted (P : Plugin) (cfg : ResolvedConfig) (env : Env)
    (ctx : option string) (name goal : string) (context : option string) (w : World)
    (rep : SpawnReport) :
  let caller := nullish ctx "default" in
  let st := fst (getSession caller w) in
  let child := nullish (env_created env) ("unknown-" +:+ string_of_Z (env_now env)) in
  let r := tool_subagent_spawn P cfg env ctx name goal context w in
  fst r = Ok rep ->
  child <> caller ->
  rep = mkSpawnReport name child (path_join (path_join ".opencode" "agents") name)
  /\ sessionMap (snd r) !! child
     = Some (set_lastProgressAt (env_now env) (freshSession subagent (attempt st)))
  /\ sessionMap (snd r) !! caller
     = Some (push_subAgent (mkSubAgentRecord child name goal (env_now env) sa_running None)
               st)
  /\ (forall other, other <> child -> other <> caller ->
                    sessionMap (snd r) !! other = sessionMap w !! other)
  /\ running_count (subAgents st) + 1 <= maxSubAgents cfg
  /\ (exists plan,
        files (snd r) !! path_join (subAgentDir (worktree P) name) FILES.PLAN = Some plan
        /\ occurs_in goal plan)
  /\ (exists promptText,
        new_effects w (snd r)
        = [ESessionCreate ("sub-agent: " +:+ name) child;
           ESessionPrompt child promptText])
  /\ supervisor (snd r) = supervisor w.
Proof.
  cbn zeta. unfold tool_subagent_spawn.
  pose proof (getSession_supervisor (nullish ctx "default") w) as Hsup.
  pose proof (getSession_effects (nullish ctx "default") w) as Heff.
  pose proof (getSession_lookup (nullish ctx "default") w) as Hcaller.
  pose proof (fun o => getSession_other (nullish ctx "default") o w) as Hoth.
  destruct (getSession (nullish ctx "default") w) as [st w1]. cbn [fst snd] in *.
  destruct (negb (subAgentEnabled cfg)); [discriminate |].
  destruct (negb (valid_subagent_name name)); [discriminate |].
  destruct (existsb (running_named name) (subAgents st)); [discriminate |].
  destruct (maxSubAgents cfg <=? running_count (subAgents st)) eqn:Ecap; [discriminate |].
  cbn [fst snd]. intros [= <-] Hne.
  set (child := nullish (env_created env) ("unknown-" +:+ string_of_Z (env_now env))) in *.
  split; [reflexivity |].
  world_simpl. rewrite sessionMap_bootstrapSubAgent.
  repeat (first [ rewrite lookup_insert_eq
                | rewrite (lookup_insert_ne _ child (nullish ctx "default")) by exact Hne
                | rewrite insert_insert_eq
                | rewrite Hcaller
                | progress cbn [nullish] ]).
  split; [| split; [| split; [| split; [| split; [| split]]]]].
  - repeat (first [rewrite lookup_insert_eq | rewrite lookup_insert_ne by congruence]).
    reflexivity.
  - repeat (first [rewrite lookup_insert_eq | rewrite lookup_insert_ne by congruence]).
    reflexivity.
  - intros other Hoc Hocal. rewrite !lookup_insert_ne by congruence. by apply Hoth.
  - apply Z.leb_gt in Ecap. lia.
  - apply files_bootstrapSubAgent_plan.
  - eexists. unfold new_effects. world_simpl. rewrite Heff.
    rewrite <- !app_assoc. rewrite drop_app_length. reflexivity.
  - exact Hsup.
Qed.

(** X17.  What an accepted [subagent_spawn] leaves (for a child id that
    differs from the caller's): the report names the child; the child is
    registered with the sub-agent role and the caller's attempt number; the
    caller's list of sub-agents has one more record, running, at its end,
    so one more sub-agent counts against the cap; the sub-agent's plan holds
    the goal; exactly one session has been created and prompted; every other
    session and the supervisor are as before. *)
Theorem subagent_spawn_registers (P : Plugin) (cfg : ResolvedConfig) (env : Env)
    (ctx : option string) (name goal : string) (context : option string) (w : World)
    (rep : SpawnReport) :
  let caller := nullish ctx "default" in
  let st := fst (getSession caller w) in
  let child := nullish (env_created env) ("unknown-" +:+ string_of_Z (env_now env)) in
  let r := tool_subagent_spawn P cfg env ctx name goal context w in
  fst r = Ok rep ->
  child <> caller ->
  rep = mkSpawnReport name child (path_join (path_join ".opencode" "agents") name)
  /\ sessionMap (snd r) !! child
     = Some (set_lastProgressAt (env_now env) (freshSession subagent (attempt st)))
  /\ sessionMap (snd r) !! caller
     = Some (push_subAgent (mkSubAgentRecord child name goal (env_now env) sa_running None)
               st)
  /\ (forall other, other <> child -> other <> caller ->
                    sessionMap (snd r) !! other = sessionMap w !! other)
  /\ running_count (subAgents st) + 1 <= maxSubAgents cfg
  /\ (exists plan,
        files (snd r) !! path_join (subAgentDir (worktree P) name) FILES.PLAN = Some plan
        /\ occurs_in goal plan)
  /\ (exists promptText,
        new_effects w (snd r)
        = [ESessionCreate ("sub-agent: " +:+ name) child;
           ESessionPrompt child promptText])
  /\ supervisor (snd r) = supervisor w.
Proof. apply subagent_spawn_accepted. Qed.

Lemma mutateSession_world (id : string) (f : SessionState -> SessionState) (w : World) :
  mutateSession id f w
  = mkWorld (supervisor w)
      (<[id := f (nullish (sessionMap w !! id) (freshSession main 0))]> (sessionMap w))
      (files w) (pending w) (effects w).
Proof.
  unfold mutateSession, getSession. destruct (sessionMap w !! id) as [s |];
    unfold with_sessionMap; cbn [supervisor sessionMap files pending effects nullish].
  - reflexivity.
  - by rewrite insert_insert_eq.
Qed.

Lemma mark_done_idem (name raw : string) (l : list SubAgentRecord) :
  mark_done name raw (mark_done name raw l) = mark_done name raw l.
Proof.
  induction l as [| a l IH]; cbn [mark_done]; [reflexivity |].
  destruct (String.eqb (sa_name a) name) eqn:E; cbn [mark_done sa_name].
  - by rewrite E.
  - rewrite E. by rewrite IH.
Qed.

Lemma mark_done_running_count (name raw : string) (l : list SubAgentRecord) :
  running_count (mark_done name raw l) <= running_count l.
Proof.
  unfold running_count. induction l as [| a l IH]; cbn [mark_done]; [lia |].
  destruct (String.eqb (sa_name a) name); cbn [List.filter sa_status status_is_running].
  - destruct (status_is_running (sa_status a)); cbn [length]; lia.
  - destruct (status_is_running (sa_status a)); cbn [length]; lia.
Qed.

Lemma subagent_await_world (P : Plugin) (ctx : option string) (name : string)
    (maxLines : option Z) (w : World) :
  let caller := nullish ctx "default" in
  let st := nullish (sessionMap w !! caller) (freshSession main 0) in
  let currPath := path_join (subAgentDir (worktree P) name) FILES.CURR in
  let r := tool_subagent_await P ctx name maxLines w in
  files (snd r) = files w
  /\ supervisor (snd r) = supervisor w
  /\ effects (snd r) = effects w
  /\ (files w !! currPath = None -> r = (AwNotFound name, w))
  /\ (forall raw, files w !! currPath = Some raw ->
        let finished := includes raw (subagentDoneHeading (templates P))
                        || includes raw (subagentDoneSentinel (templates P)) in
        fst r = AwStatus finished name (clampLines raw (nullish maxLines 200))
        /\ (finished = false -> snd r = w)
        /\ (finished = true ->
            sessionMap (snd r)
            = <[caller := set_subAgents (mark_done name raw (subAgents st)) st]>
                (sessionMap w)))
  /\ tool_subagent_await P ctx name maxLines (snd r) = r.
Proof.
  cbn zeta. unfold tool_subagent_await.
  change (path_join (path_join (path_join (path_join (worktree P) ".opencode") "agents") name)
            "CURRENT_STATE.md")
    with (path_join (subAgentDir (worktree P) name) FILES.CURR).
  destruct (files w !! path_join (subAgentDir (worktree P) name) FILES.CURR)
    as [raw |] eqn:Hraw; cbn [fst snd].
  2: { rewrite Hraw. do 3 (split; [reflexivity |]). split; [reflexivity |].
       split; [discriminate | reflexivity]. }
  destruct (includes raw (subagentDoneHeading (templates P))
            || includes raw (subagentDoneSentinel (templates P))) eqn:Hfin; cbn [fst snd].
  2: { rewrite Hraw, Hfin. do 3 (split; [reflexivity |]). split; [discriminate |].
       split; [| reflexivity].
       intros raw' [= <-]. cbn zeta. rewrite Hfin. split; [reflexivity |].
       split; [reflexivity | discriminate]. }
  rewrite mutateSession_world. cbn [files supervisor effects sessionMap].
  rewrite Hraw, Hfin. rewrite mutateSession_world. cbn [files supervisor effects sessionMap].
  rewrite lookup_insert_eq. cbn [nullish set_subAgents subAgents].
  rewrite mark_done_idem, insert_insert_eq.
  do 3 (split; [reflexivity |]). split; [discriminate |]. split; [| reflexivity].
  intros raw' [= <-]. cbn zeta. rewrite Hfin. split; [reflexivity |].
  split; [discriminate | reflexivity].
Qed.

(** X18.  [subagent_await] polls without side effects beyond the record
    it completes.  It never touches the files, the supervisor or the
    session host; a missing state document gives [not_found]; a state
    document without the done heading and the done sentinel gives [running]
    and changes nothing; one with either of them gives [done] and marks the
    first record of that name in the caller's list as done, with the
    document as its result.  Asking again gives the same answer and changes
    nothing more. *)
Theorem subagent_await_polls (P : Plugin) (ctx : option string) (name : string)
    (maxLines : option Z) (w : World) :
  let caller := nullish ctx "default" in
  let st := nullish (sessionMap w !! caller) (freshSession main 0) in
  let currPath := path_join (subAgentDir (worktree P) name) FILES.CURR in
  let r := tool_subagent_await P ctx name maxLines w in
  files (snd r) = files w
  /\ supervisor (snd r) = supervisor w
  /\ effects (snd r) = effects w
  /\ (files w !! currPath = None -> r = (AwNotFound name, w))
  /\ (forall raw, files w !! currPath = Some raw ->
        let finished := includes raw (subagentDoneHeading (templates P))
                        || includes raw (subagentDoneSentinel (templates P)) in
        fst r = AwStatus finished name (clampLines raw (nullish maxLines 200))
        /\ (finished = false -> snd r = w)
        /\ (finished = true ->
            sessionMap (snd r)
            = <[caller := set_subAgents (mark_done name raw (subAgents st)) st]>
                (sessionMap w)))
  /\ tool_subagent_await P ctx name maxLines (snd r) = r.
Proof. apply subagent_await_world. Qed.

Lemma mark_done_fresh (name raw : string) (l : list SubAgentRecord) (a : SubAgentRecord) :
  Forall (fun b => sa_name b <> name) l ->
  sa_name a = name ->
  mark_done name raw (l ++ [a])
  = l ++ [mkSubAgentRecord (sa_sessionId a) (sa_name a) (sa_goal a) (sa_spawnedAt a)
            sa_done (Some raw)].
Proof.
  intros Hl Ha. induction Hl as [| b l Hb _ IH]; cbn [app mark_done].
  - rewrite Ha, String.eqb_refl. reflexivity.
  - apply String.eqb_neq in Hb. rewrite Hb. by rewrite IH.
Qed.

Lemma existsb_running_named_fresh (name : string) (l : list SubAgentRecord) :
  Forall (fun b => sa_name b <> name) l -> existsb (running_named name) l = false.
Proof.
  intros Hl. induction Hl as [| b l Hb _ IH]; [reflexivity |].
  cbn [existsb]. rewrite IH. unfold running_named.
  apply String.eqb_neq in Hb. rewrite Hb. reflexivity.
Qed.

(** X19.  A finished sub-agent frees its name and its slot.  After an
    accepted [subagent_spawn] under a name the caller has not used before,
    once the sub-agent's [CURRENT_STATE.md] holds the done sentinel, a
    [subagent_await] reports [done]; the caller then has as many running
    sub-agents as before the spawn, and a new [subagent_spawn] under the
    same name and the same configuration is accepted. *)
Theorem finished_subagent_frees_slot (P : Plugin) (cfg : ResolvedConfig) (env env' : Env)
    (ctx : option string) (name goal goal' : string) (context context' : option string)
    (w : World) (rep : SpawnReport) (raw : string) (maxLines : option Z) :
  let caller := nullish ctx "default" in
  let st := fst (getSession caller w) in
  let child := nullish (env_created env) ("unknown-" +:+ string_of_Z (env_now env)) in
  let w1 := snd (tool_subagent_spawn P cfg env ctx name goal context w) in
  let w2 := writeFile (path_join (subAgentDir (worktree P) name) FILES.CURR) raw w1 in
  let r := tool_subagent_await P ctx name maxLines w2 in
  fst (tool_subagent_spawn P cfg env ctx name goal context w) = Ok rep ->
  child <> caller ->
  Forall (fun a => sa_name a <> name) (subAgents st) ->
  includes raw (subagentDoneSentinel (templates P)) = true ->
  fst r = AwStatus true name (clampLines raw (nullish maxLines 200))
  /\ (exists st', sessionMap (snd r) !! caller = Some st'
                  /\ running_count (subAgents st') = running_count (subAgents st)
                  /\ existsb (running_named name) (subAgents st') = false)
  /\ is_Ok (fst (tool_subagent_spawn P cfg env' ctx name goal' context' (snd r))) = true.
Proof.
  cbn zeta. intros Hok Hne Hfresh Hdone.
  destruct (subagent_spawn_accepted P cfg env ctx name goal context w rep Hok Hne)
    as (_ & _ & Hcaller & _ & Hcap & _).
  assert (subAgentEnabled cfg = true /\ valid_subagent_name name = true) as [Hen Hvalid].
  { revert Hok. unfold tool_subagent_spawn.
    destruct (getSession (nullish ctx "default") w) as [st0 w0].
    destruct (subAgentEnabled cfg); cbn [negb]; [| discriminate].
    destruct (valid_subagent_name name); cbn [negb]; [auto | discriminate]. }
  set (st := fst (getSession (nullish ctx "default") w)) in *.
  set (w1 := snd (tool_subagent_spawn P cfg env ctx name goal context w)) in *.
  set (rec := mkSubAgentRecord _ name goal (env_now env) sa_running None) in *.
  set (w2 := writeFile (path_join (subAgentDir (worktree P) name) FILES.CURR) raw w1).
  destruct (subagent_await_world P ctx name maxLines w2) as (_ & _ & _ & _ & Hst & _).
  cbn zeta in Hst.
  assert (files w2 !! path_join (subAgentDir (worktree P) name) FILES.CURR = Some raw)
    as Hfile by (subst w2; rewrite files_writeFile; apply lookup_insert_eq).
  specialize (Hst raw Hfile).
  rewrite Hdone, orb_true_r in Hst. destruct Hst as (Hfst & _ & Hsm).
  specialize (Hsm eq_refl).
  change (sessionMap w2) with (sessionMap w1) in Hsm. rewrite Hcaller in Hsm.
  cbn [nullish push_subAgent subAgents] in Hsm.
  rewrite (mark_done_fresh name raw (subAgents st) rec Hfresh eq_refl) in Hsm.
  split; [exact Hfst |].
  set (r := tool_subagent_await P ctx name maxLines w2) in *.
  set (done_rec := mkSubAgentRecord _ _ _ _ sa_done (Some raw)) in *.
  assert (running_count (subAgents st ++ [done_rec]) = running_count (subAgents st)) as Hcount.
  { rewrite running_count_app. cbn. lia. }
  assert (existsb (running_named name) (subAgents st ++ [done_rec]) = false) as Hname.
  { rewrite existsb_app, (existsb_running_named_fresh _ _ Hfresh).
    cbn [existsb orb]. unfold running_named. subst done_rec.
    cbn [sa_status status_is_running]. by rewrite andb_false_r. }
  split.
  - eexists. rewrite Hsm, lookup_insert_eq. split; [reflexivity |].
    cbn [set_subAgents subAgents]. by split.
  - unfold tool_subagent_spawn.
    rewrite (getSession_known (nullish ctx "default") (snd r) _
               ltac:(rewrite Hsm; apply lookup_insert_eq)).
    rewrite Hen, Hvalid. cbn [negb set_subAgents subAgents]. rewrite Hname, Hcount.
    destruct (maxSubAgents cfg <=? running_count (subAgents st)) eqn:E;
      [apply Z.leb_le in E; lia | reflexivity].
Qed.

(** ** The cap on running sub-agents, over whole runs *)

Lemma within_cap_same (M : Z) (w w' : World) :
  sessionMap w' = sessionMap w -> within_cap M w -> within_cap M w'.
Proof. unfold within_cap. intros -> H. exact H. Qed.

Lemma within_cap_insert (M : Z) (w w' : World) (id : string) (s : SessionState) :
  sessionMap w' = <[id := s]> (sessionMap w) ->
  running_count (subAgents s) <= M ->
  within_cap M w -> within_cap M w'.
Proof.
  unfold within_cap. intros -> Hs H sid st. destruct (decide (sid = id)) as [-> | Hne].
  - rewrite lookup_insert_eq. by intros [= <-].
  - rewrite lookup_insert_ne by congruence. apply H.
Qed.

Lemma within_cap_delete (M : Z) (w w' : World) (id : string) :
  sessionMap w' = delete id (sessionMap w) -> within_cap M w -> within_cap M w'.
Proof.
  unfold within_cap. intros -> H sid st Hl. apply lookup_delete_Some in Hl as [_ Hl].
  by apply (H sid).
Qed.

Lemma within_cap_mutate (M : Z) (w : World) (id : string)
    (f : SessionState -> SessionState) :
  0 <= M ->
  (forall s, subAgents (f s) = subAgents s) ->
  within_cap M w -> within_cap M (mutateSession id f w).
Proof.
  intros HM Hf H. apply (within_cap_insert M w _ id _ (sessionMap_mutateSession id f w));
    [| exact H].
  rewrite Hf. destruct (sessionMap w !! id) as [s |] eqn:E; cbn [nullish].
  - by apply (H id).
  - cbn. exact HM.
Qed.

Lemma within_cap_getSession (M : Z) (w : World) (id : string) :
  0 <= M -> within_cap M w -> within_cap M (snd (getSession id w)).
Proof.
  intros HM H. unfold getSession. destruct (sessionMap w !! id) eqn:E; [exact H |].
  cbn [snd]. apply (within_cap_insert M w _ id (freshSession main 0)); auto.
Qed.

Lemma within_cap_maybeWarn (M : Z) (cfg : ResolvedConfig) (env : Env)
    (sid : option string) (label : string) (w : World) :
  0 <= M -> within_cap M w -> within_cap M (maybeWarn cfg env sid label w).
Proof.
  intros HM H. unfold maybeWarn. destruct sid as [id |]; [| exact H].
  destruct (negb _); [exact H |]. destruct (sessionMap w !! id) as [st |]; [| exact H].
  destruct (lastProgressAt st); [| exact H]. destruct (negb _); [exact H |].
  destruct (_ <? _); [exact H |].
  apply within_cap_mutate; [exact HM | reflexivity |]. exact H.
Qed.

Lemma within_cap_spawnRalphSession (M : Z) (P : Plugin) (env : Env) (n : Z) (w : World) :
  0 <= M -> within_cap M w -> within_cap M (spawnRalphSession P env n w).
Proof.
  intros HM H. destruct (spawnRalphSession_world P env n w) as (_ & _ & Hm & _).
  cbn zeta in Hm. by apply (within_cap_insert M w _ _ _ Hm).
Qed.

Lemma sessionMap_handleRalphSessionIdle (rid : string) (w : World) :
  sessionMap (handleRalphSessionIdle rid w) = sessionMap w.
Proof.
  unfold handleRalphSessionIdle.
  destruct (negb _); [reflexivity |]. destruct (sup_done _); [reflexivity |].
  world_simpl.
  destruct (sessionMap w !! rid) as [s |]; cbn [fmap option_fmap option_map nullish].
  - destruct (workerSpawned s), (reportedStatus s); world_simpl; reflexivity.
  - world_simpl. reflexivity.
Qed.

Lemma within_cap_handleWorkerIdle (M : Z) (P : Plugin) (cfg : ResolvedConfig) (env : Env)
    (sid : string) (w : World) :
  0 <= M -> within_cap M w -> within_cap M (handleWorkerIdle P cfg env sid w).
Proof.
  intros HM H.
  destruct (decide (currentWorkerSessionId (supervisor w) = Some sid)) as [Hcur | Hcur];
    [| unfold handleWorkerIdle; by rewrite (bool_decide_eq_false_2 _ Hcur)].
  destruct (sup_done (supervisor w)) eqn:Hd;
    [unfold handleWorkerIdle; rewrite Hd; by destruct (negb _) |].
  destruct (enabled cfg) eqn:Hen;
    [| unfold handleWorkerIdle; rewrite Hd, Hen; by destruct (negb _)].
  destruct (autoStartOnMainIdle cfg) eqn:Hau;
    [| unfold handleWorkerIdle; rewrite Hd, Hen, Hau; by destruct (negb _)].
  destruct (handleWorkerIdle_reaches_verdict P cfg env sid w Hcur Hd Hen Hau)
    as (w4 & pre & -> & _ & _ & Hm4 & _).
  apply (within_cap_same M w w4 Hm4) in H.
  set (v := verify_verdict cfg env). set (d := snd (fst (runAndParseVerify P cfg env w))).
  assert (v = pass \/ v <> pass) as [-> | Hv]
    by (destruct v; [by left | by right | by right]).
  - destruct (handleWorkerIdle_verdict_pass P cfg env sid d w4) as (_ & _ & Hm & _).
    by apply (within_cap_same M w4 _ Hm).
  - destruct (Z_le_gt_dec (maxAttempts cfg) (sup_attempt (supervisor w4))) as [Hmax | Hlt].
    + destruct (handleWorkerIdle_verdict_stop P cfg env sid v d w4 Hv Hmax)
        as (_ & _ & Hm & _).
      by apply (within_cap_same M w4 _ Hm).
    + destruct (handleWorkerIdle_verdict_next P cfg env sid v d w4 Hv ltac:(lia))
        as (_ & _ & Hm & _).
      cbn zeta in Hm. by apply (within_cap_insert M w4 _ _ _ Hm).
Qed.

Lemma within_cap_handleMainIdle (M : Z) (P : Plugin) (cfg : ResolvedConfig) (env : Env)
    (sid : string) (w : World) :
  0 <= M -> within_cap M w -> within_cap M (handleMainIdle P cfg env sid w).
Proof.
  intros HM H. unfold handleMainIdle.
  destruct (sup_done _); [exact H |]. destruct (paused _); [exact H |].
  destruct (truthy_ostr (currentRalphSessionId _)); [exact H |].
  destruct (truthy_ostr (currentWorkerSessionId _)); [exact H |].
  destruct (negb (enabled cfg)); [exact H |].
  match goal with
  | |- context [if ?b then w else _] => destruct b; [exact H |]
  end.
  cbn [with_supervisor supervisor set_lastMainIdleAt sessionId].
  destruct (truthy_ostr (sessionId (supervisor w))).
  - destruct (bool_decide _); [| exact H].
    destruct (negb _); [exact H |].
    apply within_cap_spawnRalphSession; [exact HM | exact H].
  - destruct (negb _); [exact H |].
    apply within_cap_spawnRalphSession; [exact HM | exact H].
Qed.

Lemma within_cap_on_session_idle (M : Z) (P : Plugin) (cfg : ResolvedConfig) (env : Env)
    (sid : string) (w : World) :
  0 <= M -> within_cap M w -> within_cap M (on_session_idle P cfg env sid w).
Proof.
  intros HM H. unfold on_session_idle.
  destruct (negb _); [exact H |]. destruct (_ || _) eqn:Hg; [exact H |].
  assert (within_cap M (emitHeartbeatWarnings cfg env w)) as H1.
  { unfold emitHeartbeatWarnings. rewrite Hg.
    apply within_cap_maybeWarn; [exact HM |]. by apply within_cap_maybeWarn. }
  destruct (bool_decide _); [by apply within_cap_handleWorkerIdle |].
  destruct (bool_decide _);
    [by apply (within_cap_same M _ _ (sessionMap_handleRalphSessionIdle _ _)) |].
  by apply within_cap_handleMainIdle.
Qed.

Lemma wait_loop_sessionMap (P : Plugin) (cfg : ResolvedConfig) (env : Env)
    (sid name : string) (n : Z) (path : string) (note : option string)
    (poll : nat -> string) (remaining i : nat) (w : World) :
  sessionMap (snd (waitForReviewerCompletion_loop P cfg env sid name n path note poll i
                     remaining w))
  = sessionMap w.
Proof.
  revert i. induction remaining as [| k IH]; intros i; cbn [waitForReviewerCompletion_loop].
  - reflexivity.
  - destruct (negb _); [apply IH | reflexivity].
Qed.

Lemma within_cap_start_reviewer (M : Z) (P : Plugin) (cfg : ResolvedConfig) (env : Env)
    (sid : string) (waitForDone : bool) (tm : option Z) (out : option string)
    (poll : nat -> string) (n : Z) (requested : option string) (w : World) :
  0 <= M -> within_cap M w ->
  within_cap M (snd (start_reviewer P cfg env sid waitForDone tm out poll n requested w)).
Proof.
  intros HM H. unfold start_reviewer.
  set (rid := nullish (env_created env) ("reviewer-" +:+ string_of_Z (env_now env))).
  match goal with
  | |- context [notifySupervisor ?a ?b ?c ?d ?e ?w8] =>
      set (w9 := notifySupervisor a b c d e w8)
  end.
  assert (within_cap M w9) as H9.
  { apply (within_cap_insert M w w9 rid
             (set_lastProgressAt (env_now env) (freshSession subagent n)));
      [| cbn; exact HM | exact H].
    subst w9. world_simpl. rewrite sessionMap_bootstrapSubAgent.
    rewrite lookup_insert_eq. cbn [nullish]. by rewrite insert_insert_eq. }
  destruct waitForDone; cbn [negb]; [| exact H9].
  unfold waitForReviewerCompletion.
  match goal with
  | |- context [waitForReviewerCompletion_loop P cfg env sid ?nm n ?pth requested poll
                  O ?k w9] =>
      pose proof (wait_loop_sessionMap P cfg env sid nm n pth requested poll k O w9) as Hm;
      destruct (waitForReviewerCompletion_loop P cfg env sid nm n pth requested poll
                  O k w9) as [r w10]
  end.
  cbn [snd] in *. by apply (within_cap_same M w9 w10 Hm).
Qed.

Lemma within_cap_run_reviewer (M : Z) (P : Plugin) (cfg : ResolvedConfig) (env : Env)
    (ctx : option string) (force wait : option bool) (tm : option Z) (out : option string)
    (poll : nat -> string) (w : World) :
  0 <= M -> within_cap M w ->
  within_cap M (snd (tool_ralph_run_reviewer P cfg env ctx force wait tm out poll w)).
Proof.
  intros HM H. unfold tool_ralph_run_reviewer.
  destruct (negb (reviewerEnabled cfg) && negb (nullish force false)); [exact H |].
  pose proof (within_cap_getSession M w (nullish ctx "default") HM H) as H1.
  destruct (getSession (nullish ctx "default") w) as [st w1]. cbn [snd] in H1.
  destruct (negb (nullish force false) && reviewerRequireExplicitReady cfg && _);
    [exact H1 |].
  destruct (negb (nullish force false) && _); [exact H1 |].
  destruct (activeReviewerName (supervisor w1)) as [active |];
    [| by apply within_cap_start_reviewer].
  destruct (truthy_str active); [| by apply within_cap_start_reviewer].
  destruct (nullish wait true && _ && _); [| exact H1].
  unfold waitForReviewerCompletion.
  match goal with
  | |- context [waitForReviewerCompletion_loop P cfg env ?sid ?nm ?n ?pth ?rq poll
                  O ?k w1] =>
      pose proof (wait_loop_sessionMap P cfg env sid nm n pth rq poll k O w1) as Hm;
      destruct (waitForReviewerCompletion_loop P cfg env sid nm n pth rq poll O k w1)
        as [r w2]
  end.
  cbn [snd] in *. by apply (within_cap_same M w1 w2 Hm).
Qed.

Lemma within_cap_subagent_spawn (M : Z) (P : Plugin) (cfg : ResolvedConfig) (env : Env)
    (ctx : option string) (name goal : string) (context : option string) (w : World) :
  0 <= M -> maxSubAgents cfg <= M -> within_cap M w ->
  within_cap M (snd (tool_subagent_spawn P cfg env ctx name goal context w)).
Proof.
  intros HM Hcfg H. unfold tool_subagent_spawn.
  pose proof (within_cap_getSession M w (nullish ctx "default") HM H) as H1.
  pose proof (getSession_lookup (nullish ctx "default") w) as Hcaller.
  destruct (getSession (nullish ctx "default") w) as [st w1]. cbn [fst snd] in *.
  destruct (negb (subAgentEnabled cfg)); [exact H1 |].
  destruct (negb (valid_subagent_name name)); [exact H1 |].
  destruct (existsb (running_named name) (subAgents st)); [exact H1 |].
  destruct (maxSubAgents cfg <=? running_count (subAgents st)) eqn:Ecap; [exact H1 |].
  apply Z.leb_gt in Ecap. cbn [snd].
  set (child := nullish (env_created env) ("unknown-" +:+ string_of_Z (env_now env))).
  match goal with
  | |- within_cap M (mutateSession ?c (push_subAgent ?rec) ?w6) =>
      set (w6' := w6); set (record := rec)
  end.
  assert (within_cap M w6') as H6.
  { apply (within_cap_insert M w1 w6' child
             (set_lastProgressAt (env_now env) (freshSession subagent (attempt st))));
      [| cbn; exact HM | exact H1].
    subst w6'. world_simpl. rewrite sessionMap_bootstrapSubAgent.
    rewrite lookup_insert_eq. cbn [nullish]. by rewrite insert_insert_eq. }
  apply (within_cap_insert M w6' _ (nullish ctx "default") _
           (sessionMap_mutateSession _ _ w6')); [| exact H6].
  cbn [push_subAgent subAgents]. rewrite running_count_app.
  subst record. cbn [sa_status status_is_running].
  destruct (decide (child = nullish ctx "default")) as [Heq | Hne].
  - assert (sessionMap w6' !! nullish ctx "default"
            = Some (set_lastProgressAt (env_now env) (freshSession subagent (attempt st))))
      as ->.
    { subst w6'. world_simpl. rewrite sessionMap_bootstrapSubAgent.
      rewrite <- Heq. rewrite !lookup_insert_eq. reflexivity. }
    cbn [nullish set_lastProgressAt freshSession subAgents].
    pose proof (running_count_nonneg (subAgents st)). cbn.
    change (running_count []) with 0. lia.
  - assert (sessionMap w6' !! nullish ctx "default" = Some st) as ->.
    { subst w6'. world_simpl. rewrite sessionMap_bootstrapSubAgent.
      rewrite !lookup_insert_ne by exact Hne. exact Hcaller. }
    cbn [nullish]. lia.
Qed.

Lemma within_cap_step (M : Z) (P : Plugin) (cfg : ResolvedConfig) (env : Env) (op : Op)
    (w : World) :
  0 <= M -> maxSubAgents cfg <= M -> within_cap M w -> within_cap M (step P cfg env op w).
Proof.
  intros HM Hcfg H.
  destruct op as [sid | sid reason | ctx | ctx | ctx name goal | id ans
                  | ctx note | ctx force wait tm out poll]; cbn [step].
  - by apply within_cap_on_session_idle.
  - destruct (clearSessionTracking_rest sid reason w) as (Hm & _).
    by apply (within_cap_delete M w _ sid Hm).
  - unfold tool_ralph_spawn_worker_impl.
    destruct (sessionMap w !! nullish ctx EmptyString) as [st |]; [| exact H].
    destruct (negb _); [exact H |]. destruct (workerSpawned st); [exact H |].
    unfold spawnRlmWorker. cbn [snd].
    set (w1 := mutateSession _ (set_workerSpawned true) w).
    assert (within_cap M w1) as H1 by (by apply within_cap_mutate).
    set (wid := nullish (env_created env) _).
    match goal with
    | |- within_cap M ?wf =>
        apply (within_cap_insert M w1 wf wid
                 (set_lastProgressAt (env_now env) (freshSession worker (attempt st))));
          [| cbn; exact HM | exact H1]
    end.
    world_simpl. rewrite lookup_insert_eq. cbn [nullish]. by rewrite insert_insert_eq.
  - unfold ralph_load_context_mark. by apply within_cap_mutate.
  - by apply within_cap_subagent_spawn.
  - unfold tool_ralph_respond.
    destruct (find _ _); [| exact H]. destruct (answered _ _); exact H.
  - unfold tool_ralph_request_review.
    pose proof (within_cap_getSession M w (nullish ctx "default") HM H) as H1.
    destruct (getSession (nullish ctx "default") w) as [st w1]. cbn [snd] in *. exact H1.
  - by apply within_cap_run_reviewer.
Qed.

(** X20.  The cap on concurrent sub-agents holds over whole runs: when every
    operation of a run sees [maxSubAgents <= M] and no session starts with
    more than [M] running sub-agents, no session has more than [M] running
    sub-agents at the end, whatever the operations and the ids the host
    issues. *)
Theorem subagent_cap_holds (P : Plugin) (M : Z) (ops : list (ResolvedConfig * Env * Op))
    (w : World) :
  0 <= M ->
  Forall (fun o => maxSubAgents (fst (fst o)) <= M) ops ->
  within_cap M w ->
  within_cap M (run P ops w).
Proof.
  intros HM Hops. revert w. induction Hops as [| [[cfg env] op] rest Hcfg _ IH];
    intros w H; cbn [run]; [exact H |].
  apply IH. by apply within_cap_step.
Qed.

(** ** Questions to the supervisor *)

Lemma ask_wait_none (id : string) (poll : nat -> PendingInputData) (n i : nat) :
  (forall k, (i <= k < i + n)%nat -> responses (poll k) !! id = None) ->
  ask_wait id poll i n = None.
Proof.
  revert i. induction n as [| n IH]; intros i Hnone; cbn [ask_wait]; [reflexivity |].
  rewrite (Hnone i) by lia. apply IH. intros k Hk. apply Hnone. lia.
Qed.

Lemma ask_wait_first (id : string) (poll : nat -> PendingInputData) (n i k : nat)
    (rec : ResponseRecord) :
  (i <= k < i + n)%nat ->
  responses (poll k) !! id = Some rec ->
  (forall j, (i <= j < k)%nat -> responses (poll j) !! id = None) ->
  ask_wait id poll i n = Some (answer rec).
Proof.
  revert i. induction n as [| n IH]; intros i Hk Hrec Hbefore; [lia |].
  cbn [ask_wait]. destruct (decide (i = k)) as [-> | Hne].
  - by rewrite Hrec.
  - rewrite (Hbefore i) by lia. apply IH; [lia | exact Hrec |].
    intros j Hj. apply Hbefore. lia.
Qed.

Lemma ralph_ask_posted (env : Env) (ctx : option string) (question : string)
    (context : option string) (tm : option Z) (poll : nat -> PendingInputData) (w : World) :
  let id := "ask-" +:+ string_of_Z (env_now env) in
  let st := fst (getSession (nullish ctx "default") w) in
  pending (snd (tool_ralph_ask env ctx question context tm poll w))
  = mkPendingInputData
      (questions (pending w)
       ++ [mkQuestionRecord id (role st) (attempt st) question context (env_iso env)])
      (responses (pending w)).
Proof.
  cbn zeta. unfold tool_ralph_ask.
  pose proof (getSession_pending (nullish ctx "default") w) as Hp.
  destruct (getSession (nullish ctx "default") w) as [st w1]. cbn [fst snd] in *.
  destruct (ask_wait _ _ _ _); cbn [snd];
    destruct (truthy_ostr _ && _); cbn; by rewrite Hp.
Qed.

Lemma ralph_ask_result (env : Env) (ctx : option string) (question : string)
    (context : option string) (tm : option Z) (poll : nat -> PendingInputData) (w : World) :
  let id := "ask-" +:+ string_of_Z (env_now env) in
  fst (tool_ralph_ask env ctx question context tm poll w)
  = match ask_wait id poll O (Z.to_nat (nullish tm 15 * 12)) with
    | Some a => Ok (id, a)
    | None => Err ("ralph_ask timeout: no response after " +:+ string_of_Z (nullish tm 15)
                   +:+ " minutes (ID: " +:+ id +:+ ")")
    end.
Proof.
  cbn zeta. unfold tool_ralph_ask.
  destruct (getSession (nullish ctx "default") w) as [st w1].
  by destruct (ask_wait _ _ _ _).
Qed.

(** X21.  [ralph_ask] posts its question and waits at most
    [timeout_minutes] (15 by default) times twelve polls.  The question is
    appended to the store under the id [ask-<now>], the answers already
    there are kept; the call returns the answer found by the first poll
    that sees one for that id; when no poll within the bound sees one, it
    fails with a message that names the id. *)
Theorem ralph_ask_waits (env : Env) (ctx : option string) (question : string)
    (context : option string) (tm : option Z) (poll : nat -> PendingInputData) (w : World) :
  let id := "ask-" +:+ string_of_Z (env_now env) in
  let r := tool_ralph_ask env ctx question context tm poll w in
  (exists record,
     questions (pending (snd r)) = questions (pending w) ++ [record]
     /\ q_id record = id /\ q_question record = question)
  /\ responses (pending (snd r)) = responses (pending w)
  /\ (forall (k : nat) (rec : ResponseRecord),
        Z.of_nat k < nullish tm 15 * 12 ->
        responses (poll k) !! id = Some rec ->
        (forall j, (j < k)%nat -> responses (poll j) !! id = None) ->
        fst r = Ok (id, answer rec))
  /\ ((forall k : nat, Z.of_nat k < nullish tm 15 * 12 -> responses (poll k) !! id = None) ->
      exists msg, fst r = Err msg /\ occurs_in id msg).
Proof.
  cbn zeta. rewrite ralph_ask_posted, ralph_ask_result. cbn [questions responses].
  split; [eexists; split; [reflexivity | by split] |]. split; [reflexivity |]. split.
  - intros k rec Hk Hrec Hbefore.
    rewrite (ask_wait_first _ poll _ O k rec); [reflexivity | lia | exact Hrec |].
    intros j Hj. apply Hbefore. lia.
  - intros Hnone. rewrite ask_wait_none by (intros k Hk; apply Hnone; lia).
    eexists. split; [reflexivity |].
    do 3 apply occurs_in_append_l. apply occurs_in_here.
Qed.

Lemma find_app_last {A : Type} (f : A -> bool) (l : list A) (x : A) :
  f x = true -> is_Some (List.find f (l ++ [x])).
Proof.
  intros Hx. induction l as [| a l IH]; cbn [app List.find].
  - rewrite Hx. eauto.
  - destruct (f a); eauto.
Qed.

(** X22.  A question and its answer meet.  The id that [ralph_ask] issues
    is known to [ralph_respond]: answering it succeeds, and a waiting
    [ralph_ask] whose next poll reads the store that [ralph_respond] left
    returns that id with that answer. *)
Theorem ask_then_respond (env env2 : Env) (ctx : option string) (question : string)
    (context : option string) (tm : option Z) (poll poll' : nat -> PendingInputData)
    (w : World) (ans : string) :
  let id := "ask-" +:+ string_of_Z (env_now env) in
  let asked := snd (tool_ralph_ask env ctx question context tm poll w) in
  let resp := tool_ralph_respond env2 id ans asked in
  0 < nullish tm 15 ->
  poll' O = pending (snd resp) ->
  is_Ok (fst resp) = true
  /\ fst (tool_ralph_ask env ctx question context tm poll' w) = Ok (id, ans).
Proof.
  cbn zeta. intros Htm Hpoll.
  pose proof (ralph_ask_posted env ctx question context tm poll w) as Hposted.
  cbn zeta in Hposted.
  set (asked := snd (tool_ralph_ask env ctx question context tm poll w)) in *.
  set (id := "ask-" +:+ string_of_Z (env_now env)) in *.
  assert (is_Ok (fst (tool_ralph_respond env2 id ans asked)) = true
          /\ responses (pending (snd (tool_ralph_respond env2 id ans asked))) !! id
             = Some (mkResponseRecord ans (env_iso env2))) as [Hok Hresp].
  { unfold tool_ralph_respond. rewrite Hposted. cbn [questions responses].
    match goal with
    | |- context [List.find ?f (?l ++ [?x])] =>
        destruct (find_app_last f l x) as [q Hq];
          [cbn [q_id]; apply String.eqb_refl | rewrite Hq]
    end.
    destruct (answered _ id); cbn [fst snd]; unfold appendConversationEntry, emit, with_pending;
      cbn [pending responses]; split; try reflexivity; apply lookup_insert_eq. }
  split; [exact Hok |].
  rewrite ralph_ask_result. fold id.
  rewrite (ask_wait_first id poll' _ O O (mkResponseRecord ans (env_iso env2)));
    [reflexivity | lia | by rewrite Hpoll | intros j Hj; lia].
Qed.

(** ** Ending, pausing, resuming, restarting *)

Lemma keys_of_registry (m : gmap string SessionState) (id : string) :
  In id (map_to_list m).*1 <-> is_Some (m !! id).
Proof.
  rewrite <- list_elem_of_In, list_elem_of_fmap. split.
  - intros ([k s] & -> & Hin). apply elem_of_map_to_list in Hin. cbn. eauto.
  - intros [s Hs]. exists (id, s). split; [reflexivity |]. by apply elem_of_map_to_list.
Qed.

Lemma on_session_idle_stopped (P : Plugin) (cfg : ResolvedConfig) (env : Env)
    (sid : string) (w : World) :
  sup_done (supervisor w) || paused (supervisor w) = true ->
  on_session_idle P cfg env sid w = w.
Proof. intros H. unfold on_session_idle. rewrite H. by destruct (negb _). Qed.

Lemma on_session_status_stopped (env : Env) (sid status : string) (w : World) :
  sup_done (supervisor w) || paused (supervisor w) = true ->
  on_session_status env sid status w = w.
Proof. intros H. unfold on_session_status. rewrite H. by destruct (negb _). Qed.

(** X23.  [ralph_end_supervision] is terminal.  It aborts every registered
    session (and deletes it when asked to), empties the registry, forgets
    the tracked strategist, worker and reviewer, writes the reviewer state,
    sends one warning to the supervisor and leaves the loop done and paused,
    with the attempt counter as it was and the binding kept unless
    [clear_binding] is set.  From then on idle and status events change
    nothing, and [ralph_resume_supervision] refuses to start the loop: no
    session is created until the done state is reset. *)
Theorem end_supervision_is_terminal (P : Plugin) (ctx reason : option string)
    (delete_sessions clear_binding : option bool) (w : World) :
  let r := tool_ralph_end_supervision ctx reason delete_sessions clear_binding w in
  let w' := snd r in
  sup_done (supervisor w') = true
  /\ paused (supervisor w') = true
  /\ sessionMap w' = ∅
  /\ currentRalphSessionId (supervisor w') = None
  /\ currentWorkerSessionId (supervisor w') = None
  /\ activeReviewerName (supervisor w') = None
  /\ activeReviewerSessionId (supervisor w') = None
  /\ sup_attempt (supervisor w') = sup_attempt (supervisor w)
  /\ sessionId (supervisor w')
     = (if bool_decide (clear_binding = Some true) then None else sessionId (supervisor w))
  /\ (forall id, In (HAbort id) (fst r) <-> is_Some (sessionMap w !! id))
  /\ (forall id, In (HDelete id) (fst r)
                 <-> delete_sessions = Some true /\ is_Some (sessionMap w !! id))
  /\ (exists message,
        new_effects w w'
        = [EPersistReviewerState;
           ENotify "supervisor" message "warning" true (Some (nullish ctx "default"))])
  /\ (forall cfg env sid, on_session_idle P cfg env sid w' = w')
  /\ (forall env sid status, on_session_status env sid status w' = w')
  /\ (forall env ctx' start,
        let res := tool_ralph_resume_supervision P env ctx' start w' in
        (start = Some true -> fst res = RsMarkedDone)
        /\ quiet (new_effects w' (snd res))).
Proof.
  cbn zeta. unfold tool_ralph_end_supervision. cbn [fst snd].
  set (wend := notifySupervisor _ _ _ _ _ _).
  assert (sup_done (supervisor wend) = true /\ paused (supervisor wend) = true) as [Hd Hp].
  { subst wend. destruct (bool_decide (clear_binding = Some true)); split; reflexivity. }
  do 2 (split; [assumption |]).
  split; [subst wend; by destruct (bool_decide (clear_binding = Some true)) |].
  do 5 (split; [subst wend; by destruct (bool_decide (clear_binding = Some true)) |]).
  split; [subst wend; by destruct (bool_decide (clear_binding = Some true)) |].
  split; [| split; [| split; [| split; [| split]]]].
  - intros id. rewrite in_flat_map. split.
    + intros (k & Hk & Hin). apply keys_of_registry in Hk.
      destruct (bool_decide (delete_sessions = Some true)); cbn [In] in Hin.
      * destruct Hin as [[= <-] | [Hin | []]]; [exact Hk | discriminate Hin].
      * destruct Hin as [[= <-] | []]. exact Hk.
    + intros Hs. exists id. split; [by apply keys_of_registry |].
      destruct (bool_decide (delete_sessions = Some true)); by left.
  - intros id. rewrite in_flat_map. split.
    + intros (k & Hk & Hin). apply keys_of_registry in Hk.
      destruct (bool_decide (delete_sessions = Some true)) eqn:Ed; cbn [In] in Hin.
      * apply bool_decide_eq_true in Ed.
        destruct Hin as [Hin | [[= <-] | []]]; [discriminate Hin | by split].
      * destruct Hin as [Hin | []]. discriminate Hin.
    + intros [Hdel Hs]. exists id. split; [by apply keys_of_registry |].
      rewrite bool_decide_eq_true_2 by exact Hdel. right. by left.
  - subst wend. eexists.
    destruct (bool_decide (clear_binding = Some true)); new_effects_simpl; reflexivity.
  - intros cfg env sid. apply on_session_idle_stopped. by rewrite Hd.
  - intros env sid status. apply on_session_status_stopped. by rewrite Hd.
  - intros env ctx' start. cbn zeta. unfold tool_ralph_resume_supervision.
    set (w1 := if truthy_ostr (sessionId (supervisor wend)) then wend else _).
    assert (sup_done (supervisor w1) = true /\ effects w1 = effects wend) as [Hd1 He1].
    { subst w1. destruct (truthy_ostr (sessionId (supervisor wend)));
        (split; [exact Hd | reflexivity]). }
    destruct (negb (nullish start false)) eqn:Es; cbn [fst snd]; world_simpl.
    + split; [intros ->; discriminate Es |].
      unfold new_effects. world_simpl. rewrite He1, drop_app_length. apply quiet_notify.
    + cbn [set_paused sup_done]. rewrite Hd1. cbn [fst snd]. split; [reflexivity |].
      unfold new_effects. world_simpl. rewrite He1, drop_app_length. apply quiet_notify.
Qed.

Lemma no_create_in_quiet (w w' : World) (more : list Effect) (title id : string) :
  effects w' = effects w ++ more -> quiet more ->
  ~ In (ESessionCreate title id) (new_effects w w').
Proof. intros He Hq. rewrite (new_effects_app _ _ _ He). by apply quiet_no_create. Qed.

(** X24.  [ralph_create_supervisor_session] starts the loop only from
    rest.  When the call creates a session, then: the caller is, or
    becomes, the bound supervisor (by being bound already, by no session
    being bound, or by [force_rebind]); the setup is ready; [start_loop]
    is not false; and either the loop was not done and no strategist and no
    worker was tracked, or the loop was done and [restart_if_done] is set.
    The session created is the strategist of attempt 1, tracked from then
    on, with the loop neither done nor paused. *)
Theorem manual_start_only_from_rest (P : Plugin) (cfg : ResolvedConfig) (env : Env)
    (ctx : option string) (start force restart : option bool) (w : World)
    (title id : string) :
  let caller := nullish ctx "default" in
  let r := tool_ralph_create_supervisor_session P cfg env ctx start force restart w in
  In (ESessionCreate title id) (new_effects w (snd r)) ->
  fst r = CrStarted 1
  /\ nullish start true = true
  /\ checkSetup_ready (worktree P) cfg w = true
  /\ (sessionId (supervisor w) = Some caller
      \/ truthy_ostr (sessionId (supervisor w)) = false
      \/ force = Some true)
  /\ ((sup_done (supervisor w) = false
       /\ truthy_ostr (currentRalphSessionId (supervisor w)) = false
       /\ truthy_ostr (currentWorkerSessionId (supervisor w)) = false)
      \/ (sup_done (supervisor w) = true /\ restart = Some true))
  /\ title = "ralph-strategist-attempt-1"
  /\ sup_attempt (supervisor (snd r)) = 1
  /\ sup_done (supervisor (snd r)) = false
  /\ paused (supervisor (snd r)) = false
  /\ currentRalphSessionId (supervisor (snd r)) = Some id
  /\ sessionId (supervisor (snd r)) = Some caller.
Proof.
  cbn zeta. unfold tool_ralph_create_supervisor_session.
  set (caller := nullish ctx "default").
  destruct (truthy_ostr (sessionId (supervisor w))
            && negb (bool_decide (sessionId (supervisor w) = Some caller))
            && negb (bool_decide (force = Some true))) eqn:Eref; cbn [fst snd].
  { rewrite new_effects_same. intros []. }
  assert (sessionId (supervisor w) = Some caller
          \/ truthy_ostr (sessionId (supervisor w)) = false
          \/ force = Some true) as Hbound.
  { destruct (truthy_ostr (sessionId (supervisor w))); [| by right; left].
    destruct (bool_decide (sessionId (supervisor w) = Some caller)) eqn:Es;
      [left; by apply bool_decide_eq_true in Es |].
    destruct (bool_decide (force = Some true)) eqn:Ef; [| discriminate Eref].
    right; right. by apply bool_decide_eq_true in Ef. }
  clear Eref.
  set (w2 := notifySupervisor "supervisor" "Supervisor bound via tool call." "info" false
               (Some caller) _).
  assert (files w2 = files w) as Hf2 by reflexivity.
  assert (supervisor w2 = set_paused false (set_sessionId (Some caller) (supervisor w)))
    as Hs2 by reflexivity.
  assert (effects w2
          = effects w ++ [ENotify "supervisor" "Supervisor bound via tool call." "info" false
                            (Some caller)]) as He2 by reflexivity.
  clearbody w2.
  rewrite (checkSetup_ready_files _ _ w2 w Hf2).
  destruct (checkSetup_ready (worktree P) cfg w); cbn [negb fst snd].
  2: { intros Hin. exfalso. revert Hin. eapply no_create_in_quiet.
       - world_simpl. rewrite He2, <- app_assoc. reflexivity.
       - repeat constructor. }
  destruct (nullish start true); cbn [negb fst snd].
  2: { intros Hin. exfalso. revert Hin. eapply no_create_in_quiet; [exact He2 |].
       repeat constructor. }
  rewrite Hs2. cbn [set_paused set_sessionId sup_done].
  set (w3 := if sup_done (supervisor w) && bool_decide (restart = Some true) then _ else w2).
  assert (supervisor w3
          = (if sup_done (supervisor w) && bool_decide (restart = Some true)
             then clear_tracked (set_paused false (set_done false (supervisor w2)))
             else supervisor w2)
          /\ exists more, effects w3 = effects w ++ more /\ quiet more)
    as (Hs3 & more & He3 & Hq3).
  { subst w3. destruct (sup_done (supervisor w) && bool_decide (restart = Some true)).
    - split; [reflexivity |]. world_simpl. rewrite He2, <- !app_assoc.
      eexists. split; [reflexivity |]. repeat constructor.
    - split; [reflexivity |]. eexists. split; [exact He2 |]. repeat constructor. }
  clearbody w3.
  assert ((sup_done (supervisor w) = true /\ restart = Some true
           /\ supervisor w3
              = clear_tracked (set_paused false (set_done false (supervisor w2))))
          \/ (supervisor w3 = supervisor w2
              /\ (sup_done (supervisor w) = false \/ restart <> Some true))) as Hcase.
  { destruct (sup_done (supervisor w)); cbn [andb] in Hs3.
    - destruct (bool_decide (restart = Some true)) eqn:Er.
      + apply bool_decide_eq_true in Er. left. auto.
      + apply bool_decide_eq_false in Er. right. auto.
    - right. auto. }
  clear Hs3.
  destruct (truthy_ostr (currentRalphSessionId (supervisor w3))
            || truthy_ostr (currentWorkerSessionId (supervisor w3))
            || sup_done (supervisor w3)) eqn:Ebusy; cbn [fst snd].
  { intros Hin. exfalso. revert Hin. by eapply no_create_in_quiet. }
  erewrite spawnRalphSession_new by (world_simpl; rewrite He3, <- app_assoc; reflexivity).
  rewrite spawnRalphSession_supervisor. world_simpl.
  intros Hin. apply in_app_or in Hin as [Hin | Hin].
  { exfalso. apply in_app_or in Hin as [Hin | [Hin | []]]; [| discriminate Hin].
    by apply (quiet_no_create _ _ _ Hq3) in Hin. }
  destruct Hin as [Hin | [Hin | [Hin | []]]]; try discriminate Hin.
  injection Hin as <- <-.
  apply orb_false_iff in Ebusy as [Ebusy Ed3]. apply orb_false_iff in Ebusy as [Er3 Ew3].
  split; [reflexivity |]. split; [reflexivity |]. split; [reflexivity |].
  split; [exact Hbound |].
  destruct Hcase as [(Hd & Hr & Hs3) | (Hs3 & Hor)].
  - split; [right; by split |]. rewrite Hs3, Hs2. repeat split; reflexivity.
  - rewrite Hs3, Hs2 in Er3, Ew3, Ed3.
    cbn [set_paused set_sessionId currentRalphSessionId currentWorkerSessionId sup_done]
      in Er3, Ew3, Ed3.
    split; [left; auto |]. rewrite Hs3, Hs2. repeat split; try reflexivity. exact Ed3.
Qed.

Lemma end_supervision_world (ctx reason : option string)
    (delete_sessions clear_binding : option bool) (w : World) :
  let w' := snd (tool_ralph_end_supervision ctx reason delete_sessions clear_binding w) in
  supervisor w'
  = (if bool_decide (clear_binding = Some true) then set_sessionId None else fun s => s)
      (clear_tracked (set_paused true (set_done true (supervisor w))))
  /\ sessionMap w' = ∅
  /\ files w' = files w.
Proof.
  cbn zeta. unfold tool_ralph_end_supervision. cbn [snd].
  destruct (bool_decide (clear_binding = Some true)); auto.
Qed.

Lemma create_from_done (P : Plugin) (cfg : ResolvedConfig) (env : Env)
    (ctx : option string) (start force restart : option bool) (w : World) :
  let r := tool_ralph_create_supervisor_session P cfg env ctx start force restart w in
  let id := nullish (env_created env) ("ralph-" +:+ string_of_Z (env_now env)) in
  sup_done (supervisor w) = true ->
  checkSetup_ready (worktree P) cfg w = true ->
  nullish start true = true ->
  (forall b, fst r <> CrBoundElsewhere b) ->
  (restart = Some true ->
   fst r = CrStarted 1
   /\ In (ESessionCreate "ralph-strategist-attempt-1" id) (new_effects w (snd r))
   /\ sup_done (supervisor (snd r)) = false
   /\ paused (supervisor (snd r)) = false
   /\ sup_attempt (supervisor (snd r)) = 1
   /\ currentRalphSessionId (supervisor (snd r)) = Some id
   /\ currentWorkerSessionId (supervisor (snd r)) = None
   /\ sessionMap (snd r)
      = <[id := set_lastProgressAt (env_now env) (freshSession ralph 1)]> (sessionMap w))
  /\ (restart <> Some true ->
      (exists a b, fst r = CrAlreadyRunning a b true)
      /\ sup_done (supervisor (snd r)) = true
      /\ sessionMap (snd r) = sessionMap w
      /\ quiet (new_effects w (snd r))).
Proof.
  cbn zeta. unfold tool_ralph_create_supervisor_session.
  set (caller := nullish ctx "default").
  intros Hd Hready Hstart.
  destruct (truthy_ostr (sessionId (supervisor w))
            && negb (bool_decide (sessionId (supervisor w) = Some caller))
            && negb (bool_decide (force = Some true))); cbn [fst snd].
  { intros Hnot. exfalso. by eapply Hnot. }
  intros _.
  set (w2 := notifySupervisor "supervisor" "Supervisor bound via tool call." "info" false
               (Some caller) _).
  assert (files w2 = files w) as Hf2 by reflexivity.
  assert (sessionMap w2 = sessionMap w) as Hm2 by reflexivity.
  assert (supervisor w2 = set_paused false (set_sessionId (Some caller) (supervisor w)))
    as Hs2 by reflexivity.
  assert (effects w2
          = effects w ++ [ENotify "supervisor" "Supervisor bound via tool call." "info" false
                            (Some caller)]) as He2 by reflexivity.
  clearbody w2.
  rewrite (checkSetup_ready_files _ _ w2 w Hf2), Hready, Hstart. cbn [negb].
  rewrite Hs2. cbn [set_paused set_sessionId sup_done]. rewrite Hd. cbn [andb].
  split.
  - intros ->. rewrite bool_decide_eq_true_2 by reflexivity.
    set (w3 := notifySupervisor "supervisor" "Supervisor done-state reset for a new run."
                 "info" true (Some caller) _).
    assert (supervisor w3 = clear_tracked (set_paused false (set_done false (supervisor w2))))
      as Hs3 by reflexivity.
    assert (sessionMap w3 = sessionMap w) as Hm3 by (subst w3; world_simpl; exact Hm2).
    assert (exists more, effects w3 = effects w ++ more) as [more He3].
    { subst w3. world_simpl. rewrite He2, <- !app_assoc. eauto. }
    clearbody w3.
    rewrite Hs3, Hs2.
    cbn [clear_tracked set_activeReviewer set_currentWorkerSessionId
         set_currentRalphSessionId set_paused set_done set_sessionId
         currentRalphSessionId currentWorkerSessionId sup_done truthy_ostr orb fst snd].
    erewrite spawnRalphSession_new by (world_simpl; rewrite He3, <- !app_assoc; reflexivity).
    rewrite spawnRalphSession_supervisor.
    destruct (spawnRalphSession_world P env 1
                (notifySupervisor "supervisor"
                   "Starting Ralph loop at attempt 1 (manual start)." "info" true
                   (Some caller) (with_supervisor (set_attempt 1) w3)))
      as (_ & _ & Hm & _).
    cbn zeta in Hm. rewrite Hm. world_simpl. rewrite Hs3, Hs2, Hm3.
    split; [reflexivity |]. split.
    { apply in_or_app. right. left. reflexivity. }
    repeat split; reflexivity.
  - intros Hr. rewrite bool_decide_eq_false_2 by exact Hr.
    rewrite Hs2. cbn [set_paused set_sessionId sup_done]. rewrite Hd, !orb_true_r.
    cbn [fst snd]. split; [eauto |]. rewrite Hs2. split; [exact Hd |].
    split; [exact Hm2 |]. rewrite (new_effects_app _ _ _ He2). apply quiet_notify.
Qed.

(** X25.  Ending is undone only by an explicit restart.  After
    [ralph_end_supervision], a [ralph_create_supervisor_session] call that
    is not refused for the binding, with the setup ready and [start_loop]
    not false, starts a fresh run exactly when [restart_if_done] is set:
    then the loop is no longer done or paused, the counter is back at 1 and
    the one registered session is the new strategist of attempt 1; without
    [restart_if_done] the loop stays done, the registry stays empty and no
    session is created. *)
Theorem restart_after_end (P : Plugin) (cfg : ResolvedConfig) (env : Env)
    (ctx reason : option string) (delete_sessions clear_binding : option bool)
    (ctx' : option string) (start force restart : option bool) (w : World) :
  let ended := snd (tool_ralph_end_supervision ctx reason delete_sessions clear_binding w) in
  let r := tool_ralph_create_supervisor_session P cfg env ctx' start force restart ended in
  let id := nullish (env_created env) ("ralph-" +:+ string_of_Z (env_now env)) in
  checkSetup_ready (worktree P) cfg w = true ->
  nullish start true = true ->
  (forall b, fst r <> CrBoundElsewhere b) ->
  (restart = Some true ->
   fst r = CrStarted 1
   /\ In (ESessionCreate "ralph-strategist-attempt-1" id) (new_effects ended (snd r))
   /\ sup_done (supervisor (snd r)) = false
   /\ paused (supervisor (snd r)) = false
   /\ sup_attempt (supervisor (snd r)) = 1
   /\ currentRalphSessionId (supervisor (snd r)) = Some id
   /\ currentWorkerSessionId (supervisor (snd r)) = None
   /\ sessionMap (snd r) = {[ id := set_lastProgressAt (env_now env) (freshSession ralph 1) ]})
  /\ (restart <> Some true ->
      (exists a b, fst r = CrAlreadyRunning a b true)
      /\ sup_done (supervisor (snd r)) = true
      /\ sessionMap (snd r) = ∅
      /\ quiet (new_effects ended (snd r))).
Proof.
  cbn zeta. intros Hready Hstart Hnot.
  destruct (end_supervision_world ctx reason delete_sessions clear_binding w)
    as (Hs & Hm & Hf).
  cbn zeta in *.
  set (ended := snd (tool_ralph_end_supervision ctx reason delete_sessions clear_binding w))
    in *.
  assert (sup_done (supervisor ended) = true) as Hd.
  { rewrite Hs. by destruct (bool_decide _). }
  destruct (create_from_done P cfg env ctx' start force restart ended Hd
              ltac:(by rewrite (checkSetup_ready_files _ _ ended w Hf)) Hstart Hnot)
    as [Hyes Hno].
  rewrite Hm in Hyes, Hno. split; [exact Hyes | exact Hno].
Qed.

(** X26.  Pausing holds the loop without losing anything.
    [ralph_pause_supervision] sets the pause flag and sends one warning to
    the supervisor: the rest of the supervisor record and the registry stay
    as they are.  While paused, idle events, status events and the
    heartbeat change nothing.  [ralph_resume_supervision] without
    [start_loop] clears the flag again, sends one notice and creates no
    session: for a bound supervisor that was not paused before, pause
    followed by resume gives back the supervisor record it started from. *)
Theorem pause_holds_the_loop (P : Plugin) (ctx reason : option string) (w : World) :
  let w' := tool_ralph_pause_supervision ctx reason w in
  supervisor w' = set_paused true (supervisor w)
  /\ sessionMap w' = sessionMap w
  /\ new_effects w w'
     = [ENotify "supervisor"
          (if truthy_ostr reason
           then "Supervision paused: " +:+ nullish reason EmptyString
           else "Supervision paused.")
          "warning" true (Some (nullish ctx "default"))]
  /\ (forall cfg env sid, on_session_idle P cfg env sid w' = w')
  /\ (forall env sid status, on_session_status env sid status w' = w')
  /\ (forall cfg env, emitHeartbeatWarnings cfg env w' = w')
  /\ (forall env ctx',
        let res := tool_ralph_resume_supervision P env ctx' None w' in
        fst res = RsResumed
        /\ sessionMap (snd res) = sessionMap w
        /\ new_effects w' (snd res)
           = [ENotify "supervisor" "Supervision resumed." "info" true
                (Some (nullish ctx' "default"))]
        /\ (truthy_ostr (sessionId (supervisor w)) = true ->
            paused (supervisor w) = false ->
            supervisor (snd res) = supervisor w)).
Proof.
  cbn zeta. unfold tool_ralph_pause_supervision.
  set (w' := notifySupervisor _ _ _ _ _ _).
  assert (supervisor w' = set_paused true (supervisor w)) as Hs by reflexivity.
  assert (sessionMap w' = sessionMap w) as Hm by reflexivity.
  assert (new_effects w w'
          = [ENotify "supervisor"
               (if truthy_ostr reason
                then "Supervision paused: " +:+ nullish reason EmptyString
                else "Supervision paused.")
               "warning" true (Some (nullish ctx "default"))]) as He
    by (subst w'; new_effects_simpl; reflexivity).
  clearbody w'.
  assert (sup_done (supervisor w') || paused (supervisor w') = true) as Hstop.
  { rewrite Hs. cbn. apply orb_true_r. }
  do 3 (split; [assumption |]).
  split; [intros; by apply on_session_idle_stopped |].
  split; [intros; by apply on_session_status_stopped |].
  split; [intros; unfold emitHeartbeatWarnings; by rewrite Hstop |].
  intros env ctx'. cbn zeta. unfold tool_ralph_resume_supervision. cbn [nullish negb fst snd].
  destruct (truthy_ostr (sessionId (supervisor w'))) eqn:Eb.
  - split; [reflexivity |]. split; [exact Hm |].
    split; [new_effects_simpl; reflexivity |].
    intros _ Hp. world_simpl. rewrite Hs.
    destruct (supervisor w). cbn in *. by subst.
  - split; [reflexivity |]. split; [exact Hm |].
    split; [new_effects_simpl; reflexivity |].
    intros Hb. rewrite Hs in Eb. cbn in Eb. congruence.
Qed.

(** X27.  [ralph_resume_supervision] starts the loop only from rest, and
    where it left off.  When the call creates a session, [start_loop] was
    set, the loop was not done and no strategist and no worker was tracked;
    the session is the strategist of the attempt the counter stood at (of
    attempt 1 when no attempt had started), which becomes the tracked
    strategist of a loop that is no longer paused. *)
Theorem resume_starts_only_from_rest (P : Plugin) (env : Env) (ctx : option string)
    (start : option bool) (w : World) (title id : string) :
  let r := tool_ralph_resume_supervision P env ctx start w in
  let n := Z.max 1 (sup_attempt (supervisor w)) in
  In (ESessionCreate title id) (new_effects w (snd r)) ->
  start = Some true
  /\ sup_done (supervisor w) = false
  /\ truthy_ostr (currentRalphSessionId (supervisor w)) = false
  /\ truthy_ostr (currentWorkerSessionId (supervisor w)) = false
  /\ fst r = RsStarted n
  /\ title = "ralph-strategist-attempt-" +:+ string_of_Z n
  /\ sup_attempt (supervisor (snd r)) = n
  /\ paused (supervisor (snd r)) = false
  /\ currentRalphSessionId (supervisor (snd r)) = Some id.
Proof.
  cbn zeta. unfold tool_ralph_resume_supervision.
  set (w1 := if truthy_ostr (sessionId (supervisor w)) then w else _).
  assert (effects w1 = effects w
          /\ sup_done (supervisor w1) = sup_done (supervisor w)
          /\ sup_attempt (supervisor w1) = sup_attempt (supervisor w)
          /\ currentRalphSessionId (supervisor w1) = currentRalphSessionId (supervisor w)
          /\ currentWorkerSessionId (supervisor w1) = currentWorkerSessionId (supervisor w))
    as (He1 & Hd1 & Ha1 & Hr1 & Hw1).
  { subst w1. by destruct (truthy_ostr (sessionId (supervisor w))). }
  clearbody w1.
  set (w3 := notifySupervisor "supervisor" "Supervision resumed." "info" true _ _).
  assert (effects w3 = effects w ++ [ENotify "supervisor" "Supervision resumed." "info" true
                                       (Some (nullish ctx "default"))]) as He3.
  { subst w3. world_simpl. by rewrite He1. }
  assert (supervisor w3 = set_paused false (supervisor w1)) as Hs3 by reflexivity.
  clearbody w3.
  assert (forall w0, effects w0 = effects w3 ->
                     ~ In (ESessionCreate title id) (new_effects w w0)) as Hquiet.
  { intros w0 He0. eapply no_create_in_quiet; [by rewrite He0 | apply quiet_notify]. }
  destruct start as [[|] |]; cbn [nullish negb fst snd];
    try (intros Hin; exfalso; by apply (Hquiet w3 eq_refl) in Hin).
  rewrite Hs3. cbn [set_paused sup_done currentRalphSessionId currentWorkerSessionId
                    sup_attempt].
  rewrite Hd1, Hr1, Hw1, Ha1.
  destruct (sup_done (supervisor w)); cbn [fst snd];
    [intros Hin; exfalso; by apply (Hquiet w3 eq_refl) in Hin |].
  destruct (truthy_ostr (currentRalphSessionId (supervisor w))); cbn [orb fst snd];
    [intros Hin; exfalso; by apply (Hquiet w3 eq_refl) in Hin |].
  destruct (truthy_ostr (currentWorkerSessionId (supervisor w))); cbn [orb fst snd];
    [intros Hin; exfalso; by apply (Hquiet w3 eq_refl) in Hin |].
  assert (Z.max 1 (if truthy_Z (sup_attempt (supervisor w))
                   then sup_attempt (supervisor w) else 1)
          = Z.max 1 (sup_attempt (supervisor w))) as ->.
  { unfold truthy_Z. destruct (sup_attempt (supervisor w) =? 0) eqn:E; cbn [negb];
      [apply Z.eqb_eq in E; lia | reflexivity]. }
  erewrite spawnRalphSession_new by (world_simpl; exact He3).
  rewrite spawnRalphSession_supervisor. world_simpl. rewrite Hs3.
  intros [Hin | [Hin | [Hin | [Hin | []]]]]; try discriminate Hin.
  injection Hin as <- <-. repeat split; reflexivity.
Qed.

Ltac other_path :=
  let E := fresh in intros E; apply path_join_inj in E; discriminate E.

Lemma reset_state_world (P : Plugin) (instr : string) (env : Env) (ctx : option string)
    (scope : ResetScope) (preserve : option bool) (w : World) :
  let w' := snd (tool_ralph_reset_state P instr env ctx scope "RESET_RALPH_STATE" preserve w) in
  supervisor w'
  = set_reviewerRuns ∅ (set_reviewRequested ∅
      (clear_tracked (set_attempt 0 (set_paused false (set_done false (supervisor w))))))
  /\ sessionMap w' = sessionMap w
  /\ exists more, effects w' = effects w ++ more /\ quiet more.
Proof.
  cbn zeta. unfold tool_ralph_reset_state.
  change (negb ("RESET_RALPH_STATE" =? "RESET_RALPH_STATE")%string) with false.
  cbn iota. cbn [snd].
  destruct scope, (bool_decide (preserve = Some true)); world_simpl;
    (split; [reflexivity |]); (split; [reflexivity |]);
    rewrite <- ?app_assoc; eexists; (split; [reflexivity |]); repeat constructor.
Qed.

(** X28.  [ralph_reset_state] acts only on the confirmation token, and
    brings the loop to rest without unbinding it.  With any other token the
    call fails and the world is unchanged.  With the token, the attempt
    counter is 0, the done and pause flags are cleared, no strategist,
    worker or reviewer is tracked and the review maps are empty, while the
    bound session and the session registry are kept; the scratch document
    is the bootstrap template, the notes file is not touched, and the plan,
    the instructions and the todo list are rewritten only in scope full.
    No session is created, and a following
    [ralph_resume_supervision(start_loop)] starts at attempt 1. *)
Theorem reset_state_brings_to_rest (P : Plugin) (instr : string) (env : Env)
    (ctx : option string) (scope : ResetScope) (confirm : string)
    (preserve : option bool) (w : World) :
  let r := tool_ralph_reset_state P instr env ctx scope confirm preserve w in
  let root := worktree P in
  (confirm <> "RESET_RALPH_STATE" ->
   fst r = Err "Confirmation token mismatch. Set confirm to RESET_RALPH_STATE."
   /\ snd r = w)
  /\ (confirm = "RESET_RALPH_STATE" ->
      fst r = Ok (scope, bool_decide (preserve = Some true))
      /\ sup_attempt (supervisor (snd r)) = 0
      /\ sup_done (supervisor (snd r)) = false
      /\ paused (supervisor (snd r)) = false
      /\ currentRalphSessionId (supervisor (snd r)) = None
      /\ currentWorkerSessionId (supervisor (snd r)) = None
      /\ activeReviewerName (supervisor (snd r)) = None
      /\ reviewRequested (supervisor (snd r)) = ∅
      /\ reviewerRuns (supervisor (snd r)) = ∅
      /\ sessionId (supervisor (snd r)) = sessionId (supervisor w)
      /\ sessionMap (snd r) = sessionMap w
      /\ files (snd r) !! path_join root FILES.CURR = Some (bootstrapCurrentState (templates P))
      /\ files (snd r) !! path_join root FILES.NOTES = files w !! path_join root FILES.NOTES
      /\ (scope = scope_attempt ->
          files (snd r) !! path_join root FILES.PLAN = files w !! path_join root FILES.PLAN
          /\ files (snd r) !! path_join root FILES.RLM_INSTR
             = files w !! path_join root FILES.RLM_INSTR
          /\ files (snd r) !! path_join root FILES.TODOS
             = files w !! path_join root FILES.TODOS)
      /\ (scope = scope_full ->
          files (snd r) !! path_join root FILES.RLM_INSTR
          = Some (interpolate instr [("timestamp", env_iso env)]))
      /\ quiet (new_effects w (snd r))
      /\ forall env' ctx',
           fst (tool_ralph_resume_supervision P env' ctx' (Some true) (snd r)) = RsStarted 1).
Proof.
  cbn zeta. split.
  - intros Hne. unfold tool_ralph_reset_state.
    destruct (String.eqb_spec confirm "RESET_RALPH_STATE") as [-> | _]; [done |].
    cbn [negb fst snd]. auto.
  - intros ->.
    destruct (reset_state_world P instr env ctx scope preserve w)
      as (Hs & Hm & more & He & Hq).
    cbn zeta in Hs, Hm, He.
    assert (files (snd (tool_ralph_reset_state P instr env ctx scope "RESET_RALPH_STATE"
                          preserve w)) !! path_join (worktree P) FILES.CURR
            = Some (bootstrapCurrentState (templates P))
            /\ files (snd (tool_ralph_reset_state P instr env ctx scope "RESET_RALPH_STATE"
                             preserve w)) !! path_join (worktree P) FILES.NOTES
               = files w !! path_join (worktree P) FILES.NOTES
            /\ (scope = scope_attempt ->
                files (snd (tool_ralph_reset_state P instr env ctx scope "RESET_RALPH_STATE"
                              preserve w)) !! path_join (worktree P) FILES.PLAN
                = files w !! path_join (worktree P) FILES.PLAN
                /\ files (snd (tool_ralph_reset_state P instr env ctx scope
                                 "RESET_RALPH_STATE" preserve w))
                   !! path_join (worktree P) FILES.RLM_INSTR
                   = files w !! path_join (worktree P) FILES.RLM_INSTR
                /\ files (snd (tool_ralph_reset_state P instr env ctx scope
                                 "RESET_RALPH_STATE" preserve w))
                   !! path_join (worktree P) FILES.TODOS
                   = files w !! path_join (worktree P) FILES.TODOS)
            /\ (scope = scope_full ->
                files (snd (tool_ralph_reset_state P instr env ctx scope "RESET_RALPH_STATE"
                              preserve w)) !! path_join (worktree P) FILES.RLM_INSTR
                = Some (interpolate instr [("timestamp", env_iso env)])))
      as (Hcurr & Hnotes & Hatt & Hfull).
    { unfold tool_ralph_reset_state.
      change (negb ("RESET_RALPH_STATE" =? "RESET_RALPH_STATE")%string) with false.
      cbn iota. cbn [snd].
      destruct scope, (bool_decide (preserve = Some true)); world_simpl;
        repeat split; try discriminate; try intros _;
        repeat split;
        repeat first [ rewrite lookup_insert_eq
                     | rewrite lookup_insert_ne by other_path ];
        reflexivity. }
    set (r := tool_ralph_reset_state P instr env ctx scope "RESET_RALPH_STATE" preserve w)
      in *.
    assert (fst r = Ok (scope, bool_decide (preserve = Some true))) as Hfst by reflexivity.
    clearbody r.
    split; [exact Hfst |]. rewrite Hs.
    do 9 (split; [reflexivity |]).
    do 5 (split; [assumption |]).
    split; [rewrite (new_effects_app _ _ _ He); exact Hq |].
    intros env' ctx'. unfold tool_ralph_resume_supervision.
    set (w1 := if truthy_ostr (sessionId (supervisor (snd r))) then snd r else _).
    assert (sup_done (supervisor w1) = false
            /\ sup_attempt (supervisor w1) = 0
            /\ currentRalphSessionId (supervisor w1) = None
            /\ currentWorkerSessionId (supervisor w1) = None) as (Hd1 & Ha1 & Hr1 & Hw1).
    { subst w1. destruct (truthy_ostr (sessionId (supervisor (snd r))));
        world_simpl; rewrite Hs; repeat split; reflexivity. }
    clearbody w1. cbn [nullish negb]. world_simpl.
    cbn [set_paused sup_done currentRalphSessionId currentWorkerSessionId sup_attempt].
    rewrite Hd1, Hr1, Hw1, Ha1. reflexivity.
Qed.

(** ** Progress reports and the heartbeat *)

Lemma fresh_progress_calm (cfg : ResolvedConfig) (env2 : Env) (sid : string) (w : World)
    (st : SessionState) (t : Z) :
  sessionMap w !! sid = Some st ->
  lastProgressAt st = Some t ->
  env_now env2 - t < heartbeatMinutes cfg * 60000 ->
  heartbeat_calm cfg env2 (Some sid) w = true.
Proof.
  intros Hl Hp Hlt. unfold heartbeat_calm. rewrite Hl, Hp.
  apply orb_true_iff. right. apply orb_true_iff. right. by apply Z.ltb_lt.
Qed.

(** X29.  Every progress signal of a session resets its heartbeat.  After
    [ralph_report] or [ralph_set_status] by a session, registered before or
    not, and after a [session.status] event of a registered session that
    the running loop tracks (or that is no strategist and no worker), the
    progress stamp of that session is the time of the signal, the other
    registered sessions are as before, and a heartbeat check of the session
    that comes less than [heartbeatMinutes] later changes nothing. *)
Theorem progress_resets_heartbeat (cfg : ResolvedConfig) (env env2 : Env)
    (ctx : option string) (label : string) (w : World) :
  let sid := nullish ctx "default" in
  let st0 := nullish (sessionMap w !! sid) (freshSession main 0) in
  env_now env2 - env_now env < heartbeatMinutes cfg * 60000 ->
  (forall message level post,
     let w' := snd (tool_ralph_report env ctx message level post w) in
     sessionMap w' = <[sid := set_lastProgressAt (env_now env) st0]> (sessionMap w)
     /\ supervisor w' = supervisor w
     /\ maybeWarn cfg env2 (Some sid) label w' = w')
  /\ (forall status note post,
        let w' := tool_ralph_set_status env ctx status note post w in
        sessionMap w' = <[sid := set_reportedStatus status note (env_now env) st0]>
                          (sessionMap w)
        /\ supervisor w' = supervisor w
        /\ maybeWarn cfg env2 (Some sid) label w' = w')
  /\ (forall id status st,
        let w' := on_session_status env id status w in
        truthy_str id = true ->
        sup_done (supervisor w) || paused (supervisor w) = false ->
        sessionMap w !! id = Some st ->
        (role st = worker -> currentWorkerSessionId (supervisor w) = Some id) ->
        (role st = ralph -> currentRalphSessionId (supervisor w) = Some id) ->
        sessionMap w' = <[id := set_lastProgressAt (env_now env) st]> (sessionMap w)
        /\ supervisor w' = supervisor w
        /\ maybeWarn cfg env2 (Some id) label w' = w').
Proof.
  cbn zeta. intros Hlt.
  set (sid := nullish ctx "default").
  split; [| split].
  - intros message level post. unfold tool_ralph_report. fold sid.
    destruct (getSession sid w) as [st w1] eqn:Eg. cbn [snd].
    set (wm := mutateSession sid (set_lastProgressAt (env_now env)) w1).
    assert (sessionMap wm
            = <[sid := set_lastProgressAt (env_now env)
                         (nullish (sessionMap w !! sid) (freshSession main 0))]>
                (sessionMap w)) as Hm.
    { subst wm. rewrite sessionMap_mutateSession. unfold getSession in Eg.
      destruct (sessionMap w !! sid) as [s |] eqn:El.
      - injection Eg as <- <-. by rewrite El.
      - injection Eg as <- <-. cbn [with_sessionMap sessionMap nullish].
        by rewrite lookup_insert_eq, insert_insert_eq. }
    assert (supervisor wm
            = supervisor w) as Hs.
    { subst wm. rewrite supervisor_mutateSession.
      pose proof (getSession_supervisor sid w) as H. by rewrite Eg in H. }
    clearbody wm. world_simpl. rewrite Hm, Hs. do 2 (split; [reflexivity |]).
    apply maybeWarn_calm.
    eapply fresh_progress_calm;
      [world_simpl; rewrite Hm; apply lookup_insert_eq | reflexivity | exact Hlt].
  - intros status note post. unfold tool_ralph_set_status. fold sid.
    destruct (getSession sid w) as [st w1] eqn:Eg.
    set (wm := mutateSession sid (set_reportedStatus status note (env_now env)) w1).
    assert (sessionMap wm
            = <[sid := set_reportedStatus status note (env_now env)
                         (nullish (sessionMap w !! sid) (freshSession main 0))]>
                (sessionMap w)) as Hm.
    { subst wm. rewrite sessionMap_mutateSession. unfold getSession in Eg.
      destruct (sessionMap w !! sid) as [s |] eqn:El.
      - injection Eg as <- <-. by rewrite El.
      - injection Eg as <- <-. cbn [with_sessionMap sessionMap nullish].
        by rewrite lookup_insert_eq, insert_insert_eq. }
    assert (supervisor wm
            = supervisor w) as Hs.
    { subst wm. rewrite supervisor_mutateSession.
      pose proof (getSession_supervisor sid w) as H. by rewrite Eg in H. }
    clearbody wm. world_simpl. rewrite Hm, Hs. do 2 (split; [reflexivity |]).
    apply maybeWarn_calm.
    eapply fresh_progress_calm;
      [world_simpl; rewrite Hm; apply lookup_insert_eq | reflexivity | exact Hlt].
  - intros id status st Hid Hrun Hl Hw Hr. unfold on_session_status.
    rewrite Hid, Hrun, Hl. cbn [negb].
    assert (role_eqb (role st) worker
            && negb (bool_decide (currentWorkerSessionId (supervisor w) = Some id)) = false)
      as ->.
    { destruct (role st); try reflexivity.
      rewrite bool_decide_eq_true_2 by (by apply Hw). reflexivity. }
    assert (role_eqb (role st) ralph
            && negb (bool_decide (currentRalphSessionId (supervisor w) = Some id)) = false)
      as ->.
    { destruct (role st); try reflexivity.
      rewrite bool_decide_eq_true_2 by (by apply Hr). reflexivity. }
    set (wm := mutateSession id (set_lastProgressAt (env_now env)) w).
    assert (sessionMap wm = <[id := set_lastProgressAt (env_now env) st]> (sessionMap w))
      as Hm.
    { subst wm. rewrite sessionMap_mutateSession, Hl. reflexivity. }
    assert (supervisor wm = supervisor w) as Hs by apply supervisor_mutateSession.
    clearbody wm.
    destruct (string_lower status =? "error")%string; world_simpl; rewrite ?Hm, ?Hs;
      (split; [reflexivity |]); (split; [reflexivity |]);
      apply maybeWarn_calm;
      (eapply fresh_progress_calm;
       [world_simpl; rewrite ?Hm; apply lookup_insert_eq | reflexivity | exact Hlt]).
Qed.

(** ** Searching before slicing *)

(** X30.  A successful [rlm_grep] opens the slice gate of the session that
    made it.  After the search at a time other than 0, an [rlm_slice] call
    of the same session on the same file less than five minutes later, with
    [startLine <= endLine] and a span within [maxRlmSliceLines], is never
    refused, whatever [requireGrepBeforeLargeSlice] and the threshold are:
    it returns the requested lines of the file the search read, and leaves
    the world as the search left it. *)
Theorem grep_opens_slice_gate {A : Type} (P : Plugin) (cfg : ResolvedConfig)
    (env env2 : Env) (search : string -> list string -> A) (ctx file : option string)
    (query : string) (startLine endLine : Z) (w : World) (r : A) :
  let g := tool_rlm_grep P env search ctx file query w in
  let fileRel := nullish file FILES.RLM_CTX in
  fst g = Ok r ->
  env_now env <> 0 ->
  env_now env2 - env_now env < 5 * 60 * 1000 ->
  startLine <= endLine ->
  endLine - startLine + 1 <= maxRlmSliceLines cfg ->
  exists raw,
    files w !! path_join (worktree P) fileRel = Some raw
    /\ tool_rlm_slice P cfg env2 ctx file startLine endLine (snd g)
       = (Ok (mkSliceReport fileRel startLine endLine (Z.of_nat (length (split_lines raw)))
                (join_lines (js_slice (split_lines raw) (startLine - 1) endLine))),
          snd g).
Proof.
  cbn zeta. intros Hok Hnow Hlt Hle Hspan.
  pose proof (getSession_lookup (nullish ctx "default")
                (snd (tool_rlm_grep P env search ctx file query w))) as Hl.
  assert (exists st, sessionMap (snd (tool_rlm_grep P env search ctx file query w))
                       !! nullish ctx "default" = Some st) as [st Hst].
  { revert Hok. unfold tool_rlm_grep.
    destruct (readFile _ w); cbn [fst snd]; [| discriminate]. intros _.
    rewrite sessionMap_mutateSession, lookup_insert_eq. eauto. }
  pose proof (recentGrep_after_grep P env search ctx file query w r st (env_now env2)
                Hok Hst) as Hrecent.
  assert (recentGrep st (env_now env2) = true) as Hgate.
  { rewrite Hrecent. apply andb_true_iff. split.
    - unfold truthy_Z. apply negb_true_iff. by apply Z.eqb_neq.
    - by apply Z.ltb_lt. }
  assert (exists raw, files w !! path_join (worktree P) (nullish file FILES.RLM_CTX) = Some raw
                      /\ files (snd (tool_rlm_grep P env search ctx file query w))
                         = files w) as (raw & Hraw & Hfiles).
  { revert Hok. unfold tool_rlm_grep, readFile.
    destruct (files w !! path_join (worktree P) (nullish file FILES.RLM_CTX)) as [raw |];
      cbn [fst snd]; [| discriminate].
    intros _. exists raw. split; [reflexivity | apply files_mutateSession]. }
  exists raw. split; [exact Hraw |].
  set (wg := snd (tool_rlm_grep P env search ctx file query w)) in *. clearbody wg.
  unfold tool_rlm_slice. rewrite (getSession_known _ _ _ Hst).
  assert ((endLine <? startLine) = false) as -> by (apply Z.ltb_ge; lia).
  assert ((maxRlmSliceLines cfg <? endLine - startLine + 1) = false) as ->
    by (apply Z.ltb_ge; lia).
  rewrite Hgate, andb_false_r. unfold readFile. rewrite Hfiles, Hraw. reflexivity.
Qed.

(** ** The properties on the sample installation *)

(** The four lines of the sample context file, read as one slice. *)
Lemma rlm_slice_whole_file_witness :
  files (initial_world sample_context_files) !! "/repo/CONTEXT_FOR_RLM.md"
  = Some ("one" +:+ nl +:+ "two" +:+ nl +:+ "three" +:+ nl +:+ "four")
  /\ 4 <= maxRlmSliceLines sample_cfg
  /\ fst (tool_rlm_slice sample_plugin sample_cfg (sample_env "x" 5000) (Some "w1") None 1 4
            (initial_world sample_context_files))
     = Ok (mkSliceReport "CONTEXT_FOR_RLM.md" 1 4 4
             ("one" +:+ nl +:+ "two" +:+ nl +:+ "three" +:+ nl +:+ "four")).
Proof.
  split; [vm_compute; reflexivity |]. split; [vm_compute; discriminate |].
  exact (rlm_slice_whole_file sample_plugin sample_cfg (sample_env "x" 5000) (Some "w1") None
           (initial_world sample_context_files)
           ("one" +:+ nl +:+ "two" +:+ nl +:+ "three" +:+ nl +:+ "four")
           ltac:(vm_compute; reflexivity) ltac:(vm_compute; reflexivity)
           ltac:(vm_compute; discriminate) ltac:(right; vm_compute; reflexivity)).
Defined.

(** The continue prompt of the sample installation, given a variable that
    none of its tokens names. *)
Lemma interpolate_unknown_tokens_witness :
  token_keys (continuePrompt sample_templates) = ["attempt"; "verdict"]
  /\ Forall (fun key => lookup_member [("timestamp", "2026-01-01")] key = None)
       (token_keys (continuePrompt sample_templates))
  /\ interpolate (continuePrompt sample_templates) [("timestamp", "2026-01-01")]
     = continuePrompt sample_templates.
Proof.
  assert (Forall (fun key => lookup_member [("timestamp", "2026-01-01")] key = None)
            (token_keys (continuePrompt sample_templates))) as Hnone
    by (vm_compute; repeat constructor).
  split; [vm_compute; reflexivity |]. split; [exact Hnone |].
  destruct (interpolate_unknown_tokens (continuePrompt sample_templates)
              [("timestamp", "2026-01-01")]) as (Hsame & _).
  exact (Hsame Hnone).
Defined.

(** The attempt number filled into a prompt. *)
Lemma interpolate_known_token_witness :
  brace_free "Attempt " = true
  /\ is_word "attempt" = true
  /\ lookup_var [("attempt", "2")] "attempt" = Some "2"
  /\ interpolate ("Attempt " +:+ "{{" +:+ "attempt" +:+ "}}" +:+ " ended with {{verdict}}.")
       [("attempt", "2")]
     = "Attempt " +:+ "2" +:+ interpolate " ended with {{verdict}}." [("attempt", "2")].
Proof.
  split; [reflexivity |]. split; [reflexivity |]. split; [reflexivity |].
  exact (interpolate_known_token [("attempt", "2")] "Attempt " "attempt"
           " ended with {{verdict}}." "2" eq_refl eq_refl eq_refl).
Defined.

(** The verify command of the sample configuration. *)
Lemma resolveConfig_verify_clean_witness :
  verify (resolveConfig sample_raw) = Some (mkVerifyConfig ["make"; "test"] None)
  /\ Forall (fun part => part <> EmptyString) ["make"; "test"].
Proof.
  split; [vm_compute; reflexivity |].
  destruct (resolveConfig_verify_clean sample_raw (mkVerifyConfig ["make"; "test"] None)
              ltac:(vm_compute; reflexivity)) as (_ & Hparts & _).
  exact Hparts.
Defined.

(** [r1] goes idle: it is no longer the tracked strategist. *)
Lemma strategist_idle_untracks_witness :
  currentRalphSessionId (supervisor sample_started) = Some "r1"
  /\ sup_done (supervisor sample_started) = false
  /\ supervisor (handleRalphSessionIdle "r1" sample_started)
     = set_currentRalphSessionId None (supervisor sample_started).
Proof.
  assert (currentRalphSessionId (supervisor sample_started) = Some "r1") as Hc
    by (vm_compute; reflexivity).
  assert (sup_done (supervisor sample_started) = false) as Hd by (vm_compute; reflexivity).
  split; [exact Hc |]. split; [exact Hd |].
  destruct (strategist_idle_untracks "r1" sample_started Hc Hd) as (Hs & _).
  exact Hs.
Defined.

(** The first idle event of the main session starts [r1]. *)
Lemma main_idle_starts_only_when_idle_witness :
  In (ESessionCreate "ralph-strategist-attempt-1" "r1")
     (new_effects (initial_world sample_files)
        (handleMainIdle sample_plugin sample_cfg (sample_env "r1" 1000) "main"
           (initial_world sample_files)))
  /\ enabled sample_cfg = true
  /\ checkSetup_ready (worktree sample_plugin) sample_cfg (initial_world sample_files) = true.
Proof.
  assert (In (ESessionCreate "ralph-strategist-attempt-1" "r1")
            (new_effects (initial_world sample_files)
               (handleMainIdle sample_plugin sample_cfg (sample_env "r1" 1000) "main"
                  (initial_world sample_files)))) as Hin
    by (vm_compute; tauto).
  split; [exact Hin |].
  destruct (main_idle_starts_only_when_idle sample_plugin sample_cfg (sample_env "r1" 1000)
              "main" (initial_world sample_files) _ _ Hin)
    as (_ & _ & _ & _ & He & Hr & _).
  split; [exact He | exact Hr].
Defined.

(** Two failed attempts on the sample installation, three allowed. *)
Lemma attempt_within_maxAttempts_witness :
  1 <= 3
  /\ 0 <= sup_attempt (supervisor (initial_world sample_files)) <= 3
  /\ 0 <= sup_attempt
            (supervisor
               (run sample_plugin
                  [(sample_cfg, sample_env "r1" 1000, OpSessionIdle "main");
                   (sample_cfg, sample_env "w1" 2000, OpSpawnWorker (Some "r1"));
                   (sample_cfg, sample_env "r2" 3000, OpSessionIdle "w1");
                   (sample_cfg, sample_env "w2" 4000, OpSpawnWorker (Some "r2"));
                   (sample_cfg, sample_env "r3" 5000, OpSessionIdle "w2")]
                  (initial_world sample_files))) <= 3.
Proof.
  split; [lia |]. split; [vm_compute; split; discriminate |].
  apply (attempt_within_maxAttempts sample_plugin 3); [lia | | vm_compute; split; discriminate].
  repeat constructor.
Defined.

(** A strategist that has been silent for far longer than the heartbeat
    interval is warned about once. *)
Lemma heartbeat_warns_once_witness :
  0 < heartbeatMinutes sample_cfg
  /\ emitHeartbeatWarnings sample_cfg (sample_env "x" 100000000)
       (emitHeartbeatWarnings sample_cfg (sample_env "x" 100000000) sample_started)
     = emitHeartbeatWarnings sample_cfg (sample_env "x" 100000000) sample_started.
Proof.
  split; [vm_compute; reflexivity |].
  destruct (heartbeat_warns_once sample_cfg (sample_env "x" 100000000) sample_started
              ltac:(vm_compute; reflexivity)) as (_ & Hidem).
  exact Hidem.
Defined.

(** The same notice one second later. *)
Lemma repeated_notice_is_dropped_witness :
  fst (Delivery.shouldDedupe "sup|worker/attempt-1|info|tests pass" 1000
         (∅ : gmap string Z)) = false
  /\ 2000 - 1000 < 5000
  /\ Delivery.notifySupervisor sample_plugin sample_cfg (sample_env "x" 2000)
       "worker/attempt-1" "tests pass" lvl_info true None
       (fst (Delivery.notifySupervisor sample_plugin sample_cfg (sample_env "x" 1000)
               "worker/attempt-1" "tests pass" lvl_info true None ∅
               (initial_world sample_files)))
       (snd (Delivery.notifySupervisor sample_plugin sample_cfg (sample_env "x" 1000)
               "worker/attempt-1" "tests pass" lvl_info true None ∅
               (initial_world sample_files)))
     = Delivery.notifySupervisor sample_plugin sample_cfg (sample_env "x" 1000)
         "worker/attempt-1" "tests pass" lvl_info true None ∅ (initial_world sample_files).
Proof.
  assert (fst (Delivery.shouldDedupe "sup|worker/attempt-1|info|tests pass" 1000
                 (∅ : gmap string Z)) = false) as Hfirst by (vm_compute; reflexivity).
  split; [exact Hfirst |]. split; [lia |].
  apply (repeated_notice_is_dropped sample_plugin sample_cfg sample_cfg
           (sample_env "x" 1000) (sample_env "x" 2000) "worker/attempt-1" "tests pass"
           lvl_info true true None None (∅ : gmap string Z) (initial_world sample_files)).
  - exact Hfirst.
  - vm_compute. discriminate.
  - vm_compute. reflexivity.
  - vm_compute. lia.
Defined.

(** The long sample log is rotated into the first archive. *)
Lemma conversation_rotation_shifts_witness :
  files (initial_world sample_log_files) !! path_join (worktree sample_plugin) FILES.CONVERSATION
  = Some sample_long_log
  /\ maxConversationLines sample_cfg_short_log < Z.of_nat (length (split_lines sample_long_log))
  /\ 1 <= conversationArchiveCount sample_cfg_short_log
  /\ files (Delivery.rotateConversationLogIfNeeded sample_plugin sample_cfg_short_log
              (sample_env "x" 1000) (initial_world sample_log_files))
       !! conversation_archive (worktree sample_plugin) 1
     = Some sample_long_log.
Proof.
  assert (files (initial_world sample_log_files)
            !! path_join (worktree sample_plugin) FILES.CONVERSATION
          = Some sample_long_log) as Hf by (vm_compute; reflexivity).
  assert (maxConversationLines sample_cfg_short_log
          < Z.of_nat (length (split_lines sample_long_log))) as Hlong
    by (vm_compute; reflexivity).
  assert (1 <= conversationArchiveCount sample_cfg_short_log) as Hc by (vm_compute; discriminate).
  split; [exact Hf |]. split; [exact Hlong |]. split; [exact Hc |].
  destruct (conversation_rotation_shifts sample_plugin sample_cfg_short_log (sample_env "x" 1000)
              (initial_world sample_log_files) sample_long_log Hf Hlong Hc) as (H1 & _).
  exact H1.
Defined.

(** An entry added to the long sample log: the old text is in the first
    archive, or still at the head of the log. *)
Lemma conversation_entry_keeps_history_witness :
  files (initial_world sample_log_files) !! path_join (worktree sample_plugin) FILES.CONVERSATION
  = Some sample_long_log
  /\ ((exists suffix,
         files (snd (Delivery.appendConversationEntry sample_plugin sample_cfg_short_log
                       (sample_env "x" 1000) "worker/attempt-1" "tests pass" ∅
                       (initial_world sample_log_files)))
           !! path_join (worktree sample_plugin) FILES.CONVERSATION
         = Some (sample_long_log +:+ suffix))
      \/ files (snd (Delivery.appendConversationEntry sample_plugin sample_cfg_short_log
                       (sample_env "x" 1000) "worker/attempt-1" "tests pass" ∅
                       (initial_world sample_log_files)))
           !! conversation_archive (worktree sample_plugin) 1
         = Some sample_long_log).
Proof.
  assert (files (initial_world sample_log_files)
            !! path_join (worktree sample_plugin) FILES.CONVERSATION
          = Some sample_long_log) as Hf by (vm_compute; reflexivity).
  split; [exact Hf |].
  exact (conversation_entry_keeps_history sample_plugin sample_cfg_short_log (sample_env "x" 1000)
           "worker/attempt-1" "tests pass" ∅ (initial_world sample_log_files)
           sample_long_log Hf).
Defined.

(** [w1] spawns the sub-agent [docs]; the host issues [c1]. *)
Lemma subagent_spawn_registers_witness :
  fst (tool_subagent_spawn sample_plugin sample_cfg (sample_env "c1" 5000) (Some "w1")
         "docs" "write the docs" None sample_delegated)
  = Ok (mkSpawnReport "docs" "c1" ".opencode/agents/docs")
  /\ "c1" <> "w1"
  /\ sessionMap (snd (tool_subagent_spawn sample_plugin sample_cfg (sample_env "c1" 5000)
                        (Some "w1") "docs" "write the docs" None sample_delegated)) !! "c1"
     = Some (set_lastProgressAt 5000
               (freshSession subagent (attempt (fst (getSession "w1" sample_delegated))))).
Proof.
  assert (fst (tool_subagent_spawn sample_plugin sample_cfg (sample_env "c1" 5000)
                 (Some "w1") "docs" "write the docs" None sample_delegated)
          = Ok (mkSpawnReport "docs" "c1" ".opencode/agents/docs")) as Hok
    by (vm_compute; reflexivity).
  split; [exact Hok |]. split; [discriminate |].
  destruct (subagent_spawn_registers sample_plugin sample_cfg (sample_env "c1" 5000)
              (Some "w1") "docs" "write the docs" None sample_delegated _ Hok
              ltac:(discriminate)) as (_ & Hchild & _).
  exact Hchild.
Defined.

(** [docs] writes the sentinel, [w1] polls it, and the name can be used
    again. *)
Lemma finished_subagent_frees_slot_witness :
  fst (tool_subagent_spawn sample_plugin sample_cfg (sample_env "c1" 5000) (Some "w1")
         "docs" "write the docs" None sample_delegated)
  = Ok (mkSpawnReport "docs" "c1" ".opencode/agents/docs")
  /\ includes "All done. SUB_AGENT_DONE" (subagentDoneSentinel (templates sample_plugin)) = true
  /\ is_Ok (fst (tool_subagent_spawn sample_plugin sample_cfg (sample_env "c2" 7000)
                   (Some "w1") "docs" "write them again" None
                   (snd (tool_subagent_await sample_plugin (Some "w1") "docs" None
                           (writeFile
                              (path_join (subAgentDir (worktree sample_plugin) "docs")
                                 FILES.CURR)
                              "All done. SUB_AGENT_DONE"
                              (snd (tool_subagent_spawn sample_plugin sample_cfg
                                      (sample_env "c1" 5000) (Some "w1") "docs"
                                      "write the docs" None sample_delegated)))))))
     = true.
Proof.
  assert (fst (tool_subagent_spawn sample_plugin sample_cfg (sample_env "c1" 5000)
                 (Some "w1") "docs" "write the docs" None sample_delegated)
          = Ok (mkSpawnReport "docs" "c1" ".opencode/agents/docs")) as Hok
    by (vm_compute; reflexivity).
  assert (includes "All done. SUB_AGENT_DONE" (subagentDoneSentinel (templates sample_plugin))
          = true) as Hdone by (vm_compute; reflexivity).
  split; [exact Hok |]. split; [exact Hdone |].
  destruct (finished_subagent_frees_slot sample_plugin sample_cfg (sample_env "c1" 5000)
              (sample_env "c2" 7000) (Some "w1") "docs" "write the docs" "write them again"
              None None sample_delegated _ "All done. SUB_AGENT_DONE" None Hok
              ltac:(discriminate) ltac:(vm_compute; constructor) Hdone) as (_ & _ & Hagain).
  exact Hagain.
Defined.

(** [w1] spawns two sub-agents under the default cap. *)
Lemma subagent_cap_holds_witness :
  0 <= maxSubAgents sample_cfg
  /\ within_cap (maxSubAgents sample_cfg) (initial_world sample_files)
  /\ within_cap (maxSubAgents sample_cfg)
       (run sample_plugin
          [(sample_cfg, sample_env "r1" 1000, OpSessionIdle "main");
           (sample_cfg, sample_env "w1" 2000, OpSpawnWorker (Some "r1"));
           (sample_cfg, sample_env "c1" 3000, OpSubagentSpawn (Some "w1") "docs" "goal");
           (sample_cfg, sample_env "c2" 4000, OpSubagentSpawn (Some "w1") "tests" "goal")]
          (initial_world sample_files)).
Proof.
  assert (0 <= maxSubAgents sample_cfg) as Hm by (vm_compute; discriminate).
  assert (within_cap (maxSubAgents sample_cfg) (initial_world sample_files)) as Hw.
  { intros sid st H. vm_compute in H. discriminate H. }
  split; [exact Hm |]. split; [exact Hw |].
  apply (subagent_cap_holds sample_plugin (maxSubAgents sample_cfg)); [exact Hm | | exact Hw].
  repeat (constructor; [apply Z.le_refl |]). constructor.
Defined.

(** [w1] asks, the operator answers 8080, and the poll sees the answer. *)
Lemma ask_then_respond_witness :
  0 < nullish (None : option Z) 15
  /\ fst (tool_ralph_ask (sample_env "x" 9000) (Some "w1") "Which port?" None None
            (fun _ =>
               pending
                 (snd (tool_ralph_respond (sample_env "x" 9500)
                         ("ask-" +:+ string_of_Z 9000) "8080"
                         (snd (tool_ralph_ask (sample_env "x" 9000) (Some "w1") "Which port?"
                                 None None (fun _ => empty_pending) sample_delegated)))))
            sample_delegated)
     = Ok ("ask-" +:+ string_of_Z 9000, "8080").
Proof.
  split; [vm_compute; reflexivity |].
  destruct (ask_then_respond (sample_env "x" 9000) (sample_env "x" 9500) (Some "w1")
              "Which port?" None None (fun _ => empty_pending)
              (fun _ =>
                 pending
                   (snd (tool_ralph_respond (sample_env "x" 9500)
                           ("ask-" +:+ string_of_Z 9000) "8080"
                           (snd (tool_ralph_ask (sample_env "x" 9000) (Some "w1")
                                   "Which port?" None None (fun _ => empty_pending)
                                   sample_delegated)))))
              sample_delegated "8080" ltac:(vm_compute; reflexivity) eq_refl) as (_ & Hans).
  exact Hans.
Defined.

(** The tool call from the main session starts [r1]. *)
Lemma manual_start_only_from_rest_witness :
  In (ESessionCreate "ralph-strategist-attempt-1" "r1")
     (new_effects (initial_world sample_files)
        (snd (tool_ralph_create_supervisor_session sample_plugin sample_cfg
                (sample_env "r1" 1000) (Some "main") None None None
                (initial_world sample_files))))
  /\ fst (tool_ralph_create_supervisor_session sample_plugin sample_cfg
            (sample_env "r1" 1000) (Some "main") None None None
            (initial_world sample_files))
     = CrStarted 1.
Proof.
  assert (In (ESessionCreate "ralph-strategist-attempt-1" "r1")
            (new_effects (initial_world sample_files)
               (snd (tool_ralph_create_supervisor_session sample_plugin sample_cfg
                       (sample_env "r1" 1000) (Some "main") None None None
                       (initial_world sample_files))))) as Hin
    by (vm_compute; tauto).
  split; [exact Hin |].
  destruct (manual_start_only_from_rest sample_plugin sample_cfg (sample_env "r1" 1000)
              (Some "main") None None None (initial_world sample_files) _ _ Hin)
    as (Hres & _).
  exact Hres.
Defined.

(** The loop of the sample installation is ended and then restarted. *)
Lemma restart_after_end_witness :
  checkSetup_ready (worktree sample_plugin) sample_cfg sample_delegated = true
  /\ nullish (None : option bool) true = true
  /\ fst (tool_ralph_create_supervisor_session sample_plugin sample_cfg
            (sample_env "r9" 9000) (Some "main") None None (Some true)
            (snd (tool_ralph_end_supervision (Some "main") None None None sample_delegated)))
     = CrStarted 1.
Proof.
  assert (checkSetup_ready (worktree sample_plugin) sample_cfg sample_delegated = true)
    as Hready by (vm_compute; reflexivity).
  split; [exact Hready |]. split; [reflexivity |].
  destruct (restart_after_end sample_plugin sample_cfg (sample_env "r9" 9000) (Some "main")
              None None None (Some "main") None None (Some true) sample_delegated
              Hready eq_refl ltac:(intros b; vm_compute; discriminate)) as (Hyes & _).
  destruct (Hyes eq_refl) as (Hres & _). exact Hres.
Defined.

(** The paused sample installation is resumed with [start_loop]. *)
Lemma resume_starts_only_from_rest_witness :
  In (ESessionCreate "ralph-strategist-attempt-1" "r1")
     (new_effects sample_paused
        (snd (tool_ralph_resume_supervision sample_plugin (sample_env "r1" 1000)
                (Some "main") (Some true) sample_paused)))
  /\ paused (supervisor
               (snd (tool_ralph_resume_supervision sample_plugin (sample_env "r1" 1000)
                       (Some "main") (Some true) sample_paused))) = false.
Proof.
  assert (In (ESessionCreate "ralph-strategist-attempt-1" "r1")
            (new_effects sample_paused
               (snd (tool_ralph_resume_supervision sample_plugin (sample_env "r1" 1000)
                       (Some "main") (Some true) sample_paused)))) as Hin
    by (vm_compute; tauto).
  split; [exact Hin |].
  destruct (resume_starts_only_from_rest sample_plugin (sample_env "r1" 1000) (Some "main")
              (Some true) sample_paused _ _ Hin) as (_ & _ & _ & _ & _ & _ & _ & Hp & _).
  exact Hp.
Defined.

(** [w1] reports at 3000; the heartbeat at 4000 has nothing to say. *)
Lemma progress_resets_heartbeat_witness :
  4000 - 3000 < heartbeatMinutes sample_cfg * 60000
  /\ maybeWarn sample_cfg (sample_env "x" 4000) (Some "w1") "Worker"
       (snd (tool_ralph_report (sample_env "x" 3000) (Some "w1") "tests pass" None None
               sample_delegated))
     = snd (tool_ralph_report (sample_env "x" 3000) (Some "w1") "tests pass" None None
              sample_delegated).
Proof.
  assert (4000 - 3000 < heartbeatMinutes sample_cfg * 60000) as Hlt
    by (vm_compute; reflexivity).
  split; [exact Hlt |].
  destruct (progress_resets_heartbeat sample_cfg (sample_env "x" 3000) (sample_env "x" 4000)
              (Some "w1") "Worker" sample_delegated Hlt) as (Hrep & _).
  destruct (Hrep "tests pass" None None) as (_ & _ & Hcalm). exact Hcalm.
Defined.

(** [w1] searches the sample context file and reads lines 2 to 3 a second
    later. *)
Lemma grep_opens_slice_gate_witness :
  fst (tool_rlm_grep sample_plugin (sample_env "x" 5000)
         (fun (_ : string) (lines : list string) => length lines) (Some "w1") None "two"
         (initial_world sample_context_files))
  = Ok 4%nat
  /\ 6000 - 5000 < 5 * 60 * 1000
  /\ 3 - 2 + 1 <= maxRlmSliceLines sample_cfg
  /\ exists raw,
       files (initial_world sample_context_files)
         !! path_join (worktree sample_plugin) FILES.RLM_CTX = Some raw
       /\ tool_rlm_slice sample_plugin sample_cfg (sample_env "x" 6000) (Some "w1") None 2 3
            (snd (tool_rlm_grep sample_plugin (sample_env "x" 5000)
                    (fun (_ : string) (lines : list string) => length lines) (Some "w1")
                    None "two" (initial_world sample_context_files)))
          = (Ok (mkSliceReport FILES.RLM_CTX 2 3 (Z.of_nat (length (split_lines raw)))
                   (join_lines (js_slice (split_lines raw) (2 - 1) 3))),
             snd (tool_rlm_grep sample_plugin (sample_env "x" 5000)
                    (fun (_ : string) (lines : list string) => length lines) (Some "w1")
                    None "two" (initial_world sample_context_files))).
Proof.
  assert (fst (tool_rlm_grep sample_plugin (sample_env "x" 5000)
                 (fun (_ : string) (lines : list string) => length lines) (Some "w1") None
                 "two" (initial_world sample_context_files))
          = Ok 4%nat) as Hok by (vm_compute; reflexivity).
  assert (3 - 2 + 1 <= maxRlmSliceLines sample_cfg) as Hspan by (vm_compute; discriminate).
  split; [exact Hok |]. split; [lia |]. split; [exact Hspan |].
  exact (grep_opens_slice_gate sample_plugin sample_cfg (sample_env "x" 5000)
           (sample_env "x" 6000) (fun (_ : string) (lines : list string) => length lines)
           (Some "w1") None "two" 2 3 (initial_world sample_context_files) 4%nat Hok
           ltac:(vm_compute; discriminate) ltac:(vm_compute; reflexivity) ltac:(lia) Hspan).
Defined.
